(** * Futures position analysis: a shallow embedding and its properties

    The development follows [futures_analyzer.py] (data manager, strategy
    analyzer, term-structure analyzer, analysis engine),
    [performance_optimizer.py] (cache, cache key, retrying fetch, pooled
    data manager), [cloud_data_fetcher.py] (safe call, cloud fetch of the
    positions, demo data) and [cloud_config.py] (the shared configuration).

    Conventions of the embedding.
    - Text is a [string]; the alphabetic and digit tests are the ASCII ones.
    - Lot counts (open interest, its change, volume) are integers; a pandas
      float cell holding such a count is [VNum z], a missing one is [VNaN].
      Ratios computed from them are exact rationals ([Q]).  A count
      written as text is read by the grammar of [pd.to_numeric] (white
      space, sign, digits, decimal point, exponent); a text that is a
      number but no whole count (a fraction, an infinity, more than 15
      digits) is outside the embedding, and [whole_counts] names the
      tables without such a text.
    - A label may be carried by several columns: [row[c]] is then a Series
      of the cells under the label, whose truth value raises ValueError,
      and sorting by such a label raises ValueError as well.
    - Python exceptions are values of [exn]; code that may raise lives in the
      monad [result], and [try ... except Exception] is a [match] on it.
    - Python dictionaries keep insertion order: they are association lists,
      except the two directories (data and cache), which are finite maps
      from file names.
    - What the program does not own is a parameter: the data sources, the
      writing of workbooks, the order in which pooled tasks complete and the
      clock are fields of [Env]; the progress callback is an optional
      function that may raise.
    - A retry loop returns its value together with the calls and sleeps it
      made, in order; messages shown to the user are not kept.
    - [cached_data_fetch] runs under [st.cache_data(ttl=3600)]: the values
      stored, with the time of their storing, are part of the [World].
      Whether akshare can be imported and whether the platform has SIGALRM
      are fields of [Env]; the tasks of the pool run in threads other than
      the main one, where [signal.signal] raises ValueError.
    - The dictionaries of [cloud_config.py] are objects of a heap, so that
      two names for one dictionary are two references to one address. *)

From Stdlib Require Import ZArith QArith Qabs List String Ascii Bool Lia
  Permutation Sorted DecimalString.
From stdpp Require Import gmap strings.
Import ListNotations.

Local Open Scope Z_scope.

(** ** Python values, exceptions, the [result] monad *)

Inductive pyval :=
| VNone
| VNum (z : Z)
| VNaN
| VStr (s : string).

Inductive exn :=
| KeyError (key : string)
| TypeError (what : string)
| ValueError (what : string)
| ImportError (module : string).

Inductive result (A : Type) :=
| Ok (a : A)
| Raise (e : exn).
Arguments Ok {A} a.
Arguments Raise {A} e.

Definition bind {A B : Type} (c : result A) (k : A -> result B) : result B :=
  match c with
  | Ok a => k a
  | Raise e => Raise e
  end.

Notation "'let*' x ':=' c 'in' k" := (bind c (fun x => k))
  (at level 10, x pattern, c at level 100, k at level 200).

Fixpoint mapM {A B : Type} (f : A -> result B) (l : list A) : result (list B) :=
  match l with
  | [] => Ok []
  | a :: l' => let* b := f a in let* bs := mapM f l' in Ok (b :: bs)
  end.

(** Sorting by a key: an insertion sort that puts [x] before the first
    element it may precede, so that ties keep their input order. *)
Fixpoint insert_sorted {A : Type} (le : A -> A -> bool) (x : A) (l : list A) : list A :=
  match l with
  | [] => [x]
  | y :: l' => if le x y then x :: y :: l' else y :: insert_sorted le x l'
  end.

Fixpoint isort {A : Type} (le : A -> A -> bool) (l : list A) : list A :=
  match l with
  | [] => []
  | x :: l' => insert_sorted le x (isort le l')
  end.

(** A pandas float: a number or NaN.  Every comparison with NaN is false. *)
Inductive float :=
| Fin (z : Z)
| FNaN.

Definition float_gt0 (x : float) : bool :=
  match x with Fin z => 0 <? z | FNaN => false end.
Definition float_lt0 (x : float) : bool :=
  match x with Fin z => z <? 0 | FNaN => false end.
Definition float_abs (x : float) : float :=
  match x with Fin z => Fin (Z.abs z) | FNaN => FNaN end.
Definition float_add (x y : float) : float :=
  match x, y with Fin a, Fin b => Fin (a + b) | _, _ => FNaN end.

(** Decimal integer literals: an optional sign and at least one digit. *)
Definition is_digit (c : ascii) : bool :=
  let n := nat_of_ascii c in (48 <=? n)%nat && (n <=? 57)%nat.

Definition digit_val (c : ascii) : Z := Z.of_nat (nat_of_ascii c) - 48.

Fixpoint parse_digits (acc : Z) (s : string) : option Z :=
  match s with
  | EmptyString => Some acc
  | String c s' =>
      if is_digit c then parse_digits (10 * acc + digit_val c) s' else None
  end.

Definition parse_number (s : string) : option Z :=
  match s with
  | EmptyString => None
  | String "-" (String c s') => Z.opp <$> parse_digits 0 (String c s')
  | String "+" (String c s') => parse_digits 0 (String c s')
  | _ => parse_digits 0 s
  end.

Definition is_upper (c : ascii) : bool :=
  let n := nat_of_ascii c in (65 <=? n)%nat && (n <=? 90)%nat.

Definition to_lower (c : ascii) : ascii :=
  if is_upper c then ascii_of_nat (nat_of_ascii c + 32) else c.

(** [s.lower()] *)
Fixpoint lower (s : string) : string :=
  match s with
  | EmptyString => EmptyString
  | String c s' => String (to_lower c) (lower s')
  end.

(** [float(v)] *)
Definition py_float (v : pyval) : result float :=
  match v with
  | VNum z => Ok (Fin z)
  | VNaN => Ok FNaN
  | VNone => Raise (TypeError "float() argument must be a string or a real number")
  | VStr s =>
      match parse_number s with
      | Some z => Ok (Fin z)
      | None => Raise (ValueError "could not convert string to float")
      end
  end.

(** [pd.notna(v)] *)
Definition notna (v : pyval) : bool :=
  match v with VNone | VNaN => false | _ => true end.

(** ** Data frames *)

Record DataFrame := mkFrame {
  columns : list string;
  rows : list (list pyval)
}.

Fixpoint col_index (c : string) (cols : list string) : option nat :=
  match cols with
  | [] => None
  | c' :: cols' =>
      if String.eqb c c' then Some O else S <$> col_index c cols'
  end.

(** How many columns carry the label. *)
Definition count_label (c : string) (cols : list string) : nat :=
  length (List.filter (String.eqb c) cols).

(** What [row[c]] is for a row of [df.iterrows()]: the cell when one column
    carries the label, a Series of the cells under it when several do. *)
Inductive item :=
| Scalar (v : pyval)
| Series (vs : list pyval).

Definition cells_under (c : string) (cols : list string) (r : list pyval) : list pyval :=
  map snd (List.filter (fun e => String.eqb c (fst e)) (combine cols r)).

(** [row[c]] for a row of [df.iterrows()] *)
Definition row_get (df : DataFrame) (r : list pyval) (c : string) : result item :=
  match col_index c (columns df) with
  | Some i =>
      if (1 <? count_label c (columns df))%nat
      then Ok (Series (cells_under c (columns df) r))
      else Ok (Scalar (nth i r VNaN))
  | None => Raise (KeyError c)
  end.

(** [bool(series)] for a Series of two cells or more *)
Definition ambiguous_truth : exn :=
  ValueError "The truth value of a Series is ambiguous. Use a.empty, a.bool(), a.item(), a.any() or a.all().".

(** [df[c]] *)
Definition getitem (df : DataFrame) (c : string) : result (list pyval) :=
  match col_index c (columns df) with
  | Some i => Ok (map (fun r => nth i r VNaN) (rows df))
  | None => Raise (KeyError c)
  end.

(** [c in df.columns] *)
Definition has_column (df : DataFrame) (c : string) : bool :=
  existsb (String.eqb c) (columns df).

(** A number out of a numeric cell; text in an arithmetic position raises. *)
Definition cell_num (v : pyval) : result (option Z) :=
  match v with
  | VNum z => Ok (Some z)
  | VNaN | VNone => Ok None
  | VStr _ => Raise (TypeError "unsupported operand type(s): 'str'")
  end.

(** [series.sum()]: missing cells are skipped. *)
Fixpoint series_sum (l : list pyval) : result Z :=
  match l with
  | [] => Ok 0
  | v :: l' =>
      let* x := cell_num v in
      let* s := series_sum l' in
      Ok (match x with Some z => z + s | None => s end)
  end.

(** ** The processed contract: the dictionary built by
    [process_position_data] and read by the strategies *)

Inductive dval :=
| DScalar (v : pyval)
| DFrame (df : DataFrame).

Definition Data := list (string * dval).

(** [d.get(k)] *)
Fixpoint dict_find {V : Type} (d : list (string * V)) (k : string) : option V :=
  match d with
  | [] => None
  | (k', v) :: d' => if String.eqb k k' then Some v else dict_find d' k
  end.

(** [d[k]] *)
Definition dict_get {V : Type} (d : list (string * V)) (k : string) : result V :=
  match dict_find d k with
  | Some v => Ok v
  | None => Raise (KeyError k)
  end.

Definition as_scalar (v : dval) : result pyval :=
  match v with
  | DScalar x => Ok x
  | DFrame _ => Raise (TypeError "float() argument must be a string or a real number")
  end.

Definition as_frame (v : dval) : result DataFrame :=
  match v with
  | DFrame df => Ok df
  | DScalar _ => Raise (TypeError "object is not subscriptable")
  end.

(** ** Signals *)

Definition LONG : string := "看多".
Definition SHORT : string := "看空".
Definition NEUTRAL : string := "中性".
Definition ERROR : string := "错误".

(** [str(e)] *)
Definition exn_str (e : exn) : string :=
  match e with
  | KeyError k => "'" +:+ k +:+ "'"
  | TypeError w => w
  | ValueError w => w
  | ImportError m => "No module named '" +:+ m +:+ "'"
  end.

Record SeatStat := mkSeat {
  seat_name : string;
  long_chg : Z;
  short_chg : Z;
  long_pos : Z;
  short_pos : Z
}.

(** The rationale is kept as the f-string template with its arguments. *)
Inductive Reason :=
| PowerLong (l s : float)        (* 多单增加{l}手，空单减少{|s|}手 *)
| PowerShort (l s : float)       (* 多单减少{|l|}手，空单增加{s}手 *)
| PowerNeutral (l s : float)     (* 多单变化{l}手，空单变化{s}手 *)
| TooFewSeats                    (* 有效席位数据不足 *)
| TooFewValues                   (* 计算数据不足 *)
| MsdLong (msd : Q)              (* MSD={msd}，知情者明显看多 *)
| MsdShort (msd : Q)             (* MSD={msd}，知情者明显看空 *)
| MsdNeutral (msd : Q)           (* MSD={msd}，无明显信号 *)
| NoRetailSeat                   (* 未发现家人席位持仓 *)
| RetailLong (increase : Z) (ratio : Q)
| RetailShort (increase : Z) (ratio : Q)
| RetailMismatch (parts : list SeatStat)
| RetailNoChange                 (* 家人席位无明显变化 *)
| DataError (msg : string).      (* 数据处理错误：{str(e)} *)

(** ** StrategyAnalyzer.analyze_power_change *)

Definition power_change_body (data : Data) : result (string * Reason * Q) :=
  let* v1 := dict_get data "total_long_chg" in
  let* x1 := as_scalar v1 in
  let* long_chg := py_float x1 in
  let* v2 := dict_get data "total_short_chg" in
  let* x2 := as_scalar v2 in
  let* short_chg := py_float x2 in
  let strength := float_add (float_abs long_chg) (float_abs short_chg) in
  let strength_q := match strength with Fin z => inject_Z z | FNaN => 0%Q end in
  if float_gt0 long_chg && float_lt0 short_chg then
    Ok (LONG, PowerLong long_chg short_chg, strength_q)
  else if float_lt0 long_chg && float_gt0 short_chg then
    Ok (SHORT, PowerShort long_chg short_chg, strength_q)
  else
    Ok (NEUTRAL, PowerNeutral long_chg short_chg, 0%Q).

Definition analyze_power_change (data : Data) : string * Reason * Q :=
  match power_change_body data with
  | Ok r => r
  | Raise e => (ERROR, DataError (exn_str e), 0%Q)
  end.

(** ** StrategyAnalyzer.analyze_spider_web *)

(** A seat that passed the validity filter, with its three numbers. *)
Record Seat := mkValid {
  v_long : Z;
  v_short : Z;
  v_vol : Z
}.

(** [df[c]] needs the column; the position of [c] is kept for the rows. *)
Definition column_pos (df : DataFrame) (c : string) : result nat :=
  match col_index c (columns df) with
  | Some i => Ok i
  | None => Raise (KeyError c)
  end.

(** One cell of [df['vol'] > 0]: text or None cannot be compared with 0. *)
Definition cell_gt0 (v : pyval) : result bool :=
  match v with
  | VNum z => Ok (0 <? z)
  | VNaN => Ok false
  | VNone | VStr _ => Raise (TypeError "'>' not supported between 'str' and 'int'")
  end.

Definition gt0 (v : pyval) : bool :=
  match v with VNum z => 0 <? z | _ => false end.

(** The three numbers of a valid row; the arithmetic of [stat] raises on a
    row whose open interest is text. *)
Definition to_seat (il is_ iv : nat) (r : list pyval) : result Seat :=
  let* l := cell_num (nth il r VNaN) in
  let* s := cell_num (nth is_ r VNaN) in
  let* v := cell_num (nth iv r VNaN) in
  match l, s, v with
  | Some l, Some s, Some v => Ok (mkValid l s v)
  | _, _, _ => Raise (TypeError "unsupported operand type(s)")
  end.

Definition valid_seats (df : DataFrame) : result (list (list pyval) * (nat * nat * nat)) :=
  let* iv := column_pos df "vol" in
  let* _ := mapM (fun r => cell_gt0 (nth iv r VNaN)) (rows df) in
  let* il := column_pos df "long_open_interest" in
  let* is_ := column_pos df "short_open_interest" in
  Ok (List.filter (fun r => notna (nth iv r VNaN) && gt0 (nth iv r VNaN)
                       && notna (nth il r VNaN) && notna (nth is_ r VNaN))
             (rows df),
      (il, is_, iv)).

(** [stat = (long + short) / vol] *)
Definition stat (s : Seat) : Q :=
  (inject_Z (v_long s + v_short s) / inject_Z (v_vol s))%Q.

(** [sort_values('stat', ascending=False)]; pandas leaves the order of
    equal keys open, [isort] keeps the earlier row first. *)
Definition stat_ge (a b : Seat) : bool := Qle_bool (stat b) (stat a).

Definition sort_by_stat_desc (l : list Seat) : list Seat := isort stat_ge l.

(** [max(2, int(n * 0.4))]: on every length a frame can have the double
    product n * 0.4 truncates to the integer quotient of 2n by 5. *)
Definition cutoff_index (n : nat) : nat := Nat.max 2 (2 * n / 5).

(** [its = sorted.iloc[:cutoff]], [uts = sorted.iloc[cutoff:]] *)
Definition spider_split (valid : list Seat) : list Seat * list Seat :=
  let sorted_seats := sort_by_stat_desc valid in
  let cutoff := cutoff_index (length sorted_seats) in
  (firstn cutoff sorted_seats, skipn cutoff sorted_seats).

(** [(long - short) / total] over the rows with a positive total *)
Fixpoint group_values (l : list Seat) : list Q :=
  match l with
  | [] => []
  | s :: l' =>
      let total_pos := v_long s + v_short s in
      if 0 <? total_pos
      then (inject_Z (v_long s - v_short s) / inject_Z total_pos)%Q :: group_values l'
      else group_values l'
  end.

Definition Qsum (l : list Q) : Q := fold_right Qplus 0%Q l.

(** [np.mean] *)
Definition mean (l : list Q) : Q :=
  (Qsum l / inject_Z (Z.of_nat (length l)))%Q.

Definition Qlt_bool (a b : Q) : bool := negb (Qle_bool b a).

(** [sort_values('stat')] after [valid_seats['stat'] = ...]: the assignment
    fills every column that carries the label, and the sort refuses a label
    that is not unique. *)
Definition stat_label (df : DataFrame) : result unit :=
  if (1 <? count_label "stat" (columns df))%nat
  then Raise (ValueError "The column label 'stat' is not unique.")
  else Ok tt.

Definition spider_web_body (data : Data) : result (string * Reason * Q) :=
  let* v := dict_get data "raw_data" in
  let* df := as_frame v in
  let* vs := valid_seats df in
  let '(valid, (il, is_, iv)) := vs in
  if (length valid <? 5)%nat then Ok (NEUTRAL, TooFewSeats, 0%Q)
  else
    let* seats := mapM (to_seat il is_ iv) valid in
    let* _ := stat_label df in
    let '(its, uts) := spider_split seats in
    let its_values := group_values its in
    let uts_values := group_values uts in
    match its_values, uts_values with
    | [], _ | _, [] => Ok (NEUTRAL, TooFewValues, 0%Q)
    | _, _ =>
        let msd := (mean its_values - mean uts_values)%Q in
        if Qlt_bool (5 # 100) msd then Ok (LONG, MsdLong msd, Qabs msd)
        else if Qlt_bool msd (- (5 # 100)) then Ok (SHORT, MsdShort msd, Qabs msd)
        else Ok (NEUTRAL, MsdNeutral msd, Qabs msd)
    end.

Definition analyze_spider_web (data : Data) : string * Reason * Q :=
  match spider_web_body data with
  | Ok r => r
  | Raise e => (ERROR, DataError (exn_str e), 0%Q)
  end.

(** ** StrategyAnalyzer.analyze_retail_reverse *)

Definition zero_stat (name : string) : SeatStat := mkSeat name 0 0 0 0.

(** [d[k] = v]: an existing key keeps its place, a new one goes last. *)
Fixpoint dict_set {V : Type} (d : list (string * V)) (k : string) (v : V)
  : list (string * V) :=
  match d with
  | [] => [(k, v)]
  | (k', v') :: d' =>
      if String.eqb k k' then (k, v) :: d' else (k', v') :: dict_set d' k v
  end.

(** [{name: {...zeros...} for name in retail_seats}] *)
Definition init_seat_stats (retail_seats : list string) : list (string * SeatStat) :=
  fold_left (fun d name => dict_set d name (zero_stat name)) retail_seats [].

(** [acc += v if pd.notna(v) else 0]; [pd.notna] of a Series is a Series,
    which has no truth value. *)
Definition add_cell (acc : Z) (v : item) : result Z :=
  match v with
  | Scalar v =>
      let* x := cell_num v in
      Ok (match x with Some z => acc + z | None => acc end)
  | Series _ => Raise ambiguous_truth
  end.

(** [row[...] in self.retail_seats]: the name when it is watched.  The
    membership test compares with each seat of the list in turn; a Series
    compared with a name is a Series, which has no truth value, and nothing
    is compared when the list is empty. *)
Definition watched (retail_seats : list string) (v : item) : result (option string) :=
  match v with
  | Scalar (VStr s) => Ok (if existsb (String.eqb s) retail_seats then Some s else None)
  | Scalar _ => Ok None
  | Series _ =>
      match retail_seats with
      | [] => Ok None
      | _ :: _ => Raise ambiguous_truth
      end
  end.

Definition add_long (df : DataFrame) (r : list pyval) (st : SeatStat) : result SeatStat :=
  let* c := row_get df r "long_open_interest_chg" in
  let* lc := add_cell (long_chg st) c in
  let* p := row_get df r "long_open_interest" in
  let* lp := add_cell (long_pos st) p in
  Ok (mkSeat (seat_name st) lc (short_chg st) lp (short_pos st)).

Definition add_short (df : DataFrame) (r : list pyval) (st : SeatStat) : result SeatStat :=
  let* c := row_get df r "short_open_interest_chg" in
  let* sc := add_cell (short_chg st) c in
  let* p := row_get df r "short_open_interest" in
  let* sp := add_cell (short_pos st) p in
  Ok (mkSeat (seat_name st) (long_chg st) sc (long_pos st) sp).

(** The body of the loop over [df.iterrows()] *)
Definition retail_row (retail_seats : list string) (df : DataFrame)
    (seat_stats : list (string * SeatStat)) (r : list pyval)
  : result (list (string * SeatStat)) :=
  let* ln := row_get df r "long_party_name" in
  let* long_seat := watched retail_seats ln in
  let* stats1 :=
    match long_seat with
    | Some name =>
        let* st := dict_get seat_stats name in
        let* st' := add_long df r st in
        Ok (dict_set seat_stats name st')
    | None => Ok seat_stats
    end in
  let* sn := row_get df r "short_party_name" in
  let* short_seat := watched retail_seats sn in
  match short_seat with
  | Some name =>
      let* st := dict_get stats1 name in
      let* st' := add_short df r st in
      Ok (dict_set stats1 name st')
  | None => Ok stats1
  end.

Fixpoint retail_rows (retail_seats : list string) (df : DataFrame)
    (seat_stats : list (string * SeatStat)) (rs : list (list pyval))
  : result (list (string * SeatStat)) :=
  match rs with
  | [] => Ok seat_stats
  | r :: rs' =>
      let* stats' := retail_row retail_seats df seat_stats r in
      retail_rows retail_seats df stats' rs'
  end.

Definition has_position (st : SeatStat) : bool :=
  (0 <? long_pos st) || (0 <? short_pos st).

(** Long condition of one seat: shorts up, longs down or unchanged. *)
Definition long_condition (st : SeatStat) : bool :=
  (0 <? short_chg st) && (long_chg st <=? 0).

(** Short condition of one seat: longs up, shorts down or unchanged. *)
Definition short_condition (st : SeatStat) : bool :=
  (0 <? long_chg st) && (short_chg st <=? 0).

Definition Zsum (l : list Z) : Z := fold_right Z.add 0 l.

Definition retail_reverse_body (retail_seats : list string) (data : Data)
  : result (string * Reason * Q * list SeatStat) :=
  let* v := dict_get data "raw_data" in
  let* df := as_frame v in
  let* seat_stats := retail_rows retail_seats df (init_seat_stats retail_seats) (rows df) in
  let active_seats := List.filter has_position (map snd seat_stats) in
  match active_seats with
  | [] => Ok (NEUTRAL, NoRetailSeat, 0%Q, [])
  | _ =>
      let* lcol := getitem df "long_open_interest" in
      let* lsum := series_sum lcol in
      let* scol := getitem df "short_open_interest" in
      let* ssum := series_sum scol in
      let total_position := lsum + ssum in
      let retail_position :=
        Zsum (map (fun st => long_pos st + short_pos st) active_seats) in
      let position_ratio :=
        if 0 <? total_position
        then (inject_Z retail_position / inject_Z total_position)%Q
        else 0%Q in
      if (0 <? length active_seats)%nat && forallb long_condition active_seats then
        let total_short_increase :=
          Zsum (map short_chg (List.filter (fun st => 0 <? short_chg st) active_seats)) in
        Ok (LONG, RetailLong total_short_increase position_ratio,
            position_ratio, active_seats)
      else if (0 <? length active_seats)%nat && forallb short_condition active_seats then
        let total_long_increase :=
          Zsum (map long_chg (List.filter (fun st => 0 <? long_chg st) active_seats)) in
        Ok (SHORT, RetailShort total_long_increase position_ratio,
            position_ratio, active_seats)
      else
        let reason_parts :=
          List.filter (fun st => negb (long_chg st =? 0) || negb (short_chg st =? 0))
                 active_seats in
        match reason_parts with
        | [] => Ok (NEUTRAL, RetailNoChange, 0%Q, active_seats)
        | _ => Ok (NEUTRAL, RetailMismatch reason_parts, 0%Q, active_seats)
        end
  end.

Definition analyze_retail_reverse (retail_seats : list string) (data : Data)
  : string * Reason * Q * list SeatStat :=
  match retail_reverse_body retail_seats data with
  | Ok r => r
  | Raise e => (ERROR, DataError (exn_str e), 0%Q, [])
  end.

(** ** StrategyAnalyzer.process_position_data *)

Definition rename_czce (c : string) : string :=
  if String.eqb c "g_party_n" then "long_party_name"
  else if String.eqb c "open_inten" then "long_open_interest"
  else if String.eqb c "inten_intert" then "long_open_interest_chg"
  else if String.eqb c "t_party_n" then "short_party_name"
  else if String.eqb c "open_inten.1" then "short_open_interest"
  else if String.eqb c "inten_intert.1" then "short_open_interest_chg"
  else c.

Definition _standardize_columns (df : DataFrame) : DataFrame :=
  if has_column df "g_party_n"
  then mkFrame (map rename_czce (columns df)) (rows df)
  else df.

Definition required_columns : list string :=
  ["long_party_name"; "long_open_interest"; "long_open_interest_chg";
   "short_party_name"; "short_open_interest"; "short_open_interest_chg"; "vol"].

Definition numeric_columns : list string :=
  ["long_open_interest"; "long_open_interest_chg";
   "short_open_interest"; "short_open_interest_chg"; "vol"].

(** [s.replace(',', '').replace(' ', '')] *)
Fixpoint strip_separators (s : string) : string :=
  match s with
  | EmptyString => EmptyString
  | String c s' =>
      if Ascii.eqb c "," || Ascii.eqb c " " then strip_separators s'
      else String c (strip_separators s')
  end.

(** The number reader of [pd.to_numeric] on a text: white space, an optional
    sign, digits with an optional decimal point, an optional exponent, white
    space; failing that, one of the six spellings of infinity. *)

(** Space, tab, line feed, vertical tab, form feed, carriage return. *)
Definition is_space (c : ascii) : bool :=
  let n := nat_of_ascii c in (n =? 32)%nat || ((9 <=? n)%nat && (n <=? 13)%nat).

Fixpoint skip_spaces (s : string) : string :=
  match s with
  | String c s' => if is_space c then skip_spaces s' else s
  | EmptyString => s
  end.

(** Whether the text starts with a minus sign, and the text after the sign. *)
Definition take_sign (s : string) : bool * string :=
  match s with
  | String "-" s' => (true, s')
  | String "+" s' => (false, s')
  | _ => (false, s)
  end.

(** The digits at the front of a text: their number, the value of the
    digits read so far followed by them, and the rest of the text. *)
Fixpoint take_digits (s : string) (count : nat) (value : Z) : nat * Z * string :=
  match s with
  | String c s' =>
      if is_digit c then take_digits s' (S count) (10 * value + digit_val c)
      else (count, value, s)
  | EmptyString => (count, value, s)
  end.

(** The exponent part: its signed value, the number of its digits and the
    rest; [None] when an e is followed by no digit, which leaves the e
    unread. *)
Definition take_exponent (s : string) : option (Z * nat * string) :=
  match s with
  | String c s' =>
      if Ascii.eqb c "e" || Ascii.eqb c "E" then
        let '(negative, s1) := take_sign s' in
        let '(n, x, s2) := take_digits s1 0 0 in
        if (n =? 0)%nat then None
        else Some (if negative then - x else x, n, s2)
      else Some (0, 0%nat, s)
  | EmptyString => Some (0, 0%nat, s)
  end.

(** What a text reads as.  [Whole z]: the whole number z, computed by the
    reader without rounding (at most 15 digits, a power of ten up to
    10^22, a result below 2^53).  [Outside]: a number that the embedding
    has no value for: a fraction, an infinity, or a numeral beyond these
    bounds.  [NotNumeric]: no number. *)
Inductive numeral :=
| Whole (z : Z)
| Outside
| NotNumeric.

Definition infinity_words : list string :=
  ["inf"; "+inf"; "-inf"; "infinity"; "+infinity"; "-infinity"].

Definition read_numeral (s : string) : numeral :=
  let '(negative, s1) := take_sign (skip_spaces s) in
  let '(n_int, m_int, s2) := take_digits s1 0 0 in
  let '(n_frac, m, s3) :=
    match s2 with
    | String "." s' => take_digits s' 0 m_int
    | _ => (0%nat, m_int, s2)
    end in
  match (if (n_int + n_frac =? 0)%nat then None else take_exponent s3) with
  | Some (x, n_exp, s4) =>
      match skip_spaces s4 with
      | EmptyString =>
          let k := x - Z.of_nat n_frac in
          if (15 <? n_int + n_frac)%nat || (15 <? n_exp)%nat || (22 <? Z.abs k)
          then Outside
          else
            let scale := 10 ^ Z.abs k in
            if (0 <=? k) || (m mod scale =? 0) then
              let z := if 0 <=? k then m * scale else m / scale in
              if z <? 2 ^ 53 then Whole (if negative then - z else z) else Outside
            else Outside
      | String _ _ =>
          if existsb (String.eqb (lower s)) infinity_words then Outside else NotNumeric
      end
  | None =>
      if existsb (String.eqb (lower s)) infinity_words then Outside else NotNumeric
  end.

(** One cell through [astype(str)], the two [str.replace], the replacement
    of 'nan' by None and [pd.to_numeric(errors='coerce')].  A number stays
    what it is, a missing cell and a text that is no number become NaN, a
    text that reads as a whole number becomes that number.  A text that
    reads as a number [Outside] the embedding has no faithful image; it is
    sent to NaN here, and the statements about coerced values leave such
    tables out. *)
Definition coerce_cell (v : pyval) : pyval :=
  match v with
  | VNum z => VNum z
  | VNaN | VNone => VNaN
  | VStr s =>
      let text := strip_separators s in
      if String.eqb text "nan" then VNaN
      else match read_numeral text with
           | Whole z => VNum z
           | Outside | NotNumeric => VNaN
           end
  end.

(** [df[col] = to_numeric(...)]; with a repeated label [df[col]] is a frame,
    which has no [.str] accessor. *)
Definition coerce_column (df : DataFrame) (c : string) : result DataFrame :=
  let* i := column_pos df c in
  if (1 <? count_label c (columns df))%nat
  then Raise (TypeError "'DataFrame' object has no attribute 'str'")
  else Ok (mkFrame (columns df)
                   (map (fun r => <[i := coerce_cell (nth i r VNaN)]> r) (rows df))).

Fixpoint coerce_columns (df : DataFrame) (cs : list string) : result DataFrame :=
  match cs with
  | [] => Ok df
  | c :: cs' => let* df' := coerce_column df c in coerce_columns df' cs'
  end.

Definition column_sum (df : DataFrame) (c : string) : result Z :=
  let* col := getitem df c in series_sum col.

Definition process_body (df0 : DataFrame) : result (option Data) :=
  let df := _standardize_columns df0 in
  if negb (forallb (has_column df) required_columns) then Ok None
  else
    let* df := coerce_columns df numeric_columns in
    let* total_long := column_sum df "long_open_interest" in
    let* total_short := column_sum df "short_open_interest" in
    let* total_long_chg := column_sum df "long_open_interest_chg" in
    let* total_short_chg := column_sum df "short_open_interest_chg" in
    Ok (Some [("total_long", DScalar (VNum total_long));
              ("total_short", DScalar (VNum total_short));
              ("total_long_chg", DScalar (VNum total_long_chg));
              ("total_short_chg", DScalar (VNum total_short_chg));
              ("raw_data", DFrame df)]).

Definition process_position_data (df : DataFrame) : option Data :=
  match process_body df with
  | Ok r => r
  | Raise _ => None
  end.

(** ** Progress reporting *)

(** The optional progress callback; a callback is caller code and may raise. *)
Definition Callback := option (string -> Q -> result unit).

(** [if progress_callback: progress_callback(msg, fraction)] *)
Definition report (cb : Callback) (msg : string) (fraction : Q) : result unit :=
  match cb with
  | Some f => f msg fraction
  | None => Ok tt
  end.

(** ** FuturesAnalysisEngine._analyze_positions *)

Record StrategyResult := mkStrategy {
  sr_signal : string;
  sr_reason : Reason;
  sr_strength : Q;
  sr_seat_details : option (list SeatStat)
}.

Record ContractResult := mkContract {
  strategies : list (string * StrategyResult);
  raw_data : dval;
  summary_data : list (string * dval)
}.

Definition POWER_CHANGE : string := "多空力量变化策略".
Definition SPIDER_WEB : string := "蜘蛛网策略".
Definition RETAIL_REVERSE : string := "家人席位反向操作策略".

(** The three strategies applied to one processed contract. *)
Definition apply_strategies (retail_seats : list string) (processed : Data)
  : list (string * StrategyResult) :=
  let '(s1, r1, x1) := analyze_power_change processed in
  let d1 := dict_set [] POWER_CHANGE (mkStrategy s1 r1 x1 None) in
  let '(s2, r2, x2) := analyze_spider_web processed in
  let d2 := dict_set d1 SPIDER_WEB (mkStrategy s2 r2 x2 None) in
  let '(s3, r3, x3, seats) := analyze_retail_reverse retail_seats processed in
  dict_set d2 RETAIL_REVERSE (mkStrategy s3 r3 x3 (Some seats)).

Definition contract_entry (retail_seats : list string) (processed : Data)
  : result ContractResult :=
  let strategies := apply_strategies retail_seats processed in
  let* raw := dict_get processed "raw_data" in
  let* tl := dict_get processed "total_long" in
  let* ts := dict_get processed "total_short" in
  let* tlc := dict_get processed "total_long_chg" in
  let* tsc := dict_get processed "total_short_chg" in
  Ok (mkContract strategies raw
        [("total_long", tl); ("total_short", ts);
         ("total_long_chg", tlc); ("total_short_chg", tsc)]).

(** [0.8 + (i / total_contracts) * 0.1] *)
Definition contract_progress (i total : nat) : Q :=
  ((8 # 10) + (inject_Z (Z.of_nat i) / inject_Z (Z.of_nat total)) * (1 # 10))%Q.

Fixpoint analyze_loop (retail_seats : list string) (cb : Callback) (total i : nat)
    (items : list (string * DataFrame)) (results : list (string * ContractResult))
  : result (list (string * ContractResult)) :=
  match items with
  | [] => Ok results
  | (contract_name, df) :: rest =>
      let* _ := report cb ("分析合约 " +:+ contract_name +:+ "...")
                       (contract_progress i total) in
      match process_position_data df with
      | None => analyze_loop retail_seats cb total (S i) rest results
      | Some processed =>
          let* entry := contract_entry retail_seats processed in
          analyze_loop retail_seats cb total (S i) rest
                       (dict_set results contract_name entry)
      end
  end.

Definition _analyze_positions (retail_seats : list string) (cb : Callback)
    (position_data : list (string * DataFrame))
  : result (list (string * ContractResult)) :=
  analyze_loop retail_seats cb (length position_data) 0 position_data [].

(** ** FuturesAnalysisEngine._calculate_signal_resonance *)

Record SignalEntry := mkEntry {
  e_contract : string;
  e_strength : Q;
  e_reason : Reason
}.

Record StrategySignals := mkSignals {
  long_signals : list SignalEntry;
  short_signals : list SignalEntry
}.

Record ResonanceInfo := mkInfo {
  count : nat;
  res_strategies : list string;
  res_contracts : list string
}.

(** [contract.split('_')[-1]] when the identifier has an underscore *)
Fixpoint after_last_underscore (s : string) : option string :=
  match s with
  | EmptyString => None
  | String c s' =>
      match after_last_underscore s' with
      | Some t => Some t
      | None => if Ascii.eqb c "_" then Some s' else None
      end
  end.

Definition is_lower (c : ascii) : bool :=
  let n := nat_of_ascii c in (97 <=? n)%nat && (n <=? 122)%nat.
Definition is_alpha (c : ascii) : bool := is_upper c || is_lower c.
Definition to_upper (c : ascii) : ascii :=
  if is_lower c then ascii_of_nat (nat_of_ascii c - 32) else c.

(** [''.join(c for c in part if c.isalpha()).upper()] *)
Fixpoint letters_upper (s : string) : string :=
  match s with
  | EmptyString => EmptyString
  | String c s' =>
      if is_alpha c then String (to_upper c) (letters_upper s')
      else letters_upper s'
  end.

Definition extract_symbol (contract : string) : string :=
  let symbol_part :=
    match after_last_underscore contract with
    | Some part => part
    | None => contract
    end in
  let symbol := letters_upper symbol_part in
  if String.eqb symbol "" then contract else symbol.

(** One signal counted for its symbol. *)
Definition count_signal (strategy_name : string)
    (symbol_count : list (string * ResonanceInfo)) (signal : SignalEntry)
  : list (string * ResonanceInfo) :=
  let symbol := extract_symbol (e_contract signal) in
  let info :=
    match dict_find symbol_count symbol with
    | Some info => info
    | None => mkInfo 0 [] []
    end in
  dict_set symbol_count symbol
    (mkInfo (count info + 1)
            (res_strategies info ++ [strategy_name])
            (res_contracts info ++ [e_contract signal])).

(** [for signal in signals[:10]] *)
Definition count_top10 (strategy_name : string)
    (symbol_count : list (string * ResonanceInfo)) (signals : list SignalEntry)
  : list (string * ResonanceInfo) :=
  fold_left (count_signal strategy_name) (firstn 10 signals) symbol_count.

Definition resonant (entry : string * ResonanceInfo) : bool :=
  (2 <=? count (snd entry))%nat.

Definition long_symbol_count (strategy_signals : list (string * StrategySignals))
  : list (string * ResonanceInfo) :=
  fold_left (fun acc '(name, signals) => count_top10 name acc (long_signals signals))
            strategy_signals [].

Definition short_symbol_count (strategy_signals : list (string * StrategySignals))
  : list (string * ResonanceInfo) :=
  fold_left (fun acc '(name, signals) => count_top10 name acc (short_signals signals))
            strategy_signals [].

Record Resonance := mkResonance {
  resonance_long : list (string * ResonanceInfo);
  resonance_short : list (string * ResonanceInfo)
}.

Definition _calculate_signal_resonance (strategy_signals : list (string * StrategySignals))
  : Resonance :=
  mkResonance (List.filter resonant (long_symbol_count strategy_signals))
              (List.filter resonant (short_symbol_count strategy_signals)).

(** ** FuturesAnalysisEngine._generate_summary *)

Definition strategy_names : list string := [POWER_CHANGE; SPIDER_WEB; RETAIL_REVERSE].

(** The signals of one strategy and one direction, in contract order. *)
Fixpoint collect_signals (strategy_name direction : string)
    (position_results : list (string * ContractResult)) : list SignalEntry :=
  match position_results with
  | [] => []
  | (contract, data) :: rest =>
      match dict_find (strategies data) strategy_name with
      | Some sd =>
          if String.eqb (sr_signal sd) direction
          then mkEntry contract (sr_strength sd) (sr_reason sd)
               :: collect_signals strategy_name direction rest
          else collect_signals strategy_name direction rest
      | None => collect_signals strategy_name direction rest
      end
  end.

(** [signals.sort(key=strength, reverse=True)] *)
Definition strength_ge (a b : SignalEntry) : bool :=
  Qle_bool (e_strength b) (e_strength a).

Definition strategy_signals_of (position_results : list (string * ContractResult))
  : list (string * StrategySignals) :=
  fold_left
    (fun acc name =>
       dict_set acc name
         (mkSignals (isort strength_ge (collect_signals name LONG position_results))
                    (isort strength_ge (collect_signals name SHORT position_results))))
    strategy_names [].

Record Statistics := mkStatistics {
  total_contracts : nat;
  total_long_signals : nat;
  total_short_signals : nat;
  resonance_long_count : nat;
  resonance_short_count : nat
}.

Record Summary := mkSummary {
  strategy_signals : list (string * StrategySignals);
  signal_resonance : Resonance;
  statistics : Statistics
}.

Definition _generate_summary (position_results : list (string * ContractResult))
  : Summary :=
  let signals := strategy_signals_of position_results in
  let resonance := _calculate_signal_resonance signals in
  mkSummary signals resonance
    (mkStatistics
       (length position_results)
       (list_sum (map (fun e => length (long_signals (snd e))) signals))
       (list_sum (map (fun e => length (short_signals (snd e))) signals))
       (length (resonance_long resonance))
       (length (resonance_short resonance))).

(** ** TermStructureAnalyzer *)

Record PriceRow := mkPrice {
  symbol : string;
  variety : string;
  close : option Q;        (* [None] is a missing close *)
  exchange : string
}.

Definition newline : ascii := ascii_of_nat 10.

(** [re.search(r'(\d{4})$', symbol)]: the four characters before the end of
    the text, or before the line feed that ends it. *)
Definition trailing_yymm (symbol : string) : option (ascii * ascii * ascii * ascii) :=
  let r := rev (list_ascii_of_string symbol) in
  let r := match r with
           | c :: r' => if Ascii.eqb c newline then r' else r
           | [] => r
           end in
  match r with
  | d4 :: d3 :: d2 :: d1 :: _ =>
      if is_digit d1 && is_digit d2 && is_digit d3 && is_digit d4
      then Some (d1, d2, d3, d4)
      else None
  | _ => None
  end.

Definition extract_month_info (symbol : string) : Z :=
  match trailing_yymm symbol with
  | Some (d1, d2, d3, d4) =>
      let year := 10 * digit_val d1 + digit_val d2 in
      let month := 10 * digit_val d3 + digit_val d4 in
      let year := if year <? 50 then year + 2000 else year + 1900 in
      year * 100 + month
  | None => 999999
  end.

Definition month_le (a b : PriceRow) : bool :=
  extract_month_info (symbol a) <=? extract_month_info (symbol b).

(** [variety_data.sort_values('sort_key')] *)
Definition _sort_contracts_by_month (variety_data : list PriceRow) : list PriceRow :=
  isort month_le variety_data.

(** The loop over adjacent prices with its two flags. *)
Fixpoint scan_prices (decreasing increasing : bool) (prices : list Q) : bool * bool :=
  match prices with
  | a :: ((b :: _) as rest) =>
      scan_prices (if Qle_bool a b then false else decreasing)
                  (if Qle_bool b a then false else increasing)
                  rest
  | _ => (decreasing, increasing)
  end.

Definition _determine_structure_strict (prices : list Q) : string :=
  if (length prices <? 2)%nat then "flat"
  else
    let '(is_strictly_decreasing, is_strictly_increasing) :=
      scan_prices true true prices in
    if is_strictly_decreasing then "back"
    else if is_strictly_increasing then "contango"
    else "flat".

(** [series.unique()]: first occurrences, in order. *)
Fixpoint unique (seen l : list string) : list string :=
  match l with
  | [] => []
  | x :: l' =>
      if existsb (String.eqb x) seen then unique seen l'
      else x :: unique (x :: seen) l'
  end.

Definition valid_close (r : PriceRow) : bool :=
  match close r with
  | Some q => Qlt_bool 0 q
  | None => false
  end.

Definition close_value (r : PriceRow) : Q :=
  match close r with Some q => q | None => 0%Q end.

Definition analyze_variety (price_data : list PriceRow) (v : string)
  : list (string * string * list string * list Q) :=
  let variety_data :=
    List.filter valid_close (List.filter (fun r => String.eqb (variety r) v) price_data) in
  if (length variety_data <? 2)%nat then []
  else
    let variety_data := _sort_contracts_by_month variety_data in
    if (length variety_data <? 2)%nat then []
    else
      let contracts := map symbol variety_data in
      let closes := map close_value variety_data in
      [(v, _determine_structure_strict closes, contracts, closes)].

Definition analyze_term_structure (price_data : list PriceRow)
  : list (string * string * list string * list Q) :=
  match price_data with
  | [] => []
  | _ => flat_map (analyze_variety price_data) (unique [] (map variety price_data))
  end.

(** ** PerformanceOptimizer: the cache directory *)

(** What a cache file holds: a pickled payload, or bytes that do not load. *)
Inductive FileContent (Payload : Type) :=
| Pickled (v : Payload)
| Garbage.
Arguments Pickled {Payload} v.
Arguments Garbage {Payload}.

(** A file of the cache directory; times are seconds. *)
Record CacheFile (Payload : Type) := mkFile {
  mtime : Z;
  content : FileContent Payload
}.
Arguments mkFile {Payload} mtime content.
Arguments mtime {Payload} c.
Arguments content {Payload} c.

Fixpoint ends_with (suffix s : string) : bool :=
  String.eqb s suffix ||
  match s with
  | EmptyString => false
  | String _ s' => ends_with suffix s'
  end.

(** The file name under the cache directory. *)
Definition get_cache_path (cache_key : string) : string := cache_key +:+ ".pkl".

Section Cache.
Context {Payload : Type}.

Definition is_cache_valid (cache : gmap string (CacheFile Payload)) (now : Z)
    (cache_path : string) (max_age_hours : Z) : bool :=
  match cache !! cache_path with
  | None => false
  | Some f => now - mtime f <? max_age_hours * 3600
  end.

Definition save_to_cache (cache : gmap string (CacheFile Payload)) (now : Z)
    (cache_key : string) (data : Payload) : gmap string (CacheFile Payload) :=
  <[get_cache_path cache_key := mkFile now (Pickled data)]> cache.

(** The value read, and the directory as the call leaves it. *)
Definition load_from_cache (cache : gmap string (CacheFile Payload)) (now : Z)
    (cache_key : string) : option Payload * gmap string (CacheFile Payload) :=
  let cache_path := get_cache_path cache_key in
  if is_cache_valid cache now cache_path 24 then
    match cache !! cache_path with
    | Some (mkFile _ (Pickled v)) => (Some v, cache)
    | _ => (None, cache)
    end
  else (None, cache).

Definition stale (now max_age_days : Z) (entry : string * CacheFile Payload) : bool :=
  ends_with ".pkl" (fst entry) && (mtime (snd entry) <? now - max_age_days * 86400).

Definition clear_old_cache (cache : gmap string (CacheFile Payload)) (now : Z)
    (max_age_days : Z) : gmap string (CacheFile Payload) :=
  filter (fun entry => stale now max_age_days entry = false) cache.
End Cache.

(** ** The world of the data manager: files, sources, clock *)

(** A workbook: its sheets in order. *)
Definition Workbook : Type := list (string * DataFrame).

(** What a position source does when called for a date. *)
Inductive FetchOutcome :=
| FetchRaises (e : exn)
| FetchReturns (data_dict : Workbook).

(** What writing a workbook does: it completes, or it raises and leaves
    [residue] in the file ([None]: the file is as before). *)
Inductive WriteOutcome :=
| Written
| WriteRaises (e : exn) (residue : option Workbook).

Inductive PriceOutcome :=
| PriceRaises (e : exn)
| PriceReturns (df : list PriceRow).

(** The collaborators a run depends on. *)
Record Env := mkEnv {
  (* [from performance_optimizer import FastDataManager] succeeds *)
  fast_import : bool;
  (* [import akshare] succeeds inside [cached_data_fetch] *)
  akshare_importable : bool;
  (* [hasattr(signal, 'SIGALRM')]: true on every platform but Windows *)
  sigalrm : bool;
  (* the position function of an exchange, for a trade date *)
  position_source : string -> string -> FetchOutcome;
  (* the same function when it is called again: the call number 1, 2, ... *)
  position_retry : string -> string -> nat -> FetchOutcome;
  (* writing a workbook to a file of the data directory *)
  excel_write : string -> Workbook -> WriteOutcome;
  (* [ak.get_futures_daily] for a market and a trade date *)
  price_source : string -> string -> PriceOutcome;
  (* the order in which the pooled position tasks complete *)
  positions_completion : list string;
  (* the order in which the pooled price tasks complete *)
  prices_completion : list (string * string);
  (* the cache key of this call of [fetch_price_data_fast] *)
  price_cache_key : string;
  (* the clock, in seconds *)
  clock : Z
}.

(** The store of [st.cache_data] for [cached_data_fetch]: under the
    arguments of a call, the time of the call and the value it returned. *)
Abbreviation Memo V := (gmap (string * string * option string) (Z * option V)).

(** The files and the memory of the process.  The store of
    [cached_data_fetch] is kept by the type of its values: the workbooks of
    the position functions and the tables of [get_futures_daily]. *)
Record World := mkWorld {
  data_dir : gmap string Workbook;
  cache_dir : gmap string (CacheFile (list PriceRow));
  book_memo : Memo Workbook;
  price_memo : Memo (list PriceRow)
}.

(** State and exceptions: a raise keeps the writes made before it. *)
Definition IO (A : Type) : Type := World -> result A * World.

Definition io_ret {A : Type} (a : A) : IO A := fun w => (Ok a, w).

Definition io_bind {A B : Type} (c : IO A) (k : A -> IO B) : IO B :=
  fun w =>
    match c w with
    | (Ok a, w') => k a w'
    | (Raise e, w') => (Raise e, w')
    end.

Definition io_lift {A : Type} (r : result A) : IO A := fun w => (r, w).

Notation "'run*' x ':=' c 'in' k" := (io_bind c (fun x => k))
  (at level 10, x pattern, c at level 100, k at level 200).

(** ** FuturesDataManager *)

(** Exchange name and file name, in configuration (and priority) order. *)
Definition exchange_config : list (string * string) :=
  [("大商所", "大商所持仓.xlsx");
   ("中金所", "中金所持仓.xlsx");
   ("郑商所", "郑商所持仓.xlsx");
   ("上期所", "上期所持仓.xlsx");
   ("广期所", "广期所持仓.xlsx")].

Definition price_exchanges : list (string * string) :=
  [("DCE", "大商所"); ("CFFEX", "中金所"); ("CZCE", "郑商所"); ("SHFE", "上期所")].

Fixpoint replace_char (a b : ascii) (s : string) : string :=
  match s with
  | EmptyString => EmptyString
  | String c s' => String (if Ascii.eqb c a then b else c) (replace_char a b s')
  end.

Fixpoint remove_char (a : ascii) (s : string) : string :=
  match s with
  | EmptyString => EmptyString
  | String c s' => if Ascii.eqb c a then remove_char a s' else String c (remove_char a s')
  end.

(** [sheet_name[:31].replace("/", "-").replace("*", "")] *)
Definition clean_name (sheet_name : string) : string :=
  remove_char "*" (replace_char "/" "-" (substring 0 31 sheet_name)).

Definition clean_book (data_dict : Workbook) : Workbook :=
  map (fun '(sheet_name, df) => (clean_name sheet_name, df)) data_dict.

Definition set_file (filename : string) (book : Workbook) (w : World) : World :=
  mkWorld (<[filename := book]> (data_dir w)) (cache_dir w) (book_memo w) (price_memo w).

(** Fetch one exchange and save it; [true] when the file was written.  This
    is the part of the [try] block after the progress report. *)
Definition fetch_and_save (env : Env) (trade_date exchange_name filename : string)
    (w : World) : bool * World :=
  match position_source env exchange_name trade_date with
  | FetchRaises _ => (false, w)
  | FetchReturns [] => (false, w)
  | FetchReturns data_dict =>
      let book := clean_book data_dict in
      match excel_write env filename book with
      | Written => (true, set_file filename book w)
      | WriteRaises _ None => (false, w)
      | WriteRaises _ (Some residue) => (false, set_file filename residue w)
      end
  end.

(** [(i + 1) / total_exchanges * 0.6] *)
Definition fetch_progress (i total : nat) : Q :=
  (inject_Z (Z.of_nat (i + 1)) / inject_Z (Z.of_nat total) * (6 # 10))%Q.

Fixpoint fetch_position_loop (env : Env) (trade_date : string) (cb : Callback)
    (total i : nat) (exchanges : list (string * string)) (success_count : nat)
    (w : World) : nat * World :=
  match exchanges with
  | [] => (success_count, w)
  | (exchange_name, filename) :: rest =>
      match report cb ("正在获取" +:+ exchange_name +:+ "数据...")
                   (fetch_progress i total) with
      | Raise _ => fetch_position_loop env trade_date cb total (S i) rest success_count w
      | Ok _ =>
          let '(saved, w') := fetch_and_save env trade_date exchange_name filename w in
          fetch_position_loop env trade_date cb total (S i) rest
            (if saved then S success_count else success_count) w'
      end
  end.

Definition fetch_position_data (env : Env) (trade_date : string) (cb : Callback)
  : IO bool :=
  fun w =>
    let '(success_count, w') :=
      fetch_position_loop env trade_date cb (length exchange_config) 0
                          exchange_config 0%nat w in
    match report cb "持仓数据获取完成" (6 # 10) with
    | Raise e => (Raise e, w')
    | Ok _ => (Ok (0 <? success_count)%nat, w')
    end.

Definition tag_exchange (name : string) (r : PriceRow) : PriceRow :=
  mkPrice (symbol r) (variety r) (close r) name.

(** [0.6 + (i / len(price_exchanges)) * 0.2] *)
Definition price_progress (i total : nat) : Q :=
  ((6 # 10) + (inject_Z (Z.of_nat i) / inject_Z (Z.of_nat total)) * (2 # 10))%Q.

Fixpoint fetch_price_loop (env : Env) (trade_date : string) (cb : Callback)
    (total i : nat) (exchanges : list (string * string)) (all_data : list PriceRow)
  : list PriceRow :=
  match exchanges with
  | [] => all_data
  | (market, name) :: rest =>
      match report cb ("正在获取" +:+ name +:+ "行情数据...") (price_progress i total) with
      | Raise _ => fetch_price_loop env trade_date cb total (S i) rest all_data
      | Ok _ =>
          match price_source env market trade_date with
          | PriceRaises _ => fetch_price_loop env trade_date cb total (S i) rest all_data
          | PriceReturns df =>
              fetch_price_loop env trade_date cb total (S i) rest
                               (all_data ++ map (tag_exchange name) df)
          end
      end
  end.

Definition fetch_price_data (env : Env) (trade_date : string) (cb : Callback)
  : IO (list PriceRow) :=
  let all_data :=
    fetch_price_loop env trade_date cb (length price_exchanges) 0 price_exchanges [] in
  run* _ := io_lift (report cb "行情数据获取完成" (8 # 10)) in
  io_ret all_data.

(** [load_position_data]: the sheets of every file present, keyed by
    exchange and sheet name. *)
Definition load_position_data (w : World) : list (string * DataFrame) :=
  fold_left
    (fun all_data '(exchange_name, filename) =>
       match data_dir w !! filename with
       | Some book =>
           fold_left (fun acc '(sheet_name, df) =>
                        dict_set acc (exchange_name +:+ "_" +:+ sheet_name) df)
                     book all_data
       | None => all_data
       end)
    exchange_config [].

(** ** [cached_data_fetch] *)

(** What one call of a data function does: it returns a value ([None] is
    Python's None) or raises an exception with a message. *)
Inductive Answer (V : Type) :=
| Returned (v : option V)
| Failed (msg : string).
Arguments Returned {V} v.
Arguments Failed {V} msg.

(** What a retry loop does besides returning: the calls of the data
    function and the calls of [time.sleep], in order. *)
Inductive Event :=
| Called
| Slept (seconds : Z).

(** The functions that [cached_data_fetch] calls once. *)
Definition single_call_functions : list string :=
  ["futures_dce_position_rank"; "get_cffex_rank_table";
   "get_czce_rank_table"; "get_shfe_rank_table"].

(** The loop [for attempt in range(max_retries)] of the Guangzhou branch:
    a returned value ends it, a failure of the last attempt gives None, any
    other failure is followed by a sleep of three seconds.  [alarm attempt]
    tells whether the alarm goes off during the sleep that follows the
    attempt: the handler then raises outside the inner [try], and the
    function returns None. *)
Fixpoint gfex_loop {V : Type} (answers : nat -> Answer V) (alarm : nat -> bool)
    (max_retries : nat) (attempts : list nat) (log : list Event)
  : option V * list Event :=
  match attempts with
  | [] => (None, log)
  | attempt :: rest =>
      match answers attempt with
      | Returned v => (v, log ++ [Called])
      | Failed _ =>
          if (attempt =? max_retries - 1)%nat then (None, log ++ [Called])
          else if alarm attempt then (None, log ++ [Called; Slept 3])
          else gfex_loop answers alarm max_retries rest (log ++ [Called; Slept 3])
      end
  end.

(** The body of [cached_data_fetch], after [import akshare].
    [network func_name date market k] is the answer to the call number [k]
    of the function, a timeout raised by the alarm during the call
    included.  Where the platform has SIGALRM the handler is installed
    first, and [signal.signal] raises ValueError in every thread but the
    main one: the handler of the body catches it and the function returns
    None before anything is asked.  The messages shown are not kept. *)
Definition fetch_body {V : Type}
    (network : string -> string -> option string -> nat -> Answer V)
    (sigalrm main_thread : bool) (alarm_in_sleep : nat -> bool)
    (func_name date : string) (exchange : option string) : option V * list Event :=
  if sigalrm && negb main_thread then (None, [])
  else if existsb (String.eqb func_name) single_call_functions then
    match network func_name date None 0%nat with
    | Returned v => (v, [Called])
    | Failed _ => (None, [Called])
    end
  else if String.eqb func_name "futures_gfex_position_rank" then
    gfex_loop (network func_name date None) (fun k => sigalrm && alarm_in_sleep k)
              3 (seq 0 3) []
  else
    match String.eqb func_name "get_futures_daily", exchange with
    | true, Some (String c market) =>
        match network func_name date exchange 0%nat with
        | Returned v => (v, [Called])
        | Failed _ => (None, [Called])
        end
    | _, _ => (None, [])
    end.

(** The value stored under the arguments less than an hour ago. *)
Definition memo_fresh {V : Type} (memo : Memo V) (now : Z)
    (key : string * string * option string) : option (option V) :=
  match memo !! key with
  | Some (stored, v) => if now - stored <? 3600 then Some v else None
  | None => None
  end.

(** [cached_data_fetch] under [st.cache_data(ttl=3600)]: a value stored
    for the same arguments less than an hour ago is returned and nothing is
    run; otherwise the function runs, and what it returns is stored.
    [import akshare] stands before the [try]: where it fails the exception
    leaves the function and nothing is stored.  The result, the store and
    the calls and sleeps made. *)
Definition cached_data_fetch {V : Type}
    (network : string -> string -> option string -> nat -> Answer V)
    (akshare sigalrm main_thread : bool) (alarm_in_sleep : nat -> bool)
    (now : Z) (memo : Memo V)
    (func_name date : string) (exchange : option string)
  : result (option V) * Memo V * list Event :=
  match memo_fresh memo now (func_name, date, exchange) with
  | Some v => (Ok v, memo, [])
  | None =>
      if akshare then
        let '(v, log) :=
          fetch_body network sigalrm main_thread alarm_in_sleep func_name date exchange in
        (Ok v, <[(func_name, date, exchange) := (now, v)]> memo, log)
      else (Raise (ImportError "akshare"), memo, [])
  end.

(** ** FastDataManager *)

(** Exchange name, function name and file name, sorted by priority. *)
Definition fast_exchange_config : list (string * (string * string)) :=
  [("大商所", ("futures_dce_position_rank", "大商所持仓.xlsx"));
   ("中金所", ("get_cffex_rank_table", "中金所持仓.xlsx"));
   ("郑商所", ("get_czce_rank_table", "郑商所持仓.xlsx"));
   ("上期所", ("get_shfe_rank_table", "上期所持仓.xlsx"));
   ("广期所", ("futures_gfex_position_rank", "广期所持仓.xlsx"))].

(** The exchange whose position function has the name. *)
Definition position_functions : list (string * string) :=
  map (fun e => (fst (snd e), fst e)) fast_exchange_config.

Definition outcome_answer (o : FetchOutcome) : Answer Workbook :=
  match o with
  | FetchRaises e => Failed (exn_str e)
  | FetchReturns data_dict => Returned (Some data_dict)
  end.

(** The position functions of akshare, by name and call number. *)
Definition position_network (env : Env) (func_name date : string)
    (_ : option string) (k : nat) : Answer Workbook :=
  match dict_find position_functions func_name with
  | Some exchange_name =>
      outcome_answer (match k with
                      | O => position_source env exchange_name date
                      | S _ => position_retry env exchange_name date k
                      end)
  | None => Returned None
  end.

(** [ak.get_futures_daily] for the market. *)
Definition price_network (env : Env) (func_name date : string)
    (exchange : option string) (k : nat) : Answer (list PriceRow) :=
  match exchange with
  | Some market =>
      match price_source env market date with
      | PriceRaises e => Failed (exn_str e)
      | PriceReturns df => Returned (Some df)
      end
  | None => Returned None
  end.

Definition set_book_memo (memo : Memo Workbook) (w : World) : World :=
  mkWorld (data_dir w) (cache_dir w) memo (price_memo w).

Definition set_price_memo (memo : Memo (list PriceRow)) (w : World) : World :=
  mkWorld (data_dir w) (cache_dir w) (book_memo w) memo.

(** [_fetch_single_exchange_data_with_timeout], a task of the pool: the
    dataset comes from [cached_data_fetch], called in a thread of the pool;
    every exception is caught inside the task, which answers [False]. *)
Definition _fetch_single_exchange_data_with_timeout (env : Env)
    (trade_date exchange_name func_name filename : string) (w : World) : bool * World :=
  let '(data_dict, memo, _) :=
    cached_data_fetch (position_network env) (akshare_importable env) (sigalrm env)
                      false (fun _ => false) (clock env) (book_memo w)
                      func_name trade_date None in
  let w1 := set_book_memo memo w in
  match data_dict with
  | Ok (Some (sheet :: sheets)) =>
      let book := clean_book (sheet :: sheets) in
      match excel_write env filename book with
      | Written => (true, set_file filename book w1)
      | WriteRaises _ None => (false, w1)
      | WriteRaises _ (Some residue) => (false, set_file filename residue w1)
      end
  | _ => (false, w1)
  end.

(** The pooled tasks, one per exchange: the answers by exchange name, and
    the files and the store they leave. *)
Fixpoint run_position_tasks (env : Env) (trade_date : string)
    (exchanges : list (string * (string * string))) (w : World)
  : list (string * bool) * World :=
  match exchanges with
  | [] => ([], w)
  | (exchange_name, (func_name, filename)) :: rest =>
      let '(saved, w') :=
        _fetch_single_exchange_data_with_timeout env trade_date exchange_name
                                                 func_name filename w in
      let '(answers, w'') := run_position_tasks env trade_date rest w' in
      ((exchange_name, saved) :: answers, w'')
  end.

(** The loop over [as_completed]: the report is outside the [try]. *)
Fixpoint completed_loop (cb : Callback) (answers : list (string * bool))
    (total i : nat) (completed : list string) (success_count : nat) : result nat :=
  match completed with
  | [] => Ok success_count
  | exchange_name :: rest =>
      let* _ := report cb ("已完成 " +:+ exchange_name +:+ " 数据获取")
                       (fetch_progress i total) in
      let success :=
        match dict_find answers exchange_name with
        | Some b => b
        | None => false
        end in
      completed_loop cb answers total (S i) rest
                     (if success then S success_count else success_count)
  end.

Definition fetch_position_data_fast (env : Env) (trade_date : string) (cb : Callback)
  : IO bool :=
  fun w =>
    let '(answers, w') := run_position_tasks env trade_date fast_exchange_config w in
    (let* success_count :=
       completed_loop cb answers (length fast_exchange_config) 0
                      (positions_completion env) 0%nat in
     let* _ := report cb "持仓数据获取完成" (6 # 10) in
     Ok (0 <? success_count)%nat,
     w').

(** A task of the price pool: [cached_data_fetch] itself, in a thread of
    the pool. *)
Definition price_task (env : Env) (trade_date market : string) (w : World)
  : result (option (list PriceRow)) * World :=
  let '(df, memo, _) :=
    cached_data_fetch (price_network env) (akshare_importable env) (sigalrm env)
                      false (fun _ => false) (clock env) (price_memo w)
                      "get_futures_daily" trade_date (Some market) in
  (df, set_price_memo memo w).

Fixpoint run_price_tasks (env : Env) (trade_date : string)
    (exchanges : list (string * string)) (w : World)
  : list (string * result (option (list PriceRow))) * World :=
  match exchanges with
  | [] => ([], w)
  | (market, _) :: rest =>
      let '(df, w') := price_task env trade_date market w in
      let '(answers, w'') := run_price_tasks env trade_date rest w' in
      ((market, df) :: answers, w'')
  end.

(** The loop over [as_completed]: the report is outside the [try], the
    result of a task that raised is skipped, and so is None. *)
Fixpoint completed_price_loop (cb : Callback)
    (answers : list (string * result (option (list PriceRow))))
    (total i : nat) (completed : list (string * string)) (all_data : list PriceRow)
  : result (list PriceRow) :=
  match completed with
  | [] => Ok all_data
  | (market, name) :: rest =>
      let* _ := report cb ("已完成 " +:+ name +:+ " 行情数据") (price_progress i total) in
      match dict_find answers market with
      | Some (Ok (Some df)) =>
          completed_price_loop cb answers total (S i) rest
                               (all_data ++ map (tag_exchange name) df)
      | _ => completed_price_loop cb answers total (S i) rest all_data
      end
  end.

(** The decorated [fetch_price_data_fast]: the cache is asked first, and a
    fresh table is saved.  When a report raises, the tasks have run all the
    same: the pool is left only when they are done. *)
Definition fetch_price_data_fast (env : Env) (trade_date : string) (cb : Callback)
  : IO (list PriceRow) :=
  fun w =>
    match fst (load_from_cache (cache_dir w) (clock env) (price_cache_key env)) with
    | Some cached_data => (Ok cached_data, w)
    | None =>
        let '(answers, w1) := run_price_tasks env trade_date price_exchanges w in
        match
          (let* all_data :=
             completed_price_loop cb answers (length price_exchanges) 0
                                  (prices_completion env) [] in
           let* _ := report cb "行情数据获取完成" (8 # 10) in
           Ok all_data)
        with
        | Raise e => (Raise e, w1)
        | Ok result =>
            (Ok result,
             mkWorld (data_dir w1)
                     (save_to_cache (cache_dir w1) (clock env) (price_cache_key env) result)
                     (book_memo w1) (price_memo w1))
        end
    end.

(** ** FuturesAnalysisEngine.full_analysis *)

Record AnalysisResults := mkResults {
  position_analysis : list (string * ContractResult);
  term_structure : list (string * string * list string * list Q);
  summary : Summary;
  meta_trade_date : string;
  meta_retail_seats : list string
}.

(** Steps 2 to 5, after the positions were acquired. *)
Definition later_stages (env : Env) (retail_seats : list string)
    (trade_date : string) (cb : Callback) : IO AnalysisResults :=
  run* _ := io_lift (report cb "开始获取期货行情数据..." (6 # 10)) in
  run* price_data :=
    (if fast_import env then fetch_price_data_fast env trade_date cb
     else fetch_price_data env trade_date cb) in
  run* _ := io_lift (report cb "开始分析持仓数据..." (8 # 10)) in
  run* position_results :=
    (fun w =>
       match load_position_data w with
       | [] => (let* _ := report cb "⚠️ 未找到持仓数据文件" (85 # 100) in Ok [], w)
       | position_data => (_analyze_positions retail_seats cb position_data, w)
       end) in
  run* _ := io_lift (report cb "开始期限结构分析..." (9 # 10)) in
  run* term_results :=
    (match price_data with
     | [] => run* _ := io_lift (report cb "⚠️ 期货行情数据为空，跳过期限结构分析" (92 # 100)) in
             io_ret []
     | _ => io_ret (analyze_term_structure price_data)
     end) in
  run* _ := io_lift (report cb "生成分析总结..." (95 # 100)) in
  let summary := _generate_summary position_results in
  run* _ := io_lift (report cb "✅ 分析完成" 1) in
  io_ret (mkResults position_results term_results summary trade_date retail_seats).

(** The [try] block of [full_analysis]. *)
Definition full_analysis_body (env : Env) (retail_seats : list string)
    (trade_date : string) (cb : Callback) : IO (option AnalysisResults) :=
  run* _ := io_lift (report cb (if fast_import env
                                then "🚀 使用性能优化模式获取数据..."
                                else "使用标准模式获取数据...") (1 # 10)) in
  run* acquired :=
    (if fast_import env then fetch_position_data_fast env trade_date cb
     else fetch_position_data env trade_date cb) in
  if negb acquired then
    run* _ := io_lift (report cb "❌ 持仓数据获取失败" (6 # 10)) in
    io_ret None
  else
    run* results := later_stages env retail_seats trade_date cb in
    io_ret (Some results).

(** [except Exception as e]: the error is reported and [None] returned. *)
Definition full_analysis (env : Env) (retail_seats : list string)
    (trade_date : string) (cb : Callback) : IO (option AnalysisResults) :=
  fun w =>
    match full_analysis_body env retail_seats trade_date cb w with
    | (Ok r, w') => (Ok r, w')
    | (Raise e, w') =>
        match report cb ("❌ 分析过程出错: " +:+ exn_str e) 1 with
        | Ok _ => (Ok None, w')
        | Raise e' => (Raise e', w')
        end
    end.

(** The three components of a strategy answer. *)
Definition signal_of {A B C : Type} (r : A * B * C) : A := fst (fst r).
Definition reason_of {A B C : Type} (r : A * B * C) : B := snd (fst r).
Definition strength_of {A B C : Type} (r : A * B * C) : C := snd r.

(** ** Retries: [CloudDataFetcher.safe_akshare_call] *)

(** [p in s] *)
Fixpoint starts_with (p s : string) : bool :=
  match p, s with
  | EmptyString, _ => true
  | String a p', String b s' => Ascii.eqb a b && starts_with p' s'
  | String _ _, EmptyString => false
  end.

Fixpoint contains (p s : string) : bool :=
  starts_with p s ||
  match s with
  | EmptyString => false
  | String _ s' => contains p s'
  end.

(** [safe_akshare_call]: a sleep of [delay * attempt] seconds before every
    attempt but the first, a value other than None ends the loop, a failure
    whose message names a timeout or a rate limit is followed by a sleep. *)
Fixpoint safe_loop {V : Type} (answers : nat -> Answer V) (delay : Z)
    (attempts : list nat) (log : list Event) : option V * list Event :=
  match attempts with
  | [] => (None, log)
  | attempt :: rest =>
      let log := if (0 <? attempt)%nat
                 then log ++ [Slept (delay * Z.of_nat attempt)] else log in
      match answers attempt with
      | Returned (Some v) => (Some v, log ++ [Called])
      | Returned None => safe_loop answers delay rest (log ++ [Called])
      | Failed msg =>
          let log := log ++ [Called] in
          let log := if contains "timeout" (lower msg) then log ++ [Slept 5]
                     else if contains "rate limit" (lower msg) then log ++ [Slept 10]
                     else log in
          safe_loop answers delay rest log
      end
  end.

Definition safe_akshare_call {V : Type} (answers : nat -> Answer V)
  : option V * list Event :=
  safe_loop answers 2 (seq 0 3) [].

(** ** CloudDataFetcher.create_demo_data *)

Definition demo_contracts : list string :=
  ["螺纹钢2501"; "铁矿石2501"; "豆粕2501"; "玉米2501"; "白糖2501"].

Definition demo_exchanges : list string :=
  ["大商所"; "中金所"; "郑商所"; "上期所"; "广期所"].

(** The keys of the dictionaries that make the rows of a demo table. *)
Definition demo_columns : list string :=
  ["long_party_name"; "long_open_interest"; "long_open_interest_chg";
   "short_party_name"; "short_open_interest"; "short_open_interest_chg"].

(** [f'期货公司{i+1}'] *)
Definition demo_party (i : nat) : string :=
  "期货公司" +:+ NilZero.string_of_uint (Nat.to_uint (i + 1)).

(** One demo table of twenty rows.  [draw contract trade_date i] stands for
    the four numbers that the generator, seeded with the hash of the
    contract and the date, yields for row [i]: long open interest, its
    change, short open interest, its change. *)
Definition demo_frame (draw : string -> string -> nat -> Z * Z * Z * Z)
    (trade_date contract : string) : DataFrame :=
  mkFrame demo_columns
    (map (fun i =>
            let '(l, lc, s, sc) := draw contract trade_date i in
            [VStr (demo_party i); VNum l; VNum lc;
             VStr (demo_party i); VNum s; VNum sc])
         (seq 0 20)).

Definition demo_data (draw : string -> string -> nat -> Z * Z * Z * Z)
    (trade_date : string) : Workbook :=
  fold_left (fun d contract => dict_set d contract (demo_frame draw trade_date contract))
            demo_contracts [].

(** The loop over the exchanges: one workbook each; a write that raises
    ends the function with its exception. *)
Fixpoint write_demo_files (env : Env) (book : Workbook) (exchanges : list string)
  : IO unit :=
  match exchanges with
  | [] => io_ret tt
  | exchange_name :: rest =>
      fun w =>
        let filename := exchange_name +:+ "持仓.xlsx" in
        match excel_write env filename book with
        | Written => write_demo_files env book rest (set_file filename book w)
        | WriteRaises e None => (Raise e, w)
        | WriteRaises e (Some residue) => (Raise e, set_file filename residue w)
        end
  end.

Definition create_demo_data (env : Env) (draw : string -> string -> nat -> Z * Z * Z * Z)
    (trade_date : string) : IO bool :=
  run* _ := write_demo_files env (demo_data draw trade_date) demo_exchanges in
  io_ret true.

(** ** cloud_config: the shared configuration *)

Inductive setting :=
| SInt (z : Z)
| SBool (b : bool)
| SFrac (q : Q).

(** The dictionaries of the configuration live in a heap, addressed by
    position.  A value of a dictionary is a setting or a reference to
    another dictionary. *)
Inductive entry :=
| Ref (address : nat)
| Setting (s : setting).

(** The module global [CLOUD_CONFIG] is bound to the first object. *)
Definition CLOUD_CONFIG : nat := 0.

Definition settings_dict (d : list (string * setting)) : list (string * entry) :=
  map (fun '(k, v) => (k, Setting v)) d.

Definition initial_heap : list (list (string * entry)) :=
  [[("timeouts", Ref 1); ("retries", Ref 2); ("concurrency", Ref 3);
    ("cache", Ref 4); ("error_handling", Ref 5); ("ui", Ref 6)];
   settings_dict
     [("大商所", SInt 30); ("中金所", SInt 30); ("郑商所", SInt 30);
      ("上期所", SInt 30); ("广期所", SInt 45); ("行情数据", SInt 30)];
   settings_dict
     [("大商所", SInt 2); ("中金所", SInt 2); ("郑商所", SInt 2);
      ("上期所", SInt 2); ("广期所", SInt 3); ("行情数据", SInt 2)];
   settings_dict
     [("max_workers", SInt 2); ("chunk_size", SInt 2);
      ("delay_between_batches", SInt 1)];
   settings_dict
     [("data_ttl", SInt 3600); ("analysis_ttl", SInt 1800);
      ("max_cache_files", SInt 50); ("cleanup_days", SInt 3)];
   settings_dict
     [("skip_on_timeout", SBool true); ("continue_on_error", SBool true);
      ("min_success_rate", SFrac (6 # 10)); ("show_detailed_errors", SBool false)];
   settings_dict
     [("show_progress", SBool true); ("show_timing", SBool true);
      ("show_cache_status", SBool true); ("auto_retry", SBool true);
      ("friendly_messages", SBool true)]].

(** The dictionary at an address. *)
Definition deref (h : list (list (string * entry))) (a : nat)
  : result (list (string * entry)) :=
  match h !! a with
  | Some d => Ok d
  | None => Raise (ValueError "dangling reference")
  end.

(** [config[section]], which must be a dictionary to be indexed again *)
Definition section_of (h : list (list (string * entry))) (config : nat) (section : string)
  : result nat :=
  let* d := deref h config in
  let* v := dict_get d section in
  match v with
  | Ref a => Ok a
  | Setting _ => Raise (TypeError "object is not subscriptable")
  end.

(** [config[section][key]] *)
Definition read_setting (h : list (list (string * entry))) (config : nat)
    (section key : string) : result entry :=
  let* a := section_of h config section in
  let* d := deref h a in
  dict_get d key.

(** [config[section][key] = value]: the section is updated in place. *)
Definition write_setting (h : list (list (string * entry))) (config : nat)
    (section key : string) (value : setting) : result (list (list (string * entry))) :=
  let* a := section_of h config section in
  let* d := deref h a in
  Ok (<[a := dict_set d key (Setting value)]> h).

(** [d.copy()]: a new dictionary with the same entries; the references it
    holds are those of [d]. *)
Definition dict_copy (h : list (list (string * entry))) (a : nat)
  : result (nat * list (list (string * entry))) :=
  let* d := deref h a in
  Ok (length h, h ++ [d]).

(** [os.getenv] is a function from names to values. *)
Definition is_cloud_environment (getenv : string -> option string) : bool :=
  match getenv "STREAMLIT_SHARING_MODE" with Some _ => true | None => false end
  || match getenv "STREAMLIT_CLOUD" with Some _ => true | None => false end
  || contains "streamlit.io"
       match getenv "HOSTNAME" with Some v => v | None => "" end
  || contains "share.streamlit.io"
       match getenv "SERVER_NAME" with Some v => v | None => "" end.

(** The configuration returned (its address) and the heap afterwards; a
    raise keeps the writes made before it. *)
Definition get_cloud_optimized_config (getenv : string -> option string) (h : list (list (string * entry)))
  : result nat * list (list (string * entry)) :=
  if is_cloud_environment getenv then (Ok CLOUD_CONFIG, h)
  else
    match dict_copy h CLOUD_CONFIG with
    | Raise e => (Raise e, h)
    | Ok (local_config, h1) =>
        match write_setting h1 local_config "timeouts" "广期所" (SInt 60) with
        | Raise e => (Raise e, h1)
        | Ok h2 =>
            match write_setting h2 local_config "concurrency" "max_workers" (SInt 3) with
            | Raise e => (Raise e, h2)
            | Ok h3 => (Ok local_config, h3)
            end
        end
    end.

(** [apply_cloud_optimizations]: in a cloud environment three settings are
    read for the messages that are printed. *)
Definition apply_cloud_optimizations (getenv : string -> option string) (h : list (list (string * entry)))
  : result nat * list (list (string * entry)) :=
  match get_cloud_optimized_config getenv h with
  | (Raise e, h') => (Raise e, h')
  | (Ok config, h') =>
      if is_cloud_environment getenv then
        (let* _ := read_setting h' config "timeouts" "广期所" in
         let* _ := read_setting h' config "concurrency" "max_workers" in
         let* _ := read_setting h' config "retries" "广期所" in
         Ok config, h')
      else (Ok config, h')
  end.

(** ** PerformanceOptimizer.get_cache_key *)

(** [a <= b] on text: by character, a proper prefix first. *)
Fixpoint str_le (a b : string) : bool :=
  match a, b with
  | EmptyString, _ => true
  | String _ _, EmptyString => false
  | String x a', String y b' =>
      if (nat_of_ascii x <? nat_of_ascii y)%nat then true
      else if (nat_of_ascii y <? nat_of_ascii x)%nat then false
      else str_le a' b'
  end.

(** The order of [sorted(kwargs.items())]: the keys decide, as no two items
    of a dictionary have the same key. *)
Definition item_le {V : Type} (a b : string * V) : bool := str_le (fst a) (fst b).

(** The key of a call.  The three functions stand for [hashlib.md5] with
    its hex digest, for [str] of the tuple of positional arguments and for
    [str] of the sorted list of named arguments. *)
Definition get_cache_key {V : Type} (md5 : string -> string)
    (str_args : list V -> string) (str_items : list (string * V) -> string)
    (func_name : string) (args : list V) (kwargs : list (string * V)) : string :=
  md5 (func_name +:+ "_" +:+ str_args args +:+ "_" +:+ str_items (isort item_le kwargs)).

(** ** CloudDataFetcher.fetch_position_data_with_fallback *)

(** What the cloud fetcher depends on: whether [import akshare] succeeds,
    the answer of the position function of an exchange to its call number
    [k] for a date, and the writing of a workbook. *)
Record CloudEnv := mkCloud {
  akshare_installed : bool;
  cloud_answers : string -> string -> nat -> Answer Workbook;
  cloud_write : string -> Workbook -> WriteOutcome
}.

(** The [try] block of one exchange: the safe call, and the workbook saved
    when the dataset is not empty; [true] when the file was written.  The
    sleeps of the safe call and the messages shown are not kept. *)
Definition cloud_fetch_and_save (cenv : CloudEnv) (trade_date exchange_name filename : string)
    (w : World) : bool * World :=
  match fst (safe_akshare_call (cloud_answers cenv exchange_name trade_date)) with
  | Some (sheet :: sheets) =>
      let book := clean_book (sheet :: sheets) in
      match cloud_write cenv filename book with
      | Written => (true, set_file filename book w)
      | WriteRaises _ None => (false, w)
      | WriteRaises _ (Some residue) => (false, set_file filename residue w)
      end
  | _ => (false, w)
  end.

(** [i / total_exchanges * 0.6] *)
Definition cloud_progress (i total : nat) : Q :=
  (inject_Z (Z.of_nat i) / inject_Z (Z.of_nat total) * (6 # 10))%Q.

(** The loop over the exchanges: the progress report comes before the
    [try] block, so that an exception of the callback leaves the loop. *)
Fixpoint cloud_position_loop (cenv : CloudEnv) (trade_date : string) (cb : Callback)
    (total i : nat) (exchanges : list (string * string)) (success_count : nat)
  : IO nat :=
  match exchanges with
  | [] => io_ret success_count
  | (exchange_name, filename) :: rest =>
      fun w =>
        match report cb ("正在获取 " +:+ exchange_name +:+ " 数据...")
                     (cloud_progress i total) with
        | Raise e => (Raise e, w)
        | Ok _ =>
            let '(saved, w') :=
              cloud_fetch_and_save cenv trade_date exchange_name filename w in
            cloud_position_loop cenv trade_date cb total (S i) rest
              (if saved then S success_count else success_count) w'
        end
  end.

Definition fetch_position_data_with_fallback (cenv : CloudEnv) (trade_date : string)
    (cb : Callback) : IO bool :=
  if akshare_installed cenv then
    run* success_count :=
      cloud_position_loop cenv trade_date cb 5 0 exchange_config 0%nat in
    run* _ := io_lift (report cb "持仓数据获取完成" (6 # 10)) in
    io_ret (0 <? success_count)%nat
  else io_ret false.

(** * Notions used in the statements *)

(** ** Directions *)

Definition valid_signal (s : string) : Prop :=
  s = LONG \/ s = SHORT \/ s = NEUTRAL \/ s = ERROR.

Definition directional (s : string) : Prop :=
  s = LONG \/ s = SHORT \/ s = NEUTRAL.

Definition retail_signal (r : string * Reason * Q * list SeatStat) : string :=
  fst (fst (fst r)).
Definition retail_reason (r : string * Reason * Q * list SeatStat) : Reason :=
  snd (fst (fst r)).
Definition retail_strength (r : string * Reason * Q * list SeatStat) : Q :=
  snd (fst r).
Definition retail_details (r : string * Reason * Q * list SeatStat) : list SeatStat :=
  snd r.

(** ** Cells, columns and processed frames *)

(** The cell of a row under a column label. *)
Definition cell (df : DataFrame) (r : list pyval) (c : string) : pyval :=
  match col_index c (columns df) with
  | Some i => nth i r VNaN
  | None => VNaN
  end.

(** The number in a cell, 0 for a missing one. *)
Definition cell_value (v : pyval) : Z :=
  match v with VNum z => z | _ => 0 end.

(** The sum of a numeric column over all rows. *)
Definition column_total (df : DataFrame) (c : string) : Z :=
  Zsum (map (fun r => cell_value (cell df r c)) (rows df)).

(** No cell of the column is text. *)
Definition clean_column (df : DataFrame) (c : string) : Prop :=
  forall r s, In r (rows df) -> cell df r c <> VStr s.

(** The table, once its columns are standardized, lacks a required column. *)
Definition lacks_required (df : DataFrame) : Prop :=
  exists c, In c required_columns /\ has_column (_standardize_columns df) c = false.

(** The frame of a processed contract. *)
Definition snapshot_frame (data : Data) : DataFrame :=
  match dict_find data "raw_data" with
  | Some (DFrame df) => df
  | _ => mkFrame [] []
  end.

(** ** The groups of the spider-web strategy *)

(** ceil(0.4 * n) *)
Definition ceil_two_fifths (n : nat) : nat := (2 * n + 4) / 5.

(** floor(0.4 * n) *)
Definition floor_two_fifths (n : nat) : nat := 2 * n / 5.

(** A row qualifies: volume present and positive, both open interests
    present. *)
Definition qualifies (il is_ iv : nat) (r : list pyval) : bool :=
  notna (nth iv r VNaN) && gt0 (nth iv r VNaN)
  && notna (nth il r VNaN) && notna (nth is_ r VNaN).

Definition stat_desc (a b : Seat) : Prop := (stat b <= stat a)%Q.

(** The rows that qualify, by the labels of their columns. *)
Definition qualifying_rows (df : DataFrame) : list (list pyval) :=
  List.filter (fun r => notna (cell df r "vol") && gt0 (cell df r "vol")
                        && notna (cell df r "long_open_interest")
                        && notna (cell df r "short_open_interest"))
              (rows df).

(** ** The watched seats of the retail-reverse strategy *)

Definition is_seat (seat : string) (v : pyval) : bool :=
  match v with VStr s => String.eqb s seat | _ => false end.

(** The sum of a numeric column over the rows that name the seat. *)
Definition seat_sum (df : DataFrame) (name_col num_col seat : string) : Z :=
  Zsum (map (fun r => if is_seat seat (cell df r name_col)
                      then cell_value (cell df r num_col) else 0)
            (rows df)).

(** The aggregated changes and positions of one watched seat. *)
Definition watched_stat (df : DataFrame) (seat : string) : SeatStat :=
  mkSeat seat
    (seat_sum df "long_party_name" "long_open_interest_chg" seat)
    (seat_sum df "short_party_name" "short_open_interest_chg" seat)
    (seat_sum df "long_party_name" "long_open_interest" seat)
    (seat_sum df "short_party_name" "short_open_interest" seat).

Definition nonzero_position (st : SeatStat) : bool :=
  negb (long_pos st =? 0) || negb (short_pos st =? 0).

(** The watched seats with their aggregated numbers, and those that remain
    once the seats without any position are discarded. *)
Definition watched_stats (retail_seats : list string) (df : DataFrame) : list SeatStat :=
  map (watched_stat df) (unique [] retail_seats).

Definition remaining_seats (retail_seats : list string) (df : DataFrame) : list SeatStat :=
  List.filter nonzero_position (watched_stats retail_seats df).

Definition retail_columns : list string :=
  ["long_party_name"; "long_open_interest"; "long_open_interest_chg";
   "short_party_name"; "short_open_interest"; "short_open_interest_chg"].

Definition retail_numeric_columns : list string :=
  ["long_open_interest"; "long_open_interest_chg";
   "short_open_interest"; "short_open_interest_chg"].

(** The six columns are there, and each of the four numeric ones is there
    once and holds no text, as in a frame that went through
    [process_position_data]. *)
Definition well_formed (df : DataFrame) : Prop :=
  (forall c, In c retail_columns -> has_column df c = true) /\
  (forall r c s, In r (rows df) -> In c retail_numeric_columns ->
                 cell df r c <> VStr s) /\
  (forall c, In c retail_numeric_columns -> count_label c (columns df) = 1%nat).

(** Each of the two party-name labels is carried by one column. *)
Definition party_labels_once (df : DataFrame) : Prop :=
  count_label "long_party_name" (columns df) = 1%nat /\
  count_label "short_party_name" (columns df) = 1%nat.

(** A watched seat is kept when its long or its short position is above 0. *)
Definition positive_position (st : SeatStat) : bool :=
  (0 <? long_pos st) || (0 <? short_pos st).

Definition kept_seats (retail_seats : list string) (df : DataFrame) : list SeatStat :=
  List.filter positive_position (watched_stats retail_seats df).

(** Open interest is a count: no cell of the two columns is negative. *)
Definition nonneg_positions (df : DataFrame) : Prop :=
  forall r, In r (rows df) ->
            0 <= cell_value (cell df r "long_open_interest") /\
            0 <= cell_value (cell df r "short_open_interest").

(** The entries of the seat statistics: distinct keys, the watched seats,
    each entry under its own name. *)
Definition seat_table (retail_seats : list string) (stats : list (string * SeatStat)) : Prop :=
  List.NoDup (map fst stats) /\
  (forall n, In n (map fst stats) <-> In n retail_seats) /\
  (forall e, In e stats -> seat_name (snd e) = fst e).

(** What one row adds to the statistics of a seat. *)
Definition long_added (df : DataFrame) (r : list pyval) (st : SeatStat) : SeatStat :=
  mkSeat (seat_name st)
         (long_chg st + cell_value (cell df r "long_open_interest_chg"))
         (short_chg st)
         (long_pos st + cell_value (cell df r "long_open_interest"))
         (short_pos st).

Definition short_added (df : DataFrame) (r : list pyval) (st : SeatStat) : SeatStat :=
  mkSeat (seat_name st)
         (long_chg st)
         (short_chg st + cell_value (cell df r "short_open_interest_chg"))
         (long_pos st)
         (short_pos st + cell_value (cell df r "short_open_interest")).

Definition contribute (df : DataFrame) (st : SeatStat) (r : list pyval) : SeatStat :=
  let st1 := if is_seat (seat_name st) (cell df r "long_party_name")
             then long_added df r st else st in
  if is_seat (seat_name st1) (cell df r "short_party_name")
  then short_added df r st1 else st1.

(** ** Term structure and contract months *)

(** Every price stands in relation [R] to the next one. *)
Fixpoint adjacent (R : Q -> Q -> Prop) (prices : list Q) : Prop :=
  match prices with
  | a :: ((b :: _) as rest) => R a b /\ adjacent R rest
  | _ => True
  end.

Definition strictly_decreasing (prices : list Q) : Prop :=
  adjacent (fun a b => (b < a)%Q) prices.

Definition strictly_increasing (prices : list Q) : Prop :=
  adjacent (fun a b => (a < b)%Q) prices.

Definition four (d1 d2 d3 d4 : ascii) : string :=
  String d1 (String d2 (String d3 (String d4 ""))).

(** The text ends with four decimal digits. *)
Definition ends_with_4_digits (s : string) : Prop :=
  exists p d1 d2 d3 d4,
    s = p +:+ four d1 d2 d3 d4 /\
    is_digit d1 = true /\ is_digit d2 = true /\
    is_digit d3 = true /\ is_digit d4 = true.

(** A two-digit year below 50 is in the 2000s, another one in the 1900s. *)
Definition mapped_year (yy : Z) : Z := if yy <? 50 then 2000 + yy else 1900 + yy.

Definition month_key_le (a b : PriceRow) : Prop :=
  extract_month_info (symbol a) <= extract_month_info (symbol b).

(** ** Resonance *)

Definition count_of (symbol_count : list (string * ResonanceInfo)) (symbol : string) : nat :=
  match dict_find symbol_count symbol with
  | Some info => count info
  | None => 0
  end.

(** The number of signals among the first ten whose symbol is [symbol]. *)
Definition top10_hits (symbol : string) (signals : list SignalEntry) : nat :=
  length (List.filter (fun e => String.eqb symbol (extract_symbol (e_contract e)))
                 (firstn 10 signals)).

(** ** Acquisition *)

(** A callback that returns on every report. *)
Definition quiet (cb : Callback) : Prop :=
  forall msg fraction, report cb msg fraction = Ok tt.

(** The source of an exchange returned a non-empty dataset and the workbook
    was written. *)
Definition produced_and_persisted (env : Env) (trade_date : string)
    (exchange : string * string) : bool :=
  match position_source env (fst exchange) trade_date with
  | FetchReturns (sheet :: sheets) =>
      match excel_write env (snd exchange) (clean_book (sheet :: sheets)) with
      | Written => true
      | WriteRaises _ _ => false
      end
  | _ => false
  end.

(** The acquisition of the mode in use. *)
Definition acquire_positions (env : Env) (trade_date : string) (cb : Callback) : IO bool :=
  if fast_import env then fetch_position_data_fast env trade_date cb
  else fetch_position_data env trade_date cb.

Definition acquire_prices (env : Env) (trade_date : string) (cb : Callback)
  : IO (list PriceRow) :=
  if fast_import env then fetch_price_data_fast env trade_date cb
  else fetch_price_data env trade_date cb.

(** The data directory after the exchanges were fetched and saved in turn. *)
Definition saves (env : Env) (trade_date : string) (exchanges : list (string * string))
    (w : World) : World :=
  fold_left (fun w e => snd (fetch_and_save env trade_date (fst e) (snd e) w)) exchanges w.

(** The dataset a call of a source gives the code: None when it raises. *)
Definition source_dataset (o : FetchOutcome) : option Workbook :=
  match o with
  | FetchReturns data_dict => Some data_dict
  | FetchRaises _ => None
  end.

(** The Guangzhou function is asked up to three times: the first call that
    returns decides. *)
Definition gfex_dataset (env : Env) (trade_date : string) : option Workbook :=
  match position_source env "广期所" trade_date with
  | FetchReturns data_dict => Some data_dict
  | FetchRaises _ =>
      match position_retry env "广期所" trade_date 1 with
      | FetchReturns data_dict => Some data_dict
      | FetchRaises _ => source_dataset (position_retry env "广期所" trade_date 2)
      end
  end.

(** The dataset that the task of an exchange works on in the pooled mode:
    what the store of [cached_data_fetch] holds for the function and the
    date when that is less than an hour old; otherwise nothing where
    akshare is missing or the platform has SIGALRM, and the answer of the
    function elsewhere. *)
Definition pooled_dataset (env : Env) (trade_date : string) (w : World)
    (exchange : string * (string * string)) : option Workbook :=
  match memo_fresh (book_memo w) (clock env) (fst (snd exchange), trade_date, None) with
  | Some stored => stored
  | None =>
      if negb (akshare_importable env) || sigalrm env then None
      else if String.eqb (fst exchange) "广期所" then gfex_dataset env trade_date
      else source_dataset (position_source env (fst exchange) trade_date)
  end.

(** The task of the exchange got a non-empty dataset and the workbook was
    written. *)
Definition pooled_produced (env : Env) (trade_date : string) (w : World)
    (exchange : string * (string * string)) : bool :=
  match pooled_dataset env trade_date w exchange with
  | Some (sheet :: sheets) =>
      match excel_write env (snd (snd exchange)) (clean_book (sheet :: sheets)) with
      | Written => true
      | WriteRaises _ _ => false
      end
  | _ => false
  end.

(** The task of the exchange gets no dataset, or an empty one. *)
Definition task_gets_nothing (env : Env) (trade_date : string) (w : World)
    (exchange : string * (string * string)) : Prop :=
  match pooled_dataset env trade_date w exchange with
  | Some (_ :: _) => False
  | _ => True
  end.

(** At least one exchange produced and persisted data, in the mode in use. *)
Definition acquired (env : Env) (trade_date : string) (w : World) : bool :=
  if fast_import env
  then existsb (pooled_produced env trade_date w) fast_exchange_config
  else existsb (produced_and_persisted env trade_date) exchange_config.

(** What [cached_data_fetch] hands to the task of an exchange. *)
Definition task_dataset (env : Env) (trade_date : string) (w : World)
    (func_name : string) : option Workbook :=
  match fst (fst (cached_data_fetch (position_network env) (akshare_importable env)
                                    (sigalrm env) false (fun _ => false) (clock env)
                                    (book_memo w) func_name trade_date None)) with
  | Ok data_dict => data_dict
  | Raise _ => None
  end.

(** The answer of the task of an exchange. *)
Definition answered (answers : list (string * bool)) (name : string) : bool :=
  match dict_find answers name with
  | Some b => b
  | None => false
  end.

(** ** Coerced frames *)


(** A numeric cell after coercion: a number or NaN. *)
Definition number_or_nan (v : pyval) : Prop :=
  match v with VNum _ | VNaN => True | _ => False end.

(** [df] is [src] with the cells of the columns [cs] coerced to numbers:
    same labels, the rows in the same order, every other cell as it was. *)
Definition coerced_from (cs : list string) (src df : DataFrame) : Prop :=
  columns df = columns src /\
  Forall2 (fun r' r =>
             forall c, cell df r' c
                       = if existsb (String.eqb c) cs
                         then coerce_cell (cell src r c) else cell src r c)
          (rows df) (rows src).


(** The signals of the symbol among the first ten of every strategy, added
    over the strategies; [side] selects the Long or the Short list. *)
Definition top10_total (side : StrategySignals -> list SignalEntry)
    (strategy_signals : list (string * StrategySignals)) (symbol : string) : nat :=
  list_sum (map (fun e => top10_hits symbol (side (snd e))) strategy_signals).

(** A table of counts is consistent: every symbol once, as many strategy
    names and contracts listed as signals counted, the contracts those of
    the symbol, the strategy names among [names]. *)
Definition consistent_counts (names : list string)
    (table : list (string * ResonanceInfo)) : Prop :=
  List.NoDup (map fst table) /\
  forall symbol info,
    In (symbol, info) table ->
    length (res_strategies info) = count info /\
    length (res_contracts info) = count info /\
    (forall c, In c (res_contracts info) -> extract_symbol c = symbol) /\
    (forall s, In s (res_strategies info) -> In s names).

(** One side of the resonance: the symbols counted at least twice. *)
Definition counts_top10 (side : StrategySignals -> list SignalEntry)
    (strategy_signals : list (string * StrategySignals))
    (table : list (string * ResonanceInfo)) : Prop :=
  consistent_counts (map fst strategy_signals) table /\
  forall symbol,
    (In symbol (map fst table) <-> (2 <= top10_total side strategy_signals symbol)%nat) /\
    (forall info, In (symbol, info) table ->
                  count info = top10_total side strategy_signals symbol).

(** ** The summary *)

(** [e] is the signal of a contract of the results for which the strategy
    [name] answered [direction], with the strength and rationale of that
    answer. *)
Definition listed (name direction : string)
    (position_results : list (string * ContractResult)) (e : SignalEntry) : Prop :=
  exists entry sd,
    dict_find position_results (e_contract e) = Some entry /\
    dict_find (strategies entry) name = Some sd /\
    sr_signal sd = direction /\
    e_strength e = sr_strength sd /\
    e_reason e = sr_reason sd.

(** The contracts of the results for which the strategy answered
    [direction]. *)
Definition answers_of (name direction : string)
    (position_results : list (string * ContractResult)) : list string :=
  map fst
      (List.filter (fun e => match dict_find (strategies (snd e)) name with
                             | Some sd => String.eqb (sr_signal sd) direction
                             | None => false
                             end)
                   position_results).

Definition strength_desc (a b : SignalEntry) : Prop := (e_strength b <= e_strength a)%Q.

(** ** The results of the term-structure analysis *)

(** The rows of a variety that carry a close above 0. *)
Definition priced_rows (price_data : list PriceRow) (v : string) : list PriceRow :=
  List.filter (fun r => String.eqb (variety r) v && valid_close r) price_data.

Definition variety_of (entry : string * string * list string * list Q) : string :=
  fst (fst (fst entry)).

(** ** Symbols *)

(** The letters of a text, in order. *)
Fixpoint letters (s : string) : string :=
  match s with
  | EmptyString => EmptyString
  | String c s' => if is_alpha c then String c (letters s') else letters s'
  end.

(** The text in upper case. *)
Fixpoint upper (s : string) : string :=
  match s with
  | EmptyString => EmptyString
  | String c s' => String (to_upper c) (upper s')
  end.

(** Every character is an ASCII one (below 128), so that the ASCII tests
    are those of the text. *)
Definition ascii_only (s : string) : Prop :=
  forallb (fun c => (nat_of_ascii c <? 128)%nat) (list_ascii_of_string s) = true.

Definition no_underscore (s : string) : Prop :=
  forallb (fun c => negb (Ascii.eqb c "_")) (list_ascii_of_string s) = true.

Definition all_upper (s : string) : Prop :=
  forallb is_upper (list_ascii_of_string s) = true.

(** The classification of the same prices read from the far to the near
    contract. *)
Definition mirrored (structure : string) : string :=
  if String.eqb structure "back" then "contango"
  else if String.eqb structure "contango" then "back"
  else structure.

(** ** Prices *)

(** What one exchange contributes to the price table: the rows of its
    answer, each tagged with the name of the exchange; nothing when its
    source raises. *)
Definition contribution (env : Env) (trade_date : string) (exchange : string * string)
  : list PriceRow :=
  match price_source env (fst exchange) trade_date with
  | PriceReturns df => map (tag_exchange (snd exchange)) df
  | PriceRaises _ => []
  end.

Definition merged_prices (env : Env) (trade_date : string)
    (exchanges : list (string * string)) : list PriceRow :=
  flat_map (contribution env trade_date) exchanges.

(** The table that the task of a market works on in the pooled mode: what
    the store of [cached_data_fetch] holds for the date and the market when
    that is less than an hour old; otherwise nothing where akshare is
    missing or the platform has SIGALRM, and the answer of the price
    function elsewhere. *)
Definition pooled_table (env : Env) (trade_date : string) (w : World) (market : string)
  : option (list PriceRow) :=
  match memo_fresh (price_memo w) (clock env)
                   ("get_futures_daily"%string, trade_date, Some market) with
  | Some stored => stored
  | None =>
      if negb (akshare_importable env) || sigalrm env then None
      else match market with
           | EmptyString => None
           | String _ _ =>
               match price_source env market trade_date with
               | PriceReturns df => Some df
               | PriceRaises _ => None
               end
           end
  end.

Definition pooled_contribution (env : Env) (trade_date : string) (w : World)
    (exchange : string * string) : list PriceRow :=
  match pooled_table env trade_date w (fst exchange) with
  | Some df => map (tag_exchange (snd exchange)) df
  | None => []
  end.

Definition pooled_prices (env : Env) (trade_date : string) (w : World)
    (exchanges : list (string * string)) : list PriceRow :=
  flat_map (pooled_contribution env trade_date w) exchanges.

(** The table a finished task gives to the loop, by the market. *)
Definition loop_table (answers : list (string * result (option (list PriceRow))))
    (market : string) : option (list PriceRow) :=
  match dict_find answers market with
  | Some (Ok df) => df
  | _ => None
  end.

(** The store holds no table of the date that is less than an hour old. *)
Definition no_fresh_table (env : Env) (trade_date : string) (w : World) : Prop :=
  forall market,
    memo_fresh (price_memo w) (clock env)
               ("get_futures_daily"%string, trade_date, Some market) = None.

(** The cache has nothing to serve for the key of this call. *)
Definition cache_miss (env : Env) (w : World) : Prop :=
  fst (load_from_cache (cache_dir w) (clock env) (price_cache_key env)) = None.

(** ** Positions *)

(** The exchanges of the standard loop whose progress report returns; [i]
    is the position of the first one. *)
Fixpoint reported (cb : Callback) (total i : nat) (exchanges : list (string * string))
  : list (string * string) :=
  match exchanges with
  | [] => []
  | (exchange_name, filename) :: rest =>
      match report cb ("正在获取" +:+ exchange_name +:+ "数据...") (fetch_progress i total) with
      | Ok _ => (exchange_name, filename) :: reported cb total (S i) rest
      | Raise _ => reported cb total (S i) rest
      end
  end.

(** The sheets of the files that are present, keyed by exchange and sheet
    name, in configuration order. *)
Definition sheets_on_disk (w : World) (exchanges : list (string * string))
  : list (string * DataFrame) :=
  flat_map (fun '(exchange_name, filename) =>
              match data_dir w !! filename with
              | Some book =>
                  map (fun '(sheet_name, df) =>
                         (exchange_name +:+ "_" +:+ sheet_name, df)) book
              | None => []
              end)
           exchanges.

(** The sheet names of every file present are distinct, as in a workbook. *)
Definition distinct_sheets (w : World) : Prop :=
  forall filename book,
    data_dir w !! filename = Some book -> List.NoDup (map fst book).

(** The source of the exchange gives nothing to save: it raises or returns
    an empty dataset. *)
Definition source_fails (env : Env) (trade_date exchange_name : string) : Prop :=
  match position_source env exchange_name trade_date with
  | FetchRaises _ | FetchReturns [] => True
  | FetchReturns (_ :: _) => False
  end.

(** ** Retries *)

(** The number of calls and the seconds slept in a log. *)
Definition calls (log : list Event) : nat :=
  length (List.filter (fun e => match e with Called => true | Slept _ => false end) log).

Definition slept (log : list Event) : Z :=
  Zsum (map (fun e => match e with Called => 0 | Slept s => s end) log).

(** The call returned a value other than None. *)
Definition gives {V : Type} (a : Answer V) (v : V) : Prop := a = Returned (Some v).

Definition gives_nothing {V : Type} (a : Answer V) : Prop :=
  forall v, a <> Returned (Some v).

Definition fails {V : Type} (a : Answer V) : Prop := exists msg, a = Failed msg.

(** The seconds slept after a call that raised, by the message of the
    exception: 5 when it names a timeout, otherwise 10 when it names a rate
    limit, in any letter case. *)
Definition pause_after (msg : string) : Z :=
  if contains "timeout" (lower msg) then 5
  else if contains "rate limit" (lower msg) then 10
  else 0.

Definition pause_of {V : Type} (a : Answer V) : Z :=
  match a with
  | Failed msg => pause_after msg
  | Returned _ => 0
  end.

(** What a call gives the code that catches its exception. *)
Definition value_of {V : Type} (a : Answer V) : option V :=
  match a with
  | Returned v => v
  | Failed _ => None
  end.

(** ** The shared configuration *)

(** The dictionary at [config] has the sections timeouts and concurrency,
    which are dictionaries of their own. *)
Definition has_both_sections (h : list (list (string * entry))) (config : nat) : Prop :=
  exists sections t c st sc,
    h !! config = Some sections /\
    dict_find sections "timeouts" = Some (Ref t) /\ h !! t = Some st /\
    dict_find sections "concurrency" = Some (Ref c) /\ h !! c = Some sc /\
    t <> config /\ c <> config.

(** Two dictionaries have the same entries: they hold the same references. *)
Definition same_sections (h : list (list (string * entry))) (a b : nat) : Prop :=
  exists sections, h !! a = Some sections /\ h !! b = Some sections.

(** ** The contracts of the results *)

(** [process_position_data] accepts the table of the contract. *)
Definition accepted (item : string * DataFrame) : bool :=
  match process_position_data (snd item) with
  | Some _ => true
  | None => false
  end.

(** ** The cloud fetcher *)

(** One of the three attempts gave a dataset that is not empty, no earlier
    attempt gave a value, and the workbook was written. *)
Definition cloud_produced (cenv : CloudEnv) (trade_date : string)
    (exchange : string * string) : Prop :=
  exists k sheet sheets,
    (k < 3)%nat /\
    gives (cloud_answers cenv (fst exchange) trade_date k) (sheet :: sheets) /\
    (forall j, (j < k)%nat -> gives_nothing (cloud_answers cenv (fst exchange) trade_date j)) /\
    cloud_write cenv (snd exchange) (clean_book (sheet :: sheets)) = Written.

(** The data directory after the exchanges were fetched and saved in turn
    by the cloud fetcher. *)
Definition cloud_saves (cenv : CloudEnv) (trade_date : string)
    (exchanges : list (string * string)) (w : World) : World :=
  fold_left (fun w e => snd (cloud_fetch_and_save cenv trade_date (fst e) (snd e) w))
            exchanges w.

(** * Example data *)

Definition canonical_columns : list string :=
  ["long_party_name"; "long_open_interest"; "long_open_interest_chg";
   "short_party_name"; "short_open_interest"; "short_open_interest_chg"; "vol"].

(** A row: long party, its open interest and change, short party, its open
    interest and change, volume. *)
Definition position_row (ln : string) (l lc : Z) (sn : string) (s sc v : Z) : list pyval :=
  [VStr ln; VNum l; VNum lc; VStr sn; VNum s; VNum sc; VNum v].

(** The seats of the retail example of the specification: A has its shorts
    up by 200 and its longs unchanged, B its shorts up by 150 and its longs
    down by 50; C and D are not watched. *)
Definition full_sheet : DataFrame :=
  mkFrame canonical_columns
    [position_row "A" 100 0 "B" 300 150 400;
     position_row "B" 200 (-50) "A" 500 200 600;
     position_row "C" 900 10 "D" 1000 20 700].

(** What [process_position_data] makes of it. *)
Definition retail_example : Data :=
  [("total_long", DScalar (VNum 1200)); ("total_short", DScalar (VNum 1800));
   ("total_long_chg", DScalar (VNum (-40))); ("total_short_chg", DScalar (VNum 370));
   ("raw_data", DFrame full_sheet)].

(** A sheet without the volume column. *)
Definition sheet_without_vol : DataFrame :=
  mkFrame ["long_party_name"; "long_open_interest"; "long_open_interest_chg";
           "short_party_name"; "short_open_interest"; "short_open_interest_chg"]
    [[VStr "A"; VNum 100; VNum 0; VStr "B"; VNum 300; VNum 150]].

Definition two_sheets : list (string * DataFrame) :=
  [("大商所_m2501", full_sheet); ("大商所_m2505", sheet_without_vol)].

(** A processed contract without its frame and with a total that is None. *)
Definition totals_only : Data :=
  [("total_long_chg", DScalar (VNum 500)); ("total_short_chg", DScalar VNone)].

(** The power-change example of the specification: 500 and -300. *)
Definition power_example : Data :=
  [("total_long", DScalar (VNum 9000)); ("total_short", DScalar (VNum 8000));
   ("total_long_chg", DScalar (VNum 500)); ("total_short_chg", DScalar (VNum (-300)));
   ("raw_data", DFrame (mkFrame [] []))].

(** Six seats, listed out of order.  By (long + short) / volume the sorted
    order is the seats of volume 100, 125, 200, 250, 500, 1000. *)
Definition six_seats_frame : DataFrame :=
  mkFrame canonical_columns
    [position_row "S4" 500 0 "T4" 500 0 250;
     position_row "S1" 900 0 "T1" 100 0 100;
     position_row "S6" 500 0 "T6" 500 0 1000;
     position_row "S3" 100 0 "T3" 900 0 200;
     position_row "S2" 550 0 "T2" 450 0 125;
     position_row "S5" 500 0 "T5" 500 0 500].

Definition six_seats : list Seat :=
  [mkValid 500 500 250; mkValid 900 100 100; mkValid 500 500 1000;
   mkValid 100 900 200; mkValid 550 450 125; mkValid 500 500 500].

Definition six_data : Data := [("raw_data", DFrame six_seats_frame)].

(** One strategy, two Long signals on two contracts of the same variety. *)
Definition one_strategy_two_contracts : list (string * StrategySignals) :=
  [(POWER_CHANGE,
    mkSignals [mkEntry "大商所_m2501" 800 (PowerLong (Fin 500) (Fin (-300)));
               mkEntry "大商所_m2505" 500 (PowerLong (Fin 300) (Fin (-200)))]
              [])].

(** Two contracts of the variety M on which only power change gives a
    signal: longs up, shorts down. *)
Definition rising_sheet (up down : Z) : DataFrame :=
  mkFrame canonical_columns [position_row "X" 1000 up "Y" 900 (- down) 400].

Definition two_rising_contracts : list (string * DataFrame) :=
  [("大商所_m2501", rising_sheet 500 300); ("大商所_m2505", rising_sheet 300 200)].

(** A quote of the variety M. *)
Definition quote (s : string) (c : Q) : PriceRow := mkPrice s "M" (Some c) "DCE".

(** A cache holding one entry written at time 0. *)
Definition old_cache : gmap string (CacheFile Z) :=
  save_to_cache ∅ 0 "k" 7.

(** One exchange answers, the four others fail; the price service is down.
    The optimizer module is not there, the platform has SIGALRM. *)
Definition one_source_env : Env :=
  mkEnv false true true
        (fun exchange_name _ =>
           if String.eqb exchange_name "大商所"
           then FetchReturns [("m2501", full_sheet)]
           else FetchRaises (ValueError "source unavailable"))
        (fun exchange_name _ _ =>
           if String.eqb exchange_name "大商所"
           then FetchReturns [("m2501", full_sheet)]
           else FetchRaises (ValueError "source unavailable"))
        (fun _ _ => Written)
        (fun _ _ => PriceRaises (ValueError "source unavailable"))
        (map fst exchange_config)
        price_exchanges
        "prices"
        0.

Definition empty_world : World := mkWorld ∅ ∅ ∅ ∅.

(** A progress callback that fails on the report that precedes the summary. *)
Definition failing_callback : Callback :=
  Some (fun msg _ =>
          if String.eqb msg "生成分析总结..."
          then Raise (ValueError "progress sink closed")
          else Ok tt).

(** A progress callback that fails on the last report of the acquisition. *)
Definition last_report_fails : Callback :=
  Some (fun msg _ =>
          if String.eqb msg "持仓数据获取完成"
          then Raise (ValueError "progress sink closed")
          else Ok tt).

(** A sheet as a source may deliver it: counts as text with thousands
    separators, a decimal point or an exponent, a missing cell, a dash where
    there is no figure. *)
Definition text_sheet : DataFrame :=
  mkFrame canonical_columns
    [[VStr "A"; VStr "1,200.0"; VStr "-50"; VStr "B"; VStr "3 000"; VNum 150; VNum 400];
     [VStr "B"; VNone; VStr "-"; VStr "A"; VStr "500.00"; VStr "nan"; VStr "6e2"]].

(** A watched seat whose long position adds up to -5, with its shorts up. *)
Definition negative_sheet : DataFrame :=
  mkFrame canonical_columns [position_row "A" (-5) 0 "A" 0 10 100].

(** A watched seat with 10 lots long and its shorts up, in a table whose
    positions add up to -20. *)
Definition negative_total_sheet : DataFrame :=
  mkFrame canonical_columns
    [position_row "A" 10 0 "C" (-30) 0 100;
     position_row "D" 0 0 "A" 0 5 100].

(** A table with the labels of the Zhengzhou exchange that already has a
    column long_party_name: after the renaming two columns carry it. *)
Definition czce_sheet_with_name : DataFrame :=
  mkFrame ["long_party_name"; "g_party_n"; "open_inten"; "inten_intert";
           "t_party_n"; "open_inten.1"; "inten_intert.1"; "vol"]
    [[VStr "A"; VStr "A"; VNum 100; VNum 10; VStr "B"; VNum 300; VNum (-20); VNum 400]].

(** A table with the labels of the Zhengzhou exchange and a rank column. *)
Definition czce_sheet : DataFrame :=
  mkFrame ["rank"; "g_party_n"; "open_inten"; "inten_intert";
           "t_party_n"; "open_inten.1"; "inten_intert.1"; "vol"]
    [[VNum 1; VStr "A"; VNum 100; VNum 10; VStr "B"; VNum 300; VNum (-20); VNum 400]].

(** The same table with a column that already carries a standard label:
    after the renaming two columns are called long_open_interest. *)
Definition czce_sheet_twice : DataFrame :=
  mkFrame ["long_open_interest"; "g_party_n"; "open_inten"; "inten_intert";
           "t_party_n"; "open_inten.1"; "inten_intert.1"; "vol"]
    [[VNum 1; VStr "A"; VNum 100; VNum 10; VStr "B"; VNum 300; VNum (-20); VNum 400]].

(** The price service answers for every market with one quote; the
    optimizer module is there, on a platform without SIGALRM. *)
Definition price_service_up : Env :=
  mkEnv true true false
        (fun _ _ => FetchRaises (ValueError "source unavailable"))
        (fun _ _ _ => FetchRaises (ValueError "source unavailable"))
        (fun _ _ => Written)
        (fun market _ => PriceReturns [quote "m2501" 3000])
        (map fst exchange_config)
        price_exchanges
        "prices"
        3600.

(** The same service and module on a platform with SIGALRM. *)
Definition price_service_posix : Env :=
  mkEnv true true true
        (fun _ _ => FetchRaises (ValueError "source unavailable"))
        (fun _ _ _ => FetchRaises (ValueError "source unavailable"))
        (fun _ _ => Written)
        (fun market _ => PriceReturns [quote "m2501" 3000])
        (map fst exchange_config)
        price_exchanges
        "prices"
        3600.

(** The same service at time 0, on a platform with SIGALRM. *)
Definition price_service_earlier : Env :=
  mkEnv true true true
        (fun _ _ => FetchRaises (ValueError "source unavailable"))
        (fun _ _ _ => FetchRaises (ValueError "source unavailable"))
        (fun _ _ => Written)
        (fun market _ => PriceReturns [quote "m2501" 3000])
        (map fst exchange_config)
        price_exchanges
        "prices"
        0.

(** A callback that fails on the report of the Dalian exchange. *)
Definition callback_failing_on_dce : Callback :=
  Some (fun msg _ =>
          if String.eqb msg "正在获取大商所数据..."
          then Raise (ValueError "progress sink closed")
          else Ok tt).

(** A data directory that holds a Shanghai workbook of an earlier day. *)
Definition world_with_old_file : World :=
  mkWorld {[ "上期所持仓.xlsx" := [("cu2501", full_sheet)] ]} ∅ ∅ ∅.

(** A machine of the developer: none of the cloud variables is set. *)
Definition local_machine : string -> option string := fun _ => None.

(** The cloud: the host name is one of streamlit.io. *)
Definition streamlit_cloud : string -> option string :=
  fun name => if String.eqb name "HOSTNAME" then Some "app.streamlit.io" else None.

(** Stand-ins for the digest and the two renderings in the example of the
    cache key. *)
Definition plain_digest (s : string) : string := s.

Definition plain_args (args : list string) : string :=
  "(" +:+ String.concat ", " args +:+ ")".

Definition plain_items (items : list (string * string)) : string :=
  "[" +:+ String.concat ", " (map (fun '(k, v) => k +:+ "=" +:+ v) items) +:+ "]".

(** The Dalian source answers at the third attempt, the others never. *)
Definition slow_cloud : CloudEnv :=
  mkCloud true
          (fun exchange_name _ k =>
             if String.eqb exchange_name "大商所" && (k =? 2)%nat
             then Returned (Some [("m2501"%string, full_sheet)])
             else Failed "Read timeout")
          (fun _ _ => Written).

(** A callback that fails on the report of the first exchange, in the
    wording of either fetcher. *)
Definition first_report_fails : Callback :=
  Some (fun msg _ =>
          if String.eqb msg "正在获取大商所数据..." || String.eqb msg "正在获取 大商所 数据..."
          then Raise (ValueError "progress sink closed")
          else Ok tt).

(** * Properties *)

(** ** The [result] monad *)

Lemma bind_ok {A B : Type} (c : result A) (k : A -> result B) (b : B) :
  bind c k = Ok b -> exists a, c = Ok a /\ k a = Ok b.
Proof. destruct c as [a|e]; simpl; [eauto | discriminate]. Qed.

Lemma bind_assoc {A B C : Type} (c : result A) (f : A -> result B) (g : B -> result C) :
  bind (bind c f) g = bind c (fun a => bind (f a) g).
Proof. now destruct c. Qed.

Lemma mapM_length {A B : Type} (f : A -> result B) (l : list A) (l' : list B) :
  mapM f l = Ok l' -> length l' = length l.
Proof.
  revert l'. induction l as [|a l IH]; simpl; intros l' H.
  - injection H as <-. reflexivity.
  - apply bind_ok in H as (b & _ & H). apply bind_ok in H as (bs & Hbs & H).
    injection H as <-. simpl. f_equal. auto.
Qed.

(** ** Insertion sort *)

Section Sorting.
Context {A : Type} (le : A -> A -> bool).

Lemma insert_sorted_perm (x : A) (l : list A) :
  Permutation (insert_sorted le x l) (x :: l).
Proof.
  induction l as [|y l IH]; simpl; [reflexivity|].
  destruct (le x y); [reflexivity|].
  rewrite IH. apply perm_swap.
Qed.

Lemma isort_perm (l : list A) : Permutation (isort le l) l.
Proof.
  induction l as [|x l IH]; simpl; [reflexivity|].
  rewrite insert_sorted_perm. now constructor.
Qed.

Lemma isort_length (l : list A) : length (isort le l) = length l.
Proof. apply Permutation_length, isort_perm. Qed.

Hypothesis le_total : forall a b, le a b = true \/ le b a = true.
Hypothesis le_trans : forall a b c, le a b = true -> le b c = true -> le a c = true.

Lemma insert_sorted_sorted (x : A) (l : list A) :
  StronglySorted (fun a b => le a b = true) l ->
  StronglySorted (fun a b => le a b = true) (insert_sorted le x l).
Proof.
  induction 1 as [|y l Hs IH Hy]; simpl.
  - repeat constructor.
  - destruct (le x y) eqn:Hxy.
    + constructor; [now constructor|].
      constructor; [assumption|].
      rewrite Forall_forall in *. eauto.
    + constructor; [assumption|].
      apply (Permutation_Forall (Permutation_sym (insert_sorted_perm x l))).
      constructor; [|assumption].
      destruct (le_total x y); congruence.
Qed.

Lemma isort_sorted (l : list A) :
  StronglySorted (fun a b => le a b = true) (isort le l).
Proof.
  induction l; simpl; [constructor | now apply insert_sorted_sorted].
Qed.
End Sorting.

(** ** The strategies return one of four directions *)

Ltac bind_inv H :=
  repeat match type of H with
         | bind _ _ = Ok _ =>
             let a := fresh "a" in
             let Ha := fresh "Ha" in
             apply bind_ok in H as (a & Ha & H)
         end.

Lemma directional_valid (s : string) : directional s -> valid_signal s.
Proof. unfold directional, valid_signal. tauto. Qed.

Lemma directional_not_error (s : string) : directional s -> s <> ERROR.
Proof. intros [-> | [-> | ->]]; discriminate. Qed.

Lemma power_change_body_signal (data : Data) r :
  power_change_body data = Ok r -> directional (signal_of r).
Proof.
  unfold power_change_body, directional. intros H. bind_inv H.
  repeat match type of H with
         | (if ?c then _ else _) = _ => destruct c
         end; injection H as <-; simpl; auto.
Qed.

Lemma spider_web_body_signal (data : Data) r :
  spider_web_body data = Ok r -> directional (signal_of r).
Proof.
  unfold spider_web_body, directional. intros H.
  apply bind_ok in H as (v & _ & H). apply bind_ok in H as (df & _ & H).
  apply bind_ok in H as (vs & _ & H).
  destruct vs as [valid [[il is_] iv]].
  destruct (length valid <? 5)%nat.
  { injection H as <-; simpl; auto. }
  apply bind_ok in H as (seats & _ & H). apply bind_ok in H as (u & _ & H).
  destruct (spider_split seats) as [its uts].
  destruct (group_values its), (group_values uts);
    try (injection H as <-; simpl; now auto).
  repeat match type of H with
         | (if ?c then _ else _) = _ => destruct c
         end; injection H as <-; simpl; auto.
Qed.

Lemma retail_reverse_body_signal (retail_seats : list string) (data : Data) r :
  retail_reverse_body retail_seats data = Ok r -> directional (retail_signal r).
Proof.
  unfold retail_reverse_body, directional. intros H.
  apply bind_ok in H as (v & _ & H). apply bind_ok in H as (df & _ & H).
  apply bind_ok in H as (seat_stats & _ & H).
  destruct (List.filter has_position (map snd seat_stats)) as [|st active].
  { injection H as <-; simpl; auto. }
  bind_inv H.
  repeat match type of H with
         | (if ?c then _ else _) = _ => destruct c
         | match ?c with [] => _ | _ :: _ => _ end = _ => destruct c
         end; injection H as <-; simpl; auto.
Qed.

(** C8. Each of the three strategy functions returns on every input and never
    passes an exception to its caller; the direction it returns is one of
    the four values Long, Short, Neutral, Error; when the computation raises,
    the answer is the Error direction with the text of the exception as its
    rationale and strength 0, and otherwise it is the computed answer, whose
    direction is not Error. *)
Theorem strategies_never_raise (retail_seats : list string) (data : Data) :
  (valid_signal (signal_of (analyze_power_change data)) /\
   ((exists r, power_change_body data = Ok r /\
               analyze_power_change data = r /\ directional (signal_of r)) \/
    (exists e, power_change_body data = Raise e /\
               analyze_power_change data = (ERROR, DataError (exn_str e), 0%Q)))) /\
  (valid_signal (signal_of (analyze_spider_web data)) /\
   ((exists r, spider_web_body data = Ok r /\
               analyze_spider_web data = r /\ directional (signal_of r)) \/
    (exists e, spider_web_body data = Raise e /\
               analyze_spider_web data = (ERROR, DataError (exn_str e), 0%Q)))) /\
  (valid_signal (retail_signal (analyze_retail_reverse retail_seats data)) /\
   ((exists r, retail_reverse_body retail_seats data = Ok r /\
               analyze_retail_reverse retail_seats data = r /\
               directional (retail_signal r)) \/
    (exists e, retail_reverse_body retail_seats data = Raise e /\
               analyze_retail_reverse retail_seats data
               = (ERROR, DataError (exn_str e), 0%Q, [])))).
Proof.
  repeat split.
  - unfold analyze_power_change.
    destruct (power_change_body data) as [r|e] eqn:E.
    + apply directional_valid. eapply power_change_body_signal; eauto.
    + right; right; right. reflexivity.
  - unfold analyze_power_change.
    destruct (power_change_body data) as [r|e] eqn:E.
    + left. exists r. repeat split. eapply power_change_body_signal; eauto.
    + right. exists e. split; reflexivity.
  - unfold analyze_spider_web.
    destruct (spider_web_body data) as [r|e] eqn:E.
    + apply directional_valid. eapply spider_web_body_signal; eauto.
    + right; right; right. reflexivity.
  - unfold analyze_spider_web.
    destruct (spider_web_body data) as [r|e] eqn:E.
    + left. exists r. repeat split. eapply spider_web_body_signal; eauto.
    + right. exists e. split; reflexivity.
  - unfold analyze_retail_reverse.
    destruct (retail_reverse_body retail_seats data) as [r|e] eqn:E.
    + apply directional_valid. eapply retail_reverse_body_signal; eauto.
    + right; right; right. reflexivity.
  - unfold analyze_retail_reverse.
    destruct (retail_reverse_body retail_seats data) as [r|e] eqn:E.
    + left. exists r. repeat split. eapply retail_reverse_body_signal; eauto.
    + right. exists e. split; reflexivity.
Qed.

(** A contract without its frame and with a total that is None: power
    change fails on the total, the two other strategies on the missing
    frame, and each answers Error with the text of its exception. *)
Example strategies_on_totals_only :
  analyze_power_change totals_only
  = (ERROR, DataError "float() argument must be a string or a real number", 0%Q) /\
  analyze_spider_web totals_only = (ERROR, DataError "'raw_data'", 0%Q) /\
  analyze_retail_reverse ["A"] totals_only = (ERROR, DataError "'raw_data'", 0%Q, []).
Proof. repeat split. Qed.

(** ** Power change *)

(** C4. With numeric total changes, power change answers Long with strength
    |dlong| + |dshort| when dlong > 0 and dshort < 0, Short with the same
    strength when dlong < 0 and dshort > 0, and Neutral with strength 0 in
    every other case. *)
Theorem power_change_direction (data : Data) (l s : Z) :
  dict_find data "total_long_chg" = Some (DScalar (VNum l)) ->
  dict_find data "total_short_chg" = Some (DScalar (VNum s)) ->
  (0 < l /\ s < 0 ->
   signal_of (analyze_power_change data) = LONG /\
   strength_of (analyze_power_change data) = inject_Z (Z.abs l + Z.abs s)) /\
  (l < 0 /\ 0 < s ->
   signal_of (analyze_power_change data) = SHORT /\
   strength_of (analyze_power_change data) = inject_Z (Z.abs l + Z.abs s)) /\
  (~ (0 < l /\ s < 0) -> ~ (l < 0 /\ 0 < s) ->
   signal_of (analyze_power_change data) = NEUTRAL /\
   strength_of (analyze_power_change data) = 0%Q).
Proof.
  intros Hl Hs.
  unfold analyze_power_change, power_change_body, dict_get.
  rewrite Hl, Hs. simpl.
  destruct (0 <? l) eqn:E1, (s <? 0) eqn:E2, (l <? 0) eqn:E3, (0 <? s) eqn:E4;
    simpl; repeat split; try reflexivity; lia.
Qed.

(** The example of the specification: 500 and -300 give Long, 800. *)
Lemma power_change_500_300 :
  signal_of (analyze_power_change power_example) = LONG /\
  strength_of (analyze_power_change power_example) = inject_Z 800.
Proof.
  exact (proj1 (power_change_direction power_example 500 (-300) eq_refl eq_refl)
               (conj eq_refl eq_refl)).
Defined.

(** ** Term structure *)

Lemma Qle_bool_false (a b : Q) : Qle_bool a b = false <-> (b < a)%Q.
Proof.
  rewrite <- not_true_iff_false, Qle_bool_iff. split.
  - apply Qnot_le_lt.
  - apply Qlt_not_le.
Qed.

Lemma scan_prices_flags (prices : list Q) (d i : bool) :
  (fst (scan_prices d i prices) = true <-> d = true /\ strictly_decreasing prices) /\
  (snd (scan_prices d i prices) = true <-> i = true /\ strictly_increasing prices).
Proof.
  revert d i. induction prices as [|a rest IH]; intros d i.
  - unfold strictly_decreasing, strictly_increasing. simpl. tauto.
  - destruct rest as [|b rest'].
    + unfold strictly_decreasing, strictly_increasing. simpl. tauto.
    + change (scan_prices d i (a :: b :: rest'))
        with (scan_prices (if Qle_bool a b then false else d)
                          (if Qle_bool b a then false else i) (b :: rest')).
      destruct (IH (if Qle_bool a b then false else d)
                   (if Qle_bool b a then false else i)) as [IHd IHi].
      rewrite IHd, IHi.
      change (strictly_decreasing (a :: b :: rest'))
        with ((b < a)%Q /\ strictly_decreasing (b :: rest')).
      change (strictly_increasing (a :: b :: rest'))
        with ((a < b)%Q /\ strictly_increasing (b :: rest')).
      rewrite <- (Qle_bool_false a b), <- (Qle_bool_false b a).
      destruct (Qle_bool a b), (Qle_bool b a), d, i; intuition congruence.
Qed.

Lemma not_both_directions (prices : list Q) :
  (2 <= length prices)%nat ->
  strictly_decreasing prices -> strictly_increasing prices -> False.
Proof.
  destruct prices as [|a [|b rest]]; simpl; try lia.
  intros _ [H1 _] [H2 _]. apply (Qlt_irrefl a). now apply Qlt_trans with b.
Qed.

(** C6. For at least two close prices ordered from the near to the far
    contract, the classification is "back" exactly when the prices strictly
    decrease, "contango" exactly when they strictly increase, and "flat" in
    every other case; a pair of equal adjacent prices gives "flat". *)
Theorem term_structure_classification (prices : list Q) :
  (2 <= length prices)%nat ->
  (_determine_structure_strict prices = "back" <-> strictly_decreasing prices) /\
  (_determine_structure_strict prices = "contango" <-> strictly_increasing prices) /\
  (~ strictly_decreasing prices -> ~ strictly_increasing prices ->
   _determine_structure_strict prices = "flat") /\
  (forall before a b rest,
      prices = before ++ a :: b :: rest -> (a == b)%Q ->
      _determine_structure_strict prices = "flat").
Proof.
  intros Hlen.
  assert (Hflat : ~ strictly_decreasing prices -> ~ strictly_increasing prices ->
                  _determine_structure_strict prices = "flat").
  { unfold _determine_structure_strict.
    destruct (Nat.ltb_spec (length prices) 2) as [|_]; [lia|].
    destruct (scan_prices_flags prices true true) as [Hd Hi].
    destruct (scan_prices true true prices) as [d i]; simpl in *.
    destruct d; [intros []; now apply Hd|].
    destruct i; [intros _ []; now apply Hi|]. reflexivity. }
  repeat split.
  - unfold _determine_structure_strict.
    destruct (Nat.ltb_spec (length prices) 2) as [|_]; [lia|].
    destruct (scan_prices_flags prices true true) as [Hd Hi].
    destruct (scan_prices true true prices) as [d i]; simpl in *.
    destruct d; [intros _; now apply Hd|].
    destruct i; discriminate.
  - intros Hdec. unfold _determine_structure_strict.
    destruct (Nat.ltb_spec (length prices) 2) as [|_]; [lia|].
    destruct (scan_prices_flags prices true true) as [Hd Hi].
    destruct (scan_prices true true prices) as [d i]; simpl in *.
    destruct d; [reflexivity|].
    assert (false = true) by (apply Hd; auto). discriminate.
  - unfold _determine_structure_strict.
    destruct (Nat.ltb_spec (length prices) 2) as [|_]; [lia|].
    destruct (scan_prices_flags prices true true) as [Hd Hi].
    destruct (scan_prices true true prices) as [d i]; simpl in *.
    destruct d; [discriminate|].
    destruct i; [intros _; now apply Hi|discriminate].
  - intros Hinc. unfold _determine_structure_strict.
    destruct (Nat.ltb_spec (length prices) 2) as [|_]; [lia|].
    destruct (scan_prices_flags prices true true) as [Hd Hi].
    destruct (scan_prices true true prices) as [d i]; simpl in *.
    destruct d.
    + exfalso. apply (not_both_directions prices Hlen); [now apply Hd | assumption].
    + destruct i; [reflexivity|].
      assert (false = true) by (apply Hi; auto). discriminate.
  - exact Hflat.
  - intros before a b rest -> Hab. apply Hflat.
    + clear Hlen Hflat. unfold strictly_decreasing.
      induction before as [|x before IH].
      * simpl. intros [H _]. rewrite Hab in H. now apply Qlt_irrefl in H.
      * intros H. apply IH. destruct before; simpl in *; tauto.
    + clear Hlen Hflat. unfold strictly_increasing.
      induction before as [|x before IH].
      * simpl. intros [H _]. rewrite Hab in H. now apply Qlt_irrefl in H.
      * intros H. apply IH. destruct before; simpl in *; tauto.
Qed.

(** The three curves of the specification. *)
Lemma term_structure_examples :
  _determine_structure_strict [100; 95; 90]%Q = "back" /\
  _determine_structure_strict [90; 95; 100]%Q = "contango" /\
  _determine_structure_strict [100; 100; 90]%Q = "flat".
Proof.
  split; [|split].
  - apply (proj1 (term_structure_classification [100; 95; 90]%Q
                    (le_S _ _ (le_n 2)))).
    simpl. repeat split.
  - apply (proj1 (proj2 (term_structure_classification [90; 95; 100]%Q
                           (le_S _ _ (le_n 2))))).
    simpl. repeat split.
  - apply (proj2 (proj2 (proj2 (term_structure_classification [100; 100; 90]%Q
                                   (le_S _ _ (le_n 2))))) [] 100%Q 100%Q [90%Q]).
    + reflexivity.
    + reflexivity.
Defined.

(** ** Contract months *)

Lemma list_ascii_app (a b : string) :
  list_ascii_of_string (a +:+ b) = list_ascii_of_string a ++ list_ascii_of_string b.
Proof. induction a as [|c a IH]; simpl; [reflexivity | now rewrite IH]. Qed.

Lemma digit_not_newline (c : ascii) : is_digit c = true -> Ascii.eqb c newline = false.
Proof.
  intros H. destruct (Ascii.eqb_spec c newline) as [->|]; [|reflexivity].
  discriminate H.
Qed.

Lemma digit_val_range (c : ascii) : is_digit c = true -> 0 <= digit_val c <= 9.
Proof.
  unfold is_digit, digit_val. intros H.
  apply andb_true_iff in H as [H1 H2].
  apply Nat.leb_le in H1, H2. lia.
Qed.

Lemma trailing_yymm_suffix (p : string) (d1 d2 d3 d4 : ascii) :
  is_digit d1 = true -> is_digit d2 = true ->
  is_digit d3 = true -> is_digit d4 = true ->
  trailing_yymm (p +:+ four d1 d2 d3 d4) = Some (d1, d2, d3, d4).
Proof.
  intros H1 H2 H3 H4. unfold trailing_yymm.
  rewrite list_ascii_app. unfold four. simpl list_ascii_of_string.
  rewrite rev_app_distr. simpl.
  rewrite (digit_not_newline d4 H4), H1, H2, H3, H4. reflexivity.
Qed.

Lemma trailing_yymm_suffix_newline (p : string) (d1 d2 d3 d4 : ascii) :
  is_digit d1 = true -> is_digit d2 = true ->
  is_digit d3 = true -> is_digit d4 = true ->
  trailing_yymm ((p +:+ four d1 d2 d3 d4) +:+ String newline "")
  = Some (d1, d2, d3, d4).
Proof.
  intros H1 H2 H3 H4. unfold trailing_yymm.
  rewrite !list_ascii_app. unfold four. simpl list_ascii_of_string.
  rewrite !rev_app_distr. simpl.
  rewrite H1, H2, H3, H4. reflexivity.
Qed.

Lemma rev_shape (s : string) (r : list ascii) :
  rev (list_ascii_of_string s) = r ->
  s = string_of_list_ascii (rev r).
Proof.
  intros <-. now rewrite rev_involutive, string_of_list_ascii_of_string.
Qed.

Lemma string_of_list_app (a b : list ascii) :
  string_of_list_ascii (a ++ b) = string_of_list_ascii a +:+ string_of_list_ascii b.
Proof. induction a as [|c a IH]; simpl; [reflexivity | now rewrite IH]. Qed.

Lemma trailing_yymm_some (s : string) (d1 d2 d3 d4 : ascii) :
  trailing_yymm s = Some (d1, d2, d3, d4) ->
  (is_digit d1 = true /\ is_digit d2 = true /\
   is_digit d3 = true /\ is_digit d4 = true) /\
  (exists p, s = p +:+ four d1 d2 d3 d4 \/
             s = (p +:+ four d1 d2 d3 d4) +:+ String newline "").
Proof.
  unfold trailing_yymm. intros H.
  destruct (rev (list_ascii_of_string s)) as [|c r] eqn:E; [discriminate|].
  destruct (Ascii.eqb_spec c newline) as [->|Hc].
  - destruct r as [|e4 [|e3 [|e2 [|e1 rest]]]]; try discriminate.
    destruct (is_digit e1) eqn:D1, (is_digit e2) eqn:D2,
             (is_digit e3) eqn:D3, (is_digit e4) eqn:D4; try discriminate.
    injection H as <- <- <- <-. split; [auto|].
    exists (string_of_list_ascii (rev rest)). right.
    apply rev_shape in E. rewrite E. simpl.
    rewrite <- !app_assoc. simpl.
    change [e1; e2; e3; e4; newline] with ([e1; e2; e3; e4] ++ [newline]).
    rewrite app_assoc, !string_of_list_app. reflexivity.
  - destruct r as [|e3 [|e2 [|e1 rest]]]; try discriminate.
    destruct (is_digit e1) eqn:D1, (is_digit e2) eqn:D2,
             (is_digit e3) eqn:D3, (is_digit c) eqn:D4; try discriminate.
    injection H as <- <- <- <-. split; [auto|].
    exists (string_of_list_ascii (rev rest)). left.
    apply rev_shape in E. rewrite E. simpl.
    rewrite <- !app_assoc. simpl. rewrite !string_of_list_app. reflexivity.
Qed.

Lemma parsed_key_bound (s : string) :
  trailing_yymm s <> None -> 190000 <= extract_month_info s <= 204999.
Proof.
  unfold extract_month_info.
  destruct (trailing_yymm s) as [[[[d1 d2] d3] d4]|] eqn:E; [intros _|congruence].
  apply trailing_yymm_some in E as [(H1 & H2 & H3 & H4) _].
  apply digit_val_range in H1, H2, H3, H4.
  destruct (10 * digit_val d1 + digit_val d2 <? 50) eqn:Y;
    [apply Z.ltb_lt in Y | apply Z.ltb_ge in Y]; lia.
Qed.

Lemma month_sorted (variety_data : list PriceRow) :
  StronglySorted month_key_le (_sort_contracts_by_month variety_data).
Proof.
  unfold _sort_contracts_by_month.
  assert (S : StronglySorted (fun a b => month_le a b = true)
                             (isort month_le variety_data)).
  { apply isort_sorted; unfold month_le; intros; lia. }
  induction S as [|a l _ IH Hall]; constructor; [assumption|].
  eapply Forall_impl; [exact Hall|].
  unfold month_le, month_key_le. intros b Hb. lia.
Qed.

(** C7. The sort key of a contract is read from the four digits that end
    its symbol, taken as YYMM: the year is 2000+yy when yy < 50 and 1900+yy
    otherwise, and the key is year * 100 + month.  A symbol the pattern does
    not match gets the key 999999, above the key of every symbol it matches.
    The pattern matches exactly the symbols that end with four digits,
    before an optional final line feed.  The rows of a variety come out as
    a permutation of the input in ascending key order, so every row that
    follows an unmatched symbol is unmatched too. *)
Theorem contract_month_order :
  (forall p d1 d2 d3 d4,
      is_digit d1 = true -> is_digit d2 = true ->
      is_digit d3 = true -> is_digit d4 = true ->
      extract_month_info (p +:+ four d1 d2 d3 d4)
      = mapped_year (10 * digit_val d1 + digit_val d2) * 100
        + (10 * digit_val d3 + digit_val d4)) /\
  (forall s, trailing_yymm s = None -> extract_month_info s = 999999) /\
  (forall s t, trailing_yymm s = None -> trailing_yymm t <> None ->
               extract_month_info t < extract_month_info s) /\
  (forall s, trailing_yymm s <> None <->
             ends_with_4_digits s \/
             exists t, s = t +:+ String newline "" /\ ends_with_4_digits t) /\
  (forall variety_data,
      Permutation (_sort_contracts_by_month variety_data) variety_data /\
      StronglySorted month_key_le (_sort_contracts_by_month variety_data)) /\
  (forall variety_data front a back,
      _sort_contracts_by_month variety_data = front ++ a :: back ->
      trailing_yymm (symbol a) = None ->
      forall b, In b back -> trailing_yymm (symbol b) = None).
Proof.
  split; [|split; [|split; [|split; [|split]]]].
  - intros p d1 d2 d3 d4 H1 H2 H3 H4. unfold extract_month_info.
    rewrite trailing_yymm_suffix by assumption.
    unfold mapped_year.
    destruct (10 * digit_val d1 + digit_val d2 <? 50); lia.
  - intros s H. unfold extract_month_info. now rewrite H.
  - intros s t Hs Ht. pose proof (parsed_key_bound t Ht).
    unfold extract_month_info at 2. rewrite Hs. lia.
  - intros s. split.
    + destruct (trailing_yymm s) as [[[[d1 d2] d3] d4]|] eqn:E; [intros _|congruence].
      apply trailing_yymm_some in E as [(H1 & H2 & H3 & H4) [p [-> | ->]]].
      * left. exists p, d1, d2, d3, d4. auto.
      * right. exists (p +:+ four d1 d2 d3 d4). split; [reflexivity|].
        exists p, d1, d2, d3, d4. auto.
    + intros [(p & d1 & d2 & d3 & d4 & -> & H1 & H2 & H3 & H4)
             | (t & -> & p & d1 & d2 & d3 & d4 & -> & H1 & H2 & H3 & H4)].
      * now rewrite trailing_yymm_suffix.
      * now rewrite trailing_yymm_suffix_newline.
  - intros variety_data. split.
    + apply isort_perm.
    + apply month_sorted.
  - intros variety_data front a back E Ha b Hb.
    pose proof (month_sorted variety_data) as S. rewrite E in S.
    clear E. induction front as [|x front IH].
    + simpl in S. apply StronglySorted_inv in S as [_ Hall].
      rewrite List.Forall_forall in Hall. specialize (Hall b Hb).
      unfold month_key_le in Hall.
      destruct (trailing_yymm (symbol b)) eqn:Eb; [|reflexivity].
      assert (Hp : trailing_yymm (symbol b) <> None) by congruence.
      pose proof (parsed_key_bound _ Hp).
      unfold extract_month_info in Hall at 1. rewrite Ha in Hall. lia.
    + simpl in S. apply StronglySorted_inv in S as [S _]. auto.
Qed.

(** A key read from a symbol, and a variety sorted by month. *)
Lemma contract_month_examples :
  extract_month_info "m2501" = 202501 /\
  extract_month_info "m9912" = 199912 /\
  extract_month_info "m-main" = 999999 /\
  map symbol (_sort_contracts_by_month
                [quote "m-main" 1; quote "m2505" 2; quote "m2501" 3; quote "m9912" 4])
  = ["m9912"; "m2501"; "m2505"; "m-main"]%string.
Proof.
  split; [|split; [|split]].
  - exact (proj1 contract_month_order "m"%string "2"%char "5"%char "0"%char "1"%char
             eq_refl eq_refl eq_refl eq_refl).
  - exact (proj1 contract_month_order "m"%string "9"%char "9"%char "1"%char "2"%char
             eq_refl eq_refl eq_refl eq_refl).
  - exact (proj1 (proj2 contract_month_order) "m-main" eq_refl).
  - reflexivity.
Defined.

(** ** The cache *)

Section CacheFacts.
Context {Payload : Type}.
Implicit Types cache : gmap string (CacheFile Payload).

Lemma is_cache_valid_iff cache (now : Z) (path : string) (hours : Z) :
  is_cache_valid cache now path hours = true <->
  exists f, cache !! path = Some f /\ now - mtime f < hours * 3600.
Proof.
  unfold is_cache_valid. destruct (cache !! path) as [f|].
  - rewrite Z.ltb_lt. split; [eauto|]. now intros (f' & [= <-] & H).
  - split; [discriminate|]. now intros (f & [=] & _).
Qed.

Lemma load_after_save cache (now later : Z) (k : string) (v : Payload) :
  later - now < 24 * 3600 ->
  fst (load_from_cache (save_to_cache cache now k v) later k) = Some v.
Proof.
  intros H. unfold load_from_cache, save_to_cache, is_cache_valid.
  rewrite lookup_insert_eq. simpl.
  destruct (Z.ltb_spec (later - now) (24 * 3600)); [reflexivity | lia].
Qed.

Lemma clear_old_cache_lookup cache (now days : Z) (name : string) :
  clear_old_cache cache now days !! name
  = match cache !! name with
    | Some f => if stale now days (name, f) then None else Some f
    | None => None
    end.
Proof.
  unfold clear_old_cache.
  destruct (cache !! name) as [f|] eqn:E.
  - destruct (stale now days (name, f)) eqn:S.
    + apply map_lookup_filter_None. right. intros f' Hf'.
      rewrite E in Hf'. injection Hf' as <-. congruence.
    + apply map_lookup_filter_Some. auto.
  - apply map_lookup_filter_None. left. assumption.
Qed.

(** C9. A value saved under a key is read back by a load at the same
    instant, and by any load less than 24 hours later.  A load answers
    absent when the key has no file and when the age of the file has
    reached 24 hours; a file is valid exactly when it exists and its age is
    below the limit.  A load leaves the directory as it found it, a save
    removes no file, and the eviction removes exactly the [.pkl] files
    older than its limit. *)
Theorem cache_round_trip cache (now : Z) (k : string) (v : Payload) :
  fst (load_from_cache (save_to_cache cache now k v) now k) = Some v /\
  (forall later, later - now < 24 * 3600 ->
      fst (load_from_cache (save_to_cache cache now k v) later k) = Some v) /\
  (cache !! get_cache_path k = None -> fst (load_from_cache cache now k) = None) /\
  (forall f, cache !! get_cache_path k = Some f -> 24 * 3600 <= now - mtime f ->
      fst (load_from_cache cache now k) = None) /\
  (forall path hours,
      is_cache_valid cache now path hours = true <->
      exists f, cache !! path = Some f /\ now - mtime f < hours * 3600) /\
  snd (load_from_cache cache now k) = cache /\
  (forall name, is_Some (cache !! name) ->
      is_Some (save_to_cache cache now k v !! name)) /\
  (forall days name,
      clear_old_cache cache now days !! name
      = match cache !! name with
        | Some f => if stale now days (name, f) then None else Some f
        | None => None
        end).
Proof.
  split; [|split; [|split; [|split; [|split; [|split; [|split]]]]]].
  - apply load_after_save. lia.
  - intros later H. now apply load_after_save.
  - intros H. unfold load_from_cache, is_cache_valid. now rewrite H.
  - intros f Hf Hage. unfold load_from_cache, is_cache_valid. rewrite Hf.
    destruct (Z.ltb_spec (now - mtime f) (24 * 3600)); [lia | reflexivity].
  - intros path hours. apply is_cache_valid_iff.
  - unfold load_from_cache.
    destruct (is_cache_valid cache now (get_cache_path k) 24); [|reflexivity].
    destruct (cache !! get_cache_path k) as [[t [x|]]|]; reflexivity.
  - intros name Hname. unfold save_to_cache.
    destruct (decide (get_cache_path k = name)) as [<-|Hne].
    + rewrite lookup_insert_eq. eauto.
    + now rewrite lookup_insert_ne.
  - intros days name. apply clear_old_cache_lookup.
Qed.
End CacheFacts.

(** An entry of age 24 hours is absent for a load and still on disk after
    it; the eviction of the entries older than 7 days removes it on day 8. *)
Lemma cache_expiry_example :
  fst (load_from_cache old_cache (24 * 3600) "k") = None /\
  snd (load_from_cache old_cache (24 * 3600) "k") !! "k.pkl" = Some (mkFile 0 (Pickled 7)) /\
  clear_old_cache old_cache (8 * 86400) 7 !! "k.pkl" = None.
Proof.
  split; [|split].
  - apply (proj1 (proj2 (proj2 (proj2 (cache_round_trip old_cache (24 * 3600) "k" 0))))
             (mkFile 0 (Pickled 7))).
    + reflexivity.
    + discriminate.
  - rewrite (proj1 (proj2 (proj2 (proj2 (proj2 (proj2
               (cache_round_trip old_cache (24 * 3600) "k" 0))))))).
    reflexivity.
  - rewrite (proj2 (proj2 (proj2 (proj2 (proj2 (proj2 (proj2
               (cache_round_trip old_cache (8 * 86400) "k" 0)))))))).
    reflexivity.
Defined.

(** ** Contracts without the required columns *)

Lemma dict_find_set {V : Type} (d : list (string * V)) (k k' : string) (v : V) :
  dict_find (dict_set d k' v) k = if String.eqb k k' then Some v else dict_find d k.
Proof.
  induction d as [|[k0 v0] d IH]; simpl.
  - reflexivity.
  - destruct (String.eqb_spec k' k0) as [->|Hne]; simpl.
    + destruct (String.eqb k k0); reflexivity.
    + destruct (String.eqb_spec k k0) as [->|Hne'].
      * destruct (String.eqb_spec k0 k'); congruence.
      * exact IH.
Qed.

Lemma dict_find_in {V : Type} (d : list (string * V)) (k : string) (v : V) :
  In (k, v) d -> dict_find d k <> None.
Proof.
  induction d as [|[k0 v0] d IH]; simpl; [tauto|].
  intros [[= -> ->] | H].
  - now rewrite String.eqb_refl.
  - destruct (String.eqb k k0); [discriminate | auto].
Qed.

Lemma lacks_required_none (df : DataFrame) :
  lacks_required df -> process_position_data df = None.
Proof.
  intros (c & Hin & Hc). unfold process_position_data, process_body.
  assert (E : forallb (has_column (_standardize_columns df)) required_columns = false).
  { apply not_true_iff_false. intros H.
    rewrite forallb_forall in H. specialize (H c Hin). congruence. }
  now rewrite E.
Qed.

Lemma processed_entry (retail_seats : list string) (df : DataFrame) (processed : Data) :
  process_position_data df = Some processed ->
  exists entry, contract_entry retail_seats processed = Ok entry.
Proof.
  unfold process_position_data. destruct (process_body df) as [r|] eqn:E; [|discriminate].
  intros ->. unfold process_body in E.
  destruct (negb _); [discriminate|].
  bind_inv E. injection E as <-.
  unfold contract_entry. simpl. eauto.
Qed.

Lemma analyze_loop_skips (retail_seats : list string) (cb : Callback)
    (contract : string) (total : nat) items :
  (forall df, In (contract, df) items -> process_position_data df = None) ->
  forall i acc results,
    analyze_loop retail_seats cb total i items acc = Ok results ->
    dict_find acc contract = None -> dict_find results contract = None.
Proof.
  induction items as [|[name df] items IH]; intros Hskip i acc results H Hacc.
  - simpl in H. now injection H as <-.
  - simpl in H. apply bind_ok in H as (u & _ & H).
    destruct (process_position_data df) as [processed|] eqn:E.
    + apply bind_ok in H as (entry & _ & H).
      eapply IH; [intros; apply Hskip; now right | exact H |].
      rewrite dict_find_set.
      destruct (String.eqb_spec contract name) as [->|_]; [|assumption].
      rewrite (Hskip df) in E; [discriminate | now left].
    + eapply IH; [intros; apply Hskip; now right | exact H | assumption].
Qed.

Lemma analyze_loop_returns (retail_seats : list string) (cb : Callback) (total : nat) items :
  quiet cb ->
  forall i acc, exists results,
    analyze_loop retail_seats cb total i items acc = Ok results.
Proof.
  intros Hq. induction items as [|[name df] items IH]; intros i acc; simpl.
  - eauto.
  - rewrite Hq. simpl.
    destruct (process_position_data df) as [processed|] eqn:E; [|apply IH].
    destruct (processed_entry retail_seats df processed E) as [entry ->]. simpl.
    apply IH.
Qed.

Lemma collect_signals_contract (name direction : string) position_results e :
  In e (collect_signals name direction position_results) ->
  exists data, In (e_contract e, data) position_results.
Proof.
  induction position_results as [|[contract data] rest IH]; simpl; [tauto|].
  intros H.
  assert (Hrest : In e (collect_signals name direction rest) ->
                  exists data0, (contract, data) = (e_contract e, data0) \/
                                In (e_contract e, data0) rest).
  { intros H'. destruct (IH H') as [d Hd]. eauto. }
  destruct (dict_find (strategies data) name) as [sd|]; [|auto].
  destruct (String.eqb (sr_signal sd) direction); [|auto].
  destruct H as [<- | H]; [|auto].
  exists data. now left.
Qed.

Lemma strategy_signals_contracts position_results name signals e :
  In (name, signals) (strategy_signals_of position_results) ->
  In e (long_signals signals ++ short_signals signals) ->
  exists data, In (e_contract e, data) position_results.
Proof.
  unfold strategy_signals_of. simpl. intros Hin He.
  assert (Hsig : exists n d, In e (isort strength_ge (collect_signals n d position_results))).
  { destruct Hin as [[= <- <-] | [[= <- <-] | [[= <- <-] | []]]];
      simpl in He; apply in_app_or in He as [He | He]; eauto. }
  destruct Hsig as (n & d & Hsig).
  apply (Permutation_in _ (isort_perm strength_ge _)) in Hsig.
  eapply collect_signals_contract; eauto.
Qed.

(** C10. A contract whose table lacks, after the standardization of its
    columns, one of the seven required columns gets no processed data; the
    analysis of the positions then leaves it out of its results, whatever
    the other contracts are: it has no entry there, and no signal of the
    summary names it.  With a callback that returns, the analysis itself
    returns. *)
Theorem missing_columns_skipped (retail_seats : list string) (cb : Callback)
    (position_data : list (string * DataFrame)) (contract : string) :
  (forall df, In (contract, df) position_data -> lacks_required df) ->
  (forall df, In (contract, df) position_data -> process_position_data df = None) /\
  (quiet cb -> exists results,
      _analyze_positions retail_seats cb position_data = Ok results) /\
  (forall results,
      _analyze_positions retail_seats cb position_data = Ok results ->
      dict_find results contract = None /\
      (forall data, ~ In (contract, data) results) /\
      (forall name signals e,
          In (name, signals) (strategy_signals (_generate_summary results)) ->
          In e (long_signals signals ++ short_signals signals) ->
          e_contract e <> contract)).
Proof.
  intros Hlacks.
  assert (Hnone : forall df, In (contract, df) position_data ->
                             process_position_data df = None).
  { intros df Hdf. apply lacks_required_none. auto. }
  split; [exact Hnone|]. split.
  - intros Hq. apply analyze_loop_returns. assumption.
  - intros results H.
    assert (Hfind : dict_find results contract = None).
    { eapply analyze_loop_skips; eauto. }
    assert (Hnot : forall data, ~ In (contract, data) results).
    { intros data Hin. now apply dict_find_in in Hin. }
    repeat split; [assumption | assumption |].
    intros name signals e Hin He Heq.
    destruct (strategy_signals_contracts results name signals e Hin He) as [data Hdata].
    rewrite Heq in Hdata. exact (Hnot data Hdata).
Qed.

(** Two sheets of one exchange, the second one without its volume column:
    only the first contract is in the results. *)
Lemma missing_columns_example :
  process_position_data sheet_without_vol = None /\
  exists results,
    _analyze_positions ["A"; "B"] None two_sheets = Ok results /\
    dict_find results "大商所_m2505" = None /\
    map fst results = ["大商所_m2501"].
Proof.
  assert (H : forall df, In ("大商所_m2505", df) two_sheets -> lacks_required df).
  { intros df [[=] | [[= <-] | []]]. exists "vol". split; [|reflexivity].
    simpl. tauto. }
  destruct (missing_columns_skipped ["A"; "B"] None two_sheets "大商所_m2505" H)
    as (H1 & H2 & H3).
  split.
  - apply H1. right. left. reflexivity.
  - destruct (H2 (fun _ _ => eq_refl)) as [results Hr].
    exists results. split; [exact Hr|]. split; [apply (H3 results Hr)|].
    vm_compute in Hr. injection Hr as <-. reflexivity.
Defined.

(** ** Resonance *)

Lemma count_signal_count (name : string) d e (symbol : string) :
  count_of (count_signal name d e) symbol
  = (count_of d symbol
     + if String.eqb symbol (extract_symbol (e_contract e)) then 1 else 0)%nat.
Proof.
  unfold count_of, count_signal. rewrite dict_find_set.
  destruct (String.eqb_spec symbol (extract_symbol (e_contract e))) as [->|_].
  - simpl. destruct (dict_find d _); reflexivity.
  - lia.
Qed.

Lemma count_fold (name : string) (symbol : string) (signals : list SignalEntry) d :
  count_of (fold_left (count_signal name) signals d) symbol
  = (count_of d symbol
     + length (List.filter (fun e => String.eqb symbol (extract_symbol (e_contract e)))
                      signals))%nat.
Proof.
  revert d. induction signals as [|e signals IH]; intros d;
    cbn [fold_left List.filter length]; [lia|].
  rewrite IH, count_signal_count.
  destruct (String.eqb symbol (extract_symbol (e_contract e)));
    cbn [length]; lia.
Qed.

(** What the count of a symbol is: the number of its signals among the
    first ten Long signals of every strategy, added over the strategies. *)
Lemma long_symbol_count_total (strategy_signals : list (string * StrategySignals))
    (symbol : string) :
  count_of (long_symbol_count strategy_signals) symbol
  = list_sum (map (fun e => top10_hits symbol (long_signals (snd e))) strategy_signals).
Proof.
  unfold long_symbol_count.
  assert (G : forall d,
             count_of (fold_left
                         (fun acc '(name, signals) =>
                            count_top10 name acc (long_signals signals))
                         strategy_signals d) symbol
             = (count_of d symbol
                + list_sum (map (fun e => top10_hits symbol (long_signals (snd e)))
                                strategy_signals))%nat).
  { induction strategy_signals as [|[name signals] rest IH]; intros d; simpl; [lia|].
    rewrite IH. unfold count_top10. rewrite count_fold.
    unfold top10_hits. simpl. lia. }
  rewrite G. reflexivity.
Qed.

(** C1, at the failing input: the two Long signals of the single strategy
    give the symbol M the count 2, and M is in the Long resonance with that
    strategy listed twice; the same happens in the summary of two contracts
    of one variety on which power change alone gives a Long signal. *)
Theorem resonance_from_one_strategy :
  resonance_long (_calculate_signal_resonance one_strategy_two_contracts)
  = [("M"%string,
      mkInfo 2 [POWER_CHANGE; POWER_CHANGE] ["大商所_m2501"; "大商所_m2505"]%string)] /\
  exists results,
    _analyze_positions ["A"; "B"] None two_rising_contracts = Ok results /\
    map (fun e => (fst e, map e_contract (long_signals (snd e))))
        (strategy_signals (_generate_summary results))
    = [(POWER_CHANGE, ["大商所_m2501"; "大商所_m2505"]%string);
       (SPIDER_WEB, []); (RETAIL_REVERSE, [])] /\
    map (fun e => (fst e, count (snd e), res_strategies (snd e)))
        (resonance_long (signal_resonance (_generate_summary results)))
    = [("M"%string, 2%nat, [POWER_CHANGE; POWER_CHANGE])].
Proof.
  split; [reflexivity|].
  eexists. split; [vm_compute; reflexivity|].
  split; vm_compute; reflexivity.
Qed.

(** ** The informed group of the spider-web strategy *)

Lemma sort_by_stat_sorted (l : list Seat) :
  StronglySorted stat_desc (sort_by_stat_desc l).
Proof.
  unfold sort_by_stat_desc.
  assert (S : StronglySorted (fun a b => stat_ge a b = true) (isort stat_ge l)).
  { apply isort_sorted; unfold stat_ge; intros a b.
    - rewrite !Qle_bool_iff.
      destruct (Qlt_le_dec (stat a) (stat b)) as [H|H]; [right | left]; [|exact H].
      now apply Qlt_le_weak.
    - intros c. rewrite !Qle_bool_iff. intros H1 H2. now apply Qle_trans with (stat b). }
  induction S as [|a l' _ IH Hall]; constructor; [assumption|].
  eapply Forall_impl; [exact Hall|].
  unfold stat_ge, stat_desc. intros b. now rewrite Qle_bool_iff.
Qed.

Lemma cutoff_within (n : nat) : (5 <= n)%nat -> (cutoff_index n <= n)%nat.
Proof.
  intros H. unfold cutoff_index.
  assert (2 * n / 5 <= n)%nat by (apply Nat.Div0.div_le_upper_bound; lia).
  lia.
Qed.

(** C2, as the code has it.  With n >= 5 qualifying records (the rows with
    a positive volume and both open interests present, in table order), the
    records are sorted by (long + short) / volume in descending order, the
    informed group is exactly the first max(2, floor(0.4 * n)) of them and
    the uninformed group is the rest. *)
Theorem spider_groups (df : DataFrame) (valid : list (list pyval))
    (il is_ iv : nat) (seats : list Seat) :
  valid_seats df = Ok (valid, (il, is_, iv)) ->
  mapM (to_seat il is_ iv) valid = Ok seats ->
  (5 <= length valid)%nat ->
  valid = List.filter (qualifies il is_ iv) (rows df) /\
  length seats = length valid /\
  Permutation (sort_by_stat_desc seats) seats /\
  StronglySorted stat_desc (sort_by_stat_desc seats) /\
  fst (spider_split seats)
  = firstn (Nat.max 2 (floor_two_fifths (length valid))) (sort_by_stat_desc seats) /\
  snd (spider_split seats)
  = skipn (Nat.max 2 (floor_two_fifths (length valid))) (sort_by_stat_desc seats) /\
  length (fst (spider_split seats)) = Nat.max 2 (floor_two_fifths (length valid)) /\
  fst (spider_split seats) ++ snd (spider_split seats) = sort_by_stat_desc seats.
Proof.
  intros Hvalid Hseats Hn.
  assert (Hlen : length seats = length valid) by (eapply mapM_length; eauto).
  assert (Hsorted : length (sort_by_stat_desc seats) = length valid).
  { unfold sort_by_stat_desc. now rewrite isort_length. }
  split; [|split; [assumption|split; [|split; [|split; [|split; [|split]]]]]].
  - unfold valid_seats in Hvalid. bind_inv Hvalid. now injection Hvalid as <- <- <- <-.
  - apply isort_perm.
  - apply sort_by_stat_sorted.
  - unfold spider_split. simpl. now rewrite Hsorted.
  - unfold spider_split. simpl. now rewrite Hsorted.
  - unfold spider_split. simpl. rewrite Hsorted, length_firstn, Hsorted.
    pose proof (cutoff_within (length valid) Hn) as Hc.
    unfold cutoff_index, floor_two_fifths in *. lia.
  - unfold spider_split. simpl. apply firstn_skipn.
Qed.

(** C2, as stated, fails at six qualifying records: the informed group has
    max(2, floor(2.4)) = 2 records, not max(2, ceil(2.4)) = 3. *)
Lemma spider_cutoff_counterexample :
  valid_seats six_seats_frame = Ok (rows six_seats_frame, (1, 4, 6)%nat) /\
  mapM (to_seat 1 4 6) (rows six_seats_frame) = Ok six_seats /\
  fst (spider_split six_seats) = [mkValid 900 100 100; mkValid 550 450 125] /\
  firstn (Nat.max 2 (ceil_two_fifths (length six_seats))) (sort_by_stat_desc six_seats)
  = [mkValid 900 100 100; mkValid 550 450 125; mkValid 100 900 200] /\
  fst (spider_split six_seats)
  <> firstn (Nat.max 2 (ceil_two_fifths (length six_seats))) (sort_by_stat_desc six_seats) /\
  signal_of (analyze_spider_web six_data) = LONG /\
  (strength_of (analyze_spider_web six_data) == 13 # 20)%Q.
Proof.
  split; [|split; [|split; [|split; [|split; [|split]]]]];
    try (vm_compute; reflexivity).
  vm_compute. discriminate.
Qed.

(** With the six seats the two groups are the first two and the last four
    of the sorted seats. *)
Lemma spider_groups_six :
  fst (spider_split six_seats)
  = firstn 2 (sort_by_stat_desc six_seats) /\
  snd (spider_split six_seats)
  = skipn 2 (sort_by_stat_desc six_seats).
Proof.
  pose proof (spider_groups six_seats_frame (rows six_seats_frame) 1 4 6 six_seats
                eq_refl eq_refl (le_S _ _ (le_n 5))) as H.
  split; [exact (proj1 (proj2 (proj2 (proj2 (proj2 H)))))
         | exact (proj1 (proj2 (proj2 (proj2 (proj2 (proj2 H))))))].
Defined.

(** ** Retail reverse: the statistics of the watched seats *)

Lemma has_column_index (df : DataFrame) (c : string) :
  has_column df c = true -> exists i, col_index c (columns df) = Some i.
Proof.
  unfold has_column. induction (columns df) as [|c' cols IH]; simpl; [discriminate|].
  destruct (String.eqb c c'); [eauto|]. simpl. intros H.
  destruct (IH H) as [i ->]. simpl. eauto.
Qed.

Lemma count_label_has (c : string) (cols : list string) :
  existsb (String.eqb c) cols = (0 <? count_label c cols)%nat.
Proof.
  unfold count_label. induction cols as [|c' cols IH]; simpl; [reflexivity|].
  destruct (String.eqb c c'); simpl; [reflexivity | exact IH].
Qed.

Lemma row_get_cell (df : DataFrame) (r : list pyval) (c : string) :
  count_label c (columns df) = 1%nat -> row_get df r c = Ok (Scalar (cell df r c)).
Proof.
  intros H.
  assert (Hc : has_column df c = true).
  { unfold has_column. now rewrite count_label_has, H. }
  destruct (has_column_index df c Hc) as [i Hi].
  unfold row_get, cell. now rewrite Hi, H.
Qed.

(** The row under a repeated label is a Series. *)
Lemma row_get_series (df : DataFrame) (r : list pyval) (c : string) :
  has_column df c = true -> count_label c (columns df) <> 1%nat ->
  exists vs, row_get df r c = Ok (Series vs).
Proof.
  intros Hc H. pose proof Hc as Hc'. unfold has_column in Hc'.
  rewrite count_label_has in Hc'. apply Nat.ltb_lt in Hc'.
  destruct (has_column_index df c Hc) as [i Hi].
  unfold row_get. rewrite Hi.
  destruct (Nat.ltb_spec 1 (count_label c (columns df))); [eauto | lia].
Qed.

Lemma add_cell_value (acc : Z) (v : pyval) :
  (forall s, v <> VStr s) -> add_cell acc (Scalar v) = Ok (acc + cell_value v).
Proof.
  intros H. destruct v as [|z| |s]; unfold add_cell; simpl;
    [f_equal; lia | reflexivity | f_equal; lia | now destruct (H s)].
Qed.

(** Association lists with distinct keys *)

Lemma dict_find_nodup {V : Type} (d : list (string * V)) (k : string) (v : V) :
  List.NoDup (map fst d) -> In (k, v) d -> dict_find d k = Some v.
Proof.
  induction d as [|[k0 v0] d IH]; simpl; [tauto|].
  intros Hnd [[= -> ->] | Hin].
  - now rewrite String.eqb_refl.
  - apply List.NoDup_cons_iff in Hnd as [Hk0 Hnd].
    destruct (String.eqb_spec k k0) as [->|_]; [|auto].
    destruct Hk0. apply in_map_iff. now exists (k0, v).
Qed.

Lemma map_other_keys {V : Type} (d : list (string * V)) (k : string) (v : V) :
  ~ In k (map fst d) ->
  map (fun e => if String.eqb (fst e) k then (k, v) else e) d = d.
Proof.
  induction d as [|[k0 v0] d IH]; simpl; [reflexivity|].
  intros H. destruct (String.eqb_spec k0 k) as [->|_]; [tauto|].
  f_equal. tauto.
Qed.

Lemma dict_set_map {V : Type} (d : list (string * V)) (k : string) (v : V) :
  List.NoDup (map fst d) -> In k (map fst d) ->
  dict_set d k v
  = map (fun e => if String.eqb (fst e) k then (k, v) else e) d.
Proof.
  induction d as [|[k0 v0] d IH]; simpl; [tauto|].
  intros Hnd Hin. apply List.NoDup_cons_iff in Hnd as [Hk0 Hnd].
  destruct (String.eqb_spec k k0) as [->|Hne].
  - rewrite String.eqb_refl. f_equal. symmetry. now apply map_other_keys.
  - destruct (String.eqb_spec k0 k) as [->|_]; [congruence|].
    f_equal. apply IH; [assumption|]. destruct Hin; congruence.
Qed.

(** One guarded update of the loop, as a map over the table. *)
Lemma update_watched (retail_seats : list string) (stats : list (string * SeatStat))
    (v : pyval) (G : SeatStat -> result SeatStat) (g : SeatStat -> SeatStat) :
  seat_table retail_seats stats ->
  (forall st, G st = Ok (g st)) ->
  (let* seat := watched retail_seats (Scalar v) in
   match seat with
   | Some name =>
       let* st := dict_get stats name in
       let* st' := G st in
       Ok (dict_set stats name st')
   | None => Ok stats
   end)
  = Ok (map (fun e => (fst e, if is_seat (seat_name (snd e)) v then g (snd e) else snd e))
            stats).
Proof.
  intros (Hnd & Hkeys & Hnames) HG. unfold watched.
  assert (Hno : forall s, (forall e, In e stats -> String.eqb s (fst e) = false) ->
                map (fun e => (fst e, if is_seat (seat_name (snd e)) (VStr s)
                                      then g (snd e) else snd e)) stats = stats).
  { intros s Hs. rewrite <- (map_id stats) at 2. apply map_ext_in.
    intros [n st] Hin. pose proof (Hnames _ Hin) as Hn. simpl in Hn |- *.
    pose proof (Hs _ Hin) as Hs'. simpl in Hs'.
    rewrite Hn, Hs'. reflexivity. }
  destruct v as [|z| |s]; simpl;
    try (f_equal; rewrite <- (map_id stats) at 1; apply map_ext; now intros [n st]).
  destruct (existsb (String.eqb s) retail_seats) eqn:E.
  - apply existsb_exists in E as (s' & Hin & Hs'). apply String.eqb_eq in Hs' as <-.
    apply Hkeys in Hin. pose proof Hin as Hin'.
    apply in_map_iff in Hin' as ([n st] & Hn & Hst). simpl in Hn. subst n.
    unfold dict_get. rewrite (dict_find_nodup stats s st Hnd Hst). simpl.
    rewrite HG. simpl. f_equal.
    rewrite dict_set_map by assumption.
    apply map_ext_in. intros [n st'] Hin'.
    pose proof (Hnames _ Hin') as Hn. simpl in Hn |- *.
    rewrite Hn. rewrite String.eqb_sym.
    destruct (String.eqb_spec s n) as [<-|_]; [|reflexivity].
    assert (Some st' = Some st) as [= ->].
    { rewrite <- (dict_find_nodup stats s st' Hnd Hin'). now apply dict_find_nodup. }
    reflexivity.
  - f_equal. symmetry. apply Hno. intros [n st] Hin. simpl.
    apply not_true_iff_false. intros Hs. apply String.eqb_eq in Hs as <-.
    apply not_true_iff_false in E. apply E. apply existsb_exists.
    exists s. split; [|apply String.eqb_refl].
    apply Hkeys. apply in_map_iff. now exists (s, st).
Qed.

Lemma contribute_name (df : DataFrame) (st : SeatStat) (r : list pyval) :
  seat_name (contribute df st r) = seat_name st.
Proof.
  unfold contribute.
  destruct (is_seat (seat_name st) (cell df r "long_party_name")); simpl;
    destruct (is_seat (seat_name st) (cell df r "short_party_name")); reflexivity.
Qed.

Lemma add_long_ok (df : DataFrame) (r : list pyval) (st : SeatStat) :
  well_formed df -> In r (rows df) -> add_long df r st = Ok (long_added df r st).
Proof.
  intros (Hcols & Hnum & Honce) Hr. unfold add_long.
  rewrite (row_get_cell df r "long_open_interest_chg") by (apply Honce; simpl; tauto). cbn [bind].
  rewrite add_cell_value by (intros s; apply Hnum; simpl; tauto). cbn [bind].
  rewrite (row_get_cell df r "long_open_interest") by (apply Honce; simpl; tauto). cbn [bind].
  rewrite add_cell_value by (intros s; apply Hnum; simpl; tauto).
  reflexivity.
Qed.

Lemma add_short_ok (df : DataFrame) (r : list pyval) (st : SeatStat) :
  well_formed df -> In r (rows df) -> add_short df r st = Ok (short_added df r st).
Proof.
  intros (Hcols & Hnum & Honce) Hr. unfold add_short.
  rewrite (row_get_cell df r "short_open_interest_chg") by (apply Honce; simpl; tauto). cbn [bind].
  rewrite add_cell_value by (intros s; apply Hnum; simpl; tauto). cbn [bind].
  rewrite (row_get_cell df r "short_open_interest") by (apply Honce; simpl; tauto). cbn [bind].
  rewrite add_cell_value by (intros s; apply Hnum; simpl; tauto).
  reflexivity.
Qed.

Lemma seat_table_map (retail_seats : list string) stats (f : SeatStat -> SeatStat) :
  (forall st, seat_name (f st) = seat_name st) ->
  seat_table retail_seats stats ->
  seat_table retail_seats (map (fun e => (fst e, f (snd e))) stats).
Proof.
  intros Hf (Hnd & Hkeys & Hnames).
  assert (E : map fst (map (fun e => (fst e, f (snd e))) stats) = map fst stats).
  { rewrite map_map. now apply map_ext. }
  unfold seat_table. rewrite E. repeat split; try assumption; try apply Hkeys.
  intros e He. apply in_map_iff in He as (e0 & <- & He0). simpl.
  rewrite Hf. now apply Hnames.
Qed.

Lemma retail_row_map (retail_seats : list string) (df : DataFrame) stats (r : list pyval) :
  well_formed df -> party_labels_once df -> In r (rows df) ->
  seat_table retail_seats stats ->
  retail_row retail_seats df stats r
  = Ok (map (fun e => (fst e, contribute df (snd e) r)) stats).
Proof.
  intros Hwf [Hlong Hshort] Hr Htable. unfold retail_row.
  rewrite !row_get_cell by assumption. cbn [bind].
  rewrite <- bind_assoc.
  rewrite (update_watched retail_seats stats (cell df r "long_party_name")
             (add_long df r) (long_added df r) Htable)
    by (intros; now apply add_long_ok).
  cbn [bind].
  set (stats1 := map _ stats).
  assert (Htable1 : seat_table retail_seats stats1).
  { apply (seat_table_map retail_seats stats
             (fun st => if is_seat (seat_name st) (cell df r "long_party_name")
                        then long_added df r st else st)); [|assumption].
    intros st. now destruct (is_seat _ _). }
  rewrite (update_watched retail_seats stats1 (cell df r "short_party_name")
             (add_short df r) (short_added df r) Htable1)
    by (intros; now apply add_short_ok).
  f_equal. unfold stats1. rewrite map_map. reflexivity.
Qed.

Lemma retail_rows_map (retail_seats : list string) (df : DataFrame) (rs : list (list pyval)) :
  well_formed df -> party_labels_once df -> (forall r, In r rs -> In r (rows df)) ->
  forall stats, seat_table retail_seats stats ->
  retail_rows retail_seats df stats rs
  = Ok (map (fun e => (fst e, fold_left (contribute df) rs (snd e))) stats).
Proof.
  intros Hwf Honce. induction rs as [|r rs IH]; intros Hrs stats Htable; simpl.
  - f_equal. rewrite <- (map_id stats) at 1. apply map_ext. now intros [n st].
  - rewrite retail_row_map by (auto; apply Hrs; now left). simpl.
    rewrite IH.
    + f_equal. rewrite map_map. reflexivity.
    + intros r' Hr'. apply Hrs. now right.
    + apply (seat_table_map retail_seats stats (fun st => contribute df st r));
        [|assumption].
      intros st. apply contribute_name.
Qed.

Lemma fold_contribute (df : DataFrame) (rs : list (list pyval)) (st : SeatStat) :
  fold_left (contribute df) rs st
  = mkSeat (seat_name st)
      (long_chg st
       + Zsum (map (fun r => if is_seat (seat_name st) (cell df r "long_party_name")
                             then cell_value (cell df r "long_open_interest_chg") else 0) rs))
      (short_chg st
       + Zsum (map (fun r => if is_seat (seat_name st) (cell df r "short_party_name")
                             then cell_value (cell df r "short_open_interest_chg") else 0) rs))
      (long_pos st
       + Zsum (map (fun r => if is_seat (seat_name st) (cell df r "long_party_name")
                             then cell_value (cell df r "long_open_interest") else 0) rs))
      (short_pos st
       + Zsum (map (fun r => if is_seat (seat_name st) (cell df r "short_party_name")
                             then cell_value (cell df r "short_open_interest") else 0) rs)).
Proof.
  revert st. induction rs as [|r rs IH]; intros st.
  - simpl. destruct st; simpl. f_equal; lia.
  - cbn [fold_left map Zsum fold_right]. rewrite IH, contribute_name.
    unfold contribute.
    destruct (is_seat (seat_name st) (cell df r "long_party_name")); simpl;
      destruct (is_seat (seat_name st) (cell df r "short_party_name")); simpl;
      f_equal; unfold Zsum; lia.
Qed.

(** The keys of the initial statistics: the watched seats, once each, in
    the order of their first occurrence. *)
Lemma dict_set_keys {V : Type} (d : list (string * V)) (k : string) (v : V) :
  map fst (dict_set d k v)
  = if existsb (String.eqb k) (map fst d) then map fst d else map fst d ++ [k].
Proof.
  induction d as [|[k0 v0] d IH]; simpl; [reflexivity|].
  destruct (String.eqb_spec k k0) as [->|_]; simpl; [reflexivity|].
  rewrite IH. now destruct (existsb (String.eqb k) (map fst d)).
Qed.

Lemma init_keys_from (l : list string) :
  forall (acc : list (string * SeatStat)) (seen : list string),
    (forall x, existsb (String.eqb x) seen = existsb (String.eqb x) (map fst acc)) ->
    map fst (fold_left (fun d name => dict_set d name (zero_stat name)) l acc)
    = map fst acc ++ unique seen l.
Proof.
  induction l as [|x l IH]; intros acc seen Hseen; simpl.
  - now rewrite app_nil_r.
  - rewrite Hseen.
    pose proof (dict_set_keys acc x (zero_stat x)) as Hk.
    destruct (existsb (String.eqb x) (map fst acc)) eqn:E.
    + rewrite (IH _ seen), Hk; [reflexivity|].
      intros y. now rewrite Hk.
    + rewrite (IH _ (x :: seen)), Hk; [now rewrite <- app_assoc|].
      intros y. rewrite Hk, existsb_app. simpl. rewrite Hseen.
      destruct (String.eqb y x), (existsb (String.eqb y) (map fst acc)); reflexivity.
Qed.

Lemma init_keys (retail_seats : list string) :
  map fst (init_seat_stats retail_seats) = unique [] retail_seats.
Proof. unfold init_seat_stats. now rewrite (init_keys_from retail_seats [] []). Qed.

Lemma unique_spec (l : list string) :
  forall seen,
    List.NoDup (unique seen l) /\
    (forall x, In x (unique seen l) <-> In x l /\ ~ In x seen).
Proof.
  induction l as [|y l IH]; intros seen; simpl.
  - split; [constructor | tauto].
  - destruct (existsb (String.eqb y) seen) eqn:E.
    + destruct (IH seen) as [Hnd Hin]. split; [assumption|].
      intros x. rewrite Hin.
      apply existsb_exists in E as (y' & Hy' & Heq). apply String.eqb_eq in Heq as <-.
      split; [tauto|]. intros [[<- | H] Hs]; tauto.
    + destruct (IH (y :: seen)) as [Hnd Hin]. split.
      * constructor; [|assumption]. rewrite Hin. simpl. tauto.
      * intros x. simpl. rewrite Hin. simpl.
        assert (Hy : ~ In y seen).
        { intros Hy. apply not_true_iff_false in E. apply E.
          apply existsb_exists. exists y. split; [assumption | apply String.eqb_refl]. }
        destruct (String.eqb_spec y x) as [->|Hne]; [tauto|]. tauto.
Qed.

Lemma init_entries_from (l : list string) :
  forall acc : list (string * SeatStat),
    (forall e, In e acc -> snd e = zero_stat (fst e)) ->
    forall e, In e (fold_left (fun d name => dict_set d name (zero_stat name)) l acc) ->
              snd e = zero_stat (fst e).
Proof.
  induction l as [|x l IH]; intros acc Hacc e; simpl; [apply Hacc|].
  apply IH. clear e. intros e He.
  clear IH. induction acc as [|[k0 v0] acc IHa]; simpl in He.
  - destruct He as [<- | []]. reflexivity.
  - destruct (String.eqb x k0).
    + destruct He as [<- | He]; [reflexivity|]. apply Hacc. now right.
    + destruct He as [<- | He]; [apply Hacc; now left|].
      apply IHa; [|assumption]. intros e' He'. apply Hacc. now right.
Qed.

Lemma init_seat_table (retail_seats : list string) :
  seat_table retail_seats (init_seat_stats retail_seats) /\
  init_seat_stats retail_seats = map (fun n => (n, zero_stat n)) (unique [] retail_seats).
Proof.
  assert (Hzero : forall e, In e (init_seat_stats retail_seats) -> snd e = zero_stat (fst e)).
  { apply init_entries_from. intros e []. }
  destruct (unique_spec retail_seats []) as [Hnd Hin].
  split.
  - unfold seat_table. rewrite init_keys. split; [assumption|]. split.
    + intros n. rewrite Hin. simpl. tauto.
    + intros e He. now rewrite (Hzero e He).
  - rewrite <- init_keys, map_map.
    rewrite <- (map_id (init_seat_stats retail_seats)) at 1.
    apply map_ext_in. intros [n st] He.
    pose proof (Hzero _ He) as H0. simpl in H0 |- *. now rewrite H0.
Qed.

(** The statistics after the loop: the aggregated numbers of every watched
    seat, in the order of the watch-list. *)
Lemma retail_rows_stats (retail_seats : list string) (df : DataFrame) :
  well_formed df -> party_labels_once df ->
  retail_rows retail_seats df (init_seat_stats retail_seats) (rows df)
  = Ok (map (fun n => (n, watched_stat df n)) (unique [] retail_seats)).
Proof.
  intros Hwf Honce. destruct (init_seat_table retail_seats) as [Htable Hinit].
  rewrite retail_rows_map by auto.
  f_equal. rewrite Hinit, map_map. apply map_ext. intros n. simpl.
  rewrite fold_contribute. unfold watched_stat, seat_sum. simpl.
  reflexivity.
Qed.

Lemma column_sum_total (df : DataFrame) (c : string) :
  has_column df c = true ->
  (forall r s, In r (rows df) -> cell df r c <> VStr s) ->
  column_sum df c = Ok (column_total df c).
Proof.
  intros Hc Hnum. unfold column_sum, getitem, column_total, cell in *.
  destruct (has_column_index df c Hc) as [i Hi]. rewrite Hi in *. simpl.
  induction (rows df) as [|r rs IH]; simpl; [reflexivity|].
  rewrite IH by (intros; apply Hnum; now right). simpl.
  specialize (Hnum r). destruct (nth i r VNaN) as [|z| |s]; simpl; try reflexivity.
  now destruct (Hnum s (or_introl eq_refl)).
Qed.

Lemma Zsum_nonneg (l : list Z) : (forall x, In x l -> 0 <= x) -> 0 <= Zsum l.
Proof.
  induction l as [|x l IH]; simpl; [lia|]. intros H.
  assert (0 <= x) by (apply H; now left).
  assert (0 <= Zsum l) by (apply IH; intros; apply H; now right).
  unfold Zsum in *. lia.
Qed.

Lemma seat_sum_nonneg (df : DataFrame) (name_col num_col seat : string) :
  (forall r, In r (rows df) -> 0 <= cell_value (cell df r num_col)) ->
  0 <= seat_sum df name_col num_col seat.
Proof.
  intros H. apply Zsum_nonneg. intros x Hx.
  apply in_map_iff in Hx as (r & <- & Hr).
  destruct (is_seat seat (cell df r name_col)); [now apply H | lia].
Qed.

Lemma has_position_nonzero (retail_seats : list string) (df : DataFrame) :
  nonneg_positions df ->
  List.filter has_position (watched_stats retail_seats df)
  = remaining_seats retail_seats df.
Proof.
  intros Hnn. unfold remaining_seats, watched_stats.
  apply filter_ext_in. intros st Hst.
  apply in_map_iff in Hst as (n & <- & _).
  unfold has_position, nonzero_position, watched_stat. simpl.
  pose proof (seat_sum_nonneg df "long_party_name" "long_open_interest" n
                (fun r Hr => proj1 (Hnn r Hr))).
  pose proof (seat_sum_nonneg df "short_party_name" "short_open_interest" n
                (fun r Hr => proj2 (Hnn r Hr))).
  destruct (Z.ltb_spec 0 (seat_sum df "long_party_name" "long_open_interest" n)),
           (Z.eqb_spec (seat_sum df "long_party_name" "long_open_interest" n) 0),
           (Z.ltb_spec 0 (seat_sum df "short_party_name" "short_open_interest" n)),
           (Z.eqb_spec (seat_sum df "short_party_name" "short_open_interest" n) 0);
    simpl; try reflexivity; lia.
Qed.

Lemma remaining_total (retail_seats : list string) (df : DataFrame) :
  Zsum (map (fun st => long_pos st + short_pos st) (remaining_seats retail_seats df))
  = Zsum (map (fun st => long_pos st + short_pos st) (watched_stats retail_seats df)).
Proof.
  unfold remaining_seats.
  induction (watched_stats retail_seats df) as [|st l IH]; simpl; [reflexivity|].
  unfold nonzero_position at 1.
  destruct (Z.eqb_spec (long_pos st) 0) as [E1|_], (Z.eqb_spec (short_pos st) 0) as [E2|_];
    simpl; unfold Zsum in *; lia.
Qed.

(** ** Processed snapshots *)

Lemma coerce_cell_not_text (v : pyval) (s : string) : coerce_cell v <> VStr s.
Proof.
  destruct v as [|z| |t]; cbn [coerce_cell]; try discriminate.
  destruct (String.eqb (strip_separators t) "nan"); [discriminate|].
  destruct (read_numeral (strip_separators t)); discriminate.
Qed.

Lemma nth_insert_same (r : list pyval) (i : nat) (x : pyval) :
  nth i (<[i := x]> r) VNaN = x \/ nth i (<[i := x]> r) VNaN = VNaN.
Proof.
  revert i. induction r as [|y r IH]; intros [|i]; simpl; auto.
Qed.

Lemma nth_insert_other (r : list pyval) (i j : nat) (x : pyval) :
  i <> j -> nth j (<[i := x]> r) VNaN = nth j r VNaN.
Proof.
  revert i j. induction r as [|y r IH]; intros [|i] [|j] H; simpl; auto; congruence.
Qed.

Lemma coerce_column_clean (df df' : DataFrame) (c : string) :
  coerce_column df c = Ok df' ->
  columns df' = columns df /\
  clean_column df' c /\
  (forall c', clean_column df c' -> clean_column df' c').
Proof.
  unfold coerce_column, column_pos. intros H.
  destruct (col_index c (columns df)) as [i|] eqn:Ei; [|discriminate].
  simpl in H. destruct (1 <? count_label c (columns df))%nat; [discriminate|].
  injection H as <-. split; [reflexivity|].
  assert (Hstep : forall c' r' s,
             In r' (map (fun r => <[i := coerce_cell (nth i r VNaN)]> r) (rows df)) ->
             (col_index c' (columns df) = Some i \/ clean_column df c') ->
             match col_index c' (columns df) with
             | Some j => nth j r' VNaN
             | None => VNaN
             end <> VStr s).
  { intros c' r' s Hr' Hc'. apply in_map_iff in Hr' as (r & <- & Hr).
    destruct (col_index c' (columns df)) as [j|] eqn:Ej; [|discriminate].
    destruct (Nat.eq_dec i j) as [<-|Hne].
    - destruct (nth_insert_same r i (coerce_cell (nth i r VNaN))) as [-> | ->];
        [apply coerce_cell_not_text | discriminate].
    - rewrite nth_insert_other by assumption.
      destruct Hc' as [[= ->] | Hclean]; [congruence|].
      specialize (Hclean r s Hr). unfold cell in Hclean. now rewrite Ej in Hclean. }
  split.
  - intros r' s Hr'. unfold cell. simpl in *. apply Hstep; auto.
  - intros c' Hclean r' s Hr'. unfold cell. simpl in *. apply Hstep; auto.
Qed.

Lemma coerce_columns_clean (cs : list string) :
  forall df df',
    coerce_columns df cs = Ok df' ->
    columns df' = columns df /\
    (forall c, In c cs -> clean_column df' c) /\
    (forall c, clean_column df c -> clean_column df' c).
Proof.
  induction cs as [|c cs IH]; intros df df' H; simpl in H.
  - injection H as <-. repeat split; auto. intros c [].
  - apply bind_ok in H as (df1 & H1 & H).
    apply coerce_column_clean in H1 as (Hcols1 & Hc1 & Hkeep1).
    apply IH in H as (Hcols & Hcs & Hkeep).
    split; [congruence|]. split.
    + intros c' [<- | Hin]; auto.
    + auto.
Qed.

(** A label that was coerced is carried by one column at most. *)
Lemma coerce_columns_labels (cs : list string) :
  forall df df',
    coerce_columns df cs = Ok df' ->
    forall c, In c cs -> (count_label c (columns df) <= 1)%nat.
Proof.
  induction cs as [|c cs IH]; intros df df' H c' Hc'; [destruct Hc'|].
  simpl in H. apply bind_ok in H as (df1 & H1 & H).
  pose proof (coerce_column_clean _ _ _ H1) as (Hcols1 & _ & _).
  destruct Hc' as [<- | Hin].
  - unfold coerce_column in H1. apply bind_ok in H1 as (i & _ & H1).
    destruct (Nat.ltb_spec 1 (count_label c (columns df))); [discriminate | assumption].
  - rewrite <- Hcols1. now apply (IH df1 df').
Qed.

(** What [process_position_data] returns: a frame with the required columns
    and no text in the numeric ones, and the totals of its own columns. *)
Lemma processed_snapshot (df0 : DataFrame) (data : Data) :
  process_position_data df0 = Some data ->
  exists df,
    data = [("total_long", DScalar (VNum (column_total df "long_open_interest")));
            ("total_short", DScalar (VNum (column_total df "short_open_interest")));
            ("total_long_chg", DScalar (VNum (column_total df "long_open_interest_chg")));
            ("total_short_chg", DScalar (VNum (column_total df "short_open_interest_chg")));
            ("raw_data", DFrame df)] /\
    well_formed df.
Proof.
  unfold process_position_data.
  destruct (process_body df0) as [r|] eqn:E; [|discriminate]. intros ->.
  unfold process_body in E.
  destruct (forallb (has_column (_standardize_columns df0)) required_columns) eqn:Hreq;
    [|discriminate].
  cbn [negb] in E.
  apply bind_ok in E as (df & Hco & E).
  pose proof (coerce_columns_labels _ _ _ Hco) as Hlabels.
  apply coerce_columns_clean in Hco as (Hcols & Hclean & _).
  assert (Hhas : forall c, In c required_columns -> has_column df c = true).
  { intros c Hc. unfold has_column. rewrite Hcols.
    rewrite forallb_forall in Hreq. now apply Hreq. }
  assert (Hnum : forall c, In c numeric_columns -> clean_column df c) by exact Hclean.
  assert (Hsum : forall c, In c numeric_columns ->
                           column_sum df c = Ok (column_total df c)).
  { intros c Hc. apply column_sum_total.
    - apply Hhas. simpl in Hc |- *. tauto.
    - intros r s Hr. now apply Hnum. }
  rewrite !Hsum in E by (simpl; tauto). simpl in E. injection E as <-.
  exists df. split; [reflexivity|]. split; [|split].
  - intros c Hc. apply Hhas. simpl in Hc |- *. tauto.
  - intros r c s Hr Hc. apply Hnum; [|assumption]. simpl in Hc |- *. tauto.
  - intros c Hc.
    assert (Hin : In c numeric_columns) by (simpl in Hc |- *; tauto).
    assert (Hreq' : In c required_columns) by (simpl in Hc |- *; tauto).
    pose proof (Hlabels c Hin) as Hle. rewrite <- Hcols in Hle.
    pose proof (Hhas c Hreq') as Hc'. unfold has_column in Hc'.
    rewrite count_label_has in Hc'. apply Nat.ltb_lt in Hc'. lia.
Qed.

(** ** Retail reverse: directions and strength *)

(** The answer of the strategy on a well-formed frame whose party-name
    labels occur once, step by step. *)
Lemma retail_reverse_normal (retail_seats : list string) (data : Data) (df : DataFrame) :
  dict_find data "raw_data" = Some (DFrame df) ->
  well_formed df -> party_labels_once df ->
  exists reason,
    analyze_retail_reverse retail_seats data
    = match kept_seats retail_seats df with
      | [] => (NEUTRAL, reason, 0%Q, [])
      | _ =>
          let total := column_total df "long_open_interest"
                       + column_total df "short_open_interest" in
          let retail :=
            Zsum (map (fun st => long_pos st + short_pos st)
                      (kept_seats retail_seats df)) in
          let ratio :=
            if 0 <? total then (inject_Z retail / inject_Z total)%Q else 0%Q in
          if forallb long_condition (kept_seats retail_seats df)
          then (LONG, reason, ratio, kept_seats retail_seats df)
          else if forallb short_condition (kept_seats retail_seats df)
               then (SHORT, reason, ratio, kept_seats retail_seats df)
               else (NEUTRAL, reason, 0%Q, kept_seats retail_seats df)
      end.
Proof.
  intros Hdata Hwf Honce.
  unfold analyze_retail_reverse, retail_reverse_body, dict_get.
  rewrite Hdata. simpl.
  rewrite retail_rows_stats by assumption. simpl.
  rewrite map_map. simpl.
  change (List.filter has_position (map (fun x => watched_stat df x) (unique [] retail_seats)))
    with (kept_seats retail_seats df).
  destruct (kept_seats retail_seats df) as [|st active] eqn:E.
  { eexists. reflexivity. }
  destruct Hwf as (Hcols & Hnum & _).
  assert (Hl : column_sum df "long_open_interest"
               = Ok (column_total df "long_open_interest")).
  { apply column_sum_total; [apply Hcols | intros; apply Hnum]; simpl; tauto. }
  assert (Hs : column_sum df "short_open_interest"
               = Ok (column_total df "short_open_interest")).
  { apply column_sum_total; [apply Hcols | intros; apply Hnum]; simpl; tauto. }
  apply bind_ok in Hl as (lcol & Hl1 & Hl2). apply bind_ok in Hs as (scol & Hs1 & Hs2).
  rewrite Hl1. cbn [bind]. rewrite Hl2. cbn [bind].
  rewrite Hs1. cbn [bind]. rewrite Hs2.
  cbn [bind length Nat.ltb Nat.leb andb].
  destruct (forallb long_condition (st :: active)).
  { eexists. reflexivity. }
  destruct (forallb short_condition (st :: active)).
  { eexists. reflexivity. }
  destruct (List.filter _ (st :: active)); eexists; reflexivity.
Qed.

(** With a column present, [row[c]] returns. *)
Lemma row_get_present (df : DataFrame) (r : list pyval) (c : string) :
  has_column df c = true -> exists it, row_get df r c = Ok it.
Proof.
  intros Hc. destruct (has_column_index df c Hc) as [i Hi].
  unfold row_get. rewrite Hi. destruct (1 <? _)%nat; eauto.
Qed.

Lemma watched_nothing (it : item) : watched [] it = Ok None.
Proof. destruct it as [[| | |s]|vs]; reflexivity. Qed.

(** No seat is watched: the loop over the rows changes nothing. *)
Lemma retail_rows_unwatched (df : DataFrame) (rs : list (list pyval)) :
  has_column df "long_party_name" = true ->
  has_column df "short_party_name" = true ->
  retail_rows [] df [] rs = Ok [].
Proof.
  intros Hl Hs. induction rs as [|r rs IH]; [reflexivity|].
  cbn [retail_rows]. unfold retail_row.
  destruct (row_get_present df r _ Hl) as [ln ->]. cbn [bind].
  rewrite watched_nothing. cbn [bind].
  destruct (row_get_present df r _ Hs) as [sn ->]. cbn [bind].
  rewrite watched_nothing. cbn [bind]. exact IH.
Qed.

Lemma no_position_at_start (l : list string) :
  List.filter has_position (map snd (map (fun n => (n, zero_stat n)) l)) = [].
Proof. induction l as [|n l IH]; [reflexivity | exact IH]. Qed.

(** A repeated party-name label stops the loop at the first row. *)
Lemma retail_row_ambiguous (seat : string) (seats : list string) (df : DataFrame)
    (r : list pyval) :
  well_formed df -> ~ party_labels_once df -> In r (rows df) ->
  retail_row (seat :: seats) df (init_seat_stats (seat :: seats)) r
  = Raise ambiguous_truth.
Proof.
  intros Hwf Hnot Hr. pose proof Hwf as (Hcols & _ & _).
  assert (Hl : has_column df "long_party_name" = true) by (apply Hcols; simpl; tauto).
  assert (Hs : has_column df "short_party_name" = true) by (apply Hcols; simpl; tauto).
  unfold retail_row.
  destruct (Nat.eq_dec (count_label "long_party_name" (columns df)) 1%nat) as [Hlong|Hlong].
  - rewrite (row_get_cell df r "long_party_name") by assumption. cbn [bind].
    rewrite <- bind_assoc.
    rewrite (update_watched (seat :: seats) (init_seat_stats (seat :: seats))
               (cell df r "long_party_name") (add_long df r) (long_added df r))
      by (try apply init_seat_table; intros; now apply add_long_ok).
    cbn [bind].
    destruct (row_get_series df r "short_party_name" Hs) as [vs ->].
    { intros Hshort. apply Hnot. now split. }
    reflexivity.
  - destruct (row_get_series df r "long_party_name" Hl Hlong) as [vs ->].
    reflexivity.
Qed.

(** The answer when a party-name label is repeated: Error as soon as a seat
    is watched and the table has a row. *)
Lemma retail_reverse_repeated (retail_seats : list string) (data : Data) (df : DataFrame) :
  dict_find data "raw_data" = Some (DFrame df) ->
  well_formed df -> ~ party_labels_once df ->
  analyze_retail_reverse retail_seats data
  = match retail_seats, rows df with
    | _ :: _, _ :: _ => (ERROR, DataError (exn_str ambiguous_truth), 0%Q, [])
    | _, _ => (NEUTRAL, NoRetailSeat, 0%Q, [])
    end.
Proof.
  intros Hdata Hwf Hnot. pose proof Hwf as (Hcols & _ & _).
  unfold analyze_retail_reverse, retail_reverse_body, dict_get.
  rewrite Hdata. cbn [bind as_frame].
  destruct retail_seats as [|seat seats].
  { change (init_seat_stats []) with (@nil (string * SeatStat)).
    rewrite retail_rows_unwatched by (apply Hcols; simpl; tauto).
    reflexivity. }
  destruct (rows df) as [|r rs] eqn:Erows.
  { cbn [retail_rows bind].
    rewrite (proj2 (init_seat_table (seat :: seats))), no_position_at_start.
    reflexivity. }
  cbn [retail_rows].
  rewrite retail_row_ambiguous by (try assumption; rewrite Erows; now left).
  reflexivity.
Qed.

Lemma party_labels_once_dec (df : DataFrame) :
  {party_labels_once df} + {~ party_labels_once df}.
Proof.
  unfold party_labels_once.
  destruct (Nat.eq_dec (count_label "long_party_name" (columns df)) 1%nat),
           (Nat.eq_dec (count_label "short_party_name" (columns df)) 1%nat); tauto.
Qed.

(** C5, as the code has it.  On a snapshot that [process_position_data]
    accepted and in which each party-name label is carried by one column:
    the seats kept are the watched seats whose aggregated long or short
    position is above 0, in the order of the watch-list, and the answer is
    Neutral when none is left; it is Long exactly when seats are left and
    every one of them has its shorts up and its longs down or unchanged,
    Short exactly when seats are left and every one of them has its longs up
    and its shorts down or unchanged, and Neutral otherwise; the strength of
    a Long or Short answer is the long plus short position of the seats kept
    over the long plus short position of all rows, and 0 when that total is
    not above 0. *)
Theorem retail_reverse_direction (retail_seats : list string) (df0 : DataFrame)
    (data : Data) :
  process_position_data df0 = Some data ->
  party_labels_once (snapshot_frame data) ->
  retail_details (analyze_retail_reverse retail_seats data)
  = kept_seats retail_seats (snapshot_frame data) /\
  (forall st, In st (kept_seats retail_seats (snapshot_frame data)) <->
              In st (watched_stats retail_seats (snapshot_frame data)) /\
              (0 < long_pos st \/ 0 < short_pos st)) /\
  (kept_seats retail_seats (snapshot_frame data) = [] ->
   retail_signal (analyze_retail_reverse retail_seats data) = NEUTRAL) /\
  (retail_signal (analyze_retail_reverse retail_seats data) = LONG <->
   kept_seats retail_seats (snapshot_frame data) <> [] /\
   forall st, In st (kept_seats retail_seats (snapshot_frame data)) ->
              0 < short_chg st /\ long_chg st <= 0) /\
  (retail_signal (analyze_retail_reverse retail_seats data) = SHORT <->
   kept_seats retail_seats (snapshot_frame data) <> [] /\
   forall st, In st (kept_seats retail_seats (snapshot_frame data)) ->
              0 < long_chg st /\ short_chg st <= 0) /\
  directional (retail_signal (analyze_retail_reverse retail_seats data)) /\
  (retail_signal (analyze_retail_reverse retail_seats data) = LONG \/
   retail_signal (analyze_retail_reverse retail_seats data) = SHORT ->
   let kept_total :=
     Zsum (map (fun st => long_pos st + short_pos st)
               (kept_seats retail_seats (snapshot_frame data))) in
   let all_total :=
     column_total (snapshot_frame data) "long_open_interest"
     + column_total (snapshot_frame data) "short_open_interest" in
   (0 < all_total ->
    (retail_strength (analyze_retail_reverse retail_seats data)
     == inject_Z kept_total / inject_Z all_total)%Q) /\
   (all_total <= 0 ->
    (retail_strength (analyze_retail_reverse retail_seats data) == 0)%Q)).
Proof.
  intros Hproc Honce.
  destruct (processed_snapshot df0 data Hproc) as (df & Hdata_eq & Hwf).
  assert (Hdata : dict_find data "raw_data" = Some (DFrame df))
    by (rewrite Hdata_eq; reflexivity).
  assert (Hframe : snapshot_frame data = df)
    by (unfold snapshot_frame; now rewrite Hdata).
  rewrite Hframe in *. clear Hframe Hdata_eq Hproc.
  destruct (retail_reverse_normal retail_seats data df Hdata Hwf Honce) as [reason ->].
  assert (Hlong : forall l, forallb long_condition l = true <->
                            forall st, In st l -> 0 < short_chg st /\ long_chg st <= 0).
  { intros l. rewrite forallb_forall. unfold long_condition.
    split; intros H st Hst; specialize (H st Hst).
    - apply andb_true_iff in H as [H1 H2]. lia.
    - apply andb_true_iff. split; lia. }
  assert (Hshort : forall l, forallb short_condition l = true <->
                             forall st, In st l -> 0 < long_chg st /\ short_chg st <= 0).
  { intros l. rewrite forallb_forall. unfold short_condition.
    split; intros H st Hst; specialize (H st Hst).
    - apply andb_true_iff in H as [H1 H2]. lia.
    - apply andb_true_iff. split; lia. }
  assert (Hkept : forall st, In st (kept_seats retail_seats df) <->
                             In st (watched_stats retail_seats df) /\
                             (0 < long_pos st \/ 0 < short_pos st)).
  { intros st. unfold kept_seats. rewrite filter_In. unfold positive_position.
    rewrite orb_true_iff, !Z.ltb_lt. reflexivity. }
  destruct (kept_seats retail_seats df) as [|st active] eqn:E.
  { unfold retail_details, retail_signal, directional. simpl.
    repeat split; auto; try discriminate; try tauto; apply Hkept. }
  cbn zeta.
  destruct (forallb long_condition (st :: active)) eqn:EL.
  { unfold retail_details, retail_signal, retail_strength, directional. simpl.
    split; [reflexivity|]. split; [exact Hkept|]. split; [discriminate|]. split.
    { split; [intros _ | reflexivity]. split; [discriminate | exact (proj1 (Hlong _) EL)]. }
    split.
    { split; [discriminate|]. intros [_ H]. exfalso.
      pose proof (proj1 (Hlong _) EL st (or_introl eq_refl)).
      specialize (H st (or_introl eq_refl)). lia. }
    split; [auto|]. intros _. split.
    - intros Hpos. destruct (Z.ltb_spec 0 (column_total df "long_open_interest"
                                            + column_total df "short_open_interest"));
        [reflexivity | lia].
    - intros Hle. destruct (Z.ltb_spec 0 (column_total df "long_open_interest"
                                           + column_total df "short_open_interest"));
        [lia | reflexivity]. }
  destruct (forallb short_condition (st :: active)) eqn:ES.
  { unfold retail_details, retail_signal, retail_strength, directional. simpl.
    split; [reflexivity|]. split; [exact Hkept|]. split; [discriminate|]. split.
    { split; [discriminate|]. intros [_ H]. apply (proj2 (Hlong (st :: active))) in H. congruence. }
    split.
    { split; [intros _ | reflexivity]. split; [discriminate | exact (proj1 (Hshort _) ES)]. }
    split; [auto|]. intros _. split.
    - intros Hpos. destruct (Z.ltb_spec 0 (column_total df "long_open_interest"
                                            + column_total df "short_open_interest"));
        [reflexivity | lia].
    - intros Hle. destruct (Z.ltb_spec 0 (column_total df "long_open_interest"
                                           + column_total df "short_open_interest"));
        [lia | reflexivity]. }
  unfold retail_details, retail_signal, retail_strength, directional. simpl.
  split; [reflexivity|]. split; [exact Hkept|]. split; [discriminate|]. split.
  { split; [discriminate|]. intros [_ H]. apply (proj2 (Hlong (st :: active))) in H. congruence. }
  split.
  { split; [discriminate|]. intros [_ H]. apply (proj2 (Hshort (st :: active))) in H. congruence. }
  split; [auto|]. intros [[=] | [=]].
Qed.

(** The retail example of the specification, as a processed snapshot: both
    watched seats are kept, the answer is Long, and the strength is their
    share, 1100 of 3000 lots. *)
Lemma retail_reverse_example :
  process_position_data full_sheet = Some retail_example /\
  kept_seats ["A"; "B"] (snapshot_frame retail_example)
  = [mkSeat "A" 0 200 100 500; mkSeat "B" (-50) 150 200 300] /\
  retail_signal (analyze_retail_reverse ["A"; "B"] retail_example) = LONG /\
  (retail_strength (analyze_retail_reverse ["A"; "B"] retail_example) == 11 # 30)%Q.
Proof.
  assert (Hproc : process_position_data full_sheet = Some retail_example)
    by reflexivity.
  assert (Honce : party_labels_once (snapshot_frame retail_example))
    by (split; reflexivity).
  pose proof (retail_reverse_direction ["A"; "B"] full_sheet retail_example Hproc Honce)
    as (_ & _ & _ & HL & _ & _ & HS).
  assert (L : retail_signal (analyze_retail_reverse ["A"; "B"] retail_example) = LONG).
  { apply HL. split; [discriminate|].
    intros st Hst. simpl in Hst.
    destruct Hst as [<- | [<- | []]]; simpl; split; [reflexivity | discriminate
                                                    | reflexivity | discriminate]. }
  split; [exact Hproc|]. split; [reflexivity|]. split; [exact L|].
  destruct (HS (or_introl L)) as [H _].
  rewrite H; reflexivity.
Defined.

(** C5, as stated, fails in three places.  A watched seat whose long
    position adds up to -5 has a position that is not zero, its shorts are
    up and its longs unchanged, so the claim keeps it and answers Long; the
    code keeps the seats with a position above 0 only, finds none and
    answers Neutral.  On a table whose positions add up to -20 the answer
    is Long for a seat with 10 lots, the denominator is not 0 and the
    claim's strength is 10 / -20; the code divides only by a total above 0
    and gives 0.  And on a table with the Zhengzhou labels that already has
    a column long_party_name, which [process_position_data] accepts, the
    name of a row is a Series and the answer is Error. *)
Lemma retail_claim_counterexamples :
  (exists data,
      process_position_data negative_sheet = Some data /\
      remaining_seats ["A"] (snapshot_frame data) = [mkSeat "A" 0 10 (-5) 0] /\
      retail_signal (analyze_retail_reverse ["A"] data) = NEUTRAL /\
      retail_details (analyze_retail_reverse ["A"] data) = []) /\
  (exists data,
      process_position_data negative_total_sheet = Some data /\
      retail_signal (analyze_retail_reverse ["A"] data) = LONG /\
      remaining_seats ["A"] (snapshot_frame data) = [mkSeat "A" 0 5 10 0] /\
      column_total (snapshot_frame data) "long_open_interest"
      + column_total (snapshot_frame data) "short_open_interest" = -20 /\
      (retail_strength (analyze_retail_reverse ["A"] data) == 0)%Q) /\
  (exists data,
      process_position_data czce_sheet_with_name = Some data /\
      retail_signal (analyze_retail_reverse ["A"] data) = ERROR).
Proof.
  split; [|split].
  - destruct (process_position_data negative_sheet) as [data|] eqn:E; [|discriminate].
    exists data. split; [reflexivity|].
    vm_compute in E. injection E as <-. repeat split; reflexivity.
  - destruct (process_position_data negative_total_sheet) as [data|] eqn:E;
      [|discriminate].
    exists data. split; [reflexivity|].
    vm_compute in E. injection E as <-. repeat split; reflexivity.
  - destruct (process_position_data czce_sheet_with_name) as [data|] eqn:E; [|discriminate].
    exists data. split; [reflexivity|].
    vm_compute in E. injection E as <-. reflexivity.
Qed.

(** ** Acquisition of the positions and the fatal abort *)

Lemma fetch_and_save_answer (env : Env) (trade_date name filename : string) (w : World) :
  fst (fetch_and_save env trade_date name filename w)
  = produced_and_persisted env trade_date (name, filename).
Proof.
  unfold fetch_and_save, produced_and_persisted. cbn [fst snd].
  destruct (position_source env name trade_date) as [e|[|sheet sheets]]; try reflexivity.
  destruct (excel_write env filename (clean_book (sheet :: sheets))) as [|e [residue|]];
    reflexivity.
Qed.

Lemma positive_count {A : Type} (f : A -> bool) (l : list A) :
  (0 <? length (List.filter f l))%nat = existsb f l.
Proof.
  induction l as [|a l IH]; simpl; [reflexivity|].
  destruct (f a); simpl; [reflexivity | exact IH].
Qed.

Lemma fetch_position_loop_quiet (env : Env) (trade_date : string) (cb : Callback)
    (total : nat) (exchanges : list (string * string)) :
  quiet cb ->
  forall i c w,
    fetch_position_loop env trade_date cb total i exchanges c w
    = ((c + length (List.filter (produced_and_persisted env trade_date) exchanges))%nat,
       saves env trade_date exchanges w).
Proof.
  intros Hq. induction exchanges as [|[name filename] rest IH]; intros i c w;
    cbn [fetch_position_loop saves fold_left List.filter length fst snd].
  - f_equal. lia.
  - rewrite Hq.
    pose proof (fetch_and_save_answer env trade_date name filename w) as Ha.
    destruct (fetch_and_save env trade_date name filename w) as [saved w1].
    cbn [fst snd] in *. rewrite <- Ha.
    destruct saved; rewrite IH; unfold saves; cbn [length]; f_equal; lia.
Qed.

Lemma fetch_position_data_quiet (env : Env) (trade_date : string) (cb : Callback) (w : World) :
  quiet cb ->
  fetch_position_data env trade_date cb w
  = (Ok (existsb (produced_and_persisted env trade_date) exchange_config),
     saves env trade_date exchange_config w).
Proof.
  intros Hq. unfold fetch_position_data.
  rewrite (fetch_position_loop_quiet env trade_date cb (length exchange_config)
             exchange_config Hq 0%nat 0%nat w).
  rewrite Hq. now rewrite <- positive_count.
Qed.

(** A save touches the file of its exchange only. *)
Lemma fetch_and_save_other (env : Env) (trade_date name filename other : string) (w : World) :
  other <> filename ->
  data_dir (snd (fetch_and_save env trade_date name filename w)) !! other
  = data_dir w !! other.
Proof.
  intros Hne. unfold fetch_and_save.
  destruct (position_source env name trade_date) as [e|[|sheet sheets]]; try reflexivity.
  destruct (excel_write env filename (clean_book (sheet :: sheets))) as [|e [residue|]];
    try reflexivity; simpl; now rewrite lookup_insert_ne.
Qed.

Lemma saves_other (env : Env) (trade_date other : string) (exchanges : list (string * string)) :
  ~ In other (map snd exchanges) ->
  forall w, data_dir (saves env trade_date exchanges w) !! other = data_dir w !! other.
Proof.
  induction exchanges as [|[name filename] rest IH]; intros Hother w;
    cbn [saves fold_left fst snd]; [reflexivity|].
  simpl in Hother.
  fold (saves env trade_date rest (snd (fetch_and_save env trade_date name filename w))).
  rewrite IH by tauto. apply fetch_and_save_other. intros ->. tauto.
Qed.

(** The workbook of every exchange that produced and persisted data is in
    the data directory when the acquisition ends. *)
Lemma saves_persisted (env : Env) (trade_date : string) (exchanges : list (string * string)) :
  List.NoDup (map snd exchanges) ->
  forall w e data_dict,
    In e exchanges ->
    produced_and_persisted env trade_date e = true ->
    position_source env (fst e) trade_date = FetchReturns data_dict ->
    data_dir (saves env trade_date exchanges w) !! snd e = Some (clean_book data_dict).
Proof.
  induction exchanges as [|[name filename] rest IH]; intros Hnd w e data_dict Hin Hpp Hsrc;
    [destruct Hin|].
  apply List.NoDup_cons_iff in Hnd as [Hfresh Hnd].
  cbn [saves fold_left fst snd].
  fold (saves env trade_date rest (snd (fetch_and_save env trade_date name filename w))).
  destruct Hin as [<- | Hin]; [|now apply IH].
  cbn [fst snd] in *. rewrite saves_other by assumption.
  unfold produced_and_persisted in Hpp. unfold fetch_and_save.
  cbn [fst snd] in Hpp. rewrite Hsrc in *.
  destruct data_dict as [|sheet sheets]; [discriminate|].
  destruct (excel_write env filename (clean_book (sheet :: sheets))); [|discriminate].
  simpl. apply lookup_insert_eq.
Qed.

(** *** The tasks of the pool *)

(** In a thread of the pool nothing is asked where the platform has
    SIGALRM; elsewhere the functions are called as the dispatch says. *)
Lemma gfex_loop_three {V : Type} (answers : nat -> Answer V) (alarm : nat -> bool) :
  (forall k, alarm k = false) ->
  fst (gfex_loop answers alarm 3 (seq 0 3) [])
  = match answers 0%nat with
    | Returned v => v
    | Failed _ =>
        match answers 1%nat with
        | Returned v => v
        | Failed _ =>
            match answers 2%nat with
            | Returned v => v
            | Failed _ => None
            end
        end
    end.
Proof.
  intros Halarm. cbn [seq gfex_loop Nat.eqb Nat.sub].
  destruct (answers 0%nat); [reflexivity|]. rewrite Halarm.
  destruct (answers 1%nat); [reflexivity|]. rewrite Halarm.
  destruct (answers 2%nat); reflexivity.
Qed.

Lemma task_dataset_pooled (env : Env) (trade_date : string) (w : World)
    (e : string * (string * string)) :
  In e fast_exchange_config ->
  task_dataset env trade_date w (fst (snd e)) = pooled_dataset env trade_date w e.
Proof.
  intros Hin. unfold task_dataset, pooled_dataset, cached_data_fetch.
  destruct (memo_fresh (book_memo w) (clock env) (fst (snd e), trade_date, None))
    as [stored|]; [reflexivity|].
  destruct (akshare_importable env); [|reflexivity].
  cbn [negb orb]. unfold fetch_body.
  destruct (sigalrm env); [reflexivity|]. cbn [andb negb].
  simpl in Hin.
  destruct Hin as [<- | [<- | [<- | [<- | [<- | []]]]]]; cbn [fst snd].
  1-4: (match goal with
        | |- context [existsb (String.eqb ?f) single_call_functions] =>
            replace (existsb (String.eqb f) single_call_functions) with true
              by (vm_compute; reflexivity)
        end;
        match goal with
        | |- context [String.eqb ?a "广期所"] =>
            replace (String.eqb a "广期所") with false by (vm_compute; reflexivity)
        end;
        unfold position_network;
        match goal with
        | |- context [dict_find position_functions ?f] =>
            let r := eval vm_compute in (dict_find position_functions f) in
            change (dict_find position_functions f) with r
        end;
        unfold outcome_answer, source_dataset;
        match goal with
        | |- context [position_source ?e ?n ?d] =>
            destruct (position_source e n d); reflexivity
        end).
  replace (existsb (String.eqb "futures_gfex_position_rank") single_call_functions)
    with false by (vm_compute; reflexivity).
  replace (String.eqb "futures_gfex_position_rank" "futures_gfex_position_rank")
    with true by (vm_compute; reflexivity).
  replace (String.eqb "广期所" "广期所") with true by (vm_compute; reflexivity).
  let p := constr:(gfex_loop_three
                     (position_network env "futures_gfex_position_rank" trade_date None)
                     (fun k => false && (fun _ : nat => false) k) (fun k => eq_refl)) in
  pose proof p as Hloop.
  destruct (gfex_loop _ _ 3 (seq 0 3) []) as [v log] eqn:E.
  cbn [fst] in *. rewrite Hloop. clear Hloop E.
  unfold position_network, gfex_dataset, source_dataset.
  change (dict_find position_functions "futures_gfex_position_rank")
    with (Some "广期所"%string).
  unfold outcome_answer.
  destruct (position_source env "广期所" trade_date); [|reflexivity].
  destruct (position_retry env "广期所" trade_date 1); [|reflexivity].
  destruct (position_retry env "广期所" trade_date 2); reflexivity.
Qed.

(** The answer of a task, by the dataset it is handed. *)
Lemma task_answer (env : Env) (trade_date name func_name filename : string) (w : World) :
  fst (_fetch_single_exchange_data_with_timeout env trade_date name func_name filename w)
  = match task_dataset env trade_date w func_name with
    | Some (sheet :: sheets) =>
        match excel_write env filename (clean_book (sheet :: sheets)) with
        | Written => true
        | WriteRaises _ _ => false
        end
    | _ => false
    end.
Proof.
  unfold _fetch_single_exchange_data_with_timeout, task_dataset.
  destruct (cached_data_fetch _ _ _ _ _ _ _ _ _ _) as [[r memo] log]. cbn [fst].
  destruct r as [[[|sheet sheets]|]|e]; try reflexivity.
  destruct (excel_write env filename (clean_book (sheet :: sheets))) as [|e [residue|]];
    reflexivity.
Qed.

(** A task changes the store under its own arguments only, and the file of
    its exchange only. *)
Lemma task_store (env : Env) (trade_date name func_name filename : string) (w : World)
    (key : string * string * option string) :
  key <> (func_name, trade_date, None) ->
  book_memo (snd (_fetch_single_exchange_data_with_timeout env trade_date name
                    func_name filename w)) !! key
  = book_memo w !! key.
Proof.
  intros Hkey. unfold _fetch_single_exchange_data_with_timeout, cached_data_fetch.
  destruct (memo_fresh (book_memo w) (clock env) (func_name, trade_date, None)) as [v|].
  - destruct v as [[|sheet sheets]|]; try reflexivity.
    destruct (excel_write env filename (clean_book (sheet :: sheets))) as [|e [residue|]];
      reflexivity.
  - destruct (akshare_importable env); [|reflexivity].
    destruct (fetch_body _ _ _ _ _ _ _) as [v log].
    assert (Hstore : <[(func_name, trade_date, None) := (clock env, v)]> (book_memo w) !! key
                     = book_memo w !! key)
      by (apply lookup_insert_ne; congruence).
    destruct v as [[|sheet sheets]|]; try exact Hstore.
    destruct (excel_write env filename (clean_book (sheet :: sheets))) as [|e [residue|]];
      exact Hstore.
Qed.

Lemma task_files (env : Env) (trade_date name func_name filename other : string) (w : World) :
  other <> filename ->
  data_dir (snd (_fetch_single_exchange_data_with_timeout env trade_date name
                   func_name filename w)) !! other
  = data_dir w !! other.
Proof.
  intros Hne. unfold _fetch_single_exchange_data_with_timeout.
  destruct (cached_data_fetch _ _ _ _ _ _ _ _ _ _) as [[r memo] log].
  destruct r as [[[|sheet sheets]|]|e]; try reflexivity.
  destruct (excel_write env filename (clean_book (sheet :: sheets))) as [|e [residue|]];
    try reflexivity; simpl; now rewrite lookup_insert_ne.
Qed.

Lemma task_written (env : Env) (trade_date name func_name filename : string) (w : World)
    (data_dict : Workbook) :
  fst (_fetch_single_exchange_data_with_timeout env trade_date name func_name filename w)
  = true ->
  task_dataset env trade_date w func_name = Some data_dict ->
  data_dir (snd (_fetch_single_exchange_data_with_timeout env trade_date name
                   func_name filename w)) !! filename
  = Some (clean_book data_dict).
Proof.
  unfold _fetch_single_exchange_data_with_timeout, task_dataset.
  destruct (cached_data_fetch _ _ _ _ _ _ _ _ _ _) as [[r memo] log]. cbn [fst].
  destruct r as [[[|sheet sheets]|]|e]; try discriminate.
  destruct (excel_write env filename (clean_book (sheet :: sheets))) as [|e [residue|]];
    try discriminate.
  intros _ [= <-]. simpl. apply lookup_insert_eq.
Qed.

(** The dataset of a task depends on the store under its arguments only. *)
Lemma pooled_dataset_store (env : Env) (trade_date : string) (w w' : World)
    (e : string * (string * string)) :
  book_memo w' !! (fst (snd e), trade_date, None)
  = book_memo w !! (fst (snd e), trade_date, None) ->
  pooled_dataset env trade_date w' e = pooled_dataset env trade_date w e.
Proof.
  intros H. unfold pooled_dataset, memo_fresh.
  match goal with
  | |- context [@lookup ?K ?A ?M ?L ?k (book_memo w')] =>
      replace (@lookup K A M L k (book_memo w'))
        with (@lookup K A M L k (book_memo w)) by (symmetry; exact H)
  end.
  reflexivity.
Qed.

Lemma pooled_produced_store (env : Env) (trade_date : string) (w w' : World)
    (e : string * (string * string)) :
  book_memo w' !! (fst (snd e), trade_date, None)
  = book_memo w !! (fst (snd e), trade_date, None) ->
  pooled_produced env trade_date w' e = pooled_produced env trade_date w e.
Proof.
  intros H. unfold pooled_produced. now rewrite (pooled_dataset_store env trade_date w w' e H).
Qed.

(** The answer of the task of a configured exchange. *)
Lemma task_answer_pooled (env : Env) (trade_date : string) (w : World)
    (e : string * (string * string)) :
  In e fast_exchange_config ->
  fst (_fetch_single_exchange_data_with_timeout env trade_date (fst e) (fst (snd e))
         (snd (snd e)) w)
  = pooled_produced env trade_date w e.
Proof.
  intros Hin. rewrite task_answer, (task_dataset_pooled env trade_date w e Hin).
  reflexivity.
Qed.

(** The world after the tasks of the exchanges, in turn. *)
Lemma run_position_tasks_world (env : Env) (trade_date : string)
    (exchanges : list (string * (string * string))) :
  forall w,
    snd (run_position_tasks env trade_date exchanges w)
    = fold_left (fun w e => snd (_fetch_single_exchange_data_with_timeout
                                   env trade_date (fst e) (fst (snd e)) (snd (snd e)) w))
                exchanges w.
Proof.
  induction exchanges as [|[name [func filename]] rest IH]; intros w;
    cbn [run_position_tasks fold_left fst snd]; [reflexivity|].
  destruct (_fetch_single_exchange_data_with_timeout env trade_date name func filename w)
    as [saved w1].
  specialize (IH w1).
  destruct (run_position_tasks env trade_date rest w1) as [answers w2].
  cbn [fst snd] in *. exact IH.
Qed.

(** The tasks do not disturb one another: the answer of each is the one it
    would give alone. *)
Lemma run_position_tasks_answers (env : Env) (trade_date : string) (w : World)
    (exchanges : list (string * (string * string))) :
  List.NoDup (map (fun e => fst (snd e)) exchanges) ->
  (forall e, In e exchanges -> In e fast_exchange_config) ->
  forall w',
    (forall e, In e exchanges ->
               book_memo w' !! (fst (snd e), trade_date, None)
               = book_memo w !! (fst (snd e), trade_date, None)) ->
    fst (run_position_tasks env trade_date exchanges w')
    = map (fun e => (fst e, pooled_produced env trade_date w e)) exchanges.
Proof.
  induction exchanges as [|[name [func filename]] rest IH]; intros Hnd Hsub w' Hstore;
    cbn [run_position_tasks map fst snd]; [reflexivity|].
  apply List.NoDup_cons_iff in Hnd as [Hfresh Hnd]. cbn [fst snd] in Hfresh.
  pose proof (task_answer_pooled env trade_date w' (name, (func, filename))
                (Hsub _ (or_introl eq_refl))) as Ha.
  pose proof (fun key => task_store env trade_date name func filename w' key) as Hs.
  cbn [fst snd] in Ha.
  destruct (_fetch_single_exchange_data_with_timeout env trade_date name func filename w')
    as [saved w1].
  cbn [fst snd] in *.
  specialize (IH Hnd (fun e He => Hsub e (or_intror He)) w1).
  destruct (run_position_tasks env trade_date rest w1) as [answers w2].
  cbn [fst snd] in *. rewrite IH.
  - f_equal. f_equal. rewrite Ha.
    apply (pooled_produced_store env trade_date w w' (name, (func, filename))).
    apply Hstore. now left.
  - intros e He. rewrite Hs.
    + apply Hstore. now right.
    + intros [= Heq]. apply Hfresh. apply in_map_iff. exists e. auto.
Qed.

Lemma fast_functions_distinct :
  List.NoDup (map (fun e : string * (string * string) => fst (snd e)) fast_exchange_config).
Proof.
  unfold fast_exchange_config. simpl.
  repeat (constructor; [simpl; intuition discriminate|]). constructor.
Qed.

Lemma fast_files_distinct :
  List.NoDup (map (fun e : string * (string * string) => snd (snd e)) fast_exchange_config).
Proof.
  unfold fast_exchange_config. simpl.
  repeat (constructor; [simpl; intuition discriminate|]). constructor.
Qed.

Lemma completed_loop_quiet (cb : Callback) (answers : list (string * bool))
    (total : nat) (completed : list string) :
  quiet cb ->
  forall i c,
    completed_loop cb answers total i completed c
    = Ok (c + length (List.filter (answered answers) completed))%nat.
Proof.
  intros Hq. induction completed as [|name rest IH]; intros i c; simpl.
  - f_equal. lia.
  - rewrite Hq. simpl. rewrite IH. unfold answered.
    destruct (dict_find answers name) as [[|]|]; simpl; f_equal; lia.
Qed.

Lemma existsb_perm {A : Type} (f : A -> bool) (l l' : list A) :
  Permutation l l' -> existsb f l = existsb f l'.
Proof.
  induction 1; simpl; try congruence.
  - destruct (f x), (f y); reflexivity.
Qed.

Lemma answered_config (p : string * (string * string) -> bool) :
  existsb (answered (map (fun e => (fst e, p e)) fast_exchange_config))
          (map fst fast_exchange_config)
  = existsb p fast_exchange_config.
Proof.
  unfold fast_exchange_config, answered. simpl.
  repeat match goal with
         | |- context [p ?e] => destruct (p e)
         end; reflexivity.
Qed.

Lemma fetch_position_data_fast_quiet (env : Env) (trade_date : string) (cb : Callback)
    (w : World) :
  quiet cb ->
  Permutation (map fst fast_exchange_config) (positions_completion env) ->
  fetch_position_data_fast env trade_date cb w
  = (Ok (existsb (pooled_produced env trade_date w) fast_exchange_config),
     snd (run_position_tasks env trade_date fast_exchange_config w)).
Proof.
  intros Hq Hperm. unfold fetch_position_data_fast.
  pose proof (run_position_tasks_answers env trade_date w fast_exchange_config
                fast_functions_distinct (fun e He => He) w (fun e He => eq_refl)) as Ha.
  destruct (run_position_tasks env trade_date fast_exchange_config w) as [answers w1].
  cbn [fst snd] in *. subst answers.
  rewrite completed_loop_quiet by assumption. cbn [bind].
  rewrite Hq. cbn [bind Nat.add]. rewrite positive_count.
  rewrite <- (existsb_perm _ _ _ Hperm). now rewrite answered_config.
Qed.

(** The workbook of every exchange whose task produced and persisted data
    is in the data directory when the tasks are done. *)
Lemma tasks_other (env : Env) (trade_date other : string)
    (exchanges : list (string * (string * string))) :
  ~ In other (map (fun e => snd (snd e)) exchanges) ->
  forall w,
    data_dir (snd (run_position_tasks env trade_date exchanges w)) !! other
    = data_dir w !! other.
Proof.
  intros Hother w. rewrite run_position_tasks_world. revert w.
  induction exchanges as [|[name [func filename]] rest IH]; intros w;
    cbn [fold_left fst snd]; [reflexivity|].
  simpl in Hother.
  rewrite IH by tauto. apply task_files. intros ->. tauto.
Qed.

Lemma tasks_persisted (env : Env) (trade_date : string) (w : World)
    (exchanges : list (string * (string * string))) :
  List.NoDup (map (fun e => fst (snd e)) exchanges) ->
  List.NoDup (map (fun e => snd (snd e)) exchanges) ->
  (forall e, In e exchanges -> In e fast_exchange_config) ->
  forall w',
    (forall e, In e exchanges ->
               book_memo w' !! (fst (snd e), trade_date, None)
               = book_memo w !! (fst (snd e), trade_date, None)) ->
    forall e data_dict,
      In e exchanges ->
      pooled_produced env trade_date w e = true ->
      pooled_dataset env trade_date w e = Some data_dict ->
      data_dir (snd (run_position_tasks env trade_date exchanges w')) !! snd (snd e)
      = Some (clean_book data_dict).
Proof.
  induction exchanges as [|[name [func filename]] rest IH];
    intros Hfn Hfl Hsub w' Hstore e data_dict Hin Hpp Hds; [destruct Hin|].
  apply List.NoDup_cons_iff in Hfn as [Hfresh Hfn]. cbn [fst snd] in Hfresh.
  apply List.NoDup_cons_iff in Hfl as [Hfile Hfl]. cbn [fst snd] in Hfile.
  rewrite run_position_tasks_world. cbn [fold_left fst snd].
  rewrite <- run_position_tasks_world.
  destruct Hin as [<- | Hin].
  - cbn [fst snd]. rewrite tasks_other by assumption.
    pose proof (Hsub _ (or_introl eq_refl)) as Hcfg.
    assert (Hstore' : book_memo w' !! (func, trade_date, None)
                      = book_memo w !! (func, trade_date, None))
      by (apply (Hstore (name, (func, filename))); now left).
    pose proof (task_answer_pooled env trade_date w' (name, (func, filename)) Hcfg) as Ha.
    pose proof (task_dataset_pooled env trade_date w' (name, (func, filename)) Hcfg) as Hd.
    cbn [fst snd] in Ha, Hd.
    apply task_written.
    + rewrite Ha.
      now rewrite (pooled_produced_store env trade_date w w' (name, (func, filename))).
    + rewrite Hd.
      now rewrite (pooled_dataset_store env trade_date w w' (name, (func, filename))).
  - apply IH; try assumption.
    + intros e' He'. apply Hsub. now right.
    + intros e' He'. rewrite task_store.
      * apply Hstore. now right.
      * intros [= Heq]. apply Hfresh. apply in_map_iff. exists e'. auto.
Qed.

Lemma acquire_positions_quiet (env : Env) (trade_date : string) (cb : Callback) (w : World) :
  quiet cb ->
  Permutation (map fst fast_exchange_config) (positions_completion env) ->
  exists w1,
    acquire_positions env trade_date cb w = (Ok (acquired env trade_date w), w1).
Proof.
  intros Hq Hperm. unfold acquire_positions, acquired. destruct (fast_import env).
  - rewrite fetch_position_data_fast_quiet by assumption. eauto.
  - rewrite fetch_position_data_quiet by assumption. eauto.
Qed.

Lemma completed_price_loop_quiet (cb : Callback)
    (answers : list (string * result (option (list PriceRow))))
    (total : nat) (completed : list (string * string)) :
  quiet cb ->
  forall i all_data, exists rows,
    completed_price_loop cb answers total i completed all_data = Ok rows.
Proof.
  intros Hq. induction completed as [|[market name] rest IH]; intros i all_data; simpl.
  - eauto.
  - rewrite Hq. simpl. destruct (dict_find answers market) as [[[df|]|e]|]; apply IH.
Qed.

Lemma acquire_prices_quiet (env : Env) (trade_date : string) (cb : Callback) (w : World) :
  quiet cb ->
  exists price_data w', acquire_prices env trade_date cb w = (Ok price_data, w').
Proof.
  intros Hq. unfold acquire_prices. destruct (fast_import env).
  - unfold fetch_price_data_fast.
    destruct (fst (load_from_cache (cache_dir w) (clock env) (price_cache_key env)))
      as [cached|]; [eauto|].
    destruct (run_price_tasks env trade_date price_exchanges w) as [answers w1].
    destruct (completed_price_loop_quiet cb answers (length price_exchanges)
                (prices_completion env) Hq 0%nat []) as [rows ->].
    simpl. rewrite Hq. simpl. eauto.
  - unfold fetch_price_data, io_bind, io_lift, io_ret. rewrite Hq. eauto.
Qed.

Lemma later_stages_quiet (env : Env) (retail_seats : list string) (trade_date : string)
    (cb : Callback) (w1 : World) :
  quiet cb ->
  exists price_data w2 position_results,
    acquire_prices env trade_date cb w1 = (Ok price_data, w2) /\
    _analyze_positions retail_seats cb (load_position_data w2) = Ok position_results /\
    later_stages env retail_seats trade_date cb w1
    = (Ok (mkResults position_results (analyze_term_structure price_data)
                     (_generate_summary position_results) trade_date retail_seats),
       w2).
Proof.
  intros Hq.
  destruct (acquire_prices_quiet env trade_date cb w1 Hq) as (price_data & w2 & Hp).
  destruct (analyze_loop_returns retail_seats cb
              (length (load_position_data w2)) (load_position_data w2) Hq 0%nat [])
    as [position_results Ha].
  exists price_data, w2, position_results.
  split; [exact Hp|]. split; [exact Ha|].
  unfold later_stages, io_bind, io_lift, io_ret.
  rewrite !Hq.
  change (if fast_import env
          then fetch_price_data_fast env trade_date cb
          else fetch_price_data env trade_date cb)
    with (acquire_prices env trade_date cb).
  rewrite Hp.
  assert (Hpos : match load_position_data w2 with
                 | [] => (let* _ := Ok tt in Ok [], w2)
                 | _ :: _ => (_analyze_positions retail_seats cb (load_position_data w2), w2)
                 end = (Ok position_results, w2)).
  { unfold _analyze_positions in *.
    destruct (load_position_data w2); [|now rewrite Ha].
    simpl in Ha. injection Ha as <-. reflexivity. }
  destruct (load_position_data w2) as [|item items] eqn:El.
  - simpl in Hpos. injection Hpos as <-.
    destruct price_data; reflexivity.
  - injection Hpos as Hpos. rewrite Hpos. destruct price_data; reflexivity.
Qed.

(** C3, as the code has it.  With a progress callback that returns from
    every report (and, in the pooled mode, every exchange completing once):
    the acquisition of the positions reports success exactly when at least
    one exchange produced a non-empty dataset and its workbook was written,
    whatever the other exchanges did, and the workbook of every such
    exchange is in the data directory afterwards.  The dataset of an
    exchange is what its source returns in the standard mode, and what
    [cached_data_fetch] hands to the task of the exchange in the pooled
    mode.  The full analysis returns no result exactly when the acquisition
    of the mode in use reports no such exchange; and with at least one, the
    prices are fetched, the positions analyzed, the term structure
    classified and the summary built, and the result holds them.  For any
    callback, an exception that leaves the steps of the analysis is caught
    by its handler, which reports it and returns no result. *)
Theorem acquisition_and_abort (env : Env) (retail_seats : list string)
    (trade_date : string) (cb : Callback) (w : World) :
  quiet cb ->
  Permutation (map fst fast_exchange_config) (positions_completion env) ->
  fetch_position_data env trade_date cb w
  = (Ok (existsb (produced_and_persisted env trade_date) exchange_config),
     saves env trade_date exchange_config w) /\
  fst (fetch_position_data_fast env trade_date cb w)
  = Ok (existsb (pooled_produced env trade_date w) fast_exchange_config) /\
  (forall e data_dict,
      In e exchange_config ->
      produced_and_persisted env trade_date e = true ->
      position_source env (fst e) trade_date = FetchReturns data_dict ->
      data_dir (snd (fetch_position_data env trade_date cb w)) !! snd e
      = Some (clean_book data_dict)) /\
  (forall e data_dict,
      In e fast_exchange_config ->
      pooled_produced env trade_date w e = true ->
      pooled_dataset env trade_date w e = Some data_dict ->
      data_dir (snd (fetch_position_data_fast env trade_date cb w)) !! snd (snd e)
      = Some (clean_book data_dict)) /\
  (fst (full_analysis env retail_seats trade_date cb w) = Ok None <->
   acquired env trade_date w = false) /\
  (acquired env trade_date w = true ->
   exists w1 price_data w2 position_results,
     acquire_positions env trade_date cb w = (Ok true, w1) /\
     acquire_prices env trade_date cb w1 = (Ok price_data, w2) /\
     _analyze_positions retail_seats cb (load_position_data w2) = Ok position_results /\
     full_analysis env retail_seats trade_date cb w
     = (Ok (Some (mkResults position_results (analyze_term_structure price_data)
                            (_generate_summary position_results)
                            trade_date retail_seats)),
        w2)) /\
  (forall cb' e w',
      full_analysis_body env retail_seats trade_date cb' w = (Raise e, w') ->
      report cb' ("❌ 分析过程出错: " +:+ exn_str e) 1 = Ok tt ->
      full_analysis env retail_seats trade_date cb' w = (Ok None, w')).
Proof.
  intros Hq Hperm.
  assert (Hcatch : forall cb' e w',
             full_analysis_body env retail_seats trade_date cb' w = (Raise e, w') ->
             report cb' ("❌ 分析过程出错: " +:+ exn_str e) 1 = Ok tt ->
             full_analysis env retail_seats trade_date cb' w = (Ok None, w')).
  { intros cb' e w' Hbody Hreport. unfold full_analysis. now rewrite Hbody, Hreport. }
  split; [now apply fetch_position_data_quiet|].
  split; [now rewrite fetch_position_data_fast_quiet|].
  split.
  { intros e data_dict. rewrite fetch_position_data_quiet by assumption. cbn [snd].
    apply saves_persisted.
    unfold exchange_config. simpl.
    repeat (constructor; [simpl; intuition discriminate|]). constructor. }
  split.
  { intros e data_dict Hin Hpp Hds.
    rewrite fetch_position_data_fast_quiet by assumption. cbn [snd].
    apply (tasks_persisted env trade_date w fast_exchange_config
             fast_functions_distinct fast_files_distinct (fun e He => He) w
             (fun e He => eq_refl) e data_dict Hin Hpp Hds). }
  destruct (acquire_positions_quiet env trade_date cb w Hq Hperm) as [w1 Hacq].
  assert (Hfull : full_analysis env retail_seats trade_date cb w
                  = if acquired env trade_date w
                    then match later_stages env retail_seats trade_date cb w1 with
                         | (Ok results, w2) => (Ok (Some results), w2)
                         | (Raise e, w2) => (Ok None, w2)
                         end
                    else (Ok None, w1)).
  { unfold full_analysis, full_analysis_body, io_bind, io_lift, io_ret.
    rewrite Hq.
    change (if fast_import env
            then fetch_position_data_fast env trade_date cb
            else fetch_position_data env trade_date cb)
      with (acquire_positions env trade_date cb).
    rewrite Hacq.
    destruct (acquired env trade_date w).
    - cbn [negb].
      destruct (later_stages env retail_seats trade_date cb w1) as [[results|e] w2];
        [reflexivity|].
      now rewrite Hq.
    - cbn [negb]. now rewrite Hq. }
  destruct (later_stages_quiet env retail_seats trade_date cb w1 Hq)
    as (price_data & w2 & position_results & Hp & Ha & Hl).
  rewrite Hfull, Hl.
  split; [|split; [|exact Hcatch]].
  - destruct (acquired env trade_date w); simpl; split; congruence.
  - intros Hsome. rewrite Hsome in *.
    exists w1, price_data, w2, position_results. auto.
Qed.

(** C3, as stated, fails where a report of the callback raises.  With one
    successful exchange the acquisition reports success, a later report
    raises, the handler of the analysis catches the exception, and the
    analysis returns no result.  And when the last report of the
    acquisition raises, the workbook of the exchange is written and the
    acquisition reports nothing: the exception leaves it. *)
Lemma abort_after_successful_acquisition :
  (fst (fetch_position_data one_source_env "20240105" failing_callback empty_world)
   = Ok true /\
   fst (full_analysis one_source_env ["A"; "B"] "20240105" failing_callback empty_world)
   = Ok None) /\
  (produced_and_persisted one_source_env "20240105" ("大商所", "大商所持仓.xlsx") = true /\
   data_dir (snd (fetch_position_data one_source_env "20240105" last_report_fails
                    empty_world)) !! "大商所持仓.xlsx"
   = Some [("m2501", full_sheet)] /\
   fst (fetch_position_data one_source_env "20240105" last_report_fails empty_world)
   = Raise (ValueError "progress sink closed")).
Proof.
  split; [split; vm_compute; reflexivity|].
  split; [reflexivity|]. split; [|reflexivity].
  unfold fetch_position_data. cbn [report last_report_fails].
  vm_compute. reflexivity.
Qed.

(** The same run with no callback: the analysis returns its result, with the
    one contract of the one exchange that answered. *)
Lemma analysis_with_one_source :
  fst (fetch_position_data one_source_env "20240105" None empty_world) = Ok true /\
  exists results,
    fst (full_analysis one_source_env ["A"; "B"] "20240105" None empty_world)
    = Ok (Some results) /\
    map fst (position_analysis results) = ["大商所_m2501"].
Proof.
  destruct (acquisition_and_abort one_source_env ["A"; "B"] "20240105" None empty_world
              (fun _ _ => eq_refl) (Permutation_refl _))
    as (Hstd & _ & _ & _ & _ & Hrun & _).
  split.
  - rewrite Hstd. reflexivity.
  - destruct (Hrun eq_refl) as (w1 & price_data & w2 & position_results
                                & Hacq & Hp & Ha & Hfull).
    eexists. split.
    + rewrite Hfull. reflexivity.
    + unfold acquire_positions in Hacq. cbn [fast_import one_source_env] in Hacq.
      rewrite Hstd in Hacq. injection Hacq as <-.
      unfold acquire_prices, fetch_price_data, io_bind, io_lift, io_ret in Hp.
      simpl in Hp. injection Hp as _ <-.
      simpl. vm_compute in Ha. injection Ha as <-. reflexivity.
Defined.

(** * Further properties of the code *)

(** ** What [process_position_data] does to a table *)

Lemma coerce_cell_idempotent (v : pyval) : coerce_cell (coerce_cell v) = coerce_cell v.
Proof.
  destruct v as [|z| |s]; cbn [coerce_cell]; try reflexivity.
  destruct (String.eqb (strip_separators s) "nan"); [reflexivity|].
  destruct (read_numeral (strip_separators s)); reflexivity.
Qed.

Lemma coerce_cell_number (v : pyval) : number_or_nan (coerce_cell v).
Proof.
  destruct v as [|z| |s]; cbn [coerce_cell]; simpl; auto.
  destruct (String.eqb (strip_separators s) "nan"); [exact I|].
  destruct (read_numeral (strip_separators s)); exact I.
Qed.

Lemma nth_insert_coerced (r : list pyval) (i : nat) :
  nth i (<[i := coerce_cell (nth i r VNaN)]> r) VNaN = coerce_cell (nth i r VNaN).
Proof.
  revert i. induction r as [|y r IH]; intros [|i]; simpl; auto.
Qed.

Lemma col_index_label (c : string) (cols : list string) (i : nat) :
  col_index c cols = Some i -> nth_error cols i = Some c.
Proof.
  revert i. induction cols as [|c' cols IH]; simpl; intros i H; [discriminate|].
  destruct (String.eqb_spec c c') as [->|_].
  - injection H as <-. reflexivity.
  - destruct (col_index c cols) as [j|]; [|discriminate].
    injection H as <-. simpl. now apply IH.
Qed.

Lemma Forall2_map_same {A : Type} (R : A -> A -> Prop) (f : A -> A) (l : list A) :
  (forall x, In x l -> R (f x) x) -> Forall2 R (map f l) l.
Proof.
  induction l as [|x l IH]; simpl; intros H; constructor; auto.
Qed.

Lemma Forall2_compose {A : Type} (R S T : A -> A -> Prop) (l1 l2 l3 : list A) :
  (forall x y z, R x y -> S y z -> T x z) ->
  Forall2 R l1 l2 -> Forall2 S l2 l3 -> Forall2 T l1 l3.
Proof.
  intros H H12. revert l3. induction H12 as [|x y l1 l2 Hxy _ IH]; intros l3 H23.
  - inversion H23. constructor.
  - inversion H23 as [|y' z l2' l3' Hyz Hrest]; subst. constructor; eauto.
Qed.


Lemma Forall2_partner {A : Type} (R : A -> A -> Prop) (l1 l2 : list A) (x : A) :
  Forall2 R l1 l2 -> In x l1 -> exists y, In y l2 /\ R x y.
Proof.
  induction 1 as [|a b l1 l2 Hab _ IH]; simpl; [tauto|].
  intros [<- | Hin]; [eauto|]. destruct (IH Hin) as (y & Hy & HR). eauto.
Qed.

Lemma coerce_column_cells (df df' : DataFrame) (c : string) :
  coerce_column df c = Ok df' -> coerced_from [c] df df'.
Proof.
  unfold coerce_column, column_pos. intros H.
  destruct (col_index c (columns df)) as [i|] eqn:Ei; [|discriminate].
  simpl in H. destruct (1 <? count_label c (columns df))%nat; [discriminate|].
  injection H as <-. split; [reflexivity|]. simpl.
  apply Forall2_map_same. intros r _ c'. unfold cell. simpl.
  destruct (String.eqb_spec c' c) as [->|Hne]; simpl.
  - rewrite Ei. apply nth_insert_coerced.
  - destruct (col_index c' (columns df)) as [j|] eqn:Ej; [|reflexivity].
    apply nth_insert_other. intros <-.
    apply col_index_label in Ei, Ej. congruence.
Qed.

Lemma coerce_columns_cells (cs : list string) :
  forall df df', coerce_columns df cs = Ok df' -> coerced_from cs df df'.
Proof.
  induction cs as [|c cs IH]; intros df df' H; simpl in H.
  - injection H as <-. split; [reflexivity|].
    induction (rows df); constructor; auto.
  - apply bind_ok in H as (df1 & H1 & H).
    apply coerce_column_cells in H1 as [Hc1 Hr1].
    apply IH in H as [Hc Hr].
    split; [congruence|].
    eapply Forall2_compose; [|exact Hr|exact Hr1].
    intros r2 r1 r0 H21 H10 c'. simpl in *.
    rewrite H21, H10.
    destruct (String.eqb c' c), (existsb (String.eqb c') cs); simpl;
      auto using coerce_cell_idempotent.
Qed.


Lemma coerced_cells_numeric (cs : list string) (src df : DataFrame) (c : string)
    (r : list pyval) :
  coerced_from cs src df -> In c cs -> In r (rows df) -> number_or_nan (cell df r c).
Proof.
  intros [_ Hrows] Hc Hr.
  destruct (Forall2_partner _ _ _ _ Hrows Hr) as (r0 & _ & Hcell).
  rewrite Hcell.
  replace (existsb (String.eqb c) cs) with true; [apply coerce_cell_number|].
  symmetry. apply existsb_exists. exists c. split; [assumption | apply String.eqb_refl].
Qed.

(** The frame of a processed contract, with the totals as sums of its own
    columns. *)
Lemma processed_frame (df0 : DataFrame) (data : Data) :
  process_position_data df0 = Some data ->
  exists df,
    coerced_from numeric_columns (_standardize_columns df0) df /\
    data = [("total_long", DScalar (VNum (column_total df "long_open_interest")));
            ("total_short", DScalar (VNum (column_total df "short_open_interest")));
            ("total_long_chg", DScalar (VNum (column_total df "long_open_interest_chg")));
            ("total_short_chg", DScalar (VNum (column_total df "short_open_interest_chg")));
            ("raw_data", DFrame df)] /\
    (forall c, In c required_columns -> has_column df c = true) /\
    (forall c r, In c numeric_columns -> In r (rows df) -> number_or_nan (cell df r c)).
Proof.
  unfold process_position_data.
  destruct (process_body df0) as [r|] eqn:E; [|discriminate]. intros ->.
  unfold process_body in E.
  destruct (forallb (has_column (_standardize_columns df0)) required_columns) eqn:Hreq;
    [|discriminate].
  cbn [negb] in E.
  apply bind_ok in E as (df & Hco & E).
  pose proof (coerce_columns_cells _ _ _ Hco) as Hfrom.
  assert (Hhas : forall c, In c required_columns -> has_column df c = true).
  { intros c Hc. unfold has_column. rewrite (proj1 Hfrom).
    rewrite forallb_forall in Hreq. now apply Hreq. }
  assert (Hnum : forall c r, In c numeric_columns -> In r (rows df) ->
                             number_or_nan (cell df r c)).
  { intros c r Hc Hr. now apply (coerced_cells_numeric _ _ _ _ _ Hfrom). }
  assert (Hsum : forall c, In c numeric_columns ->
                           column_sum df c = Ok (column_total df c)).
  { intros c Hc. apply column_sum_total.
    - apply Hhas. simpl in Hc |- *. tauto.
    - intros r s Hr Heq. specialize (Hnum c r Hc Hr). now rewrite Heq in Hnum. }
  rewrite !Hsum in E by (simpl; tauto). simpl in E. injection E as <-.
  exists df. auto.
Qed.



(** ** The strategies on a processed snapshot *)

Lemma mapM_returns {A B : Type} (f : A -> result B) (l : list A) :
  (forall x, In x l -> exists y, f x = Ok y) -> exists l', mapM f l = Ok l'.
Proof.
  induction l as [|x l IH]; simpl; intros H; [eauto|].
  destruct (H x (or_introl eq_refl)) as [y ->].
  destruct IH as [l' ->]; [auto|]. simpl. eauto.
Qed.

Lemma cell_at (df : DataFrame) (r : list pyval) (c : string) (i : nat) :
  col_index c (columns df) = Some i -> nth i r VNaN = cell df r c.
Proof. intros H. unfold cell. now rewrite H. Qed.

Lemma qualifying_rows_filter (df : DataFrame) (il is_ iv : nat) :
  col_index "vol" (columns df) = Some iv ->
  col_index "long_open_interest" (columns df) = Some il ->
  col_index "short_open_interest" (columns df) = Some is_ ->
  List.filter (fun r => notna (nth iv r VNaN) && gt0 (nth iv r VNaN)
                        && notna (nth il r VNaN) && notna (nth is_ r VNaN))
              (rows df)
  = qualifying_rows df.
Proof.
  intros Eiv Eil Eis. unfold qualifying_rows. apply filter_ext. intros r.
  now rewrite (cell_at df r _ _ Eiv), (cell_at df r _ _ Eil), (cell_at df r _ _ Eis).
Qed.

(** The spider-web strategy on a frame whose three columns hold numbers:
    it raises exactly at the sort, when five rows or more qualify and
    several columns are labelled stat. *)
Lemma spider_web_on_numbers (data : Data) (df : DataFrame) :
  dict_find data "raw_data" = Some (DFrame df) ->
  (forall c, In c ["vol"; "long_open_interest"; "short_open_interest"] ->
             has_column df c = true /\
             forall r, In r (rows df) -> number_or_nan (cell df r c)) ->
  if (5 <=? length (qualifying_rows df))%nat && (1 <? count_label "stat" (columns df))%nat
  then spider_web_body data = Raise (ValueError "The column label 'stat' is not unique.")
  else exists r, spider_web_body data = Ok r.
Proof.
  intros Hdata Hcols.
  destruct (Hcols "vol") as [Hv Hvn]; [simpl; tauto|].
  destruct (Hcols "long_open_interest") as [Hl Hln]; [simpl; tauto|].
  destruct (Hcols "short_open_interest") as [Hs Hsn]; [simpl; tauto|].
  destruct (has_column_index df _ Hv) as [iv Eiv].
  destruct (has_column_index df _ Hl) as [il Eil].
  destruct (has_column_index df _ Hs) as [is_ Eis].
  unfold spider_web_body, dict_get. rewrite Hdata. cbn [bind as_frame].
  unfold valid_seats, column_pos. rewrite Eiv, Eil, Eis. cbn [bind].
  destruct (mapM_returns (fun r => cell_gt0 (nth iv r VNaN)) (rows df)) as [bs ->].
  { intros r Hr. rewrite (cell_at df r _ _ Eiv).
    specialize (Hvn r Hr). destruct (cell df r "vol"); simpl in *; eauto; tauto. }
  cbn [bind].
  assert (Hseats : exists seats, mapM (to_seat il is_ iv) (qualifying_rows df) = Ok seats).
  { apply mapM_returns. intros r Hr. unfold qualifying_rows in Hr.
    apply filter_In in Hr as [Hr Hq].
    apply andb_prop in Hq as [Hq Hq3]. apply andb_prop in Hq as [Hq Hq2].
    apply andb_prop in Hq as [Hq0 Hq1].
    unfold to_seat.
    rewrite (cell_at df r _ _ Eiv), (cell_at df r _ _ Eil), (cell_at df r _ _ Eis).
    specialize (Hvn r Hr). specialize (Hln r Hr). specialize (Hsn r Hr).
    destruct (cell df r "vol"), (cell df r "long_open_interest"),
             (cell df r "short_open_interest");
      simpl in *; try discriminate; try tauto; eauto. }
  rewrite (qualifying_rows_filter df il is_ iv) by assumption.
  destruct Hseats as [seats ->].
  destruct (Nat.leb_spec 5 (length (qualifying_rows df))) as [Hfive|Hfew].
  2:{ destruct (Nat.ltb_spec (length (qualifying_rows df)) 5); [|lia].
      cbn [andb]. eauto. }
  destruct (Nat.ltb_spec (length (qualifying_rows df)) 5); [lia|].
  cbn [bind andb]. unfold stat_label.
  destruct (1 <? count_label "stat" (columns df))%nat; [reflexivity|].
  cbn [bind].
  destruct (spider_split seats) as [its uts].
  destruct (group_values its), (group_values uts); eauto.
  all: repeat match goal with
              | |- context [if ?c then _ else _] => destruct c
              end; eauto.
Qed.

(** X2. On the dictionary that [process_position_data] returns, the
    power-change strategy never answers Error; the spider-web strategy
    answers Error exactly when five rows or more qualify and several columns
    are labelled stat; the retail-reverse strategy answers Error exactly
    when a party-name label is carried by several columns, a seat is watched
    and the table has a row. *)
Theorem errors_on_processed_snapshot (retail_seats : list string) (df0 : DataFrame)
    (data : Data) :
  process_position_data df0 = Some data ->
  directional (signal_of (analyze_power_change data)) /\
  (signal_of (analyze_spider_web data) = ERROR <->
   (5 <= length (qualifying_rows (snapshot_frame data)))%nat /\
   (1 < count_label "stat" (columns (snapshot_frame data)))%nat) /\
  (retail_signal (analyze_retail_reverse retail_seats data) = ERROR <->
   ~ party_labels_once (snapshot_frame data) /\
   retail_seats <> [] /\ rows (snapshot_frame data) <> []).
Proof.
  intros Hproc.
  destruct (processed_snapshot df0 data Hproc) as (df1 & Hdata1 & Hwf).
  apply processed_frame in Hproc as (df & Hfrom & Hdata & Hhas & Hnum).
  assert (df1 = df) as -> by (rewrite Hdata in Hdata1; now injection Hdata1).
  assert (Hraw : dict_find data "raw_data" = Some (DFrame df)) by now rewrite Hdata.
  assert (Hframe : snapshot_frame data = df)
    by (unfold snapshot_frame; now rewrite Hraw).
  rewrite Hframe. clear Hframe.
  split; [|split].
  - unfold analyze_power_change.
    destruct (power_change_body data) as [r|e] eqn:E.
    + now apply power_change_body_signal in E.
    + rewrite Hdata in E. unfold power_change_body in E. simpl in E.
      repeat match type of E with
             | (if ?c then _ else _) = _ => destruct c
             end; discriminate.
  - unfold analyze_spider_web.
    pose proof (spider_web_on_numbers data df Hraw) as Hspider.
    destruct (Nat.leb_spec 5 (length (qualifying_rows df))) as [Hfive|Hfew];
      destruct (Nat.ltb_spec 1 (count_label "stat" (columns df))) as [Hstat|Hstat];
      cbn [andb] in Hspider.
    1:{ rewrite Hspider.
        - split; [auto | reflexivity].
        - intros c Hc. split; [apply Hhas | intros r Hr; apply Hnum];
            simpl in Hc |- *; tauto. }
    all: destruct Hspider as [r E];
      [intros c Hc; split; [apply Hhas | intros r Hr; apply Hnum];
       simpl in Hc |- *; tauto|];
      rewrite E; apply spider_web_body_signal in E;
      apply directional_not_error in E;
      split; [intros Herr; now destruct E | intros [? ?]; lia].
  - destruct (party_labels_once_dec df) as [Honce|Hnot].
    + destruct (retail_reverse_normal retail_seats data df Hraw Hwf Honce) as [reason ->].
      split; [|tauto]. intros Herr. exfalso.
      destruct (kept_seats retail_seats df); [discriminate Herr|].
      cbn zeta in Herr.
      repeat match type of Herr with
             | context [if ?c then _ else _] => destruct c
             end; discriminate Herr.
    + rewrite (retail_reverse_repeated retail_seats data df Hraw Hwf Hnot).
      destruct retail_seats as [|seat seats], (rows df) as [|r rs];
        (split; [intros Herr; try discriminate Herr | intros (_ & H1 & H2)]);
        try congruence.
      * repeat split; auto; discriminate.
      * reflexivity.
Qed.

(** The sheet delivered as text is analysed without an Error answer; the
    Zhengzhou table with a second name column is accepted, and its retail
    answer is Error as soon as a seat is watched. *)
Lemma errors_on_example_sheets :
  (exists data,
      process_position_data text_sheet = Some data /\
      signal_of (analyze_power_change data) = SHORT /\
      signal_of (analyze_spider_web data) = NEUTRAL /\
      retail_signal (analyze_retail_reverse ["A"] data) <> ERROR) /\
  (exists data,
      process_position_data czce_sheet_with_name = Some data /\
      retail_signal (analyze_retail_reverse ["A"] data) = ERROR /\
      retail_signal (analyze_retail_reverse [] data) <> ERROR).
Proof.
  split.
  - destruct (process_position_data text_sheet) as [data|] eqn:E; [|discriminate].
    destruct (errors_on_processed_snapshot ["A"] text_sheet data E) as (_ & _ & H3).
    exists data. split; [reflexivity|].
    vm_compute in E. injection E as <-.
    split; [reflexivity|]. split; [reflexivity|].
    intros Herr. apply H3 in Herr as [Hnot _]. apply Hnot. split; reflexivity.
  - destruct (process_position_data czce_sheet_with_name) as [data|] eqn:E; [|discriminate].
    destruct (errors_on_processed_snapshot ["A"] czce_sheet_with_name data E)
      as (_ & _ & H3).
    destruct (errors_on_processed_snapshot [] czce_sheet_with_name data E)
      as (_ & _ & H3').
    exists data. split; [reflexivity|].
    vm_compute in E. injection E as <-.
    split.
    + apply H3. split; [|split; discriminate].
      intros [Hlong _]. vm_compute in Hlong. discriminate.
    + intros Herr. apply H3' in Herr as (_ & Hseats & _). now apply Hseats.
Defined.

(** ** Strengths *)

Lemma Qlt_bool_true (a b : Q) : Qlt_bool a b = true -> (a < b)%Q.
Proof.
  unfold Qlt_bool. intros H. apply Qle_bool_false.
  now destruct (Qle_bool b a).
Qed.

Lemma Qlt_bool_false (a b : Q) : Qlt_bool a b = false -> (b <= a)%Q.
Proof.
  unfold Qlt_bool. intros H. apply Qle_bool_iff.
  now destruct (Qle_bool b a).
Qed.

(** X3. The strength of a power-change answer is never negative; it is
    positive when the answer is Long or Short and 0 when it is Neutral or
    Error.  The strength of a spider-web answer is never negative; it is
    above 0.05 when the answer is Long or Short, at most 0.05 when it is
    Neutral, and 0 when it is Error. *)
Theorem strength_thresholds (data : Data) :
  ((0 <= strength_of (analyze_power_change data))%Q /\
   (signal_of (analyze_power_change data) = LONG \/
    signal_of (analyze_power_change data) = SHORT ->
    (0 < strength_of (analyze_power_change data))%Q) /\
   (signal_of (analyze_power_change data) = NEUTRAL \/
    signal_of (analyze_power_change data) = ERROR ->
    strength_of (analyze_power_change data) = 0%Q)) /\
  ((0 <= strength_of (analyze_spider_web data))%Q /\
   (signal_of (analyze_spider_web data) = LONG \/
    signal_of (analyze_spider_web data) = SHORT ->
    (1 # 20 < strength_of (analyze_spider_web data))%Q) /\
   (signal_of (analyze_spider_web data) = NEUTRAL ->
    (strength_of (analyze_spider_web data) <= 1 # 20)%Q) /\
   (signal_of (analyze_spider_web data) = ERROR ->
    strength_of (analyze_spider_web data) = 0%Q)).
Proof.
  split.
  - unfold analyze_power_change.
    destruct (power_change_body data) as [r|e] eqn:E.
    2:{ unfold signal_of, strength_of. simpl.
        split; [discriminate|]. split; [intros [H|H]; discriminate H | reflexivity]. }
    unfold power_change_body in E.
    apply bind_ok in E as (v1 & _ & E). apply bind_ok in E as (x1 & _ & E).
    apply bind_ok in E as (l & _ & E). apply bind_ok in E as (v2 & _ & E).
    apply bind_ok in E as (x2 & _ & E). apply bind_ok in E as (s & _ & E).
    destruct l as [l|], s as [s|]; simpl in E.
    + destruct (Z.ltb_spec 0 l), (Z.ltb_spec s 0), (Z.ltb_spec l 0), (Z.ltb_spec 0 s);
        simpl in E; injection E as <-; unfold signal_of, strength_of; simpl;
        (split; [|split]); try (intros [Hs|Hs]; discriminate Hs); try reflexivity;
        unfold Qle, Qlt; simpl; intros; lia.
    + destruct (0 <? l), (l <? 0); simpl in E; injection E as <-;
        unfold signal_of, strength_of; simpl;
        (split; [|split]); try (intros [Hs|Hs]; discriminate Hs); try reflexivity;
        discriminate.
    + injection E as <-. unfold signal_of, strength_of; simpl.
      split; [discriminate|]. split; [intros [H|H]; discriminate H | reflexivity].
    + injection E as <-. unfold signal_of, strength_of; simpl.
      split; [discriminate|]. split; [intros [H|H]; discriminate H | reflexivity].
  - unfold analyze_spider_web.
    assert (Hzero : forall reason,
               let r := (NEUTRAL, reason, 0%Q) : string * Reason * Q in
               (0 <= strength_of r)%Q /\
               (signal_of r = LONG \/ signal_of r = SHORT -> (1 # 20 < strength_of r)%Q) /\
               (signal_of r = NEUTRAL -> (strength_of r <= 1 # 20)%Q) /\
               (signal_of r = ERROR -> strength_of r = 0%Q)).
    { intros reason. unfold signal_of, strength_of. simpl.
      split; [discriminate|]. split; [intros [H|H]; discriminate H|].
      split; [discriminate | reflexivity]. }
    destruct (spider_web_body data) as [r|e] eqn:E.
    2:{ unfold signal_of, strength_of. simpl.
        split; [discriminate|]. split; [intros [H|H]; discriminate H|].
        split; [discriminate | reflexivity]. }
    unfold spider_web_body in E.
    apply bind_ok in E as (v & _ & E). apply bind_ok in E as (df & _ & E).
    apply bind_ok in E as (vs & _ & E).
    destruct vs as [valid [[il is_] iv]].
    destruct (length valid <? 5)%nat.
    { injection E as <-. apply Hzero. }
    apply bind_ok in E as (seats & _ & E). apply bind_ok in E as (u & _ & E).
    destruct (spider_split seats) as [its uts].
    destruct (group_values its) as [|q1 l1], (group_values uts) as [|q2 l2];
      try (injection E as <-; apply Hzero).
    remember (mean (q1 :: l1) - mean (q2 :: l2))%Q as msd eqn:Hmsd. clear Hmsd.
    destruct (Qlt_bool (5 # 100) msd) eqn:Hlong.
    { injection E as <-. apply Qlt_bool_true in Hlong.
      unfold signal_of, strength_of. simpl.
      destruct msd as [n d]. unfold Qabs, Qlt, Qle in *. simpl in *.
      split; [lia|]. split; [intros _; lia|].
      split; [discriminate | discriminate]. }
    destruct (Qlt_bool msd (- (5 # 100))) eqn:Hshort.
    { injection E as <-. apply Qlt_bool_true in Hshort.
      unfold signal_of, strength_of. simpl.
      destruct msd as [n d]. unfold Qabs, Qlt, Qle in *. simpl in *.
      split; [lia|]. split; [intros _; lia|].
      split; [discriminate | discriminate]. }
    injection E as <-. apply Qlt_bool_false in Hlong, Hshort.
    unfold signal_of, strength_of. simpl.
    destruct msd as [n d]. unfold Qabs, Qlt, Qle in *. simpl in *.
    split; [lia|]. split; [intros [H|H]; discriminate H|].
    split; [intros _; lia | discriminate].
Qed.

Lemma Zsum_map_add {A : Type} (f g : A -> Z) (l : list A) :
  Zsum (map (fun x => f x + g x) l) = Zsum (map f l) + Zsum (map g l).
Proof. induction l as [|x l IH]; simpl; unfold Zsum in *; simpl; lia. Qed.

Lemma Zsum_map_zero {A : Type} (l : list A) : Zsum (map (fun _ => 0) l) = 0.
Proof. induction l as [|x l IH]; simpl; unfold Zsum in *; simpl; lia. Qed.

Lemma Zsum_map_le {A : Type} (f g : A -> Z) (l : list A) :
  (forall x, In x l -> f x <= g x) -> Zsum (map f l) <= Zsum (map g l).
Proof.
  induction l as [|x l IH]; simpl; intros H; [lia|].
  assert (f x <= g x) by (apply H; now left).
  assert (Zsum (map f l) <= Zsum (map g l)) by (apply IH; intros; apply H; now right).
  unfold Zsum in *. simpl. lia.
Qed.

Lemma Zsum_swap {A B : Type} (t : A -> B -> Z) (l : list A) (rs : list B) :
  Zsum (map (fun n => Zsum (map (t n) rs)) l)
  = Zsum (map (fun r => Zsum (map (fun n => t n r) l)) rs).
Proof.
  induction rs as [|r rs IH]; simpl.
  - apply Zsum_map_zero.
  - change (Zsum (map (fun n => Zsum (t n r :: map (t n) rs)) l))
      with (Zsum (map (fun n => t n r + Zsum (map (t n) rs)) l)).
    rewrite Zsum_map_add, IH. reflexivity.
Qed.

(** A row is counted for one seat at most. *)
Lemma one_seat_per_row (l : list string) (c : pyval) (v : Z) :
  List.NoDup l -> 0 <= v ->
  0 <= Zsum (map (fun n => if is_seat n c then v else 0) l) <= v.
Proof.
  intros Hnd Hv. induction Hnd as [|n l Hn Hnd IH]; simpl; [lia|].
  change (Zsum ((if is_seat n c then v else 0)
                :: map (fun n => if is_seat n c then v else 0) l))
    with ((if is_seat n c then v else 0)
          + Zsum (map (fun n => if is_seat n c then v else 0) l)).
  destruct (is_seat n c) eqn:E; [|lia].
  assert (Hrest : Zsum (map (fun n => if is_seat n c then v else 0) l) = 0).
  { transitivity (Zsum (map (fun _ : string => 0) l)); [|apply Zsum_map_zero].
    f_equal. apply map_ext_in. intros m Hm.
    destruct c as [| | |s]; try discriminate. simpl in E |- *.
    apply String.eqb_eq in E as ->.
    destruct (String.eqb_spec n m) as [->|_]; [contradiction | reflexivity]. }
  lia.
Qed.

Lemma watched_share (df : DataFrame) (name_col num_col : string) (l : list string) :
  List.NoDup l ->
  (forall r, In r (rows df) -> 0 <= cell_value (cell df r num_col)) ->
  0 <= Zsum (map (seat_sum df name_col num_col) l) <= column_total df num_col.
Proof.
  intros Hnd Hnn. unfold seat_sum, column_total.
  rewrite (Zsum_swap (fun n r => if is_seat n (cell df r name_col)
                                 then cell_value (cell df r num_col) else 0)).
  split.
  - apply Zsum_nonneg. intros x Hx. apply in_map_iff in Hx as (r & <- & Hr).
    now apply one_seat_per_row; [|apply Hnn].
  - apply Zsum_map_le. intros r Hr.
    now apply one_seat_per_row; [|apply Hnn].
Qed.

Lemma Q_share (a b : Z) :
  0 <= a <= b -> 0 < b -> (0 <= inject_Z a / inject_Z b <= 1)%Q.
Proof.
  intros Ha Hb. destruct b as [|p|p]; try lia.
  unfold Qdiv, Qmult, Qinv, inject_Z, Qle. simpl. split; lia.
Qed.

(** X4. On a processed snapshot whose open interest is nowhere negative the
    strength of the retail-reverse answer is a share: it lies between 0 and
    1, because every row is counted for one watched seat at most, also when
    the watch-list repeats a name. *)
Theorem retail_strength_is_a_share (retail_seats : list string) (df0 : DataFrame)
    (data : Data) :
  process_position_data df0 = Some data ->
  nonneg_positions (snapshot_frame data) ->
  (0 <= retail_strength (analyze_retail_reverse retail_seats data) <= 1)%Q.
Proof.
  intros Hproc Hnn.
  destruct (processed_snapshot df0 data Hproc) as (df & Hdata & Hwf).
  assert (Hraw : dict_find data "raw_data" = Some (DFrame df)) by now rewrite Hdata.
  unfold snapshot_frame in Hnn. rewrite Hraw in Hnn.
  destruct (party_labels_once_dec df) as [Honce|Hnot].
  2:{ rewrite (retail_reverse_repeated retail_seats data df Hraw Hwf Hnot).
      destruct retail_seats, (rows df); unfold retail_strength; simpl;
        split; discriminate. }
  destruct (retail_reverse_normal retail_seats data df Hraw Hwf Honce) as [reason ->].
  unfold kept_seats.
  change (List.filter positive_position (watched_stats retail_seats df))
    with (List.filter has_position (watched_stats retail_seats df)).
  rewrite has_position_nonzero by assumption.
  destruct (remaining_seats retail_seats df) as [|st active] eqn:E.
  { unfold retail_strength. simpl. split; discriminate. }
  rewrite <- E. rewrite remaining_total. clear E.
  assert (Hshare :
    0 <= Zsum (map (fun st => long_pos st + short_pos st) (watched_stats retail_seats df))
      <= column_total df "long_open_interest" + column_total df "short_open_interest").
  { unfold watched_stats. rewrite map_map. cbn [long_pos short_pos watched_stat].
    rewrite Zsum_map_add.
    destruct (unique_spec retail_seats []) as [Hnd _].
    pose proof (watched_share df "long_party_name" "long_open_interest" _ Hnd
                  (fun r Hr => proj1 (Hnn r Hr))).
    pose proof (watched_share df "short_party_name" "short_open_interest" _ Hnd
                  (fun r Hr => proj2 (Hnn r Hr))).
    lia. }
  cbv zeta.
  destruct (Z.ltb_spec 0 (column_total df "long_open_interest"
                          + column_total df "short_open_interest")) as [Hpos|Hzero].
  - pose proof (Q_share _ _ Hshare Hpos) as Hq.
    repeat match goal with
           | |- context [if ?c then _ else _] => destruct c
           end; unfold retail_strength; simpl; try exact Hq; split; discriminate.
  - repeat match goal with
           | |- context [if ?c then _ else _] => destruct c
           end; unfold retail_strength; simpl; split; discriminate.
Qed.

(** The retail example: the two watched seats hold 1100 of the 3000 lots. *)
Lemma retail_share_example :
  (0 <= retail_strength (analyze_retail_reverse ["A"; "B"] retail_example) <= 1)%Q /\
  (retail_strength (analyze_retail_reverse ["A"; "B"] retail_example) == 11 # 30)%Q.
Proof.
  split; [|reflexivity].
  apply (retail_strength_is_a_share ["A"; "B"] full_sheet retail_example).
  - reflexivity.
  - intros r Hr. simpl in Hr.
    repeat (destruct Hr as [<- | Hr]; [split; discriminate|]). destruct Hr.
Defined.

(** ** Resonance: what is counted *)

Lemma dict_set_in {V : Type} (d : list (string * V)) (k k' : string) (v v' : V) :
  In (k', v') (dict_set d k v) -> (k' = k /\ v' = v) \/ In (k', v') d.
Proof.
  induction d as [|[k0 v0] d IH]; simpl.
  - intros [[= <- <-] | []]. auto.
  - destruct (String.eqb k k0); simpl.
    + intros [[= <- <-] | H]; auto.
    + intros [H | H]; [auto|]. destruct (IH H); auto.
Qed.

Lemma dict_set_nodup {V : Type} (d : list (string * V)) (k : string) (v : V) :
  List.NoDup (map fst d) -> List.NoDup (map fst (dict_set d k v)).
Proof.
  intros Hnd. rewrite dict_set_keys.
  destruct (existsb (String.eqb k) (map fst d)) eqn:E; [assumption|].
  apply List.NoDup_app; [assumption | repeat constructor; simpl; tauto |].
  intros x Hx [Heq | []]. subst x.
  apply not_true_iff_false in E. apply E, existsb_exists.
  exists k. split; [assumption | apply String.eqb_refl].
Qed.

Lemma dict_find_some_in {V : Type} (d : list (string * V)) (k : string) (v : V) :
  dict_find d k = Some v -> In (k, v) d.
Proof.
  induction d as [|[k0 v0] d IH]; simpl; [discriminate|].
  destruct (String.eqb_spec k k0) as [->|_]; [intros [= ->]; now left | auto].
Qed.

Lemma NoDup_keys_filter {V : Type} (f : string * V -> bool) (d : list (string * V)) :
  List.NoDup (map fst d) -> List.NoDup (map fst (List.filter f d)).
Proof.
  induction d as [|e d IH]; simpl; [auto|].
  intros Hnd. apply List.NoDup_cons_iff in Hnd as [He Hnd].
  destruct (f e); simpl; [|auto].
  constructor; [|auto]. intros Hin. apply He.
  apply in_map_iff in Hin as (e' & <- & He'). apply filter_In in He' as [He' _].
  now apply in_map.
Qed.

Lemma count_signal_consistent (names : list string) (name : string) d e :
  In name names -> consistent_counts names d ->
  consistent_counts names (count_signal name d e).
Proof.
  intros Hname [Hnd Hinv]. unfold count_signal. split; [now apply dict_set_nodup|].
  intros symbol info Hin. apply dict_set_in in Hin as [[-> ->] | Hin]; [|auto].
  destruct (dict_find d (extract_symbol (e_contract e))) as [old|] eqn:E.
  - apply dict_find_some_in in E. destruct (Hinv _ _ E) as (H1 & H2 & H3 & H4).
    cbn [count res_strategies res_contracts].
    rewrite !length_app, H1, H2. cbn [length].
    repeat split; try lia.
    + intros c Hc. apply in_app_or in Hc as [Hc | [<- | []]]; auto.
    + intros s Hs. apply in_app_or in Hs as [Hs | [<- | []]]; auto.
  - cbn. repeat split; try lia.
    + intros c [<- | []]. reflexivity.
    + intros s [<- | []]. assumption.
Qed.

Lemma symbol_count_consistent (side : StrategySignals -> list SignalEntry)
    (names : list string) (strategy_signals : list (string * StrategySignals)) :
  forall d,
    (forall e, In e strategy_signals -> In (fst e) names) ->
    consistent_counts names d ->
    consistent_counts names
      (fold_left (fun acc '(name, signals) => count_top10 name acc (side signals))
                 strategy_signals d).
Proof.
  induction strategy_signals as [|[name signals] rest IH]; intros d Hn Hd; simpl; [assumption|].
  apply IH; [intros; apply Hn; now right|].
  unfold count_top10.
  assert (Hname : In name names) by (apply (Hn (name, signals)); now left).
  clear IH Hn. revert d Hd.
  induction (firstn 10 (side signals)) as [|e l IHl]; intros d Hd; simpl; [assumption|].
  apply IHl. now apply count_signal_consistent.
Qed.

Lemma symbol_count_total (side : StrategySignals -> list SignalEntry)
    (strategy_signals : list (string * StrategySignals)) (symbol : string) :
  forall d,
    count_of (fold_left (fun acc '(name, signals) => count_top10 name acc (side signals))
                        strategy_signals d) symbol
    = (count_of d symbol + top10_total side strategy_signals symbol)%nat.
Proof.
  unfold top10_total.
  induction strategy_signals as [|[name signals] rest IH]; intros d; simpl; [lia|].
  rewrite IH. unfold count_top10. rewrite count_fold.
  unfold top10_hits. simpl. lia.
Qed.

Lemma resonant_side (side : StrategySignals -> list SignalEntry)
    (strategy_signals : list (string * StrategySignals)) :
  counts_top10 side strategy_signals
    (List.filter resonant
       (fold_left (fun acc '(name, signals) => count_top10 name acc (side signals))
                  strategy_signals [])).
Proof.
  set (table := fold_left _ strategy_signals []).
  assert (Hcons : consistent_counts (map fst strategy_signals) table).
  { apply symbol_count_consistent.
    - intros e He. now apply in_map.
    - split; [constructor | intros ? ? []]. }
  assert (Htotal : forall symbol,
             count_of table symbol = top10_total side strategy_signals symbol).
  { intros symbol. unfold table. now rewrite symbol_count_total. }
  destruct Hcons as [Hnd Hinv].
  assert (Hcount : forall symbol info,
             In (symbol, info) table ->
             count info = top10_total side strategy_signals symbol).
  { intros symbol info Hin. rewrite <- Htotal. unfold count_of.
    now rewrite (dict_find_nodup _ _ _ Hnd Hin). }
  split; [split|].
  - now apply NoDup_keys_filter.
  - intros symbol info Hin. apply filter_In in Hin as [Hin _]. auto.
  - intros symbol. split.
    + split.
      * intros Hin. apply in_map_iff in Hin as ([k info] & <- & Hin).
        apply filter_In in Hin as [Hin Hres]. simpl.
        rewrite <- (Hcount _ _ Hin). unfold resonant in Hres. cbn [snd] in Hres.
        now apply Nat.leb_le.
      * intros Hge. rewrite <- Htotal in Hge. unfold count_of in Hge.
        destruct (dict_find table symbol) as [info|] eqn:E; [|lia].
        apply dict_find_some_in in E.
        apply in_map_iff. exists (symbol, info). split; [reflexivity|].
        apply filter_In. split; [assumption|].
        unfold resonant. cbn [snd]. now apply Nat.leb_le.
    + intros info Hin. apply filter_In in Hin as [Hin _]. auto.
Qed.

(** X5. Each side of the resonance lists the symbols that have at least two
    signals among the first ten signals of the strategies, added over the
    strategies (two signals of one strategy are enough); every symbol is
    listed once, its count is that number of signals, and it comes with as
    many strategy names and as many contracts as signals were counted, the
    contracts being contracts of that symbol. *)
Theorem resonance_counts_signals (strategy_signals : list (string * StrategySignals)) :
  counts_top10 long_signals strategy_signals
    (resonance_long (_calculate_signal_resonance strategy_signals)) /\
  counts_top10 short_signals strategy_signals
    (resonance_short (_calculate_signal_resonance strategy_signals)).
Proof.
  split.
  - exact (resonant_side long_signals strategy_signals).
  - exact (resonant_side short_signals strategy_signals).
Qed.

(** ** The summary: the signal lists of a strategy *)

Lemma strength_sorted (l : list SignalEntry) :
  StronglySorted strength_desc (isort strength_ge l).
Proof.
  assert (S : StronglySorted (fun a b => strength_ge a b = true) (isort strength_ge l)).
  { apply isort_sorted; unfold strength_ge; intros a b.
    - rewrite !Qle_bool_iff.
      destruct (Qlt_le_dec (e_strength a) (e_strength b)) as [H|H]; [right | left];
        [|exact H].
      now apply Qlt_le_weak.
    - intros c. rewrite !Qle_bool_iff. intros H1 H2.
      now apply Qle_trans with (e_strength b). }
  induction S as [|a l' _ IH Hall]; constructor; [assumption|].
  eapply Forall_impl; [exact Hall|].
  unfold strength_ge, strength_desc. intros b. now rewrite Qle_bool_iff.
Qed.

Lemma collect_signals_contracts (name direction : string) position_results :
  map e_contract (collect_signals name direction position_results)
  = answers_of name direction position_results.
Proof.
  unfold answers_of.
  induction position_results as [|[contract data] rest IH]; simpl; [reflexivity|].
  destruct (dict_find (strategies data) name) as [sd|]; [|assumption].
  destruct (String.eqb (sr_signal sd) direction); simpl; [now f_equal | assumption].
Qed.

Lemma collect_signals_listed (name direction : string) position_results e :
  List.NoDup (map fst position_results) ->
  In e (collect_signals name direction position_results)
  <-> listed name direction position_results e.
Proof.
  intros Hnd. unfold listed. split.
  - induction position_results as [|[contract data] rest IH]; simpl; [tauto|].
    apply List.NoDup_cons_iff in Hnd as [Hc Hnd]. intros H.
    assert (Hrest : In e (collect_signals name direction rest) ->
                    exists entry sd,
                      (if String.eqb (e_contract e) contract
                       then Some data else dict_find rest (e_contract e)) = Some entry /\
                      dict_find (strategies entry) name = Some sd /\
                      sr_signal sd = direction /\
                      e_strength e = sr_strength sd /\ e_reason e = sr_reason sd).
    { intros H'. destruct (collect_signals_contract _ _ _ _ H') as [d Hd].
      destruct (String.eqb_spec (e_contract e) contract) as [<-|_]; [|now apply IH].
      destruct Hc. apply in_map_iff. now exists (e_contract e, d). }
    destruct (dict_find (strategies data) name) as [sd|] eqn:Esd; [|auto].
    destruct (String.eqb_spec (sr_signal sd) direction) as [Edir|_]; [|auto].
    destruct H as [<- | H]; [|auto].
    simpl. rewrite String.eqb_refl. exists data, sd. auto.
  - intros (entry & sd & Hfind & Hsd & Hdir & Hst & Hre).
    apply dict_find_some_in in Hfind. clear Hnd.
    induction position_results as [|[contract data] rest IH]; simpl in *; [tauto|].
    destruct Hfind as [[= -> ->] | Hfind].
    + rewrite Hsd, Hdir, String.eqb_refl. left.
      destruct e as [c s r]. simpl in *. now subst.
    + destruct (dict_find (strategies data) name) as [sd'|]; [|auto].
      destruct (String.eqb (sr_signal sd') direction); [right|]; auto.
Qed.

Lemma answers_nodup (name direction : string) position_results :
  List.NoDup (map fst position_results) ->
  List.NoDup (answers_of name direction position_results).
Proof. apply NoDup_keys_filter. Qed.

Lemma analyze_loop_keys (retail_seats : list string) (cb : Callback) (total : nat) items :
  forall i acc results,
    analyze_loop retail_seats cb total i items acc = Ok results ->
    List.NoDup (map fst acc) -> List.NoDup (map fst results).
Proof.
  induction items as [|[name df] items IH]; intros i acc results H Hacc; simpl in H.
  - now injection H as <-.
  - apply bind_ok in H as (u & _ & H).
    destruct (process_position_data df) as [processed|].
    + apply bind_ok in H as (entry & _ & H).
      eapply IH; [exact H|]. now apply dict_set_nodup.
    + eapply IH; eauto.
Qed.

Lemma apply_strategies_names (retail_seats : list string) (processed : Data) :
  map fst (apply_strategies retail_seats processed) = strategy_names.
Proof.
  unfold apply_strategies.
  destruct (analyze_power_change processed) as [[s1 r1] x1].
  destruct (analyze_spider_web processed) as [[s2 r2] x2].
  destruct (analyze_retail_reverse retail_seats processed) as [[[s3 r3] x3] seats].
  reflexivity.
Qed.

Lemma analyze_loop_strategies (retail_seats : list string) (cb : Callback) (total : nat)
    items :
  forall i acc results,
    analyze_loop retail_seats cb total i items acc = Ok results ->
    (forall e, In e acc -> map fst (strategies (snd e)) = strategy_names) ->
    forall e, In e results -> map fst (strategies (snd e)) = strategy_names.
Proof.
  induction items as [|[name df] items IH]; intros i acc results H Hacc; simpl in H.
  - now injection H as <-.
  - apply bind_ok in H as (u & _ & H).
    destruct (process_position_data df) as [processed|].
    + apply bind_ok in H as (entry & Hentry & H).
      eapply IH; [exact H|]. intros [k v] Hin.
      apply dict_set_in in Hin as [[-> ->] | Hin]; [|now apply Hacc].
      unfold contract_entry in Hentry.
      repeat (apply bind_ok in Hentry as (? & _ & Hentry)).
      injection Hentry as <-. apply apply_strategies_names.
    + eapply IH; eauto.
Qed.

(** X6. In the summary of the results of [_analyze_positions], the signal
    lists are kept under the three strategy names, in their fixed order.
    The Long (Short) list of a strategy holds exactly the contracts of the
    results for which that strategy answered Long (Short), each once and
    with the strength and rationale of that answer, in descending order of
    strength; no contract is in both lists of a strategy, and a contract
    whose answer is Neutral or Error is in neither.  Every contract of the
    results carries the answers of the three strategies. *)
Theorem summary_signal_lists (retail_seats : list string) (cb : Callback)
    (position_data : list (string * DataFrame))
    (results : list (string * ContractResult)) :
  _analyze_positions retail_seats cb position_data = Ok results ->
  map fst (strategy_signals (_generate_summary results)) = strategy_names /\
  (forall e, In e results -> map fst (strategies (snd e)) = strategy_names) /\
  (forall name signals,
      In (name, signals) (strategy_signals (_generate_summary results)) ->
      StronglySorted strength_desc (long_signals signals) /\
      StronglySorted strength_desc (short_signals signals) /\
      (forall e, In e (long_signals signals) <-> listed name LONG results e) /\
      (forall e, In e (short_signals signals) <-> listed name SHORT results e) /\
      Permutation (map e_contract (long_signals signals)) (answers_of name LONG results) /\
      Permutation (map e_contract (short_signals signals)) (answers_of name SHORT results) /\
      List.NoDup (map e_contract (long_signals signals ++ short_signals signals))).
Proof.
  intros Hres.
  assert (Hnd : List.NoDup (map fst results)).
  { eapply analyze_loop_keys; [exact Hres | constructor]. }
  split; [reflexivity|]. split.
  { eapply analyze_loop_strategies; [exact Hres | intros ? []]. }
  intros name signals Hin.
  assert (Hsig : signals
                 = mkSignals (isort strength_ge (collect_signals name LONG results))
                             (isort strength_ge (collect_signals name SHORT results))).
  { unfold _generate_summary, strategy_signals_of in Hin. simpl in Hin.
    destruct Hin as [[= <- <-] | [[= <- <-] | [[= <- <-] | []]]]; reflexivity. }
  subst signals. cbn [long_signals short_signals].
  assert (Hmem : forall direction e,
             In e (isort strength_ge (collect_signals name direction results))
             <-> listed name direction results e).
  { intros direction e. rewrite <- collect_signals_listed by assumption.
    split; apply Permutation_in;
      [apply isort_perm | apply Permutation_sym, isort_perm]. }
  assert (Hperm : forall direction,
             Permutation
               (map e_contract (isort strength_ge (collect_signals name direction results)))
               (answers_of name direction results)).
  { intros direction. rewrite <- collect_signals_contracts.
    apply Permutation_map, isort_perm. }
  repeat split; try apply strength_sorted; try apply Hmem; try apply Hperm.
  rewrite map_app. apply List.NoDup_app.
  - eapply Permutation_NoDup; [apply Permutation_sym, Hperm | now apply answers_nodup].
  - eapply Permutation_NoDup; [apply Permutation_sym, Hperm | now apply answers_nodup].
  - intros c Hl Hs.
    apply in_map_iff in Hl as (e1 & <- & H1). apply in_map_iff in Hs as (e2 & Hc & H2).
    apply Hmem in H1 as (entry1 & sd1 & F1 & S1 & D1 & _).
    apply Hmem in H2 as (entry2 & sd2 & F2 & S2 & D2 & _).
    rewrite Hc in F2. rewrite F1 in F2. injection F2 as <-.
    rewrite S1 in S2. injection S2 as <-. rewrite D1 in D2. discriminate.
Qed.

(** Two contracts on which power change alone answers Long: both are in its
    Long list, the stronger one first, and in no other list. *)
Lemma summary_of_two_rising_contracts :
  exists results,
    _analyze_positions ["A"; "B"] None two_rising_contracts = Ok results /\
    (forall e, In e results -> map fst (strategies (snd e)) = strategy_names) /\
    (forall signals,
        In (POWER_CHANGE, signals) (strategy_signals (_generate_summary results)) ->
        Permutation (map e_contract (long_signals signals))
                    ["大商所_m2501"; "大商所_m2505"]%string /\
        StronglySorted strength_desc (long_signals signals)).
Proof.
  destruct (_analyze_positions ["A"; "B"] None two_rising_contracts) as [results|e] eqn:E;
    [|vm_compute in E; discriminate].
  exists results. split; [reflexivity|].
  destruct (summary_signal_lists _ _ _ _ E) as (_ & H2 & H3).
  split; [exact H2|].
  intros signals Hin. destruct (H3 _ _ Hin) as (Hs & _ & _ & _ & Hp & _).
  split; [|exact Hs].
  vm_compute in E. injection E as E. rewrite <- E in Hp. exact Hp.
Defined.

(** ** The results of the term-structure analysis *)

Lemma filter_filter {A : Type} (f g : A -> bool) (l : list A) :
  List.filter g (List.filter f l) = List.filter (fun x => f x && g x) l.
Proof.
  induction l as [|x l IH]; simpl; [reflexivity|].
  destruct (f x); simpl; [|assumption]. destruct (g x); simpl; now rewrite IH.
Qed.

Lemma analyze_variety_entry (price_data : list PriceRow) (v : string) :
  analyze_variety price_data v
  = if (length (priced_rows price_data v) <? 2)%nat then []
    else [(v,
           _determine_structure_strict
             (map close_value (_sort_contracts_by_month (priced_rows price_data v))),
           map symbol (_sort_contracts_by_month (priced_rows price_data v)),
           map close_value (_sort_contracts_by_month (priced_rows price_data v)))].
Proof.
  unfold analyze_variety, priced_rows. rewrite filter_filter.
  destruct (length _ <? 2)%nat eqn:E; [reflexivity|].
  unfold _sort_contracts_by_month. rewrite isort_length, E. reflexivity.
Qed.

Lemma analyze_term_structure_flat (price_data : list PriceRow) :
  analyze_term_structure price_data
  = flat_map (analyze_variety price_data) (unique [] (map variety price_data)).
Proof. destruct price_data; reflexivity. Qed.

Lemma flat_map_keys (f : string -> list (string * string * list string * list Q))
    (l : list string) :
  List.NoDup l ->
  (forall v e, In e (f v) -> variety_of e = v) ->
  (forall v, (length (f v) <= 1)%nat) ->
  List.NoDup (map variety_of (flat_map f l)).
Proof.
  intros Hnd Hkey Hone. induction Hnd as [|v l Hv Hnd IH]; simpl; [constructor|].
  rewrite map_app. apply List.NoDup_app; [| assumption |].
  - specialize (Hone v). destruct (f v) as [|e [|e' rest]]; simpl in *;
      [constructor | repeat constructor; simpl; tauto | lia].
  - intros k Hk Hk'. apply in_map_iff in Hk as (e & <- & He).
    apply in_map_iff in Hk' as (e' & Heq & He').
    apply in_flat_map in He' as (v' & Hv' & He').
    apply Hkey in He, He'. congruence.
Qed.

(** X7. The term-structure analysis gives one result at most per variety,
    and one exactly for the varieties with at least two rows that carry a
    close above 0.  A result lists those rows of its variety, all of them,
    in ascending order of the contract-month key, with the close of each
    contract at the same position; it has two contracts or more, every
    close is positive, and its structure is the classification of these
    closes. *)
Theorem term_structure_results (price_data : list PriceRow) :
  List.NoDup (map variety_of (analyze_term_structure price_data)) /\
  (forall v, In v (map variety_of (analyze_term_structure price_data))
             <-> (2 <= length (priced_rows price_data v))%nat) /\
  (forall v structure contracts closes,
      In (v, structure, contracts, closes) (analyze_term_structure price_data) ->
      exists sorted_rows,
        Permutation sorted_rows (priced_rows price_data v) /\
        StronglySorted month_key_le sorted_rows /\
        contracts = map symbol sorted_rows /\
        closes = map close_value sorted_rows /\
        (2 <= length contracts)%nat /\
        (forall q, In q closes -> (0 < q)%Q) /\
        structure = _determine_structure_strict closes).
Proof.
  rewrite analyze_term_structure_flat.
  assert (Hentry : forall v e,
             In e (analyze_variety price_data v) ->
             (2 <= length (priced_rows price_data v))%nat /\
             e = (v,
                  _determine_structure_strict
                    (map close_value (_sort_contracts_by_month (priced_rows price_data v))),
                  map symbol (_sort_contracts_by_month (priced_rows price_data v)),
                  map close_value (_sort_contracts_by_month (priced_rows price_data v)))).
  { intros v e. rewrite analyze_variety_entry.
    destruct (Nat.ltb_spec (length (priced_rows price_data v)) 2); [intros []|].
    intros [<- | []]. split; [lia | reflexivity]. }
  destruct (unique_spec (map variety price_data) []) as [Hnd Hin].
  split; [|split].
  - apply flat_map_keys; [assumption | |].
    + intros v e He. apply Hentry in He as [_ ->]. reflexivity.
    + intros v. rewrite analyze_variety_entry. destruct (_ <? _)%nat; simpl; lia.
  - intros v. split.
    + intros H. apply in_map_iff in H as (e & <- & He).
      apply in_flat_map in He as (v' & _ & He).
      apply Hentry in He as [Hlen ->]. exact Hlen.
    + intros Hlen. apply in_map_iff.
      eexists. split; [|apply in_flat_map; exists v; split].
      2:{ apply Hin. split; [|tauto].
          destruct (priced_rows price_data v) as [|r rest] eqn:E; [simpl in Hlen; lia|].
          assert (Hr : In r (priced_rows price_data v)) by (rewrite E; now left).
          apply filter_In in Hr as [Hr Hv]. apply andb_prop in Hv as [Hv _].
          apply String.eqb_eq in Hv as <-. now apply in_map. }
      2:{ rewrite analyze_variety_entry.
          destruct (Nat.ltb_spec (length (priced_rows price_data v)) 2); [lia|].
          left. reflexivity. }
      reflexivity.
  - intros v structure contracts closes He.
    apply in_flat_map in He as (v' & _ & He).
    apply Hentry in He as [Hlen [= <- -> -> ->]].
    exists (_sort_contracts_by_month (priced_rows price_data v)).
    split; [apply isort_perm|]. split; [apply month_sorted|].
    split; [reflexivity|]. split; [reflexivity|]. split.
    { rewrite length_map. unfold _sort_contracts_by_month. now rewrite isort_length. }
    split; [|reflexivity].
    intros q Hq. apply in_map_iff in Hq as (r & <- & Hr).
    apply (Permutation_in _ (isort_perm month_le _)) in Hr.
    apply filter_In in Hr as [_ Hr]. apply andb_prop in Hr as [_ Hr].
    unfold valid_close, close_value in *. destruct (close r) as [q|]; [|discriminate].
    now apply Qlt_bool_true.
Qed.

(** ** The symbol of a contract *)

Lemma after_last_underscore_none (s : string) :
  no_underscore s -> after_last_underscore s = None.
Proof.
  unfold no_underscore. induction s as [|c s IH]; simpl; [reflexivity|].
  intros H. apply andb_prop in H as [Hc Hs]. rewrite (IH Hs).
  now destruct (Ascii.eqb c "_").
Qed.

Lemma after_last_underscore_segment (prefix segment : string) :
  no_underscore segment ->
  after_last_underscore (prefix +:+ "_" +:+ segment) = Some segment.
Proof.
  intros H. induction prefix as [|c p IH]; simpl.
  - change ("" +:+ segment) with segment.
    now rewrite (after_last_underscore_none _ H).
  - simpl in IH. now rewrite IH.
Qed.

Lemma letters_upper_letters (s : string) : letters_upper s = upper (letters s).
Proof.
  induction s as [|c s IH]; simpl; [reflexivity|].
  destruct (is_alpha c); simpl; now rewrite IH.
Qed.

Lemma to_upper_is_upper (c : ascii) : is_alpha c = true -> is_upper (to_upper c) = true.
Proof.
  unfold is_alpha, to_upper, is_upper, is_lower.
  destruct ((97 <=? nat_of_ascii c)%nat && (nat_of_ascii c <=? 122)%nat) eqn:E.
  - intros _. apply andb_prop in E as [H1 H2].
    apply Nat.leb_le in H1, H2.
    rewrite nat_ascii_embedding by lia.
    apply andb_true_intro. split; apply Nat.leb_le; lia.
  - now rewrite orb_false_r.
Qed.

Lemma upper_letters_all_upper (s : string) : all_upper (upper (letters s)).
Proof.
  unfold all_upper. induction s as [|c s IH]; simpl; [reflexivity|].
  destruct (is_alpha c) eqn:E; simpl; [|assumption].
  now rewrite to_upper_is_upper.
Qed.

Lemma is_upper_facts (c : ascii) :
  is_upper c = true ->
  is_alpha c = true /\ to_upper c = c /\ Ascii.eqb c "_" = false.
Proof.
  unfold is_alpha, to_upper, is_upper, is_lower. intros H. rewrite H.
  apply andb_prop in H as [H1 H2]. apply Nat.leb_le in H1, H2.
  split; [reflexivity|]. split.
  - destruct (Nat.leb_spec 97 (nat_of_ascii c)) as [H|H]; [|reflexivity].
    exfalso. revert H2 H. generalize (nat_of_ascii c). intros n. lia.
  - apply Ascii.eqb_neq. intros ->. revert H2. vm_compute. intros H2.
    repeat (apply le_S_n in H2). inversion H2.
Qed.

Lemma all_upper_fixed (s : string) :
  all_upper s -> no_underscore s /\ letters_upper s = s.
Proof.
  unfold all_upper, no_underscore. induction s as [|c s IH]; simpl; [auto|].
  intros H. apply andb_prop in H as [Hc Hs].
  destruct (is_upper_facts c Hc) as (Ha & Hu & Hn).
  destruct (IH Hs) as [IH1 IH2].
  rewrite Ha, Hu, Hn, IH1, IH2. auto.
Qed.

(** X8. The symbol of a contract is read from the part after its last
    underscore, or from the whole identifier when it has none: the ASCII
    letters of that part, in upper case; a part without a letter gives the
    identifier itself.  A symbol made of letters is its own symbol, so
    extracting twice changes nothing. *)
Theorem extract_symbol_last_segment (prefix segment : string) :
  ascii_only segment -> no_underscore segment ->
  extract_symbol (prefix +:+ "_" +:+ segment)
  = (if String.eqb (letters segment) ""
     then prefix +:+ "_" +:+ segment else upper (letters segment)) /\
  extract_symbol segment
  = (if String.eqb (letters segment) "" then segment else upper (letters segment)) /\
  (letters segment <> "" -> all_upper (extract_symbol segment)) /\
  extract_symbol (extract_symbol (prefix +:+ "_" +:+ segment))
  = extract_symbol (prefix +:+ "_" +:+ segment) /\
  extract_symbol (extract_symbol segment) = extract_symbol segment.
Proof.
  intros _ Hseg.
  assert (Hempty : String.eqb (upper (letters segment)) ""
                   = String.eqb (letters segment) "").
  { destruct (letters segment); reflexivity. }
  assert (Hfix : letters segment <> "" ->
                 extract_symbol (upper (letters segment)) = upper (letters segment)).
  { intros Hne. destruct (all_upper_fixed _ (upper_letters_all_upper segment)) as [Hn Hl].
    unfold extract_symbol. rewrite (after_last_underscore_none _ Hn), Hl, Hempty.
    destruct (String.eqb_spec (letters segment) ""); [contradiction | reflexivity]. }
  assert (H1 : extract_symbol (prefix +:+ "_" +:+ segment)
               = (if String.eqb (letters segment) ""
                  then prefix +:+ "_" +:+ segment else upper (letters segment))).
  { unfold extract_symbol.
    rewrite (after_last_underscore_segment _ _ Hseg), letters_upper_letters, Hempty.
    reflexivity. }
  assert (H2 : extract_symbol segment
               = (if String.eqb (letters segment) ""
                  then segment else upper (letters segment))).
  { unfold extract_symbol.
    rewrite (after_last_underscore_none _ Hseg), letters_upper_letters, Hempty.
    reflexivity. }
  split; [exact H1|]. split; [exact H2|]. split; [|split].
  - intros Hne. rewrite H2.
    destruct (String.eqb_spec (letters segment) ""); [contradiction|].
    apply upper_letters_all_upper.
  - rewrite H1. destruct (String.eqb_spec (letters segment) "") as [E|E].
    + exact H1.
    + now apply Hfix.
  - rewrite H2. destruct (String.eqb_spec (letters segment) "") as [E|E].
    + exact H2.
    + now apply Hfix.
Qed.

(** Two contracts of soybean meal, in either case, have the symbol M; an
    identifier without a letter stays as it is. *)
Lemma extract_symbol_examples :
  extract_symbol "大商所_m2501" = "M"%string /\
  extract_symbol "M2505" = "M"%string /\
  extract_symbol "2501" = "2501"%string.
Proof.
  split; [|split].
  - exact (proj1 (extract_symbol_last_segment "大商所" "m2501" eq_refl eq_refl)).
  - exact (proj1 (proj2 (extract_symbol_last_segment "" "M2505" eq_refl eq_refl))).
  - exact (proj1 (proj2 (extract_symbol_last_segment "" "2501" eq_refl eq_refl))).
Defined.

(** ** Which tables [process_position_data] accepts *)

Lemma rename_czce_not_source (c : string) :
  String.eqb "g_party_n" (rename_czce c) = false.
Proof.
  unfold rename_czce.
  repeat match goal with
         | |- context [String.eqb c ?s] => destruct (String.eqb_spec c s) as [->|?]
         end; try reflexivity.
  apply String.eqb_neq. congruence.
Qed.

Lemma _standardize_columns_idempotent (df : DataFrame) :
  _standardize_columns (_standardize_columns df) = _standardize_columns df.
Proof.
  destruct (has_column df "g_party_n") eqn:E.
  - assert (Hstd : _standardize_columns df
                   = mkFrame (map rename_czce (columns df)) (rows df))
      by (unfold _standardize_columns; now rewrite E).
    rewrite Hstd. unfold _standardize_columns, has_column. cbn [columns rows].
    replace (existsb (String.eqb "g_party_n") (map rename_czce (columns df))) with false;
      [reflexivity|].
    symmetry. clear E Hstd. induction (columns df) as [|c cols IH];
      cbn [map existsb]; [reflexivity|].
    now rewrite rename_czce_not_source.
  - assert (Hstd : _standardize_columns df = df)
      by (unfold _standardize_columns; now rewrite E).
    now rewrite !Hstd.
Qed.

Lemma has_column_count (df : DataFrame) (c : string) :
  has_column df c = true <-> (1 <= count_label c (columns df))%nat.
Proof.
  unfold has_column, count_label.
  induction (columns df) as [|c' cols IH]; simpl; [split; [discriminate | lia]|].
  destruct (String.eqb c c'); simpl; [split; [lia | reflexivity] | exact IH].
Qed.

Lemma coerce_columns_once (cs : list string) :
  forall df df',
    coerce_columns df cs = Ok df' ->
    forall c, In c cs -> (count_label c (columns df) <= 1)%nat.
Proof.
  induction cs as [|c0 cs IH]; intros df df' H c Hc; simpl in *; [tauto|].
  apply bind_ok in H as (df1 & H1 & H).
  pose proof (proj1 (coerce_column_cells _ _ _ H1)) as Hcols.
  destruct Hc as [<- | Hc].
  - unfold coerce_column in H1. apply bind_ok in H1 as (i & _ & H1).
    destruct (Nat.ltb_spec 1 (count_label c0 (columns df))); [discriminate | lia].
  - rewrite <- Hcols. eapply IH; eauto.
Qed.

Lemma coerce_columns_returns (cs : list string) :
  forall df,
    (forall c, In c cs -> count_label c (columns df) = 1%nat) ->
    exists df', coerce_columns df cs = Ok df'.
Proof.
  induction cs as [|c0 cs IH]; intros df H; simpl; [eauto|].
  assert (H0 : count_label c0 (columns df) = 1%nat) by (apply H; now left).
  assert (Hhas : has_column df c0 = true) by (apply has_column_count; lia).
  destruct (has_column_index df c0 Hhas) as [i Hi].
  unfold coerce_column at 1, column_pos. rewrite Hi, H0. simpl.
  apply IH. intros c Hc. simpl. apply H. now right.
Qed.

Lemma process_after_coercion (df0 df : DataFrame) :
  forallb (has_column (_standardize_columns df0)) required_columns = true ->
  coerce_columns (_standardize_columns df0) numeric_columns = Ok df ->
  process_position_data df0 <> None.
Proof.
  intros Hreq Hco. unfold process_position_data, process_body.
  rewrite Hreq, Hco. cbn [negb bind].
  pose proof (coerce_columns_cells _ _ _ Hco) as Hfrom.
  assert (Hsum : forall c, In c numeric_columns ->
                           column_sum df c = Ok (column_total df c)).
  { intros c Hc. apply column_sum_total.
    - unfold has_column. rewrite (proj1 Hfrom).
      rewrite forallb_forall in Hreq. apply Hreq. simpl in Hc |- *. tauto.
    - intros r s Hr Heq.
      pose proof (coerced_cells_numeric _ _ _ _ _ Hfrom Hc Hr) as Hn.
      now rewrite Heq in Hn. }
  rewrite !Hsum by (simpl; tauto). simpl. discriminate.
Qed.

(** X9. [process_position_data] accepts a table exactly when, once its
    columns are standardized, the seven required labels are present and
    each of the five numeric labels occurs once; a numeric label that occurs
    twice makes it give up.  Standardizing twice is standardizing once, a
    table without the label g_party_n is not renamed at all, and a table
    standardized by the caller is processed like the original one. *)
Theorem acceptance_criterion (df0 : DataFrame) :
  (process_position_data df0 <> None <->
   (forall c, In c required_columns ->
              has_column (_standardize_columns df0) c = true) /\
   (forall c, In c numeric_columns ->
              count_label c (columns (_standardize_columns df0)) = 1%nat)) /\
  _standardize_columns (_standardize_columns df0) = _standardize_columns df0 /\
  process_position_data (_standardize_columns df0) = process_position_data df0 /\
  (has_column df0 "g_party_n" = false -> _standardize_columns df0 = df0).
Proof.
  split; [|split; [|split]].
  - split.
    + intros Hsome. unfold process_position_data, process_body in Hsome.
      destruct (forallb (has_column (_standardize_columns df0)) required_columns) eqn:Hreq;
        [|now destruct Hsome].
      cbn [negb] in Hsome.
      destruct (coerce_columns (_standardize_columns df0) numeric_columns) as [df|e] eqn:Hco;
        [|now destruct Hsome].
      rewrite forallb_forall in Hreq. split; [exact Hreq|].
      intros c Hc.
      pose proof (coerce_columns_once _ _ _ Hco c Hc).
      assert (has_column (_standardize_columns df0) c = true)
        by (apply Hreq; simpl in Hc |- *; tauto).
      apply has_column_count in H0. lia.
    + intros [Hreq Hone].
      destruct (coerce_columns_returns numeric_columns _ Hone) as [df Hco].
      apply (process_after_coercion df0 df); [|exact Hco].
      now apply forallb_forall.
  - apply _standardize_columns_idempotent.
  - unfold process_position_data, process_body.
    now rewrite _standardize_columns_idempotent.
  - intros H. unfold _standardize_columns. now rewrite H.
Qed.

(** A table with the Zhengzhou labels is accepted; with a second column
    that ends up as long_open_interest it is not, although no required
    label is missing. *)
Lemma czce_sheets :
  process_position_data czce_sheet <> None /\
  process_position_data czce_sheet_twice = None /\
  forallb (has_column (_standardize_columns czce_sheet_twice)) required_columns = true.
Proof.
  split; [|split; reflexivity].
  apply (proj1 (acceptance_criterion czce_sheet)). split.
  - intros c Hc. simpl in Hc.
    repeat (destruct Hc as [<- | Hc]; [reflexivity|]). destruct Hc.
  - intros c Hc. simpl in Hc.
    repeat (destruct Hc as [<- | Hc]; [reflexivity|]). destruct Hc.
Defined.

(** ** The classification of a curve read backwards *)

Lemma adjacent_snoc (R : Q -> Q -> Prop) (l : list Q) (a b : Q) :
  adjacent R ((l ++ [a]) ++ [b]) <-> adjacent R (l ++ [a]) /\ R a b.
Proof.
  induction l as [|x l IH]; simpl; [tauto|].
  destruct l as [|y l]; simpl in *; [tauto|]. tauto.
Qed.

Lemma adjacent_rev (R : Q -> Q -> Prop) (l : list Q) :
  adjacent R (rev l) <-> adjacent (fun a b => R b a) l.
Proof.
  induction l as [|a l IH]; simpl; [tauto|].
  destruct l as [|b l]; [simpl; tauto|].
  change (rev (b :: l)) with (rev l ++ [b]) in *.
  rewrite adjacent_snoc, IH. tauto.
Qed.

(** X10. Reading the prices in the opposite order exchanges "back" and
    "contango" and keeps "flat"; the classification is one of these three,
    and it is "flat" for fewer than two prices. *)
Theorem structure_of_reversed_prices (prices : list Q) :
  _determine_structure_strict (rev prices)
  = mirrored (_determine_structure_strict prices) /\
  (_determine_structure_strict prices = "back"%string \/
   _determine_structure_strict prices = "contango"%string \/
   _determine_structure_strict prices = "flat"%string) /\
  ((length prices < 2)%nat -> _determine_structure_strict prices = "flat"%string).
Proof.
  unfold _determine_structure_strict. rewrite length_rev.
  destruct (Nat.ltb_spec (length prices) 2) as [Hshort|Hlong].
  { split; [reflexivity|]. split; [auto|]. reflexivity. }
  destruct (scan_prices_flags prices true true) as [Hd Hi].
  destruct (scan_prices_flags (rev prices) true true) as [Hd' Hi'].
  unfold strictly_decreasing, strictly_increasing in *.
  rewrite adjacent_rev in Hd', Hi'.
  pose proof (not_both_directions prices Hlong) as Hnot.
  unfold strictly_decreasing, strictly_increasing in Hnot.
  destruct (scan_prices true true prices) as [d i].
  destruct (scan_prices true true (rev prices)) as [d' i'].
  simpl in *.
  split; [|split; [|lia]].
  - destruct d, i, d', i'; try reflexivity; exfalso;
      intuition (try discriminate; eauto).
  - destruct d, i; auto.
Qed.

(** ** The price table *)

Lemma fetch_price_loop_quiet (env : Env) (trade_date : string) (cb : Callback)
    (total : nat) (exchanges : list (string * string)) :
  quiet cb ->
  forall i all_data,
    fetch_price_loop env trade_date cb total i exchanges all_data
    = all_data ++ merged_prices env trade_date exchanges.
Proof.
  intros Hq. unfold merged_prices.
  induction exchanges as [|[market name] rest IH]; intros i all_data; simpl.
  - now rewrite app_nil_r.
  - rewrite Hq. unfold contribution at 1. cbn [fst snd].
    destruct (price_source env market trade_date) as [e|df]; rewrite IH.
    + reflexivity.
    + now rewrite app_assoc.
Qed.

(** What [cached_data_fetch] hands to the task of a market. *)
Lemma price_task_table (env : Env) (trade_date market : string) (w : World) :
  match fst (price_task env trade_date market w) with
  | Ok df => df
  | Raise _ => None
  end = pooled_table env trade_date w market.
Proof.
  unfold price_task, pooled_table, cached_data_fetch.
  destruct (memo_fresh (price_memo w) (clock env)
                       ("get_futures_daily"%string, trade_date, Some market))
    as [stored|]; [reflexivity|].
  destruct (akshare_importable env); [|reflexivity].
  cbn [negb orb]. unfold fetch_body.
  destruct (sigalrm env); [reflexivity|]. cbn [andb negb].
  replace (existsb (String.eqb "get_futures_daily") single_call_functions)
    with false by (vm_compute; reflexivity).
  replace (String.eqb "get_futures_daily" "futures_gfex_position_rank")
    with false by (vm_compute; reflexivity).
  replace (String.eqb "get_futures_daily" "get_futures_daily")
    with true by (vm_compute; reflexivity).
  destruct market as [|c market]; [reflexivity|].
  unfold price_network.
  destruct (price_source env (String c market) trade_date); reflexivity.
Qed.

Lemma price_task_store (env : Env) (trade_date market : string) (w : World)
    (key : string * string * option string) :
  key <> ("get_futures_daily"%string, trade_date, Some market) ->
  price_memo (snd (price_task env trade_date market w)) !! key = price_memo w !! key.
Proof.
  intros Hkey. unfold price_task, cached_data_fetch.
  destruct (memo_fresh (price_memo w) (clock env)
                       ("get_futures_daily"%string, trade_date, Some market));
    [reflexivity|].
  destruct (akshare_importable env); [|reflexivity].
  destruct (fetch_body _ _ _ _ _ _ _) as [v log]. cbn [snd price_memo set_price_memo].
  apply lookup_insert_ne. congruence.
Qed.

(** A price task leaves the files and the store of the workbooks alone. *)
Lemma price_task_keeps (env : Env) (trade_date market : string) (w : World) :
  data_dir (snd (price_task env trade_date market w)) = data_dir w /\
  cache_dir (snd (price_task env trade_date market w)) = cache_dir w /\
  book_memo (snd (price_task env trade_date market w)) = book_memo w.
Proof.
  unfold price_task.
  destruct (cached_data_fetch _ _ _ _ _ _ _ _ _ _) as [[r memo] log].
  repeat split.
Qed.

Lemma run_price_tasks_keeps (env : Env) (trade_date : string)
    (exchanges : list (string * string)) :
  forall w,
    data_dir (snd (run_price_tasks env trade_date exchanges w)) = data_dir w /\
    cache_dir (snd (run_price_tasks env trade_date exchanges w)) = cache_dir w /\
    book_memo (snd (run_price_tasks env trade_date exchanges w)) = book_memo w.
Proof.
  induction exchanges as [|[market name] rest IH]; intros w;
    cbn [run_price_tasks snd]; [auto|].
  pose proof (price_task_keeps env trade_date market w) as (H1 & H2 & H3).
  destruct (price_task env trade_date market w) as [df w1].
  specialize (IH w1).
  destruct (run_price_tasks env trade_date rest w1) as [answers w2].
  cbn [snd] in *. destruct IH as (I1 & I2 & I3).
  repeat split; congruence.
Qed.

Lemma pooled_table_store (env : Env) (trade_date market : string) (w w' : World) :
  price_memo w' !! ("get_futures_daily"%string, trade_date, Some market)
  = price_memo w !! ("get_futures_daily"%string, trade_date, Some market) ->
  pooled_table env trade_date w' market = pooled_table env trade_date w market.
Proof.
  intros H. unfold pooled_table, memo_fresh.
  match goal with
  | |- context [@lookup ?K ?A ?M ?L ?k (price_memo w')] =>
      replace (@lookup K A M L k (price_memo w'))
        with (@lookup K A M L k (price_memo w)) by (symmetry; exact H)
  end.
  reflexivity.
Qed.

(** The price tasks do not disturb one another. *)
Lemma run_price_tasks_tables (env : Env) (trade_date : string) (w : World)
    (exchanges : list (string * string)) :
  List.NoDup (map fst exchanges) ->
  forall w',
    (forall e, In e exchanges ->
               price_memo w' !! ("get_futures_daily"%string, trade_date, Some (fst e))
               = price_memo w !! ("get_futures_daily"%string, trade_date, Some (fst e))) ->
    forall e, In e exchanges ->
      loop_table (fst (run_price_tasks env trade_date exchanges w')) (fst e)
      = pooled_table env trade_date w (fst e).
Proof.
  induction exchanges as [|[market name] rest IH]; intros Hnd w' Hstore e Hin;
    [destruct Hin|].
  apply List.NoDup_cons_iff in Hnd as [Hfresh Hnd]. cbn [fst] in Hfresh.
  cbn [run_price_tasks].
  pose proof (price_task_table env trade_date market w') as Ht.
  pose proof (fun key => price_task_store env trade_date market w' key) as Hs.
  destruct (price_task env trade_date market w') as [df w1].
  specialize (IH Hnd w1).
  destruct (run_price_tasks env trade_date rest w1) as [answers w2].
  cbn [fst snd] in *. unfold loop_table. cbn [dict_find].
  destruct (String.eqb_spec (fst e) market) as [Heq|Hne].
  - rewrite Heq, Ht. apply pooled_table_store.
    apply (Hstore (market, name)). now left.
  - destruct Hin as [<- | Hin]; [now destruct Hne|].
    apply IH; [|assumption].
    intros e' He'. rewrite Hs.
    + apply Hstore. now right.
    + intros [= Heq]. apply Hfresh. rewrite <- Heq. now apply in_map.
Qed.

Lemma completed_price_loop_pooled (env : Env) (trade_date : string) (w : World)
    (cb : Callback) (answers : list (string * result (option (list PriceRow))))
    (total : nat) (completed : list (string * string)) :
  quiet cb ->
  (forall e, In e completed ->
             loop_table answers (fst e) = pooled_table env trade_date w (fst e)) ->
  forall i all_data,
    completed_price_loop cb answers total i completed all_data
    = Ok (all_data ++ pooled_prices env trade_date w completed).
Proof.
  intros Hq. unfold pooled_prices.
  induction completed as [|[market name] rest IH]; intros Htab i all_data; simpl.
  - now rewrite app_nil_r.
  - rewrite Hq. unfold pooled_contribution at 1. cbn [bind fst snd].
    pose proof (Htab (market, name) (or_introl eq_refl)) as Hm. cbn [fst] in Hm.
    rewrite <- Hm. unfold loop_table.
    destruct (dict_find answers market) as [[[df|]|e]|];
      rewrite IH by (intros; apply Htab; now right);
      try reflexivity.
    now rewrite app_assoc.
Qed.

Lemma price_markets_distinct : List.NoDup (map fst price_exchanges).
Proof.
  unfold price_exchanges. simpl.
  repeat (constructor; [simpl; intuition discriminate|]). constructor.
Qed.

(** The pooled fetch when the cache has nothing to serve. *)
Lemma fetch_price_data_fast_miss (env : Env) (trade_date : string) (cb : Callback)
    (w : World) :
  quiet cb -> cache_miss env w ->
  Permutation price_exchanges (prices_completion env) ->
  exists w1,
    fetch_price_data_fast env trade_date cb w
    = (Ok (pooled_prices env trade_date w (prices_completion env)), w1) /\
    data_dir w1 = data_dir w /\
    cache_dir w1
    = save_to_cache (cache_dir w) (clock env) (price_cache_key env)
                    (pooled_prices env trade_date w (prices_completion env)).
Proof.
  intros Hq Hmiss Hperm. unfold cache_miss in Hmiss. unfold fetch_price_data_fast.
  rewrite Hmiss.
  pose proof (run_price_tasks_tables env trade_date w price_exchanges
                price_markets_distinct w (fun e He => eq_refl)) as Htab.
  pose proof (run_price_tasks_keeps env trade_date price_exchanges w) as (K1 & K2 & _).
  destruct (run_price_tasks env trade_date price_exchanges w) as [answers w1].
  cbn [fst snd] in *.
  rewrite (completed_price_loop_pooled env trade_date w cb answers).
  - cbn [bind]. rewrite Hq. cbn [bind app].
    eexists. split; [reflexivity|]. cbn [data_dir cache_dir].
    split; [exact K1 | now rewrite K2].
  - assumption.
  - intros e He. apply Htab. eapply Permutation_in; [symmetry; exact Hperm | exact He].
Qed.

(** X11. With a progress callback that returns, the price table is the
    concatenation of the tables of the exchanges, each row tagged with the
    name of its exchange.  In the standard mode the table of an exchange is
    the answer of the price function, in configuration order; an exchange
    whose source raises contributes nothing and stops nothing, and no file
    is touched.  In the pooled mode, when the cache has nothing to serve
    and every market completes once, the table of an exchange is what
    [cached_data_fetch] hands to its task, in completion order, and the
    table returned is saved under the key of the call.  The tasks run in
    threads of the pool: on a platform with SIGALRM, with no table of the
    date less than an hour old in the store, the pooled table is empty
    whatever the sources answer; on a platform without it, and with akshare
    there, the table of an exchange is the answer of the price function, as
    in the standard mode. *)
Theorem price_table_merges_exchanges (env : Env) (trade_date : string) (cb : Callback)
    (w : World) :
  quiet cb ->
  fetch_price_data env trade_date cb w
  = (Ok (merged_prices env trade_date price_exchanges), w) /\
  (cache_miss env w ->
   Permutation price_exchanges (prices_completion env) ->
   exists w1,
     fetch_price_data_fast env trade_date cb w
     = (Ok (pooled_prices env trade_date w (prices_completion env)), w1) /\
     data_dir w1 = data_dir w /\
     cache_dir w1
     = save_to_cache (cache_dir w) (clock env) (price_cache_key env)
                     (pooled_prices env trade_date w (prices_completion env))) /\
  (forall exchanges r,
      In r (merged_prices env trade_date exchanges) <->
      exists market name df r0,
        In (market, name) exchanges /\
        price_source env market trade_date = PriceReturns df /\
        In r0 df /\ r = tag_exchange name r0) /\
  (forall exchanges r,
      In r (pooled_prices env trade_date w exchanges) <->
      exists market name df r0,
        In (market, name) exchanges /\
        pooled_table env trade_date w market = Some df /\
        In r0 df /\ r = tag_exchange name r0) /\
  (no_fresh_table env trade_date w ->
   (sigalrm env = true ->
    forall exchanges, pooled_prices env trade_date w exchanges = []) /\
   (sigalrm env = false -> akshare_importable env = true ->
    forall exchanges,
      (forall e, In e exchanges -> fst e <> EmptyString) ->
      pooled_prices env trade_date w exchanges
      = merged_prices env trade_date exchanges)).
Proof.
  intros Hq. split; [|split; [|split; [|split]]].
  - unfold fetch_price_data, io_bind, io_lift, io_ret.
    rewrite Hq. now rewrite fetch_price_loop_quiet.
  - intros Hmiss Hperm. now apply fetch_price_data_fast_miss.
  - intros exchanges r. unfold merged_prices. rewrite in_flat_map. split.
    + intros ([market name] & Hin & Hr). unfold contribution in Hr. cbn [fst snd] in Hr.
      destruct (price_source env market trade_date) as [e|df] eqn:E; [destruct Hr|].
      apply in_map_iff in Hr as (r0 & <- & Hr0).
      exists market, name, df, r0. auto.
    + intros (market & name & df & r0 & Hin & Hsrc & Hr0 & ->).
      exists (market, name). split; [assumption|].
      unfold contribution. cbn [fst snd]. rewrite Hsrc. now apply in_map.
  - intros exchanges r. unfold pooled_prices. rewrite in_flat_map. split.
    + intros ([market name] & Hin & Hr). unfold pooled_contribution in Hr.
      cbn [fst snd] in Hr.
      destruct (pooled_table env trade_date w market) as [df|] eqn:E; [|destruct Hr].
      apply in_map_iff in Hr as (r0 & <- & Hr0).
      exists market, name, df, r0. auto.
    + intros (market & name & df & r0 & Hin & Htab & Hr0 & ->).
      exists (market, name). split; [assumption|].
      unfold pooled_contribution. cbn [fst snd]. rewrite Htab. now apply in_map.
  - intros Hfresh. split.
    + intros Hsig exchanges. unfold pooled_prices.
      induction exchanges as [|[market name] rest IH]; [reflexivity|].
      cbn [flat_map]. rewrite IH, app_nil_r.
      unfold pooled_contribution, pooled_table. cbn [fst snd].
      rewrite Hfresh, Hsig, orb_true_r. reflexivity.
    + intros Hsig Hak exchanges Hsub. unfold pooled_prices, merged_prices.
      induction exchanges as [|[market name] rest IH]; [reflexivity|].
      cbn [flat_map]. rewrite IH by (intros; apply Hsub; now right). f_equal.
      unfold pooled_contribution, contribution, pooled_table. cbn [fst snd].
      rewrite Hfresh, Hsig, Hak. cbn [negb orb].
      pose proof (Hsub (market, name) (or_introl eq_refl)) as Hm. cbn [fst] in Hm.
      destruct market as [|c market]; [now destruct Hm|].
      destruct (price_source env (String c market) trade_date); reflexivity.
Qed.

(** One quote per market: four rows, tagged in configuration order, in the
    standard mode and in the pooled mode of a platform without SIGALRM; on a
    platform with SIGALRM the pooled table is empty. *)
Lemma price_table_example :
  fst (fetch_price_data price_service_up "20240105" None empty_world)
  = Ok (map (fun name => mkPrice "m2501" "M" (Some 3000%Q) name)
            ["大商所"; "中金所"; "郑商所"; "上期所"]%string) /\
  fst (fetch_price_data_fast price_service_up "20240105" None empty_world)
  = fst (fetch_price_data price_service_up "20240105" None empty_world) /\
  fst (fetch_price_data_fast price_service_posix "20240105" None empty_world) = Ok [].
Proof.
  destruct (price_table_merges_exchanges price_service_up "20240105" None
              empty_world (fun _ _ => eq_refl)) as (Hstd & Hfast & _).
  destruct (Hfast eq_refl (Permutation_refl _)) as (w1 & Hw1 & _).
  split; [|split].
  - rewrite Hstd. reflexivity.
  - rewrite Hw1, Hstd. reflexivity.
  - reflexivity.
Defined.

(** X12. When the pooled price fetch has found nothing in the cache and has
    returned a table, the call with the same cache key that follows within
    24 hours returns that table again and leaves everything as it is: no
    task is started and no progress is reported, whatever the sources and
    the callback of that call are.  This holds for the empty table of a
    fetch in which no task got a table, and beyond the six hours that the
    decorator of the function names. *)
Theorem price_table_served_again (env later_env : Env) (trade_date later_date : string)
    (cb later_cb : Callback) (w : World) :
  quiet cb ->
  cache_miss env w ->
  Permutation price_exchanges (prices_completion env) ->
  price_cache_key later_env = price_cache_key env ->
  clock later_env - clock env < 24 * 3600 ->
  exists rows w1,
    fetch_price_data_fast env trade_date cb w = (Ok rows, w1) /\
    rows = pooled_prices env trade_date w (prices_completion env) /\
    fetch_price_data_fast later_env later_date later_cb w1 = (Ok rows, w1).
Proof.
  intros Hq Hmiss Hperm Hkey Hage.
  destruct (fetch_price_data_fast_miss env trade_date cb w Hq Hmiss Hperm)
    as (w1 & Hfirst & _ & Hcache).
  eexists _, w1. split; [exact Hfirst|]. split; [reflexivity|].
  unfold fetch_price_data_fast at 1.
  rewrite Hcache, Hkey, load_after_save by assumption. reflexivity.
Qed.

(** On a platform with SIGALRM the price service is up at time 0, the
    pooled fetch gets nothing and the empty table is cached; one hour later,
    on a machine on which the pooled fetch would get the four quotes, the
    call still returns the empty table. *)
Lemma failed_fetch_is_served_again :
  exists w1,
    fetch_price_data_fast price_service_earlier "20240105" None empty_world = (Ok [], w1) /\
    fetch_price_data_fast price_service_up "20240105" None w1 = (Ok [], w1) /\
    fst (fetch_price_data_fast price_service_up "20240105" None empty_world) <> Ok [].
Proof.
  destruct (price_table_served_again price_service_earlier price_service_up
              "20240105" "20240105" None None empty_world
              (fun _ _ => eq_refl) eq_refl (Permutation_refl _) eq_refl eq_refl)
    as (rows & w1 & H1 & Hrows & H2).
  change (pooled_prices price_service_earlier "20240105" empty_world
            (prices_completion price_service_earlier))
    with (@nil PriceRow) in Hrows. subst rows.
  exists w1. split; [exact H1|]. split; [exact H2|].
  vm_compute. discriminate.
Defined.

(** ** Eviction and loading *)

(** X13. An eviction with a limit of one day or more removes nothing that a
    load would still return: right after it, every key loads what it loaded
    before.  Evicting a second time at the same instant removes nothing
    more, and an eviction never brings a file into the directory or changes
    one. *)
Theorem eviction_keeps_loadable {Payload : Type}
    (cache : gmap string (CacheFile Payload)) (now max_age_days : Z) :
  1 <= max_age_days ->
  (forall key,
      fst (load_from_cache (clear_old_cache cache now max_age_days) now key)
      = fst (load_from_cache cache now key)) /\
  clear_old_cache (clear_old_cache cache now max_age_days) now max_age_days
  = clear_old_cache cache now max_age_days /\
  (forall name f,
      clear_old_cache cache now max_age_days !! name = Some f ->
      cache !! name = Some f).
Proof.
  intros Hdays. split; [|split].
  - intros key. unfold load_from_cache, is_cache_valid.
    rewrite clear_old_cache_lookup.
    destruct (cache !! get_cache_path key) as [f|]; [|reflexivity].
    destruct (stale now max_age_days (get_cache_path key, f)) eqn:S.
    2:{ destruct (now - mtime f <? 24 * 3600); [destruct f as [m [v|]]|]; reflexivity. }
    unfold stale in S. cbn [fst snd] in S.
    apply andb_prop in S as [_ S]. apply Z.ltb_lt in S.
    destruct (Z.ltb_spec (now - mtime f) (24 * 3600)); [lia | reflexivity].
  - apply map_eq. intros name. rewrite !clear_old_cache_lookup.
    destruct (cache !! name) as [f|]; [|reflexivity].
    destruct (stale now max_age_days (name, f)) eqn:S; [reflexivity|].
    now rewrite S.
  - intros name f. rewrite clear_old_cache_lookup.
    destruct (cache !! name) as [f'|]; [|discriminate].
    destruct (stale now max_age_days (name, f')); [discriminate | auto].
Qed.

(** An entry written at time 0 and read 23 hours later, after the weekly
    eviction. *)
Lemma eviction_example :
  fst (load_from_cache (clear_old_cache old_cache 82800 7) 82800 "k") = Some 7.
Proof.
  rewrite (proj1 (eviction_keeps_loadable old_cache 82800 7 ltac:(lia)) "k"%string).
  apply load_after_save. lia.
Defined.

(** ** The standard acquisition with any callback *)

Lemma fetch_position_loop_reported (env : Env) (trade_date : string) (cb : Callback)
    (total : nat) (exchanges : list (string * string)) :
  forall i c w,
    fetch_position_loop env trade_date cb total i exchanges c w
    = ((c + length (List.filter (produced_and_persisted env trade_date)
                                (reported cb total i exchanges)))%nat,
       saves env trade_date (reported cb total i exchanges) w).
Proof.
  induction exchanges as [|[name filename] rest IH]; intros i c w;
    cbn [fetch_position_loop reported].
  - cbn. f_equal. lia.
  - destruct (report cb _ _) as [u|e]; [|apply IH].
    cbn [saves fold_left List.filter length fst snd].
    pose proof (fetch_and_save_answer env trade_date name filename w) as Ha.
    destruct (fetch_and_save env trade_date name filename w) as [saved w1].
    cbn [fst snd] in *. rewrite <- Ha.
    destruct saved; rewrite IH; unfold saves; cbn [length]; f_equal; lia.
Qed.

Lemma reported_configured (cb : Callback) (exchanges : list (string * string)) :
  forall total i e, In e (reported cb total i exchanges) -> In e exchanges.
Proof.
  induction exchanges as [|[n f] rest IH]; intros total i e; cbn [reported]; [tauto|].
  destruct (report cb _ _).
  - intros [<- | H]; [now left | right; eauto].
  - intros H. right. eauto.
Qed.

(** X14. In the standard acquisition an exchange whose progress report
    raises is left out as if it were not configured: its source is not
    asked and its file is not touched, and the other exchanges are fetched
    and saved in turn.  The acquisition reports success exactly when one of
    the exchanges that were reported produced a dataset that was written;
    only the final report can make it raise, and the files are written by
    then. *)
Theorem standard_acquisition_with_any_callback (env : Env) (trade_date : string)
    (cb : Callback) (w : World) :
  fetch_position_data env trade_date cb w
  = (match report cb "持仓数据获取完成" (6 # 10) with
     | Ok _ =>
         Ok (existsb (produced_and_persisted env trade_date)
                     (reported cb (length exchange_config) 0 exchange_config))
     | Raise e => Raise e
     end,
     saves env trade_date (reported cb (length exchange_config) 0 exchange_config) w) /\
  (quiet cb -> reported cb (length exchange_config) 0 exchange_config = exchange_config) /\
  (forall e, In e (reported cb (length exchange_config) 0 exchange_config) ->
             In e exchange_config).
Proof.
  split; [|split].
  - unfold fetch_position_data. rewrite fetch_position_loop_reported.
    destruct (report cb "持仓数据获取完成" (6 # 10)); [|reflexivity].
    now rewrite <- positive_count.
  - intros Hq. generalize (length exchange_config) 0%nat.
    induction exchange_config as [|[name filename] rest IH]; intros total i;
      cbn [reported]; [reflexivity|].
    rewrite Hq. now rewrite IH.
  - apply reported_configured.
Qed.

(** The callback fails on the report of the only exchange that has data:
    nothing is fetched for it, no file is written, and the acquisition
    reports failure. *)
Lemma skipped_by_its_report :
  fetch_position_data one_source_env "20240105" callback_failing_on_dce empty_world
  = (Ok false, empty_world) /\
  fst (fetch_position_data one_source_env "20240105" None empty_world) = Ok true.
Proof.
  rewrite (proj1 (standard_acquisition_with_any_callback one_source_env "20240105"
                    callback_failing_on_dce empty_world)).
  split; vm_compute; reflexivity.
Defined.

(** ** Loading the saved workbooks *)

Lemma append_same_length (a b x y : string) :
  String.length a = String.length b -> a +:+ x = b +:+ y -> a = b /\ x = y.
Proof.
  revert b. induction a as [|c a IH]; intros [|c' b] Hlen H; simpl in *;
    try discriminate; [auto|].
  injection H as -> H. injection Hlen as Hlen.
  destruct (IH b Hlen H) as [-> ->]. auto.
Qed.

Lemma dict_set_fresh {V : Type} (d : list (string * V)) (k : string) (v : V) :
  ~ In k (map fst d) -> dict_set d k v = d ++ [(k, v)].
Proof.
  induction d as [|[k0 v0] d IH]; simpl; [reflexivity|].
  intros H. destruct (String.eqb_spec k k0) as [->|_]; [tauto|].
  f_equal. tauto.
Qed.

Lemma fold_dict_set_fresh {V : Type} (g : string -> string) (l : list (string * V)) :
  forall acc,
    List.NoDup (map fst acc ++ map (fun e => g (fst e)) l) ->
    fold_left (fun acc '(k, v) => dict_set acc (g k) v) l acc
    = acc ++ map (fun '(k, v) => (g k, v)) l.
Proof.
  induction l as [|[k v] l IH]; intros acc Hnd; simpl.
  - now rewrite app_nil_r.
  - simpl in Hnd. rewrite dict_set_fresh.
    + rewrite IH.
      * now rewrite <- app_assoc.
      * rewrite map_app. simpl. rewrite <- app_assoc. exact Hnd.
    + apply NoDup_remove_2 in Hnd. intros Hin. apply Hnd.
      apply in_or_app. now left.
Qed.

Lemma book_keys_nodup (name : string) (book : Workbook) :
  List.NoDup (map fst book) ->
  List.NoDup (map fst (map (fun '(sheet_name, df) =>
                              (name +:+ "_" +:+ sheet_name, df)) book)).
Proof.
  induction book as [|[s df] book IHb]; simpl; [constructor|].
  intros Hsheets. apply List.NoDup_cons_iff in Hsheets as [Hs Hsheets].
  constructor; [|auto]. intros Hin.
  apply in_map_iff in Hin as ([k df'] & Hk & Hin).
  apply in_map_iff in Hin as ([s' df''] & [= <- <-] & Hin).
  simpl in Hk. apply (append_same_length name name) in Hk as [_ Hk]; [|reflexivity].
  apply (append_same_length "_" "_") in Hk as [_ Hk]; [|reflexivity].
  subst s'. apply Hs. apply in_map_iff. now exists (s, df'').
Qed.

Lemma sheet_keys (w : World) (exchanges : list (string * string)) (n : nat) :
  distinct_sheets w ->
  List.NoDup (map fst exchanges) ->
  (forall e, In e exchanges -> String.length (fst e) = n) ->
  List.NoDup (map fst (sheets_on_disk w exchanges)) /\
  (forall key, In key (map fst (sheets_on_disk w exchanges)) ->
               exists e sheet_name, In e exchanges /\ key = fst e +:+ "_" +:+ sheet_name).
Proof.
  intros Hsheets Hnd Hlen. unfold sheets_on_disk.
  induction exchanges as [|[name filename] rest IH]; simpl.
  - split; [constructor | intros _ []].
  - simpl in Hnd. apply List.NoDup_cons_iff in Hnd as [Hname Hnd].
    destruct IH as [IHnd IHkeys]; [assumption | intros; apply Hlen; now right|].
    assert (Hbook : forall key,
               In key (map fst match data_dir w !! filename with
                               | Some book =>
                                   map (fun '(sheet_name, df) =>
                                          (name +:+ "_" +:+ sheet_name, df)) book
                               | None => []
                               end) ->
               exists sheet_name, key = name +:+ "_" +:+ sheet_name).
    { intros key Hkey. destruct (data_dir w !! filename) as [book|]; [|destruct Hkey].
      apply in_map_iff in Hkey as ([k df] & <- & Hin).
      apply in_map_iff in Hin as ([s df'] & [= <- <-] & _). eauto. }
    rewrite map_app. split.
    + apply List.NoDup_app; [| exact IHnd |].
      * destruct (data_dir w !! filename) as [book|] eqn:E; [|constructor].
        apply book_keys_nodup. exact (Hsheets _ _ E).
      * intros key Hkey Hkey'.
        destruct (Hbook key Hkey) as [s ->].
        destruct (IHkeys _ Hkey') as ([name' f'] & s' & Hin' & Heq). simpl in Heq.
        apply append_same_length in Heq as [-> _].
        -- apply Hname. apply in_map_iff. now exists (name', f').
        -- pose proof (Hlen (name, filename) (or_introl eq_refl)) as L1.
           pose proof (Hlen (name', f') (or_intror Hin')) as L2.
           simpl in L1, L2. congruence.
    + intros key Hkey. apply in_app_or in Hkey as [Hkey | Hkey].
      * destruct (Hbook key Hkey) as [s ->]. exists (name, filename), s. auto.
      * destruct (IHkeys key Hkey) as (e & s & He & ->). exists e, s. auto.
Qed.

Lemma load_fold (w : World) (exchanges : list (string * string)) :
  forall acc,
    List.NoDup (map fst (acc ++ sheets_on_disk w exchanges)) ->
    fold_left
      (fun all_data '(exchange_name, filename) =>
         match data_dir w !! filename with
         | Some book =>
             fold_left (fun acc '(sheet_name, df) =>
                          dict_set acc (exchange_name +:+ "_" +:+ sheet_name) df)
                       book all_data
         | None => all_data
         end)
      exchanges acc
    = acc ++ sheets_on_disk w exchanges.
Proof.
  unfold sheets_on_disk.
  induction exchanges as [|[name filename] rest IH]; intros acc Hnd; simpl.
  - now rewrite app_nil_r.
  - simpl in Hnd. rewrite map_app, map_app, app_assoc in Hnd.
    destruct (data_dir w !! filename) as [book|].
    + rewrite (fold_dict_set_fresh (fun s => name +:+ "_" +:+ s)).
      * rewrite IH; [now rewrite <- app_assoc|].
        rewrite !map_app. exact Hnd.
      * apply NoDup_app_remove_r in Hnd.
        replace (map (fun e : string * DataFrame => name +:+ "_" +:+ fst e) book)
          with (map fst (map (fun '(sheet_name, df) =>
                                (name +:+ "_" +:+ sheet_name, df)) book));
          [exact Hnd|].
        rewrite map_map. apply map_ext. now intros [s df].
    + simpl in Hnd. rewrite app_nil_r in Hnd.
      apply IH. now rewrite map_app.
Qed.

Lemma sheets_on_disk_none (w : World) (exchanges : list (string * string)) :
  (forall e, In e exchanges -> data_dir w !! snd e = None) ->
  sheets_on_disk w exchanges = [].
Proof.
  unfold sheets_on_disk.
  induction exchanges as [|[name filename] rest IH]; intros Hnone;
    cbn [flat_map]; [reflexivity|].
  pose proof (Hnone (name, filename) (or_introl eq_refl)) as H.
  match goal with
  | |- context [match ?x with Some _ => _ | None => _ end] => destruct x eqn:E
  end.
  - pose proof (eq_trans (eq_sym E) H). discriminate.
  - cbn [app]. apply IH. intros e He. apply Hnone. now right.
Qed.

Lemma config_names :
  List.NoDup (map fst exchange_config) /\
  List.NoDup (map snd exchange_config) /\
  (forall e, In e exchange_config -> String.length (fst e) = 9%nat).
Proof.
  split; [|split].
  - simpl. repeat constructor; simpl; intuition discriminate.
  - simpl. repeat constructor; simpl; intuition discriminate.
  - intros e He. simpl in He.
    repeat (destruct He as [<- | He]; [reflexivity|]). destruct He.
Qed.

Lemma load_is_sheets_on_disk (w : World) :
  distinct_sheets w ->
  load_position_data w = sheets_on_disk w exchange_config /\
  List.NoDup (map fst (sheets_on_disk w exchange_config)).
Proof.
  intros Hsheets. destruct config_names as (Hnames & _ & Hlen).
  destruct (sheet_keys w exchange_config 9 Hsheets Hnames Hlen) as [Hnd _].
  split; [|exact Hnd].
  unfold load_position_data. now rewrite load_fold.
Qed.

Lemma load_lookup (w : World) (exchange_name filename sheet_name : string)
    (book : Workbook) (df : DataFrame) :
  distinct_sheets w ->
  In (exchange_name, filename) exchange_config ->
  data_dir w !! filename = Some book ->
  In (sheet_name, df) book ->
  dict_find (load_position_data w) (exchange_name +:+ "_" +:+ sheet_name) = Some df.
Proof.
  intros Hsheets Hin Hfile Hs.
  destruct (load_is_sheets_on_disk w Hsheets) as [-> Hnd].
  apply dict_find_nodup; [exact Hnd|].
  unfold sheets_on_disk. apply in_flat_map. exists (exchange_name, filename).
  split; [assumption|].
  match goal with
  | |- context [match ?x with Some _ => _ | None => _ end] => destruct x eqn:E
  end; pose proof (eq_trans (eq_sym E) Hfile) as Heq; [|discriminate].
  injection Heq as ->. apply in_map_iff. now exists (sheet_name, df).
Qed.

(** X15. With workbooks whose sheet names are distinct, [load_position_data]
    returns the sheets of the files that are present in the data directory,
    file by file in configuration order and sheet by sheet, each under the
    key made of the exchange name, an underscore and the sheet name; no two
    sheets share a key, an exchange without a file contributes nothing, and
    nothing is returned when no file is there. *)
Theorem loaded_sheets (w : World) :
  distinct_sheets w ->
  load_position_data w = sheets_on_disk w exchange_config /\
  List.NoDup (map fst (load_position_data w)) /\
  (forall exchange_name filename book sheet_name df,
      In (exchange_name, filename) exchange_config ->
      data_dir w !! filename = Some book ->
      In (sheet_name, df) book ->
      dict_find (load_position_data w) (exchange_name +:+ "_" +:+ sheet_name) = Some df) /\
  ((forall e, In e exchange_config -> data_dir w !! snd e = None) ->
   load_position_data w = []).
Proof.
  intros Hsheets.
  destruct (load_is_sheets_on_disk w Hsheets) as [Hload Hnd].
  split; [exact Hload|]. split; [now rewrite Hload|]. split.
  - intros name filename book s df Hin Hfile Hs.
    now apply (load_lookup w name filename s book df).
  - intros Hnone. rewrite Hload. now apply sheets_on_disk_none.
Qed.

Lemma old_file_has_distinct_sheets : distinct_sheets world_with_old_file.
Proof.
  intros filename book H. unfold world_with_old_file in H. cbn [data_dir] in H.
  apply lookup_singleton_Some in H as [_ <-].
  repeat constructor. simpl. tauto.
Qed.

(** The one workbook of the directory gives one contract. *)
Lemma loaded_sheets_example :
  map fst (load_position_data world_with_old_file) = ["上期所_cu2501"]%string.
Proof.
  rewrite (proj1 (loaded_sheets world_with_old_file old_file_has_distinct_sheets)).
  reflexivity.
Defined.

(** ** Workbooks of an earlier run *)

Lemma fetch_and_save_failed (env : Env) (trade_date name filename : string) (w : World) :
  source_fails env trade_date name ->
  snd (fetch_and_save env trade_date name filename w) = w.
Proof.
  unfold source_fails, fetch_and_save.
  destruct (position_source env name trade_date) as [e|[|sheet sheets]];
    [reflexivity | reflexivity | intros []].
Qed.

Lemma saves_failed (env : Env) (trade_date filename : string)
    (exchanges : list (string * string)) :
  (forall n, In (n, filename) exchanges -> source_fails env trade_date n) ->
  forall w, data_dir (saves env trade_date exchanges w) !! filename
            = data_dir w !! filename.
Proof.
  unfold saves.
  induction exchanges as [|[n f] rest IH]; intros Hfail w; cbn [fold_left fst snd];
    [reflexivity|].
  rewrite IH by (intros; apply Hfail; now right).
  destruct (String.eqb_spec filename f) as [->|Hne].
  - rewrite fetch_and_save_failed; [reflexivity|]. apply Hfail. now left.
  - now apply fetch_and_save_other.
Qed.

Lemma file_owner (name n filename : string) :
  In (name, filename) exchange_config -> In (n, filename) exchange_config -> n = name.
Proof.
  destruct config_names as (_ & Hfiles & _). revert Hfiles.
  induction exchange_config as [|[n0 f0] rest IH]; simpl; [tauto|].
  intros Hnd. apply List.NoDup_cons_iff in Hnd as [Hf0 Hnd].
  intros [E1 | H1] [E2 | H2]; auto.
  - congruence.
  - injection E1 as -> ->. destruct Hf0. apply in_map_iff. now exists (n, filename).
  - injection E2 as -> ->. destruct Hf0. apply in_map_iff. now exists (name, filename).
Qed.

(** The two managers configure the same exchanges and files. *)
Lemma fast_config_standard (name func filename : string) :
  In (name, (func, filename)) fast_exchange_config -> In (name, filename) exchange_config.
Proof.
  unfold fast_exchange_config, exchange_config. simpl.
  intros [[= <- <- <-] | [[= <- <- <-] | [[= <- <- <-] | [[= <- <- <-]
          | [[= <- <- <-] | []]]]]]; tauto.
Qed.

Lemma injective_on_nodup {A B : Type} (f : A -> B) (l : list A) (x y : A) :
  List.NoDup (map f l) -> In x l -> In y l -> f x = f y -> x = y.
Proof.
  induction l as [|a l IH]; simpl; [tauto|].
  intros Hnd. apply List.NoDup_cons_iff in Hnd as [Ha Hnd].
  intros [<- | Hx] [<- | Hy] Heq; auto.
  - destruct Ha. rewrite Heq. now apply in_map.
  - destruct Ha. rewrite <- Heq. now apply in_map.
Qed.

(** A task that gets no dataset writes nothing. *)
Lemma task_without_dataset (env : Env) (trade_date name func_name filename : string)
    (w : World) :
  match task_dataset env trade_date w func_name with
  | Some (_ :: _) => False
  | _ => True
  end ->
  data_dir (snd (_fetch_single_exchange_data_with_timeout env trade_date name
                   func_name filename w))
  = data_dir w.
Proof.
  unfold _fetch_single_exchange_data_with_timeout, task_dataset.
  destruct (cached_data_fetch _ _ _ _ _ _ _ _ _ _) as [[r memo] log]. cbn [fst].
  destruct r as [[[|sheet sheets]|]|e]; try reflexivity. intros [].
Qed.

Lemma tasks_kept (env : Env) (trade_date filename : string) (w : World)
    (exchanges : list (string * (string * string))) :
  List.NoDup (map (fun e => fst (snd e)) exchanges) ->
  (forall e, In e exchanges -> In e fast_exchange_config) ->
  (forall e, In e exchanges -> snd (snd e) = filename ->
             task_gets_nothing env trade_date w e) ->
  forall w',
    (forall e, In e exchanges ->
               book_memo w' !! (fst (snd e), trade_date, None)
               = book_memo w !! (fst (snd e), trade_date, None)) ->
    data_dir (snd (run_position_tasks env trade_date exchanges w')) !! filename
    = data_dir w' !! filename.
Proof.
  induction exchanges as [|[name [func file]] rest IH];
    intros Hfn Hsub Hnothing w' Hstore; [reflexivity|].
  apply List.NoDup_cons_iff in Hfn as [Hfresh Hfn]. cbn [fst snd] in Hfresh.
  rewrite run_position_tasks_world. cbn [fold_left fst snd].
  rewrite <- run_position_tasks_world.
  rewrite IH; try assumption.
  - destruct (String.eqb_spec filename file) as [->|Hne]; [|now apply task_files].
    rewrite task_without_dataset; [reflexivity|].
    pose proof (task_dataset_pooled env trade_date w' (name, (func, file))
                  (Hsub _ (or_introl eq_refl))) as Hd.
    cbn [fst snd] in Hd. rewrite Hd.
    rewrite (pooled_dataset_store env trade_date w w' (name, (func, file)))
      by (apply (Hstore (name, (func, file))); now left).
    apply (Hnothing (name, (func, file))); [now left | reflexivity].
  - intros e He. apply Hsub. now right.
  - intros e He. apply Hnothing. now right.
  - intros e He. rewrite task_store.
    + apply Hstore. now right.
    + intros [= Heq]. apply Hfresh. apply in_map_iff. exists e. auto.
Qed.

(** X16. A workbook left in the data directory by an earlier run survives an
    acquisition in which its exchange gives nothing: in the standard mode,
    with any callback, when the source raises or returns an empty dataset;
    in the pooled mode when the task of the exchange gets no dataset from
    [cached_data_fetch], which on a platform with SIGALRM is the case, with
    nothing of the date less than an hour old in the store, whatever the
    source would answer.  [load_position_data] then returns the sheets of
    the workbook under the keys of that exchange, so that they are analysed
    with the data of the day. *)
Theorem earlier_workbook_is_loaded (env : Env) (trade_date : string) (cb : Callback)
    (w : World) (exchange_name func_name filename : string) (book : Workbook) :
  In (exchange_name, (func_name, filename)) fast_exchange_config ->
  data_dir w !! filename = Some book ->
  (source_fails env trade_date exchange_name ->
   data_dir (snd (fetch_position_data env trade_date cb w)) !! filename = Some book) /\
  (task_gets_nothing env trade_date w (exchange_name, (func_name, filename)) ->
   data_dir (snd (fetch_position_data_fast env trade_date cb w)) !! filename = Some book) /\
  (sigalrm env = true ->
   memo_fresh (book_memo w) (clock env) (func_name, trade_date, None) = None ->
   task_gets_nothing env trade_date w (exchange_name, (func_name, filename))) /\
  (forall w1,
      (source_fails env trade_date exchange_name /\
       w1 = snd (fetch_position_data env trade_date cb w)) \/
      (task_gets_nothing env trade_date w (exchange_name, (func_name, filename)) /\
       w1 = snd (fetch_position_data_fast env trade_date cb w)) ->
      distinct_sheets w1 ->
      forall sheet_name df,
        In (sheet_name, df) book ->
        dict_find (load_position_data w1) (exchange_name +:+ "_" +:+ sheet_name)
        = Some df).
Proof.
  intros Hfast Hfile.
  pose proof (fast_config_standard _ _ _ Hfast) as Hin.
  assert (Hstd : source_fails env trade_date exchange_name ->
                 data_dir (snd (fetch_position_data env trade_date cb w)) !! filename
                 = Some book).
  { intros Hfail.
    assert (Hkept : forall exchanges,
               (forall e, In e exchanges -> In e exchange_config) ->
               data_dir (saves env trade_date exchanges w) !! filename = Some book).
    { intros exchanges Hsub. rewrite saves_failed; [exact Hfile|].
      intros n Hn. now rewrite (file_owner exchange_name n filename Hin (Hsub _ Hn)). }
    unfold fetch_position_data. rewrite fetch_position_loop_reported.
    destruct (report cb "持仓数据获取完成" (6 # 10)); cbn [snd]; apply Hkept;
      apply reported_configured. }
  assert (Hpool : task_gets_nothing env trade_date w (exchange_name, (func_name, filename)) ->
                  data_dir (snd (fetch_position_data_fast env trade_date cb w)) !! filename
                  = Some book).
  { intros Hnothing. unfold fetch_position_data_fast.
    assert (Hkept : data_dir (snd (run_position_tasks env trade_date
                                      fast_exchange_config w)) !! filename
                    = data_dir w !! filename).
    { apply (tasks_kept env trade_date filename w fast_exchange_config
               fast_functions_distinct (fun e He => He)); [|auto].
      intros e He Hname.
      assert (e = (exchange_name, (func_name, filename))) as ->; [|exact Hnothing].
      apply (injective_on_nodup (fun e => snd (snd e)) fast_exchange_config);
        auto using fast_files_distinct. }
    destruct (run_position_tasks env trade_date fast_exchange_config w) as [answers w1].
    cbn [snd] in *. now rewrite Hkept. }
  split; [exact Hstd|]. split; [exact Hpool|]. split.
  - intros Hsig Hfresh. unfold task_gets_nothing, pooled_dataset. cbn [fst snd].
    rewrite Hfresh, Hsig, orb_true_r. exact I.
  - intros w1 [[Hfail ->] | [Hnothing ->]] Hsheets s df Hs.
    + apply (load_lookup _ exchange_name filename s book df); auto.
    + apply (load_lookup _ exchange_name filename s book df); auto.
Qed.

(** The Shanghai source fails today; the copper sheet of the earlier
    workbook is still loaded after the acquisition.  In the pooled mode on
    a platform with SIGALRM it is loaded whatever the source answers. *)
Lemma earlier_workbook_example :
  dict_find (load_position_data
               (snd (fetch_position_data one_source_env "20240105" None
                                         world_with_old_file)))
            "上期所_cu2501"
  = Some full_sheet /\
  dict_find (load_position_data
               (snd (fetch_position_data_fast price_service_posix "20240105" None
                                              world_with_old_file)))
            "上期所_cu2501"
  = Some full_sheet.
Proof.
  assert (Hin : In ("上期所"%string, ("get_shfe_rank_table"%string, "上期所持仓.xlsx"%string))
                   fast_exchange_config)
    by (simpl; tauto).
  split.
  - destruct (earlier_workbook_is_loaded one_source_env "20240105" None
                world_with_old_file "上期所" "get_shfe_rank_table" "上期所持仓.xlsx"
                [("cu2501"%string, full_sheet)] Hin eq_refl) as (_ & _ & _ & Hload).
    apply (Hload _ (or_introl (conj I eq_refl))); [|now left].
    intros filename book H.
    assert (Hd : data_dir (snd (fetch_position_data one_source_env "20240105" None
                                                    world_with_old_file))
                 = <[ "大商所持仓.xlsx" := ([("m2501"%string, full_sheet)]) ]>
                     {[ "上期所持仓.xlsx" := [("cu2501"%string, full_sheet)] ]})
      by (vm_compute; reflexivity).
    rewrite Hd in H.
    apply lookup_insert_Some in H as [[_ <-] | [_ H]].
    + repeat constructor. simpl. tauto.
    + apply lookup_singleton_Some in H as [_ <-]. repeat constructor. simpl. tauto.
  - destruct (earlier_workbook_is_loaded price_service_posix "20240105" None
                world_with_old_file "上期所" "get_shfe_rank_table" "上期所持仓.xlsx"
                [("cu2501"%string, full_sheet)] Hin eq_refl) as (_ & _ & Hsig & Hload).
    apply (Hload _ (or_intror (conj (Hsig eq_refl eq_refl) eq_refl))); [|now left].
    intros filename book H.
    assert (Hd : data_dir (snd (fetch_position_data_fast price_service_posix "20240105"
                                                         None world_with_old_file))
                 = {[ "上期所持仓.xlsx" := [("cu2501"%string, full_sheet)] ]})
      by (vm_compute; reflexivity).
    rewrite Hd in H.
    apply lookup_singleton_Some in H as [_ <-]. repeat constructor. simpl. tauto.
Defined.

(** ** Retries *)

(** X17. [safe_akshare_call] calls the data function three times at most
    and returns the first value other than None that a call gives; it
    returns None exactly when none of three calls gives one, a call that
    returns None being retried like one that raises.  Before the attempt
    number k (counted from 0) it sleeps 2k seconds, and after a call that
    raises it sleeps 5 seconds when the message names a timeout, otherwise
    10 seconds when it names a rate limit, in any letter case, also when
    that call was the last attempt; it sleeps nowhere else, so 36 seconds
    at most. *)
Theorem safe_call_policy {V : Type} (answers : nat -> Answer V) :
  (calls (snd (safe_akshare_call answers)) <= 3)%nat /\
  0 <= slept (snd (safe_akshare_call answers)) <= 36 /\
  (forall v,
      fst (safe_akshare_call answers) = Some v <->
      exists k, (k < 3)%nat /\ gives (answers k) v /\
                forall j, (j < k)%nat -> gives_nothing (answers j)) /\
  (fst (safe_akshare_call answers) = None -> calls (snd (safe_akshare_call answers)) = 3%nat) /\
  (forall k v,
      (k < 3)%nat -> gives (answers k) v ->
      (forall j, (j < k)%nat -> gives_nothing (answers j)) ->
      calls (snd (safe_akshare_call answers)) = S k /\
      slept (snd (safe_akshare_call answers))
      = Z.of_nat (k * (k + 1)) + Zsum (map (fun j => pause_of (answers j)) (seq 0 k))) /\
  ((forall k, (k < 3)%nat -> gives_nothing (answers k)) ->
   slept (snd (safe_akshare_call answers))
   = 6 + pause_of (answers 0%nat) + pause_of (answers 1%nat) + pause_of (answers 2%nat)) /\
  ((forall k, (k < 3)%nat -> answers k = Failed "Read timeout") ->
   safe_akshare_call answers
   = (None, [Called; Slept 5; Slept 2; Called; Slept 5; Slept 4; Called; Slept 5])) /\
  ((forall k, (k < 3)%nat -> answers k = Failed "429: Rate Limit exceeded") ->
   safe_akshare_call answers
   = (None, [Called; Slept 10; Slept 2; Called; Slept 10; Slept 4; Called; Slept 10])) /\
  ((forall k, (k < 3)%nat -> answers k = Failed "connection reset") ->
   safe_akshare_call answers = (None, [Called; Slept 2; Called; Slept 4; Called])).
Proof.
  unfold safe_akshare_call, gives, gives_nothing. cbn [seq safe_loop Nat.ltb Nat.leb app].
  split; [|split; [|split; [|split; [|split; [|split; [|split; [|split]]]]]]].
  - destruct (answers 0%nat) as [[v0|]|m0], (answers 1%nat) as [[v1|]|m1],
             (answers 2%nat) as [[v2|]|m2];
      repeat match goal with
             | |- context [if ?c then _ else _] => destruct c
             end; cbn; lia.
  - destruct (answers 0%nat) as [[v0|]|m0], (answers 1%nat) as [[v1|]|m1],
             (answers 2%nat) as [[v2|]|m2];
      repeat match goal with
             | |- context [if ?c then _ else _] => destruct c
             end; cbn; lia.
  - intros v. split.
    + destruct (answers 0%nat) as [[v0|]|m0] eqn:E0.
      { intros [= <-]. exists 0%nat. repeat split; [lia | assumption | intros; lia]. }
      all: destruct (answers 1%nat) as [[v1|]|m1] eqn:E1.
      all: try (intros [= <-]; exists 1%nat; repeat split; [lia | assumption |];
                intros j Hj u; assert (j = 0)%nat as -> by lia; congruence).
      all: destruct (answers 2%nat) as [[v2|]|m2] eqn:E2.
      all: try (intros [= <-]; exists 2%nat; repeat split; [lia | assumption |];
                intros j Hj u;
                assert (j = 0 \/ j = 1)%nat as [-> | ->] by lia; congruence).
      all: intros H; repeat match type of H with
                            | context [if ?c then _ else _] => destruct c
                            end; discriminate.
    + intros (k & Hk & Hgive & Hprev).
      assert (H0 : (0 < k)%nat -> forall u, answers 0%nat <> Returned (Some u))
        by (intros; now apply Hprev).
      assert (H1 : (1 < k)%nat -> forall u, answers 1%nat <> Returned (Some u))
        by (intros; now apply Hprev).
      destruct k as [|[|[|k]]]; [| | |lia].
      * rewrite Hgive. reflexivity.
      * destruct (answers 0%nat) as [[v0|]|m0]; [now destruct (H0 ltac:(lia) v0)| |];
          rewrite Hgive; reflexivity.
      * destruct (answers 0%nat) as [[v0|]|m0]; [now destruct (H0 ltac:(lia) v0)| |];
          (destruct (answers 1%nat) as [[v1|]|m1]; [now destruct (H1 ltac:(lia) v1)| |]);
          rewrite Hgive; reflexivity.
  - destruct (answers 0%nat) as [[v0|]|m0], (answers 1%nat) as [[v1|]|m1],
             (answers 2%nat) as [[v2|]|m2];
      repeat match goal with
             | |- context [if ?c then _ else _] => destruct c
             end; cbn; (discriminate || reflexivity).
  - intros k v Hk Hgive Hprev.
    assert (H0 : (0 < k)%nat -> forall u, answers 0%nat <> Returned (Some u))
      by (intros; now apply Hprev).
    assert (H1 : (1 < k)%nat -> forall u, answers 1%nat <> Returned (Some u))
      by (intros; now apply Hprev).
    unfold pause_of, pause_after.
    destruct k as [|[|[|k]]]; [| | |lia]; cbn [seq map].
    + rewrite Hgive. split; reflexivity.
    + destruct (answers 0%nat) as [[v0|]|m0]; [now destruct (H0 ltac:(lia) v0)| |];
        rewrite Hgive;
        repeat match goal with
               | |- context [if ?c then _ else _] => destruct c
               end; split; reflexivity.
    + destruct (answers 0%nat) as [[v0|]|m0]; [now destruct (H0 ltac:(lia) v0)| |];
        (destruct (answers 1%nat) as [[v1|]|m1]; [now destruct (H1 ltac:(lia) v1)| |]);
        rewrite Hgive;
        repeat match goal with
               | |- context [if ?c then _ else _] => destruct c
               end; split; reflexivity.
  - intros Hnone. unfold pause_of, pause_after.
    destruct (answers 0%nat) as [[v0|]|m0] eqn:E0;
      [now destruct (Hnone 0%nat ltac:(lia) v0)| |];
      (destruct (answers 1%nat) as [[v1|]|m1] eqn:E1;
       [now destruct (Hnone 1%nat ltac:(lia) v1)| |]);
      (destruct (answers 2%nat) as [[v2|]|m2] eqn:E2;
       [now destruct (Hnone 2%nat ltac:(lia) v2)| |]);
      repeat match goal with
             | |- context [if ?c then _ else _] => destruct c
             end; reflexivity.
  - intros H. rewrite !H by lia. reflexivity.
  - intros H. rewrite !H by lia. reflexivity.
  - intros H. rewrite !H by lia. reflexivity.
Qed.

Lemma single_call_not_gfex (func_name : string) :
  In func_name single_call_functions ->
  func_name <> "futures_gfex_position_rank"%string /\
  func_name <> "get_futures_daily"%string.
Proof.
  simpl. intros [<- | [<- | [<- | [<- | []]]]]; split; discriminate.
Qed.

Lemma existsb_In_string (x : string) (l : list string) :
  existsb (String.eqb x) l = true <-> In x l.
Proof.
  rewrite existsb_exists. split.
  - intros (y & Hy & Heq). now apply String.eqb_eq in Heq as ->.
  - intros H. exists x. split; [assumption | apply String.eqb_refl].
Qed.

(** X18. [cached_data_fetch] under its memo.  A value stored for the same
    arguments less than an hour ago is returned, and nothing is called.
    Otherwise, where akshare is missing the import raises and nothing is
    stored; where it is there, what the function returns is stored under
    the arguments and returned again by every call within the hour,
    whatever the network then answers.  In a thread other than the main one
    on a platform with SIGALRM the function returns None and calls nothing.
    Elsewhere each of the four exchange functions, and the price function
    with a market, is called exactly once and its answer returned, None
    when it raises; the Guangzhou function is called until a call returns,
    three times at most, with a sleep of three seconds after a failed
    attempt that was not the last, and None is returned when all three
    fail or when the alarm goes off during a sleep; any other request gives
    None without a call. *)
Theorem cached_fetch_policy {V : Type}
    (network : string -> string -> option string -> nat -> Answer V)
    (akshare sigalrm main_thread : bool) (alarm_in_sleep : nat -> bool)
    (now : Z) (memo : gmap (string * string * option string) (Z * option V))
    (func_name date : string) (exchange : option string) :
  (forall t stored,
      memo !! (func_name, date, exchange) = Some (t, stored) -> now - t < 3600 ->
      cached_data_fetch network akshare sigalrm main_thread alarm_in_sleep now memo
                        func_name date exchange
      = (Ok stored, memo, [])) /\
  (memo_fresh memo now (func_name, date, exchange) = None ->
   (akshare = false ->
    cached_data_fetch network akshare sigalrm main_thread alarm_in_sleep now memo
                      func_name date exchange
    = (Raise (ImportError "akshare"), memo, [])) /\
   (akshare = true ->
    exists v log,
      cached_data_fetch network akshare sigalrm main_thread alarm_in_sleep now memo
                        func_name date exchange
      = (Ok v, <[(func_name, date, exchange) := (now, v)]> memo, log) /\
      (forall network' akshare' sigalrm' main_thread' alarm' later,
          later - now < 3600 ->
          cached_data_fetch network' akshare' sigalrm' main_thread' alarm' later
                            (<[(func_name, date, exchange) := (now, v)]> memo)
                            func_name date exchange
          = (Ok v, <[(func_name, date, exchange) := (now, v)]> memo, [])) /\
      (sigalrm = true -> main_thread = false -> v = None /\ log = []) /\
      (sigalrm = false \/ main_thread = true ->
       (In func_name single_call_functions ->
        v = value_of (network func_name date None 0%nat) /\ log = [Called]) /\
       (func_name = "get_futures_daily"%string ->
        (forall c market,
            exchange = Some (String c market) ->
            v = value_of (network func_name date exchange 0%nat) /\ log = [Called]) /\
        (exchange = None \/ exchange = Some EmptyString -> v = None /\ log = [])) /\
       (~ In func_name single_call_functions ->
        func_name <> "futures_gfex_position_rank"%string ->
        func_name <> "get_futures_daily"%string ->
        v = None /\ log = []) /\
       (func_name = "futures_gfex_position_rank"%string ->
        (calls log <= 3)%nat /\
        (forall k u,
            (k < 3)%nat ->
            network func_name date None k = Returned u ->
            (forall j, (j < k)%nat ->
                       fails (network func_name date None j) /\
                       sigalrm && alarm_in_sleep j = false) ->
            v = u /\ calls log = S k /\ slept log = 3 * Z.of_nat k) /\
        ((forall k, (k < 3)%nat -> fails (network func_name date None k)) ->
         (forall j, (j < 2)%nat -> sigalrm && alarm_in_sleep j = false) ->
         v = None /\ log = [Called; Slept 3; Called; Slept 3; Called]) /\
        (forall k,
            (k < 2)%nat ->
            (forall j, (j <= k)%nat -> fails (network func_name date None j)) ->
            (forall j, (j < k)%nat -> sigalrm && alarm_in_sleep j = false) ->
            sigalrm && alarm_in_sleep k = true ->
            v = None /\ calls log = S k))))).
Proof.
  split.
  { intros t stored Hlook Hage. unfold cached_data_fetch, memo_fresh. rewrite Hlook.
    destruct (Z.ltb_spec (now - t) 3600); [reflexivity | lia]. }
  intros Hfresh. unfold cached_data_fetch. rewrite Hfresh.
  split; [intros ->; reflexivity|]. intros ->.
  destruct (fetch_body network sigalrm main_thread alarm_in_sleep func_name date exchange)
    as [v log] eqn:Ebody.
  exists v, log. split; [reflexivity|]. split.
  { intros network' akshare' sigalrm' main_thread' alarm' later Hage.
    unfold cached_data_fetch, memo_fresh. rewrite lookup_insert_eq.
    destruct (Z.ltb_spec (later - now) 3600); [reflexivity | lia]. }
  split.
  { intros -> ->. unfold fetch_body in Ebody. cbn [andb negb] in Ebody.
    injection Ebody as <- <-. auto. }
  intros Hthread.
  assert (Hpool : sigalrm && negb main_thread = false).
  { destruct Hthread as [-> | ->]; [reflexivity | apply andb_false_r]. }
  unfold fetch_body in Ebody. rewrite Hpool in Ebody.
  destruct (existsb (String.eqb func_name) single_call_functions) eqn:Esingle.
  { apply existsb_In_string in Esingle as Hin.
    destruct (single_call_not_gfex func_name Hin) as [Hg Hd].
    assert (Hres : v = value_of (network func_name date None 0%nat) /\ log = [Called]).
    { destruct (network func_name date None 0%nat); injection Ebody as <- <-; auto. }
    split; [auto|]. split; [intros; contradiction|]. split; [intros; contradiction|].
    intros; contradiction. }
  assert (Hnot : ~ In func_name single_call_functions).
  { intros Hin. apply existsb_In_string in Hin. congruence. }
  split; [intros; contradiction|].
  destruct (String.eqb_spec func_name "futures_gfex_position_rank") as [Eg|Eg].
  { split; [intros ->; discriminate Eg|]. split; [intros; contradiction|].
    intros _. cbn [seq gfex_loop Nat.eqb Nat.sub app] in Ebody.
    unfold fails.
    destruct (network func_name date None 0%nat) as [v0|m0] eqn:E0.
    { injection Ebody as <- <-. cbn. split; [lia|]. split; [|split].
      - intros k u Hk Hu Hprev. destruct k as [|k].
        + rewrite E0 in Hu. injection Hu as <-. auto.
        + destruct (Hprev 0%nat ltac:(lia)) as [[msg Hmsg] _]. congruence.
      - intros H. destruct (H 0%nat ltac:(lia)) as [msg Hmsg]. congruence.
      - intros k Hk H. destruct (H 0%nat ltac:(lia)) as [msg Hmsg]. congruence. }
    destruct (sigalrm && alarm_in_sleep 0%nat) eqn:A0.
    { injection Ebody as <- <-. cbn. split; [lia|]. split; [|split].
      - intros k u Hk Hu Hprev. destruct k as [|k]; [congruence|].
        destruct (Hprev 0%nat ltac:(lia)) as [_ Ha]. congruence.
      - intros _ Ha. specialize (Ha 0%nat ltac:(lia)). congruence.
      - intros k Hk _ Hquiet _. destruct k as [|k]; [auto|].
        specialize (Hquiet 0%nat ltac:(lia)). congruence. }
    destruct (network func_name date None 1%nat) as [v1|m1] eqn:E1.
    { injection Ebody as <- <-. cbn. split; [lia|]. split; [|split].
      - intros k u Hk Hu Hprev. destruct k as [|[|k]]; [congruence| |].
        + rewrite E1 in Hu. injection Hu as <-. auto.
        + destruct (Hprev 1%nat ltac:(lia)) as [[msg Hmsg] _]. congruence.
      - intros H. destruct (H 1%nat ltac:(lia)) as [msg Hmsg]. congruence.
      - intros k Hk H _ Ha. destruct k as [|[|k]]; [congruence| |lia].
        destruct (H 1%nat ltac:(lia)) as [msg Hmsg]. congruence. }
    destruct (sigalrm && alarm_in_sleep 1%nat) eqn:A1.
    { injection Ebody as <- <-. cbn. split; [lia|]. split; [|split].
      - intros k u Hk Hu Hprev. destruct k as [|[|k]]; [congruence|congruence|].
        destruct (Hprev 1%nat ltac:(lia)) as [_ Ha]. congruence.
      - intros _ Ha. specialize (Ha 1%nat ltac:(lia)). congruence.
      - intros k Hk _ _ Ha. destruct k as [|[|k]]; [congruence|auto|lia]. }
    destruct (network func_name date None 2%nat) as [v2|m2] eqn:E2.
    { injection Ebody as <- <-. cbn. split; [lia|]. split; [|split].
      - intros k u Hk Hu Hprev. destruct k as [|[|[|k]]]; [congruence|congruence| |lia].
        rewrite E2 in Hu. injection Hu as <-. auto.
      - intros H. destruct (H 2%nat ltac:(lia)) as [msg Hmsg]. congruence.
      - intros k Hk _ _ Ha. destruct k as [|[|k]]; [congruence|congruence|lia]. }
    injection Ebody as <- <-. cbn. split; [lia|]. split; [|split].
    - intros k u Hk Hu Hprev. destruct k as [|[|[|k]]]; [congruence..|lia].
    - auto.
    - intros k Hk _ _ Ha. destruct k as [|[|k]]; [congruence|congruence|lia]. }
  assert (Hrest : forall P : Prop, func_name = "futures_gfex_position_rank"%string -> P)
    by (intros P H; contradiction).
  destruct (String.eqb_spec func_name "get_futures_daily") as [Ed|Ed].
  - destruct exchange as [[|c market]|].
    + injection Ebody as <- <-.
      split; [|split; [intros; contradiction | apply Hrest]].
      intros _. split; [intros c market [=] | auto].
    + assert (Hres : v = value_of (network func_name date (Some (String c market)) 0%nat)
                     /\ log = [Called]).
      { destruct (network func_name date (Some (String c market)) 0%nat);
          injection Ebody as <- <-; auto. }
      split; [|split; [intros; contradiction | apply Hrest]].
      intros _. split; [intros c' market' [= <- <-]; exact Hres|].
      intros [[=] | [=]].
    + injection Ebody as <- <-.
      split; [|split; [intros; contradiction | apply Hrest]].
      intros _. split; [intros c market [=] | auto].
  - assert (Hnone : v = None /\ log = []).
    { destruct exchange as [[|c market]|]; injection Ebody as <- <-; auto. }
    split; [intros; contradiction|]. split; [auto | apply Hrest].
Qed.

(** ** The demo data *)

Lemma load_sound (w : World) (key : string) (df : DataFrame) :
  In (key, df) (load_position_data w) ->
  exists exchange_name filename book sheet_name,
    In (exchange_name, filename) exchange_config /\
    data_dir w !! filename = Some book /\
    In (sheet_name, df) book.
Proof.
  unfold load_position_data.
  assert (G : forall exchanges acc,
             In (key, df)
                (fold_left
                   (fun all_data '(exchange_name, filename) =>
                      match data_dir w !! filename with
                      | Some book =>
                          fold_left (fun acc '(sheet_name, df) =>
                                       dict_set acc (exchange_name +:+ "_" +:+ sheet_name) df)
                                    book all_data
                      | None => all_data
                      end)
                   exchanges acc) ->
             In (key, df) acc \/
             exists exchange_name filename book sheet_name,
               In (exchange_name, filename) exchanges /\
               data_dir w !! filename = Some book /\
               In (sheet_name, df) book).
  { induction exchanges as [|[name filename] rest IH]; intros acc H; simpl in H; [auto|].
    apply IH in H as [H | (n & f & b & s & Hin & Hf & Hs)].
    2:{ right. exists n, f, b, s. simpl. auto. }
    destruct (data_dir w !! filename) as [book|] eqn:E; [|auto].
    assert (B : forall sheets acc0,
               In (key, df)
                  (fold_left (fun acc '(sheet_name, df) =>
                                dict_set acc (name +:+ "_" +:+ sheet_name) df)
                             sheets acc0) ->
               In (key, df) acc0 \/ exists s, In (s, df) sheets).
    { induction sheets as [|[s d] sheets IHs]; intros acc0 H0; simpl in H0; [auto|].
      apply IHs in H0 as [H0 | [s' Hs']]; [|right; exists s'; simpl; auto].
      apply dict_set_in in H0 as [[_ ->] | H0]; [|auto].
      right. exists s. simpl. auto. }
    apply B in H as [H | [s Hs]]; [auto|].
    right. exists name, filename, book, s. simpl. auto. }
  intros H. apply G in H as [[] | H]. exact H.
Qed.

Lemma analyze_loop_all_skipped (retail_seats : list string) (cb : Callback)
    (total : nat) items :
  quiet cb ->
  (forall key df, In (key, df) items -> process_position_data df = None) ->
  forall i acc, analyze_loop retail_seats cb total i items acc = Ok acc.
Proof.
  intros Hq. induction items as [|[name df] items IH]; intros Hskip i acc; simpl;
    [reflexivity|].
  rewrite Hq. simpl. rewrite (Hskip name df) by now left.
  apply IH. intros key df' H. apply (Hskip key). now right.
Qed.

Lemma write_demo_files_written (env : Env) (book : Workbook) (exchanges : list string) :
  (forall filename, excel_write env filename book = Written) ->
  forall w,
    write_demo_files env book exchanges w
    = (Ok tt,
       fold_left (fun w exchange_name => set_file (exchange_name +:+ "持仓.xlsx") book w)
                 exchanges w).
Proof.
  intros Hw. induction exchanges as [|name rest IH]; intros w; simpl; [reflexivity|].
  rewrite Hw. apply IH.
Qed.

Lemma fold_dict_set_nonempty {V : Type} (f : string -> string) (l : list (string * V)) :
  forall acc, l <> [] \/ acc <> [] ->
              fold_left (fun acc '(k, v) => dict_set acc (f k) v) l acc <> [].
Proof.
  induction l as [|[k v] l IH]; intros acc H; simpl.
  - destruct H; congruence.
  - apply IH. right. destruct acc as [|[k0 v0] acc]; simpl; [discriminate|].
    destruct (String.eqb (f k) k0); discriminate.
Qed.

Lemma load_fold_kept (w : World) (exchanges : list (string * string)) :
  forall acc,
    acc <> [] ->
    fold_left
      (fun all_data '(exchange_name, filename) =>
         match data_dir w !! filename with
         | Some book =>
             fold_left (fun acc '(sheet_name, df) =>
                          dict_set acc (exchange_name +:+ "_" +:+ sheet_name) df)
                       book all_data
         | None => all_data
         end)
      exchanges acc <> [].
Proof.
  induction exchanges as [|[n0 f0] exchanges IHe]; intros acc H0; cbn [fold_left];
    [assumption|].
  apply IHe.
  match goal with
  | |- context [match ?x with Some _ => _ | None => _ end] => destruct x
  end; [|assumption].
  apply (fold_dict_set_nonempty (fun s => n0 +:+ "_" +:+ s)). now right.
Qed.

Lemma load_fold_nonempty (w : World) (exchange_name filename : string) (book : Workbook)
    (exchanges : list (string * string)) :
  In (exchange_name, filename) exchanges ->
  data_dir w !! filename = Some book -> book <> [] ->
  forall acc,
    fold_left
      (fun all_data '(exchange_name, filename) =>
         match data_dir w !! filename with
         | Some book =>
             fold_left (fun acc '(sheet_name, df) =>
                          dict_set acc (exchange_name +:+ "_" +:+ sheet_name) df)
                       book all_data
         | None => all_data
         end)
      exchanges acc <> [].
Proof.
  intros Hin Hfile Hbook.
  induction exchanges as [|[n f] rest IH]; intros acc; [destruct Hin|].
  cbn [fold_left].
  destruct Hin as [[= -> ->] | Hin]; [|now apply IH].
  apply load_fold_kept.
  match goal with
  | |- context [match ?x with Some _ => _ | None => _ end] => destruct x eqn:E
  end; pose proof (eq_trans (eq_sym E) Hfile) as Heq; [|discriminate].
  injection Heq as ->.
  apply (fold_dict_set_nonempty (fun s => exchange_name +:+ "_" +:+ s)). now left.
Qed.

Lemma load_nonempty (w : World) (exchange_name filename : string) (book : Workbook) :
  In (exchange_name, filename) exchange_config ->
  data_dir w !! filename = Some book -> book <> [] ->
  load_position_data w <> [].
Proof.
  intros Hin Hfile Hbook. unfold load_position_data.
  now apply (load_fold_nonempty w exchange_name filename book).
Qed.

(** X19. When the five workbooks can be written, [create_demo_data] returns
    True and every exchange file holds the same five demo sheets of twenty
    rows, whatever numbers were drawn.  The demo tables have no volume
    column: [load_position_data] finds them, [process_position_data]
    rejects every one of them, and the analysis of the positions returns no
    contract at all. *)
Theorem demo_data_is_not_analysed (env : Env)
    (draw : string -> string -> nat -> Z * Z * Z * Z) (trade_date : string)
    (retail_seats : list string) (cb : Callback) (w : World) :
  (forall filename, excel_write env filename (demo_data draw trade_date) = Written) ->
  quiet cb ->
  exists w',
    create_demo_data env draw trade_date w = (Ok true, w') /\
    (forall exchange_name filename,
        In (exchange_name, filename) exchange_config ->
        data_dir w' !! filename = Some (demo_data draw trade_date)) /\
    map fst (demo_data draw trade_date) = demo_contracts /\
    (forall contract df,
        In (contract, df) (demo_data draw trade_date) ->
        length (rows df) = 20%nat /\ process_position_data df = None) /\
    load_position_data w' <> [] /\
    _analyze_positions retail_seats cb (load_position_data w') = Ok [].
Proof.
  intros Hwrite Hq.
  unfold create_demo_data, io_bind, io_ret.
  rewrite write_demo_files_written by assumption.
  eexists. split; [reflexivity|].
  set (book := demo_data draw trade_date).
  assert (Hfiles : forall exchange_name filename,
             In (exchange_name, filename) exchange_config ->
             data_dir (fold_left (fun w exchange_name =>
                                    set_file (exchange_name +:+ "持仓.xlsx") book w)
                                 demo_exchanges w) !! filename = Some book).
  { intros name filename Hin. simpl in Hin. cbn [fold_left demo_exchanges set_file data_dir].
    destruct Hin as [[= <- <-] | [[= <- <-] | [[= <- <-] | [[= <- <-] | [[= <- <-] | []]]]]];
      repeat (first [ apply lookup_insert_eq
                    | rewrite lookup_insert_ne by discriminate ]). }
  assert (Hsheets : forall contract df,
             In (contract, df) book ->
             length (rows df) = 20%nat /\ process_position_data df = None).
  { intros contract df Hin. subst book. unfold demo_data in Hin. simpl in Hin.
    repeat (destruct Hin as [[= <- <-] | Hin];
            [split; [reflexivity|]; apply lacks_required_none;
             exists "vol"%string; split; [simpl; tauto | reflexivity]|]).
    destruct Hin. }
  split; [exact Hfiles|]. split; [reflexivity|]. split; [exact Hsheets|]. split.
  - apply (load_nonempty _ "大商所" "大商所持仓.xlsx" book).
    + simpl. tauto.
    + apply (Hfiles "大商所"%string). simpl. tauto.
    + subst book. discriminate.
  - unfold _analyze_positions. apply analyze_loop_all_skipped; [assumption|].
    intros key df Hin. apply load_sound in Hin as (n & f & b & s & Hc & Hf & Hs).
    pose proof (eq_trans (eq_sym Hf) (Hfiles n f Hc)) as Heq. injection Heq as ->.
    exact (proj2 (Hsheets s df Hs)).
Qed.

(** The demo data of a day, every number drawn being 1000: no contract is
    analysed. *)
Lemma demo_data_example :
  exists w',
    create_demo_data one_source_env (fun _ _ _ => (1000, 0, 1000, 0)) "20240105" empty_world
    = (Ok true, w') /\
    length (load_position_data w') = 25%nat /\
    _analyze_positions ["A"; "B"] None (load_position_data w') = Ok [].
Proof.
  destruct (demo_data_is_not_analysed one_source_env (fun _ _ _ => (1000, 0, 1000, 0))
              "20240105" ["A"; "B"] None empty_world
              (fun _ => eq_refl) (fun _ _ => eq_refl))
    as (w' & Hcreate & _ & _ & _ & _ & Hnone).
  exists w'. split; [exact Hcreate|]. split; [|exact Hnone].
  vm_compute in Hcreate. injection Hcreate as <-. vm_compute. reflexivity.
Defined.

(** ** The shared configuration *)

Lemma read_written (h : list (list (string * entry))) (config a : nat)
    (sections settings : list (string * entry)) (section key : string) (value : entry) :
  h !! config = Some sections ->
  dict_find sections section = Some (Ref a) ->
  h !! a = Some settings ->
  dict_find settings key = Some value ->
  read_setting h config section key = Ok value.
Proof.
  intros Hc Hs Ha Hk. unfold read_setting, section_of, deref, dict_get.
  rewrite Hc. cbn [bind]. rewrite Hs. cbn [bind]. rewrite Ha. cbn [bind]. now rewrite Hk.
Qed.

Lemma write_found (h : list (list (string * entry))) (config a : nat)
    (sections settings : list (string * entry)) (section key : string) (value : setting) :
  h !! config = Some sections ->
  dict_find sections section = Some (Ref a) ->
  h !! a = Some settings ->
  write_setting h config section key value
  = Ok (<[a := dict_set settings key (Setting value)]> h).
Proof.
  intros Hc Hs Ha. unfold write_setting, section_of, deref, dict_get.
  rewrite Hc. cbn [bind]. rewrite Hs. cbn [bind]. now rewrite Ha.
Qed.

(** X20. Outside the cloud, [get_cloud_optimized_config] returns a new outer
    dictionary that holds the very sections of [CLOUD_CONFIG]; the two
    settings it writes are written into these shared sections, so that
    afterwards [CLOUD_CONFIG] itself gives 60 seconds for the Guangzhou
    timeout and 3 workers, and a later call in the cloud returns these
    values.  In the cloud the function returns [CLOUD_CONFIG] and writes
    nothing. *)
Theorem local_settings_reach_shared_configuration (getenv : string -> option string)
    (h : list (list (string * entry))) :
  has_both_sections h CLOUD_CONFIG ->
  (is_cloud_environment getenv = true ->
   get_cloud_optimized_config getenv h = (Ok CLOUD_CONFIG, h)) /\
  (is_cloud_environment getenv = false ->
   exists h',
     get_cloud_optimized_config getenv h = (Ok (length h), h') /\
     length h <> CLOUD_CONFIG /\
     same_sections h' (length h) CLOUD_CONFIG /\
     read_setting h' CLOUD_CONFIG "timeouts" "广期所" = Ok (Setting (SInt 60)) /\
     read_setting h' CLOUD_CONFIG "concurrency" "max_workers" = Ok (Setting (SInt 3)) /\
     forall cloud_getenv,
       is_cloud_environment cloud_getenv = true ->
       exists config,
         get_cloud_optimized_config cloud_getenv h' = (Ok config, h') /\
         read_setting h' config "timeouts" "广期所" = Ok (Setting (SInt 60)) /\
         read_setting h' config "concurrency" "max_workers" = Ok (Setting (SInt 3))).
Proof.
  intros (sections & t & c & st & sc & Hcfg & Ht & Hst & Hc & Hsc & Htc & Hcc).
  unfold get_cloud_optimized_config. split; [now intros -> |]. intros ->.
  unfold dict_copy, deref. rewrite Hcfg. cbn [bind].
  assert (Hlt : (t < length h)%nat) by (apply lookup_lt_is_Some; eauto).
  assert (Hlc : (c < length h)%nat) by (apply lookup_lt_is_Some; eauto).
  assert (Hl0 : (CLOUD_CONFIG < length h)%nat) by (apply lookup_lt_is_Some; eauto).
  assert (Hnew : (h ++ [sections]) !! length h = Some sections)
    by now apply list_lookup_middle.
  rewrite (write_found _ _ t sections st); [|assumption|assumption|];
    [|now apply lookup_app_l_Some].
  set (h2 := <[t := dict_set st "广期所" (Setting (SInt 60))]> (h ++ [sections])).
  assert (Hlen2 : length h2 = S (length h)).
  { unfold h2. rewrite length_insert, length_app. simpl. lia. }
  assert (H2new : h2 !! length h = Some sections).
  { unfold h2. rewrite list_lookup_insert_ne by lia. exact Hnew. }
  assert (H2t : h2 !! t = Some (dict_set st "广期所" (Setting (SInt 60)))).
  { unfold h2. apply list_lookup_insert_eq. rewrite length_app. simpl. lia. }
  assert (H2cfg : h2 !! CLOUD_CONFIG = Some sections).
  { unfold h2. rewrite list_lookup_insert_ne by congruence.
    now apply lookup_app_l_Some. }
  assert (H2c : exists sc2,
             h2 !! c = Some sc2 /\
             (c = t -> sc2 = dict_set st "广期所" (Setting (SInt 60)))).
  { destruct (Nat.eq_dec c t) as [->|Hne].
    - eexists. split; [exact H2t | reflexivity].
    - exists sc. split; [|tauto]. unfold h2.
      rewrite list_lookup_insert_ne by congruence. now apply lookup_app_l_Some. }
  destruct H2c as (sc2 & H2c & Hsame).
  rewrite (write_found _ _ c sections sc2) by assumption.
  set (h3 := <[c := dict_set sc2 "max_workers" (Setting (SInt 3))]> h2).
  assert (H3cfg : h3 !! CLOUD_CONFIG = Some sections).
  { unfold h3. rewrite list_lookup_insert_ne by congruence. exact H2cfg. }
  assert (H3new : h3 !! length h = Some sections).
  { unfold h3. rewrite list_lookup_insert_ne by lia. exact H2new. }
  assert (H3c : h3 !! c = Some (dict_set sc2 "max_workers" (Setting (SInt 3)))).
  { unfold h3. apply list_lookup_insert_eq. lia. }
  assert (Hr1 : read_setting h3 CLOUD_CONFIG "timeouts" "广期所" = Ok (Setting (SInt 60))).
  { destruct (Nat.eq_dec c t) as [E|Hne].
    - apply (read_written h3 _ t sections (dict_set sc2 "max_workers" (Setting (SInt 3))));
        try assumption; [now rewrite <- E|].
      rewrite (Hsame E), !dict_find_set. reflexivity.
    - apply (read_written h3 _ t sections (dict_set st "广期所" (Setting (SInt 60))));
        try assumption.
      + unfold h3. rewrite list_lookup_insert_ne by assumption. exact H2t.
      + rewrite dict_find_set. reflexivity. }
  assert (Hr2 : read_setting h3 CLOUD_CONFIG "concurrency" "max_workers" = Ok (Setting (SInt 3))).
  { apply (read_written h3 _ c sections (dict_set sc2 "max_workers" (Setting (SInt 3))));
      try assumption.
    rewrite dict_find_set. reflexivity. }
  exists h3. split; [reflexivity|]. split; [unfold CLOUD_CONFIG in *; lia|].
  split; [exists sections; auto|]. split; [exact Hr1|]. split; [exact Hr2|].
  intros cloud_getenv ->. exists CLOUD_CONFIG. auto.
Qed.

(** The configuration of the module: 45 seconds and 2 workers before a call
    on the machine of a developer, 60 and 3 afterwards, also for a call in
    the cloud. *)
Lemma shared_configuration_example :
  read_setting initial_heap CLOUD_CONFIG "timeouts" "广期所" = Ok (Setting (SInt 45)) /\
  read_setting initial_heap CLOUD_CONFIG "concurrency" "max_workers" = Ok (Setting (SInt 2)) /\
  exists h',
    snd (get_cloud_optimized_config local_machine initial_heap) = h' /\
    read_setting h' CLOUD_CONFIG "timeouts" "广期所" = Ok (Setting (SInt 60)) /\
    read_setting h' CLOUD_CONFIG "concurrency" "max_workers" = Ok (Setting (SInt 3)) /\
    fst (apply_cloud_optimizations streamlit_cloud h') = Ok CLOUD_CONFIG.
Proof.
  split; [reflexivity|]. split; [reflexivity|].
  assert (Hboth : has_both_sections initial_heap CLOUD_CONFIG).
  { eexists _, 1%nat, 3%nat, _, _. repeat split; try reflexivity; discriminate. }
  destruct (proj2 (local_settings_reach_shared_configuration local_machine initial_heap
                     Hboth) eq_refl)
    as (h' & Hcall & _ & _ & H60 & H3 & _).
  exists h'. rewrite Hcall. split; [reflexivity|]. split; [exact H60|].
  split; [exact H3|].
  vm_compute in Hcall. injection Hcall as <-. reflexivity.
Defined.

(** ** The key of a cached call *)

Lemma nat_of_ascii_inj (x y : ascii) : nat_of_ascii x = nat_of_ascii y -> x = y.
Proof.
  intros H. rewrite <- (ascii_nat_embedding x), <- (ascii_nat_embedding y). now rewrite H.
Qed.

Lemma str_le_total (a b : string) : str_le a b = true \/ str_le b a = true.
Proof.
  revert b. induction a as [|x a IH]; intros [|y b]; simpl; auto.
  destruct (Nat.ltb_spec (nat_of_ascii x) (nat_of_ascii y)),
           (Nat.ltb_spec (nat_of_ascii y) (nat_of_ascii x)); auto; try lia.
Qed.

Lemma str_le_antisym (a b : string) : str_le a b = true -> str_le b a = true -> a = b.
Proof.
  revert b. induction a as [|x a IH]; intros [|y b]; simpl; try discriminate; auto.
  destruct (Nat.ltb_spec (nat_of_ascii x) (nat_of_ascii y)),
           (Nat.ltb_spec (nat_of_ascii y) (nat_of_ascii x));
    try discriminate; try lia.
  intros H1 H2. f_equal; [apply nat_of_ascii_inj; lia | auto].
Qed.

Lemma str_le_trans (a b c : string) :
  str_le a b = true -> str_le b c = true -> str_le a c = true.
Proof.
  revert b c. induction a as [|x a IH]; intros [|y b] [|z c]; simpl;
    try discriminate; auto.
  destruct (Nat.ltb_spec (nat_of_ascii x) (nat_of_ascii y)),
           (Nat.ltb_spec (nat_of_ascii y) (nat_of_ascii x)),
           (Nat.ltb_spec (nat_of_ascii y) (nat_of_ascii z)),
           (Nat.ltb_spec (nat_of_ascii z) (nat_of_ascii y)),
           (Nat.ltb_spec (nat_of_ascii x) (nat_of_ascii z)),
           (Nat.ltb_spec (nat_of_ascii z) (nat_of_ascii x));
    try discriminate; try lia; auto.
  apply IH.
Qed.

Lemma sorted_items_unique {V : Type} (l1 l2 : list (string * V)) :
  StronglySorted (fun a b => item_le a b = true) l1 ->
  StronglySorted (fun a b => item_le a b = true) l2 ->
  List.NoDup (map fst l1) ->
  Permutation l1 l2 ->
  l1 = l2.
Proof.
  intros S1. revert l2. induction S1 as [|a l1 S1 IH Ha]; intros l2 S2 Hnd Hperm.
  - now apply Permutation_nil in Hperm.
  - destruct l2 as [|b l2]; [now apply Permutation_sym, Permutation_nil in Hperm|].
    apply StronglySorted_inv in S2 as [S2 Hb].
    rewrite List.Forall_forall in Ha, Hb.
    simpl in Hnd. apply List.NoDup_cons_iff in Hnd as [Hfresh Hnd].
    assert (Hab : a = b).
    { assert (Hin_b : In b (a :: l1))
        by (apply (Permutation_in _ (Permutation_sym Hperm)); now left).
      assert (Hin_a : In a (b :: l2)) by (apply (Permutation_in _ Hperm); now left).
      destruct Hin_b as [E | Hin_b]; [assumption|].
      destruct Hin_a as [E | Hin_a]; [now symmetry|].
      assert (Hkey : fst a = fst b)
        by (apply str_le_antisym; [apply (Ha b Hin_b) | apply (Hb a Hin_a)]).
      destruct Hfresh. rewrite Hkey. now apply in_map. }
    subst b. f_equal. apply IH; [assumption | assumption |].
    now apply Permutation_cons_inv in Hperm.
Qed.

(** X21. Two calls that give the same named arguments in a different order
    get the same cache key: the named arguments enter the key sorted by
    name, and a dictionary has every name once. *)
Theorem cache_key_ignores_keyword_order {V : Type} (md5 : string -> string)
    (str_args : list V -> string) (str_items : list (string * V) -> string)
    (func_name : string) (args : list V) (kwargs kwargs' : list (string * V)) :
  List.NoDup (map fst kwargs) ->
  Permutation kwargs kwargs' ->
  get_cache_key md5 str_args str_items func_name args kwargs
  = get_cache_key md5 str_args str_items func_name args kwargs' /\
  isort item_le kwargs = isort item_le kwargs' /\
  StronglySorted (fun a b => str_le (fst a) (fst b) = true) (isort item_le kwargs).
Proof.
  intros Hnd Hperm.
  assert (Hsorted : forall l : list (string * V),
             StronglySorted (fun a b => item_le a b = true) (isort item_le l)).
  { intros l. apply isort_sorted; unfold item_le.
    - intros a b. apply str_le_total.
    - intros a b c. apply str_le_trans. }
  assert (Heq : isort item_le kwargs = isort item_le kwargs').
  { apply sorted_items_unique; try apply Hsorted.
    - apply (Permutation_NoDup (l := map fst kwargs)); [|assumption].
      apply Permutation_map, Permutation_sym, isort_perm.
    - rewrite isort_perm, Hperm. apply Permutation_sym, isort_perm. }
  split; [|split].
  - unfold get_cache_key. now rewrite Heq.
  - exact Heq.
  - apply Hsorted.
Qed.

(** The date and the market, named in either order. *)
Lemma cache_key_example :
  get_cache_key plain_digest plain_args plain_items "get_futures_daily" []
                [("start_date", "20240105"); ("market", "DCE")]%string
  = get_cache_key plain_digest plain_args plain_items "get_futures_daily" []
                  [("market", "DCE"); ("start_date", "20240105")]%string /\
  get_cache_key plain_digest plain_args plain_items "get_futures_daily" []
                [("start_date", "20240105"); ("market", "DCE")]%string
  = "get_futures_daily_()_[market=DCE, start_date=20240105]"%string.
Proof.
  split; [|reflexivity].
  apply cache_key_ignores_keyword_order.
  - repeat constructor; simpl; intuition discriminate.
  - apply perm_swap.
Defined.

(** ** The contracts of the results *)

Lemma contract_entry_processed (retail_seats : list string) (df0 : DataFrame) (data : Data) :
  process_position_data df0 = Some data ->
  exists entry,
    contract_entry retail_seats data = Ok entry /\
    strategies entry = apply_strategies retail_seats data /\
    raw_data entry = DFrame (snapshot_frame data) /\
    map fst (summary_data entry)
    = ["total_long"; "total_short"; "total_long_chg"; "total_short_chg"]%string /\
    (forall k v, In (k, v) (summary_data entry) -> dict_find data k = Some v).
Proof.
  intros Hproc. destruct (processed_snapshot df0 data Hproc) as (df & -> & _).
  unfold contract_entry. cbn.
  eexists. split; [reflexivity|]. cbn.
  split; [reflexivity|]. split; [reflexivity|]. split; [reflexivity|].
  intros k v [[= <- <-] | [[= <- <-] | [[= <- <-] | [[= <- <-] | []]]]]; reflexivity.
Qed.

Lemma analyze_loop_entries (retail_seats : list string) (cb : Callback) (total : nat)
    (items : list (string * DataFrame)) :
  quiet cb ->
  forall i acc,
    List.NoDup (map fst acc ++ map fst items) ->
    exists entries,
      analyze_loop retail_seats cb total i items acc = Ok (acc ++ entries) /\
      map fst entries = map fst (List.filter accepted items) /\
      forall name df data,
        In (name, df) items -> process_position_data df = Some data ->
        exists entry, In (name, entry) entries /\
                      contract_entry retail_seats data = Ok entry.
Proof.
  intros Hq. induction items as [|[name df] items IH]; intros i acc Hnd.
  - exists []. simpl. rewrite app_nil_r. repeat split. intros ? ? ? [].
  - cbn [analyze_loop]. rewrite Hq. cbn [bind].
    unfold accepted at 1. cbn [List.filter snd].
    simpl in Hnd.
    destruct (process_position_data df) as [processed|] eqn:E.
    + destruct (contract_entry_processed retail_seats df processed E)
        as (entry & Hentry & _).
      rewrite Hentry. cbn [bind].
      rewrite dict_set_fresh.
      2:{ apply NoDup_remove_2 in Hnd. intros Hin. apply Hnd, in_or_app. now left. }
      destruct (IH (S i) (acc ++ [(name, entry)])) as (entries & Hloop & Hkeys & Hall).
      { rewrite map_app. simpl. rewrite <- app_assoc. exact Hnd. }
      exists ((name, entry) :: entries). rewrite Hloop, <- app_assoc.
      split; [reflexivity|]. split; [simpl; now rewrite Hkeys|].
      intros n d data [[= -> ->] | Hin] Hd.
      * exists entry. split; [now left|]. congruence.
      * destruct (Hall n d data Hin Hd) as (en & Hen & Hc). exists en. split; [now right|auto].
    + destruct (IH (S i) acc) as (entries & Hloop & Hkeys & Hall).
      { apply NoDup_remove_1 in Hnd. exact Hnd. }
      exists entries. split; [exact Hloop|]. split; [exact Hkeys|].
      intros n d data [[= -> ->] | Hin] Hd; [congruence|eauto].
Qed.

(** X22. With a callback that returns, [_analyze_positions] keeps exactly the
    contracts whose table [process_position_data] accepts, in the order of
    the input; the entry of a contract holds the answers of the three
    strategies on its processed data, the processed frame, and the four
    totals.  The progress report is outside every handler: when the report
    for the first contract raises, the analysis raises. *)
Theorem analysed_contracts (retail_seats : list string) (cb : Callback)
    (position_data : list (string * DataFrame)) :
  List.NoDup (map fst position_data) ->
  quiet cb ->
  (exists results,
      _analyze_positions retail_seats cb position_data = Ok results /\
      map fst results = map fst (List.filter accepted position_data) /\
      forall name df data,
        In (name, df) position_data -> process_position_data df = Some data ->
        exists entry,
          dict_find results name = Some entry /\
          strategies entry = apply_strategies retail_seats data /\
          raw_data entry = DFrame (snapshot_frame data) /\
          map fst (summary_data entry)
          = ["total_long"; "total_short"; "total_long_chg"; "total_short_chg"]%string /\
          (forall k v, In (k, v) (summary_data entry) -> dict_find data k = Some v)) /\
  (forall failing name df rest e,
      position_data = (name, df) :: rest ->
      report failing ("分析合约 " +:+ name +:+ "...")
             (contract_progress 0 (length position_data)) = Raise e ->
      _analyze_positions retail_seats failing position_data = Raise e).
Proof.
  intros Hnd Hq. split.
  - destruct (analyze_loop_entries retail_seats cb (length position_data) position_data
                Hq 0%nat [] Hnd) as (results & Hloop & Hkeys & Hall).
    exists results. split; [exact Hloop|]. split; [exact Hkeys|].
    intros name df data Hin Hd.
    destruct (Hall name df data Hin Hd) as (entry & Hentry & Hc).
    destruct (contract_entry_processed retail_seats df data Hd) as (entry' & Hc' & Hrest).
    assert (entry' = entry) as -> by congruence.
    exists entry. split; [|exact Hrest].
    apply dict_find_nodup; [|assumption].
    rewrite Hkeys. now apply NoDup_keys_filter.
  - intros failing name df rest e -> Hraise.
    unfold _analyze_positions. cbn [analyze_loop]. now rewrite Hraise.
Qed.

(** Of the two sheets, the one with a volume column is the only contract
    of the results. *)
Lemma analysed_contracts_example :
  exists results,
    _analyze_positions ["A"; "B"] None two_sheets = Ok results /\
    map fst results = ["大商所_m2501"]%string.
Proof.
  assert (Hnd : List.NoDup (map fst two_sheets))
    by (repeat constructor; simpl; intuition discriminate).
  destruct (proj1 (analysed_contracts ["A"; "B"] None two_sheets Hnd (fun _ _ => eq_refl)))
    as (results & Hres & Hkeys & _).
  exists results. split; [exact Hres|]. rewrite Hkeys. reflexivity.
Defined.

(** ** The cloud fetcher *)

Lemma safe_call_first_value {V : Type} (answers : nat -> Answer V) (v : V) :
  fst (safe_akshare_call answers) = Some v <->
  exists k, (k < 3)%nat /\ gives (answers k) v /\
            forall j, (j < k)%nat -> gives_nothing (answers j).
Proof.
  unfold safe_akshare_call, gives, gives_nothing. cbn [seq safe_loop Nat.ltb Nat.leb app].
  split.
  - destruct (answers 0%nat) as [[v0|]|m0] eqn:E0.
    { intros [= <-]. exists 0%nat. repeat split; [lia | assumption | intros; lia]. }
    all: destruct (answers 1%nat) as [[v1|]|m1] eqn:E1.
    all: try (intros [= <-]; exists 1%nat; repeat split; [lia | assumption |];
              intros j Hj u; assert (j = 0)%nat as -> by lia; congruence).
    all: destruct (answers 2%nat) as [[v2|]|m2] eqn:E2.
    all: try (intros [= <-]; exists 2%nat; repeat split; [lia | assumption |];
              intros j Hj u;
              assert (j = 0 \/ j = 1)%nat as [-> | ->] by lia; congruence).
    all: intros H; repeat match type of H with
                          | context [if ?c then _ else _] => destruct c
                          end; discriminate.
  - intros (k & Hk & Hgive & Hprev).
    assert (H0 : (0 < k)%nat -> forall u, answers 0%nat <> Returned (Some u))
      by (intros; now apply Hprev).
    assert (H1 : (1 < k)%nat -> forall u, answers 1%nat <> Returned (Some u))
      by (intros; now apply Hprev).
    destruct k as [|[|[|k]]]; [| | |lia].
    + rewrite Hgive. reflexivity.
    + destruct (answers 0%nat) as [[v0|]|m0]; [now destruct (H0 ltac:(lia) v0)| |];
        rewrite Hgive; reflexivity.
    + destruct (answers 0%nat) as [[v0|]|m0]; [now destruct (H0 ltac:(lia) v0)| |];
        (destruct (answers 1%nat) as [[v1|]|m1]; [now destruct (H1 ltac:(lia) v1)| |]);
        rewrite Hgive; reflexivity.
Qed.

Lemma cloud_fetch_and_save_answer (cenv : CloudEnv) (trade_date name filename : string)
    (w : World) :
  fst (cloud_fetch_and_save cenv trade_date name filename w) = true
  <-> cloud_produced cenv trade_date (name, filename).
Proof.
  unfold cloud_fetch_and_save, cloud_produced. cbn [fst snd].
  assert (Hvalue : forall k s ss,
             (k < 3)%nat ->
             gives (cloud_answers cenv name trade_date k) (s :: ss) ->
             (forall j, (j < k)%nat ->
                        gives_nothing (cloud_answers cenv name trade_date j)) ->
             fst (safe_akshare_call (cloud_answers cenv name trade_date))
             = Some (s :: ss)).
  { intros k s ss Hk Hg Hp. apply safe_call_first_value. eauto. }
  destruct (fst (safe_akshare_call (cloud_answers cenv name trade_date)))
    as [[|sheet sheets]|] eqn:E.
  - split; [discriminate|]. intros (k & s & ss & Hk & Hg & Hp & _).
    specialize (Hvalue k s ss Hk Hg Hp). discriminate.
  - apply safe_call_first_value in E as (k & Hk & Hg & Hp).
    destruct (cloud_write cenv filename (clean_book (sheet :: sheets)))
      as [|e [residue|]] eqn:Ew; cbn [fst].
    + split; [|reflexivity]. intros _. exists k, sheet, sheets. auto.
    + split; [discriminate|]. intros (k' & s & ss & Hk' & Hg' & Hp' & Hw).
      specialize (Hvalue k' s ss Hk' Hg' Hp'). injection Hvalue as <- <-. congruence.
    + split; [discriminate|]. intros (k' & s & ss & Hk' & Hg' & Hp' & Hw).
      specialize (Hvalue k' s ss Hk' Hg' Hp'). injection Hvalue as <- <-. congruence.
  - split; [discriminate|]. intros (k & s & ss & Hk & Hg & Hp & _).
    specialize (Hvalue k s ss Hk Hg Hp). discriminate.
Qed.

Lemma cloud_position_loop_quiet (cenv : CloudEnv) (trade_date : string) (cb : Callback)
    (total : nat) (exchanges : list (string * string)) :
  quiet cb ->
  forall i c w,
    exists c',
      cloud_position_loop cenv trade_date cb total i exchanges c w
      = (Ok c', cloud_saves cenv trade_date exchanges w) /\
      ((0 < c')%nat <->
       (0 < c)%nat \/ exists e, In e exchanges /\ cloud_produced cenv trade_date e).
Proof.
  intros Hq. induction exchanges as [|[name filename] rest IH]; intros i c w;
    cbn [cloud_position_loop cloud_saves fold_left fst snd].
  - exists c. split; [reflexivity|]. split; [auto|]. intros [H | (e & [] & _)]. exact H.
  - rewrite Hq.
    pose proof (cloud_fetch_and_save_answer cenv trade_date name filename w) as Ha.
    destruct (cloud_fetch_and_save cenv trade_date name filename w) as [saved w1].
    cbn [fst snd] in *.
    destruct (IH (S i) (if saved then S c else c) w1) as (c' & Hloop & Hc').
    exists c'. split; [exact Hloop|]. rewrite Hc'. split.
    + intros [H | (e & He & Hp)].
      * destruct saved; [|auto]. right. exists (name, filename).
        split; [now left | now apply Ha].
      * right. exists e. split; [now right | assumption].
    + intros [H | (e & [<- | He] & Hp)].
      * left. destruct saved; lia.
      * left. apply Ha in Hp. rewrite Hp. lia.
      * right. eauto.
Qed.

(** X23. The cloud fetcher of the positions returns False at once when
    akshare cannot be imported.  Otherwise, with a callback that returns, it
    reports success exactly when for one exchange one of the three attempts
    of the safe call gave a dataset that is not empty and the workbook was
    written, whatever the other exchanges did.  Its progress report is
    outside the handler of the exchange: a callback that raises on the
    first report ends the fetch with that exception and nothing written,
    where the standard fetch only skips the exchange and returns. *)
Theorem cloud_acquisition (cenv : CloudEnv) (trade_date : string) (cb : Callback)
    (w : World) :
  (akshare_installed cenv = false ->
   fetch_position_data_with_fallback cenv trade_date cb w = (Ok false, w)) /\
  (akshare_installed cenv = true -> quiet cb ->
   exists success,
     fetch_position_data_with_fallback cenv trade_date cb w
     = (Ok success, cloud_saves cenv trade_date exchange_config w) /\
     (success = true <->
      exists e, In e exchange_config /\ cloud_produced cenv trade_date e)) /\
  (forall e,
      akshare_installed cenv = true ->
      report cb "正在获取 大商所 数据..." (cloud_progress 0 5) = Raise e ->
      fetch_position_data_with_fallback cenv trade_date cb w = (Raise e, w)) /\
  (akshare_installed cenv = true ->
   fst (fetch_position_data_with_fallback cenv trade_date first_report_fails w)
   = Raise (ValueError "progress sink closed") /\
   forall env, exists success,
     fst (fetch_position_data env trade_date first_report_fails w) = Ok success).
Proof.
  unfold fetch_position_data_with_fallback. split; [|split; [|split]].
  - now intros ->.
  - intros -> Hq. unfold io_bind, io_lift, io_ret.
    destruct (cloud_position_loop_quiet cenv trade_date cb 5 exchange_config Hq
                0%nat 0%nat w) as (c & -> & Hc).
    rewrite Hq. exists (0 <? c)%nat. split; [reflexivity|].
    rewrite Nat.ltb_lt, Hc. split; [intros [H | H]; [lia | exact H] | auto].
  - intros e -> Hraise. unfold io_bind. cbn [cloud_position_loop exchange_config].
    change ("正在获取 " +:+ "大商所" +:+ " 数据...") with "正在获取 大商所 数据..."%string.
    now rewrite Hraise.
  - intros ->. split; [reflexivity|].
    intros env. unfold fetch_position_data.
    destruct (fetch_position_loop env trade_date first_report_fails
                (length exchange_config) 0 exchange_config 0 w) as [c w'].
    eexists. reflexivity.
Qed.

(** The Dalian source answers at the third attempt: the cloud fetcher
    reports success and the workbook is in the data directory. *)
Lemma slow_cloud_example :
  fetch_position_data_with_fallback slow_cloud "20240105" None empty_world
  = (Ok true, set_file "大商所持仓.xlsx" [("m2501"%string, full_sheet)] empty_world).
Proof.
  destruct (proj1 (proj2 (cloud_acquisition slow_cloud "20240105" None empty_world))
              eq_refl (fun _ _ => eq_refl)) as (success & Hfetch & _).
  rewrite Hfetch. vm_compute in Hfetch. injection Hfetch as <-. reflexivity.
Defined.
